(** * osslsigncode: Authenticode signing for PE, CAB and MSI files

    A shallow embedding of [osslsigncode.c].  The input file is the list of
    its bytes (the read-only mapping [indata]); the output file and the digest
    filter that [main] chains in front of it are explicit state.  OpenSSL,
    libcurl, glib and libgsf are external to the repository: what the program
    asks of them is an interface ([OpenSSL], [Curl], [Gsf]) whose operations
    the model takes as parameters. *)

From Stdlib Require Import ZArith List Bool Lia Ascii String Permutation.
From Stdlib Require Strings.Byte.
Import ListNotations.
Local Open Scope Z_scope.

(* ================================================================== *)
(** ** Bytes and machine integers *)

Definition byte := Byte.byte.

(** The value of an [unsigned char]. *)
Definition u8 (b : byte) : Z := Z.of_N (Byte.to_N b).

(** Storing an integer into an [unsigned char] keeps its low 8 bits. *)
Definition to_u8 (z : Z) : byte :=
  match Byte.of_N (Z.to_N (z mod 256)) with
  | Some b => b
  | None => Byte.x00
  end.

(** [unsigned int], [unsigned short] and [int] are 32, 16 and 32 bits wide. *)
Definition uint32 (z : Z) : Z := z mod 2 ^ 32.
Definition uint16 (z : Z) : Z := z mod 2 ^ 16.
Definition int32 (z : Z) : Z := (z + 2 ^ 31) mod 2 ^ 32 - 2 ^ 31.

Definition zeros (n : Z) : list byte := repeat Byte.x00 (Z.to_nat n).

Definition len (l : list byte) : Z := Z.of_nat (Datatypes.length l).

Definition byte_eqb (a b : byte) : bool := Byte.eqb a b.

Fixpoint bytes_eqb (a b : list byte) : bool :=
  match a, b with
  | [], [] => true
  | x :: a', y :: b' => byte_eqb x y && bytes_eqb a' b'
  | _, _ => false
  end.

(** Text literals of the source, as bytes. *)
Definition bytes_of_string (s : string) : list byte :=
  List.map Ascii.byte_of_ascii (String.list_ascii_of_string s).

(* ------------------------------------------------------------------ *)
(** *** Reading the mapped input

    [slice p off n] is the [n] bytes at [p + off]; a read that leaves the
    mapping has no value. *)

Definition slice (p : list byte) (off n : Z) : option (list byte) :=
  if (0 <=? off) && (0 <=? n) && (off + n <=? len p)
  then Some (firstn (Z.to_nat n) (skipn (Z.to_nat off) p))
  else None.

(** [#define GET_UINT16_LE(p) (p[0] | (p[1]<<8))] *)
Definition GET_UINT16_LE (p : list byte) (off : Z) : option Z :=
  match slice p off 2 with
  | Some [b0; b1] => Some (Z.lor (u8 b0) (Z.shiftl (u8 b1) 8))
  | _ => None
  end.

(** [#define GET_UINT32_LE(p) (p[0] | (p[1]<<8) | (p[2]<<16) | (p[3]<<24))],
    read as the 32-bit pattern it is stored into. *)
Definition GET_UINT32_LE (p : list byte) (off : Z) : option Z :=
  match slice p off 4 with
  | Some [b0; b1; b2; b3] =>
      Some (Z.lor (Z.lor (Z.lor (u8 b0) (Z.shiftl (u8 b1) 8))
                         (Z.shiftl (u8 b2) 16))
                  (Z.shiftl (u8 b3) 24))
  | _ => None
  end.

(** [#define PUT_UINT16_LE(i,p)] and [#define PUT_UINT32_LE(i,p)]: the bytes
    stored at [p]. *)
Definition PUT_UINT16_LE (i : Z) : list byte :=
  [to_u8 (Z.land i 255); to_u8 (Z.land (Z.shiftr i 8) 255)].

Definition PUT_UINT32_LE (i : Z) : list byte :=
  [to_u8 (Z.land i 255); to_u8 (Z.land (Z.shiftr i 8) 255);
   to_u8 (Z.land (Z.shiftr i 16) 255); to_u8 (Z.land (Z.shiftr i 24) 255)].

(* ------------------------------------------------------------------ *)
(** *** Outcomes

    [DO_EXIT_n] prints a message and jumps to [err_cleanup]; the messages are
    the constructors of [error]. *)

Inductive error : Type :=
| E_too_short            (* Unrecognized file type - file is too short *)
| E_unrecognized         (* Unrecognized file type *)
| E_non_pe               (* Command is not supported for non-PE files *)
| E_cab_too_short        (* Corrupt cab file - too short *)
| E_cab_flags            (* Cannot sign cab files with flag bits set! *)
| E_dos_too_short        (* Corrupt DOS file - too short *)
| E_pe_too_short         (* Corrupt PE file - too short *)
| E_dos_type             (* Unrecognized DOS file type *)
| E_msi_open             (* Error opening file *)
| E_msi_write            (* Error writing / Failed to write MSI signature *)
| E_no_gsf               (* libgsf is not available, msi support is disabled *)
| E_create               (* Failed to create file *)
| E_pe_magic (magic : Z) (* Corrupt PE file - found unknown magic *)
| E_no_cert_table        (* Can not handle PE files without certificate table resource *)
| E_sig_not_at_end       (* Corrupt PE file - current signature not at end of file *)
| E_no_signature         (* PE file does not have any signature *)
| E_add_signature        (* Signing failed(PKCS7_add_signature) *)
| E_opus                 (* Couldn't allocate memory for opus info *)
| E_dataInit             (* Signing failed(PKCS7_dataInit) *)
| E_dataFinal            (* Signing failed(PKCS7_dataFinal) *)
| E_ts_authenticode      (* authenticode timestamping failed *)
| E_ts_rfc3161           (* RFC 3161 timestamping failed *)
| E_i2d_pkcs7 (n : Z).   (* i2d_PKCS - memory allocation failed *)

(** A computation of the program either goes on with a value, leaves through
    [err_cleanup], or does something whose effect the model does not track
    ([Fault]): a read outside the octets of the input file, a use of a null
    pointer or of uninitialised, stale or freed memory.  [Fault] does not say
    that the program stops: the model has no outcome for the run.  A read
    just behind the end of the file, for one, finds the zero octets that fill
    the last page of the mapping and the run goes on, and a read further out
    ends the process.  [OutOfFuel] is the answer of a loop that has no bound
    in the source and was given too few steps. *)
Inductive res (A : Type) : Type :=
| Ok (a : A)
| Exit (e : error)
| Fault
| OutOfFuel.

Arguments Ok {A} a.
Arguments Exit {A} e.
Arguments Fault {A}.
Arguments OutOfFuel {A}.

Definition bind {A B : Type} (m : res A) (k : A -> res B) : res B :=
  match m with
  | Ok a => k a
  | Exit e => Exit e
  | Fault => Fault
  | OutOfFuel => OutOfFuel
  end.

Definition mapped {A : Type} (o : option A) : res A :=
  match o with
  | Some a => Ok a
  | None => Fault
  end.

Definition check (ok : bool) (e : error) : res unit :=
  if ok then Ok tt else Exit e.

Declare Scope res_scope.
Delimit Scope res_scope with res.
Notation "x <- m ;; k" := (bind m (fun x => k))
  (at level 61, m at next level, right associativity) : res_scope.
Notation "m ;;; k" := (bind m (fun _ => k))
  (at level 61, right associativity) : res_scope.
Local Open Scope res_scope.

(* ================================================================== *)
(** ** Object identifiers and constants of the source *)

Local Open Scope string_scope.
Local Open Scope list_scope.
Local Open Scope Z_scope.

(** An [ASN1_OBJECT] is identified by its dotted text, as [OBJ_txt2obj]
    takes it. *)
Definition ASN1_OBJECT : Set := string.

Definition SPC_INDIRECT_DATA_OBJID : ASN1_OBJECT := "1.3.6.1.4.1.311.2.1.4".
Definition SPC_STATEMENT_TYPE_OBJID : ASN1_OBJECT := "1.3.6.1.4.1.311.2.1.11".
Definition SPC_SP_OPUS_INFO_OBJID : ASN1_OBJECT := "1.3.6.1.4.1.311.2.1.12".
Definition SPC_MS_JAVA_SOMETHING : ASN1_OBJECT := "1.3.6.1.4.1.311.15.1".
Definition SPC_PE_IMAGE_DATA_OBJID : ASN1_OBJECT := "1.3.6.1.4.1.311.2.1.15".
Definition SPC_CAB_DATA_OBJID : ASN1_OBJECT := "1.3.6.1.4.1.311.2.1.25".
Definition SPC_TIME_STAMP_REQUEST_OBJID : ASN1_OBJECT := "1.3.6.1.4.1.311.3.2.1".
Definition SPC_SIPINFO_OBJID : ASN1_OBJECT := "1.3.6.1.4.1.311.2.1.30".

(** Objects the source names by an OpenSSL NID. *)
Definition NID_pkcs7_data : ASN1_OBJECT := "1.2.840.113549.1.7.1".
Definition NID_pkcs9_contentType : ASN1_OBJECT := "1.2.840.113549.1.9.3".
Definition NID_pkcs9_countersignature : ASN1_OBJECT := "1.2.840.113549.1.9.6".

(** The object the source never names: RFC 3161's attribute for a
    time-stamp token. *)
Definition id_smime_aa_timeStampToken : ASN1_OBJECT := "1.2.840.113549.1.9.16.2.14".

Definition WIN_CERT_REVISION_2 : Z := 0x0200.
Definition WIN_CERT_TYPE_PKCS_SIGNED_DATA : Z := 0x0002.
Definition EVP_MAX_MD_SIZE : Z := 64.

Inductive file_type_t : Set := FILE_TYPE_CAB | FILE_TYPE_PE | FILE_TYPE_MSI.

Inductive cmd_type_t : Set := CMD_SIGN | CMD_EXTRACT | CMD_REMOVE | CMD_VERIFY.

Definition cmd_eqb (a b : cmd_type_t) : bool :=
  match a, b with
  | CMD_SIGN, CMD_SIGN | CMD_EXTRACT, CMD_EXTRACT
  | CMD_REMOVE, CMD_REMOVE | CMD_VERIFY, CMD_VERIFY => true
  | _, _ => false
  end.

Definition type_eqb (a b : file_type_t) : bool :=
  match a, b with
  | FILE_TYPE_CAB, FILE_TYPE_CAB | FILE_TYPE_PE, FILE_TYPE_PE
  | FILE_TYPE_MSI, FILE_TYPE_MSI => true
  | _, _ => false
  end.

(* ================================================================== *)
(** ** The data OpenSSL keeps for the program *)

(** The digests the command line can select ([-h md5|sha1|sha2]); a signed
    file met by [verify] may name any other digest OpenSSL knows. *)
Inductive EVP_MD : Set :=
| EVP_md5
| EVP_sha1
| EVP_sha256
| EVP_md_other (nid : ASN1_OBJECT).

Definition EVP_MD_nid (md : EVP_MD) : ASN1_OBJECT :=
  match md with
  | EVP_md5 => "1.2.840.113549.2.5"
  | EVP_sha1 => "1.3.14.3.2.26"
  | EVP_sha256 => "2.16.840.1.101.3.4.2.1"
  | EVP_md_other nid => nid
  end.

Inductive ASN1_TYPE : Set :=
| V_ASN1_OBJECT (o : ASN1_OBJECT)
| V_ASN1_SEQUENCE (der : list byte)
| V_ASN1_NULL
| V_ASN1_OTHER (tag : Z) (der : list byte).

Record X509 : Set := mkX509 {
  X509_subject : string;
  X509_issuer : string
}.

Definition EVP_PKEY : Set := list byte.

Record X509_ATTRIBUTE : Set := mkAttr {
  attr_object : ASN1_OBJECT;
  attr_value : ASN1_TYPE
}.

Record PKCS7_SIGNER_INFO : Set := mkSI {
  si_cert : X509;
  si_pkey : EVP_PKEY;
  si_md : EVP_MD;
  auth_attr : list X509_ATTRIBUTE;
  unauth_attr : list X509_ATTRIBUTE;
  enc_digest : list byte
}.

(** A [PKCS7]: whether it is SignedData, and then [d.sign]: its certificates,
    signer infos and [contents] (type and [d.other]). *)
Record PKCS7 : Set := mkPKCS7 {
  type_is_signed : bool;
  cert : list X509;
  signer_info : list PKCS7_SIGNER_INFO;
  contents_type : ASN1_OBJECT;
  contents_other : option ASN1_TYPE
}.

Inductive SpcString : Set :=
| SpcString_unicode (s : list byte)
| SpcString_ascii (s : list byte).

Inductive SpcLink : Set :=
| SpcLink_url (u : list byte)
| SpcLink_moniker (classId serializedData : list byte)
| SpcLink_file (f : SpcString).

Record SpcSpOpusInfo : Set := mkOpus {
  programName : option SpcString;
  moreInfo : option SpcLink
}.

Record SpcPeImageData : Set := mkPeImageData {
  pid_flags : list byte;
  pid_file : option SpcLink
}.

Record SpcAttributeTypeAndOptionalValue : Set := mkSatv {
  satv_type : ASN1_OBJECT;
  satv_value : option ASN1_TYPE
}.

Record SpcSipinfo : Set := mkSipinfo {
  sip_a : Z;
  sip_string : list byte;
  sip_b : Z; sip_c : Z; sip_d : Z; sip_e : Z; sip_f : Z
}.

(** [SpcIndirectDataContent]: [data] (type and value) and [messageDigest]
    (algorithm with NULL parameters, and digest). *)
Record SpcIndirectDataContent : Set := mkIdc {
  idc_data : SpcAttributeTypeAndOptionalValue;
  idc_digestAlgorithm : ASN1_OBJECT;
  idc_digest : list byte
}.

Definition set_digest (idc : SpcIndirectDataContent) (d : list byte) :
  SpcIndirectDataContent :=
  mkIdc (idc_data idc) (idc_digestAlgorithm idc) d.

(** The legacy [TimeStampRequest] and RFC 3161's [TimeStampReq] and
    [TimeStampResp]. *)
Record TimeStampRequest : Set := mkTSRequest {
  tsr_type : ASN1_OBJECT;
  tsr_blob_type : ASN1_OBJECT;
  tsr_blob_signature : list byte
}.

Record TimeStampReq : Set := mkTSReq {
  tsq_version : Z;
  tsq_digestAlgorithm : ASN1_OBJECT;
  tsq_digest : list byte;
  tsq_certReq : bool
}.

Record TimeStampResp : Set := mkTSResp {
  tsp_status : Z;
  tsp_token : option PKCS7
}.

(** *** The OpenSSL interface

    Digests, DER encoders and decoders, base64 and the PKCS#7 signing and
    verification primitives are OpenSSL's.  An encoder gives the octets; a
    decoder reads one value from the front of its input and may refuse. *)
Class OpenSSL : Type := {
  EVP_MD_size : EVP_MD -> Z;
  EVP_Digest : EVP_MD -> list byte -> list byte;
  EVP_get_digestbynid : ASN1_OBJECT -> option EVP_MD;
  i2d_SpcLink : SpcLink -> list byte;
  i2d_SpcPeImageData : SpcPeImageData -> list byte;
  i2d_SpcSipinfo : SpcSipinfo -> list byte;
  i2d_SpcSpOpusInfo : SpcSpOpusInfo -> list byte;
  i2d_SpcIndirectDataContent : SpcIndirectDataContent -> list byte;
  d2i_SpcIndirectDataContent : list byte -> option SpcIndirectDataContent;
  d2i_SpcPeImageData : list byte -> option SpcPeImageData;
  d2i_SpcAttributeTypeAndOptionalValue :
    list byte -> option SpcAttributeTypeAndOptionalValue;
  i2d_PKCS7 : PKCS7 -> list byte;
  d2i_PKCS7 : list byte -> option PKCS7;
  i2d_PKCS7_SIGNER_INFO : PKCS7_SIGNER_INFO -> list byte;
  i2d_TimeStampRequest : TimeStampRequest -> list byte;
  i2d_TimeStampReq : TimeStampReq -> list byte;
  d2i_TimeStampResp : list byte -> option TimeStampResp;
  base64_encode : list byte -> list byte;
  (** the base64 filter, with [BIO_FLAGS_BASE64_NO_NL] set or not *)
  base64_decode : bool -> list byte -> list byte;
  (** [PKCS7_add_signature]'s new signer info, or NULL *)
  PKCS7_SIGNER_INFO_new : X509 -> EVP_PKEY -> EVP_MD -> option PKCS7_SIGNER_INFO;
  PKCS7_dataInit : PKCS7 -> bool;
  (** [PKCS7_dataFinal] over the octets written to the data BIO *)
  PKCS7_dataFinal : PKCS7 -> list byte -> option PKCS7;
  (** [PKCS7_verify] with [PKCS7_NOVERIFY] over the detached content *)
  PKCS7_verify : PKCS7 -> list byte -> bool;
  PKCS7_get0_signers : PKCS7 -> list X509
}.

(** libcurl: the transfer [curl_easy_perform] makes for the options set, as
    its [CURLcode] (an [int]-sized enumeration, zero for success) and the
    body handed to the write callback. *)
Inductive curl_proxytype : Set := CURLPROXY_HTTP | CURLPROXY_SOCKS5.

Record curl_request : Set := mkCurl {
  CURLOPT_URL : string;
  CURLOPT_PROXY : option string;
  CURLOPT_PROXYTYPE : option curl_proxytype;
  CURLOPT_HTTPHEADER : list string;
  CURLOPT_POSTFIELDS : list byte
}.

Class Curl : Type := {
  curl_easy_perform : curl_request -> Z * list byte
}.

(* ================================================================== *)
(** ** The output file and the digest filter

    [outdata] is the file BIO opened on the output ("w+b"): its contents and
    position.  [hash] is the digest filter [BIO_f_md] pushed in front of it:
    what is written to [hash] is digested and passed on to [outdata]; what is
    written to [outdata] itself is not digested. *)

Record BIO_file : Set := mkFile {
  file_data : list byte;
  file_pos : Z
}.

Definition file_write (f : BIO_file) (d : list byte) : BIO_file :=
  let base := file_data f ++ zeros (file_pos f - len (file_data f)) in
  mkFile (firstn (Z.to_nat (file_pos f)) base ++ d ++
          skipn (Z.to_nat (file_pos f + len d)) base)
         (file_pos f + len d).

Definition BIO_seek (f : BIO_file) (ofs : Z) : BIO_file :=
  mkFile (file_data f) ofs.

Record io : Set := mkIo {
  outdata : BIO_file;
  md_ctx : list byte   (* the octets digested so far *)
}.

Definition BIO_write_hash (s : io) (d : list byte) : io :=
  mkIo (file_write (outdata s) d) (md_ctx s ++ d).

Definition BIO_write_outdata (s : io) (d : list byte) : io :=
  mkIo (file_write (outdata s) d) (md_ctx s).

(** [BIO_write(hash, indata + off, n)]: the filter ignores a count that is
    not positive. *)
Definition write_hash_from (indata : list byte) (s : io) (off n : Z) : res io :=
  if n <=? 0 then Ok s
  else d <- mapped (slice indata off n) ;; Ok (BIO_write_hash s d).

(** [BIO_write(outdata, indata + off, n)] on the file itself: [BIO_write]
    returns without writing, and without reading, when the count is not
    positive. *)
Definition write_outdata_from (indata : list byte) (s : io) (off n : Z) : res io :=
  if n <=? 0 then Ok s
  else d <- mapped (slice indata off n) ;; Ok (BIO_write_outdata s d).

(* ================================================================== *)
(** ** PE checksum and PE digest *)

(** The loop of [calc_pe_checksum]: 16-bit little-endian words, the two words
    of the checksum field read as zero. *)
Fixpoint checksum_loop (data : list byte) (peheader size checkSum : Z) : Z * Z :=
  match data with
  | b0 :: b1 :: rest =>
      let val :=
        if (size =? uint32 (peheader + 88)) || (size =? uint32 (peheader + 90))
        then 0 else Z.lor (u8 b0) (Z.shiftl (u8 b1) 8) in
      let checkSum := uint32 (checkSum + val) in
      let checkSum := Z.land 0xffff (uint32 (checkSum + Z.shiftr checkSum 16)) in
      checksum_loop rest peheader (uint32 (size + 2)) checkSum
  | _ => (checkSum, size)
  end.

Definition calc_pe_checksum (bio : list byte) (peheader : Z) : Z :=
  let '(checkSum, size) := checksum_loop bio peheader 0 0 in
  let checkSum := Z.land 0xffff (uint32 (checkSum + Z.shiftr checkSum 16)) in
  uint32 (checkSum + size).

(** [recalc_pe_checksum]: the checksum of the whole output file, written back
    at [peheader + 88]. *)
Definition recalc_pe_checksum (f : BIO_file) (peheader : Z) : BIO_file :=
  let checkSum := calc_pe_checksum (file_data f) peheader in
  file_write (BIO_seek f (int32 (uint32 (peheader + 88)))) (PUT_UINT32_LE checkSum).

Definition sizeof_bfb : Z := 16 * 1024 * 1024.

(** [BIO_read] on a memory buffer at position [pos]: what is there, at most
    [n] octets, and the new position. *)
Definition BIO_read (bio : list byte) (pos n : Z) : list byte * Z :=
  let d := firstn (Z.to_nat n) (skipn (Z.to_nat pos) bio) in (d, pos + len d).

(** The octets [calc_pe_digest] feeds to the digest.  A read whose buffer is
    digested must be complete and fit [bfb] (else stale buffer contents are
    digested); the tail is read in pieces until [fileend] or the end of the
    buffer. *)
Definition pe_digest_input (bio : list byte) (peheader pe32plus fileend : Z) :
  res (list byte) :=
  let n1 := uint32 (peheader + 88) in
  if sizeof_bfb <? n1 then Fault else
  let '(a, pos) := BIO_read bio 0 n1 in
  if negb (len a =? n1) then Fault else
  let '(_, pos) := BIO_read bio pos 4 in
  let n2 := 60 + pe32plus * 16 in
  let '(b, pos) := BIO_read bio pos n2 in
  if negb (len b =? n2) then Fault else
  let '(_, pos) := BIO_read bio pos 8 in
  let n := uint32 (peheader + 88 + 4 + 60 + pe32plus * 16 + 8) in
  let '(tail, _) := BIO_read bio pos (fileend - n) in
  Ok (a ++ b ++ tail).

(** [asn1_simple_hdr_len]: in C, [2 + p[1] & 0x7f] is [(2 + p[1]) & 0x7f].
    [p] holds the octets at the pointer; they are read only when [n > 2]. *)
Definition asn1_simple_hdr_len (p : list byte) (n : Z) : res Z :=
  if n <=? 2 then Ok 0
  else match p with
       | p0 :: p1 :: _ =>
           if 0x31 <? u8 p0 then Ok 0
           else if negb (Z.land (u8 p1) 0x80 =? 0)
                then Ok (Z.land (2 + u8 p1) 0x7f) else Ok 2
       | _ => Fault
       end.

Definition bytes (l : list Z) : list byte := List.map to_u8 l.

Definition classid_page_hash : list byte :=
  bytes [0xA6; 0xB5; 0x86; 0xD5; 0xB4; 0xA1; 0x24; 0x66;
         0xAE; 0x05; 0xA2; 0x17; 0xDA; 0x8E; 0x60; 0xD6].

Definition SPC_PE_IMAGE_PAGE_HASHES_V1 : ASN1_OBJECT := "1.3.6.1.4.1.311.2.3.1".
Definition SPC_PE_IMAGE_PAGE_HASHES_V2 : ASN1_OBJECT := "1.3.6.1.4.1.311.2.3.2".

(** What [verify] prints, line by line. *)
Inductive msg : Set :=
| M_current_pe_checksum (v : Z)
| M_calculated_pe_checksum (v : Z) (mismatch : bool)
| M_no_signature_found
| M_failed_to_extract_digest
| M_digest_algorithm (nid : ASN1_OBJECT)
| M_current_digest (d : list byte)
| M_calculated_digest (d : list byte) (mismatch : bool)
| M_page_hash (alg : ASN1_OBJECT) (ph : list byte)
| M_signature_verification (ok : bool)
| M_signers (l : list X509)
| M_certificates (l : list X509).

(** The value a function hands back: [return ret;], or [return;] in a
    function declared [int], which leaves the value indeterminate. *)
Inductive retval : Set :=
| Ret (v : Z)
| Indeterminate.

(* ================================================================== *)
(** ** MSI stream names *)

Definition msi_base64_decode (x : Z) : Z :=
  if x <? 10 then x + 48
  else if x <? 10 + 26 then x - 10 + 65
  else if x <? 10 + 26 + 26 then x - 10 - 26 + 97
  else if x =? 10 + 26 + 26 then 46
  else 1.

(** [in[k]] of a NUL-terminated string whose octets before the NUL are
    [inp]: the NUL itself is there, nothing after it is. *)
Definition peek (inp : list byte) (k : nat) : res Z :=
  match nth_error inp k with
  | Some b => Ok (u8 b)
  | None => if Nat.eqb k (Datatypes.length inp) then Ok 0 else Fault
  end.

(** [in += k], which must not step over the NUL. *)
Definition advance (inp : list byte) (k : nat) : res (list byte) :=
  if Nat.leb k (Datatypes.length inp) then Ok (skipn k inp) else Fault.

(** The loop of [msi_decode]; each turn consumes an octet or more, so the
    length of the name is fuel enough. *)
Fixpoint msi_decode_loop (fuel : nat) (inp : list byte) : res (list byte) :=
  match fuel with
  | O => match inp with [] => Ok [] | _ => OutOfFuel end
  | S fuel' =>
      match inp with
      | [] => Ok []
      | c :: _ =>
          let ch := u8 c in
          in1 <- peek inp 1 ;;
          if ((ch =? 0xe3) && (0xa0 <=? in1)) || ((ch =? 0xe4) && (in1 <? 0xa0))
          then
            in2 <- peek inp 2 ;;
            rest <- advance inp 3 ;;
            r <- msi_decode_loop fuel' rest ;;
            Ok (to_u8 (msi_base64_decode (Z.land in2 0x7f)) ::
                to_u8 (msi_base64_decode (Z.lxor in1 0xa0)) :: r)
          else if (ch =? 0xe4) && (in1 =? 0xa0)
          then
            in2 <- peek inp 2 ;;
            rest <- advance inp 3 ;;
            r <- msi_decode_loop fuel' rest ;;
            Ok (to_u8 (msi_base64_decode (Z.land in2 0x7f)) :: r)
          else
            let n := (1 + (if (0xc1 <=? ch)%Z then 1 else 0)
                        + (if (0xe0 <=? ch)%Z then 1 else 0)
                        + (if (0xf0 <=? ch)%Z then 1 else 0))%nat in
            rest <- advance inp n ;;
            r <- msi_decode_loop fuel' rest ;;
            Ok (firstn n inp ++ r)
      end
  end.

(** [msi_decode(in, out)] into [decoded[0x40]]. *)
Definition msi_decode (name : list byte) : res (list byte) :=
  let inp :=
    match name with
    | a :: b :: c :: rest =>
        if (u8 a =? 0xe4) && (u8 b =? 0xa1) && (u8 c =? 0x80) then rest else name
    | _ => name
    end in
  out <- msi_decode_loop (Datatypes.length inp) inp ;;
  if 0x40 <=? len out then Fault else Ok out.

(** glib's [g_utf8_to_utf16], on a little-endian host: the UTF-16 code units
    of a valid UTF-8 string as octets, NULL for an invalid one. *)
Definition utf16_units (cp : Z) : list byte :=
  if cp <? 0x10000 then PUT_UINT16_LE cp
  else PUT_UINT16_LE (0xD800 + Z.shiftr (cp - 0x10000) 10) ++
       PUT_UINT16_LE (0xDC00 + Z.land (cp - 0x10000) 0x3ff).

Definition is_cont (b : byte) : bool := (0x80 <=? u8 b) && (u8 b <? 0xC0).

Definition valid_cp (lo cp : Z) : bool :=
  (lo <=? cp) && (cp <=? 0x10FFFF) && negb ((0xD800 <=? cp) && (cp <=? 0xDFFF)).

Fixpoint utf8_to_utf16 (s : list byte) : option (list byte) :=
  match s with
  | [] => Some []
  | b0 :: r0 =>
      let c0 := u8 b0 in
      if c0 <? 0x80 then option_map (app (utf16_units c0)) (utf8_to_utf16 r0)
      else if (0xC0 <=? c0) && (c0 <? 0xE0) then
        match r0 with
        | b1 :: r1 =>
            let cp := Z.lor (Z.shiftl (Z.land c0 0x1f) 6) (Z.land (u8 b1) 0x3f) in
            if is_cont b1 && valid_cp 0x80 cp
            then option_map (app (utf16_units cp)) (utf8_to_utf16 r1)
            else None
        | _ => None
        end
      else if (0xE0 <=? c0) && (c0 <? 0xF0) then
        match r0 with
        | b1 :: b2 :: r2 =>
            let cp := Z.lor (Z.lor (Z.shiftl (Z.land c0 0x0f) 12)
                                   (Z.shiftl (Z.land (u8 b1) 0x3f) 6))
                            (Z.land (u8 b2) 0x3f) in
            if is_cont b1 && is_cont b2 && valid_cp 0x800 cp
            then option_map (app (utf16_units cp)) (utf8_to_utf16 r2)
            else None
        | _ => None
        end
      else if (0xF0 <=? c0) && (c0 <? 0xF8) then
        match r0 with
        | b1 :: b2 :: b3 :: r3 =>
            let cp := Z.lor (Z.lor (Z.lor (Z.shiftl (Z.land c0 0x07) 18)
                                          (Z.shiftl (Z.land (u8 b1) 0x3f) 12))
                                   (Z.shiftl (Z.land (u8 b2) 0x3f) 6))
                            (Z.land (u8 b3) 0x3f) in
            if is_cont b1 && is_cont b2 && is_cont b3 && valid_cp 0x10000 cp
            then option_map (app (utf16_units cp)) (utf8_to_utf16 r3)
            else None
        | _ => None
        end
      else None
  end.

Definition g_utf8_to_utf16 (s : list byte) : option (list byte) :=
  option_map (fun u => u ++ zeros 2) (utf8_to_utf16 s).

(** [strlen]: the octets before the first zero octet. *)
Fixpoint strlen (p : list byte) : Z :=
  match p with
  | [] => 0
  | b :: r => if u8 b =? 0 then 0 else 1 + strlen r
  end.

(** [memcmp(a, b, n)], as the difference of the first octets that differ. *)
Fixpoint memcmp (a b : list byte) (n : nat) : Z :=
  match n, a, b with
  | S n', x :: a', y :: b' => if u8 x =? u8 y then memcmp a' b' n' else u8 x - u8 y
  | _, _, _ => 0
  end.

Definition msi_cmp (a b : list byte) : res Z :=
  pa <- mapped (g_utf8_to_utf16 a) ;;
  pb <- mapped (g_utf8_to_utf16 b) ;;
  let diff := memcmp pa pb (Z.to_nat (Z.min (strlen pa) (strlen pb))) in
  (* apparently the longer wins *)
  if diff =? 0 then Ok (if strlen pb <? strlen pa then 1 else -1)
  else Ok diff.

(** glib's [g_slist_insert_sorted] with [msi_cmp]: before the first element
    that the new one does not compare greater than. *)
Fixpoint g_slist_insert_sorted (l : list (list byte)) (data : list byte) :
  res (list (list byte)) :=
  match l with
  | [] => Ok [data]
  | x :: r =>
      c <- msi_cmp data x ;;
      if 0 <? c then r' <- g_slist_insert_sorted r data ;; Ok (x :: r')
      else Ok (data :: x :: r)
  end.

(** libgsf: an OLE compound document read as its class id and the streams
    of its root, and written from them. *)
Record GsfInput : Set := mkGsfInput {
  gsf_input_name : list byte;
  gsf_input_data : list byte
}.

Record GsfInfile : Set := mkGsfInfile {
  gsf_class_id : list byte;
  gsf_children : list GsfInput
}.

Class Gsf : Type := {
  gsf_infile_msole_new : list byte -> option GsfInfile;
  gsf_outfile_msole : GsfInfile -> list byte
}.

Section WithOpenSSL.

Context {ossl : OpenSSL}.

(** The octets of an [ASN1_TYPE] read through [value.sequence]. *)
Definition sequence_data (v : option ASN1_TYPE) : res (list byte) :=
  match v with
  | Some (V_ASN1_SEQUENCE d) => Ok d
  | _ => Fault
  end.

Definition obsolete : list byte :=
  bytes [0x00; 0x3c; 0x00; 0x3c; 0x00; 0x3c; 0x00; 0x4f; 0x00; 0x62;
         0x00; 0x73; 0x00; 0x6f; 0x00; 0x6c; 0x00; 0x65; 0x00; 0x74;
         0x00; 0x65; 0x00; 0x3e; 0x00; 0x3e; 0x00; 0x3e].

Definition msistr : list byte :=
  bytes [0xf1; 0x10; 0x0c; 0x00; 0x00; 0x00; 0x00; 0x00;
         0xc0; 0x00; 0x00; 0x00; 0x00; 0x00; 0x00; 0x46].

(** The [SpcIndirectDataContent] that [get_indirect_data_blob] builds, with
    its digest of zero octets. *)
Definition indirect_data (md : EVP_MD) (type : file_type_t) :
  SpcIndirectDataContent :=
  let link := SpcLink_file (SpcString_unicode obsolete) in
  let '(p, oid) :=
    match type with
    | FILE_TYPE_CAB => (i2d_SpcLink link, SPC_CAB_DATA_OBJID)
    | FILE_TYPE_PE =>
        (i2d_SpcPeImageData (mkPeImageData [] (Some link)),
         SPC_PE_IMAGE_DATA_OBJID)
    | FILE_TYPE_MSI =>
        (i2d_SpcSipinfo (mkSipinfo 1 msistr 0 0 0 0 0), SPC_SIPINFO_OBJID)
    end in
  mkIdc (mkSatv oid (Some (V_ASN1_SEQUENCE p))) (EVP_MD_nid md)
        (zeros (EVP_MD_size md)).

Definition get_indirect_data_blob (md : EVP_MD) (type : file_type_t) : list byte :=
  i2d_SpcIndirectDataContent (indirect_data md type).

(** [extract_page_hash]: the page hash and its algorithm when the PE image
    data carries one ([phlen = 0] otherwise). *)
Definition extract_page_hash (obj : SpcAttributeTypeAndOptionalValue) :
  res (option (ASN1_OBJECT * list byte)) :=
  blob <- sequence_data (satv_value obj) ;;
  match d2i_SpcPeImageData blob with
  | None => Ok None
  | Some id =>
      match pid_file id with
      | None => Fault
      | Some (SpcLink_moniker classId serializedData) =>
          if negb (bytes_eqb classId classid_page_hash) then Ok None else
          l <- asn1_simple_hdr_len serializedData (len serializedData) ;;
          rest <- mapped (slice serializedData l (len serializedData - l)) ;;
          match d2i_SpcAttributeTypeAndOptionalValue rest with
          | None => Ok None
          | Some obj' =>
              let go (phtype : ASN1_OBJECT) :=
                seq <- sequence_data (satv_value obj') ;;
                l2 <- asn1_simple_hdr_len seq (len seq) ;;
                l <- asn1_simple_hdr_len (skipn (Z.to_nat l2) seq)
                                         (uint32 (len seq - l2)) ;;
                let l := uint32 (l + l2) in
                ph <- mapped (slice seq l (len seq - l)) ;;
                Ok (Some (phtype, ph)) in
              if String.eqb (satv_type obj') SPC_PE_IMAGE_PAGE_HASHES_V1
              then go (EVP_MD_nid EVP_sha1)
              else if String.eqb (satv_type obj') SPC_PE_IMAGE_PAGE_HASHES_V2
              then go (EVP_MD_nid EVP_sha256)
              else Ok None
          end
      | Some _ => Ok None
      end
  end.

(** What the loop of [verify_pe_file] keeps of the record that gave it a
    digest: [p7], the decoded [SpcIndirectDataContent] ([mdtype] and [mdbuf]
    come from it) and the page hash. *)
Definition found_digest : Set :=
  (PKCS7 * SpcIndirectDataContent * option (ASN1_OBJECT * list byte))%type.

(** The body of the loop for a PKCS#7 record of the certificate table. *)
Definition digest_of_certificate (blob : list byte) : res (option found_digest) :=
  match d2i_PKCS7 blob with
  | None => Ok None
  | Some p7 =>
      if type_is_signed p7 &&
         String.eqb (contents_type p7) SPC_INDIRECT_DATA_OBJID
      then
        match contents_other p7 with
        | None => Fault
        | Some (V_ASN1_SEQUENCE astr) =>
            match d2i_SpcIndirectDataContent astr with
            | Some idc =>
                ph <- extract_page_hash (idc_data idc) ;;
                Ok (Some (p7, idc, ph))
            | None => Ok None
            end
        | Some _ => Ok None
        end
      else Ok None
  end.

(** [while (pos < siglen && mdtype == -1)]: the walk over the records of the
    certificate table.  The source bounds it by nothing but [pos], which a
    record of length zero leaves where it is. *)
Fixpoint cert_loop (fuel : nat) (indata : list byte) (sigpos siglen pos : Z) :
  res (option found_digest) :=
  match fuel with
  | O => OutOfFuel
  | S fuel' =>
      if pos <? siglen then
        l <- mapped (GET_UINT32_LE indata (sigpos + pos)) ;;
        certrev <- mapped (GET_UINT16_LE indata (sigpos + pos + 4)) ;;
        certtype <- mapped (GET_UINT16_LE indata (sigpos + pos + 6)) ;;
        found <- (if (certrev =? WIN_CERT_REVISION_2) &&
                     (certtype =? WIN_CERT_TYPE_PKCS_SIGNED_DATA)
                  then blob <- mapped (slice indata (sigpos + pos + 8)
                                             (uint32 (l - 8))) ;;
                       digest_of_certificate blob
                  else Ok None) ;;
        match found with
        | Some f => Ok (Some f)
        | None =>
            let l := if negb (l mod 8 =? 0) then uint32 (l + (8 - l mod 8)) else l in
            cert_loop fuel' indata sigpos siglen (uint32 (pos + l))
        end
      else Ok None
  end.

(** The first stage of [verify_pe_file]: [ret] after the comparison of the
    stored and the recomputed checksum. *)
Definition checksum_ret (pe_checksum real_pe_checksum : Z) : Z :=
  if negb (pe_checksum =? 0) && negb (pe_checksum =? real_pe_checksum)
  then 1 else 0.

(** [verify_pe_file] from [if (siglen == 0)] on: [ret] and [log] are what the
    checksum comparison left. *)
Definition verify_signature (fuel : nat) (indata bio : list byte)
  (peheader pe32plus sigpos siglen : Z) (ret : Z) (log : list msg) :
  res (retval * list msg) :=
  if siglen =? 0 then Ok (Ret ret, log ++ [M_no_signature_found]) else
  found <- cert_loop fuel indata sigpos siglen 0 ;;
  match found with
  | None => Ok (Indeterminate, log ++ [M_failed_to_extract_digest])
  | Some (p7, idc, ph) =>
      md <- mapped (EVP_get_digestbynid (idc_digestAlgorithm idc)) ;;
      if EVP_MAX_MD_SIZE <? len (idc_digest idc) then Fault else
      mdbuf <- mapped (slice (idc_digest idc) 0 (EVP_MD_size md)) ;;
      input <- pe_digest_input bio peheader pe32plus sigpos ;;
      let cmdbuf := firstn (Z.to_nat (EVP_MD_size md))
                           (EVP_Digest md input ++ zeros EVP_MAX_MD_SIZE) in
      let mdok := bytes_eqb mdbuf cmdbuf in
      let ret := if mdok then ret else 1 in
      astr <- sequence_data (contents_other p7) ;;
      seqhdrlen <- asn1_simple_hdr_len astr (len astr) ;;
      content <- mapped (slice astr seqhdrlen (len astr - seqhdrlen)) ;;
      let verok := PKCS7_verify p7 content in
      let ret := if verok then ret else 1 in
      Ok (Ret ret,
          log ++ [M_digest_algorithm (idc_digestAlgorithm idc);
                  M_current_digest mdbuf;
                  M_calculated_digest cmdbuf (negb mdok)] ++
          match ph with
          | Some (phtype, h) =>
              if 0 <? len h then [M_page_hash phtype (firstn 32 h)] else []
          | None => []
          end ++
          [M_signature_verification verok;
           M_signers (PKCS7_get0_signers p7);
           M_certificates (cert p7)])
  end.

Definition verify_pe_file (fuel : nat) (indata : list byte)
  (peheader pe32plus sigpos siglen : Z) : res (retval * list msg) :=
  pe_checksum <- mapped (GET_UINT32_LE indata (peheader + 88)) ;;
  bio <- mapped (slice indata 0 (int32 (uint32 (sigpos + siglen)))) ;;
  let real_pe_checksum := calc_pe_checksum bio peheader in
  let ret := checksum_ret pe_checksum real_pe_checksum in
  verify_signature fuel indata bio peheader pe32plus sigpos siglen ret
    [M_current_pe_checksum pe_checksum;
     M_calculated_pe_checksum real_pe_checksum (negb (ret =? 0))].

(* ------------------------------------------------------------------ *)
(** *** Building the signature *)

(** The options of [sign] after the command line is read, with the signing
    material the credential files gave ([cert], [certs], [pkey]). *)
Record options : Set := mkOptions {
  opt_md : EVP_MD;
  opt_comm : bool;
  opt_desc : option string;
  opt_url : option string;
  opt_jp : Z;
  opt_turl : option string;
  opt_tsurl : option string;
  opt_proxy : option string;
  opt_cert : option X509;
  opt_certs : list X509;
  opt_pkey : EVP_PKEY
}.

Definition purpose_ind : list byte :=
  bytes [0x30; 0x0c;
         0x06; 0x0a; 0x2b; 0x06; 0x01; 0x04; 0x01; 0x82; 0x37; 0x02; 0x01; 0x15].

Definition purpose_comm : list byte :=
  bytes [0x30; 0x0c;
         0x06; 0x0a; 0x2b; 0x06; 0x01; 0x04; 0x01; 0x82; 0x37; 0x02; 0x01; 0x16].

Definition java_attrs_low : list byte :=
  bytes [0x30; 0x06; 0x03; 0x02; 0x00; 0x01; 0x30; 0x00].

Definition createOpus (desc url : option string) : SpcSpOpusInfo :=
  mkOpus (option_map (fun d => SpcString_ascii (bytes_of_string d)) desc)
         (option_map (fun u => SpcLink_url (bytes_of_string u)) url).

(** OpenSSL's [add_attribute]: an attribute of the same object is replaced,
    a new one is pushed at the end. *)
Fixpoint add_attribute (sk : list X509_ATTRIBUTE) (a : X509_ATTRIBUTE) :
  list X509_ATTRIBUTE :=
  match sk with
  | [] => [a]
  | x :: r =>
      if String.eqb (attr_object x) (attr_object a) then a :: r
      else x :: add_attribute r a
  end.

Definition PKCS7_add_signed_attribute (si : PKCS7_SIGNER_INFO)
  (nid : ASN1_OBJECT) (v : ASN1_TYPE) : PKCS7_SIGNER_INFO :=
  mkSI (si_cert si) (si_pkey si) (si_md si)
       (add_attribute (auth_attr si) (mkAttr nid v))
       (unauth_attr si) (enc_digest si).

Definition PKCS7_add_attribute (si : PKCS7_SIGNER_INFO)
  (nid : ASN1_OBJECT) (v : ASN1_TYPE) : PKCS7_SIGNER_INFO :=
  mkSI (si_cert si) (si_pkey si) (si_md si) (auth_attr si)
       (add_attribute (unauth_attr si) (mkAttr nid v)) (enc_digest si).

Definition PKCS7_add_certificate (sig : PKCS7) (x : X509) : PKCS7 :=
  mkPKCS7 (type_is_signed sig) (cert sig ++ [x]) (signer_info sig)
          (contents_type sig) (contents_other sig).

Definition set_signer_info (sig : PKCS7) (l : list PKCS7_SIGNER_INFO) : PKCS7 :=
  mkPKCS7 (type_is_signed sig) (cert sig) l (contents_type sig) (contents_other sig).

Definition set_contents (sig : PKCS7) (t : ASN1_OBJECT) (v : ASN1_TYPE) : PKCS7 :=
  mkPKCS7 (type_is_signed sig) (cert sig) (signer_info sig) t (Some v).

(** [for (i = sk_X509_num(certs)-1; i>=0; i--) PKCS7_add_certificate(...)] *)
Definition add_certificates_rev (sig : PKCS7) (certs : list X509) : PKCS7 :=
  fold_left PKCS7_add_certificate (rev certs) sig.

(** [PKCS7_add_signature] with [cert], or else with the first of [certs]
    that it accepts. *)
Fixpoint first_signature (certs : list X509) (pkey : EVP_PKEY) (md : EVP_MD) :
  option PKCS7_SIGNER_INFO :=
  match certs with
  | [] => None
  | c :: r =>
      match PKCS7_SIGNER_INFO_new c pkey md with
      | Some si => Some si
      | None => first_signature r pkey md
      end
  end.

Definition add_signature (o : options) : option PKCS7_SIGNER_INFO :=
  match opt_cert o with
  | Some c =>
      match PKCS7_SIGNER_INFO_new c (opt_pkey o) (opt_md o) with
      | Some si => Some si
      | None => first_signature (opt_certs o) (opt_pkey o) (opt_md o)
      end
  | None => first_signature (opt_certs o) (opt_pkey o) (opt_md o)
  end.

Context {curl : Curl}.

Definition has_prefix (pre s : string) : bool := String.prefix pre s.

Definition newline : byte := to_u8 10.

(** [add_timestamp]: the value it returns, the signature as it leaves it,
    and whether it freed the [enc_digest] of the first signer info.  [si] is
    the first signer info of [sig], or NULL; [blob_has_nl] is what
    [curl_write] found in the reply.

    The legacy request does not copy the encrypted digest: it takes the
    pointer ([req->blob->signature = si->enc_digest]), and
    [TimeStampRequest_free(req)] frees what the request holds.  From there on
    [si->enc_digest] points to freed memory, whatever [add_timestamp] returns.
    The RFC 3161 request holds a copy of [mdbuf], and [certReq] is taken off
    the request before it is freed. *)
Definition add_timestamp (sig : PKCS7) (url proxy : option string)
  (rfc3161 : bool) (md : EVP_MD) (mdbuf : list byte) : res (Z * PKCS7 * bool) :=
  let si := hd_error (signer_info sig) in
  match url with
  | None => Ok (-1, sig, false)
  | Some url =>
      let proxytype :=
        match proxy with
        | Some p =>
            if has_prefix "socks:" p then Some CURLPROXY_SOCKS5
            else if has_prefix "http:" p then Some CURLPROXY_HTTP
            else None
        | None => None
        end in
      let slist :=
        (if rfc3161
         then ["Content-Type: application/timestamp-query";
               "Accept: application/timestamp-reply"]
         else ["Content-Type: application/octet-stream";
               "Accept: application/octet-stream"]) ++
        ["User-Agent: Transport"; "Cache-Control: no-cache"] in
      p <- (if rfc3161
            then d <- mapped (slice mdbuf 0 (EVP_MD_size md)) ;;
                 Ok (i2d_TimeStampReq (mkTSReq 1 (EVP_MD_nid md) d true))
            else si <- mapped si ;;
                 Ok (base64_encode
                       (i2d_TimeStampRequest
                          (mkTSRequest SPC_TIME_STAMP_REQUEST_OBJID
                                       NID_pkcs7_data (enc_digest si))))) ;;
      let freed := negb rfc3161 in
      let '(c, reply) :=
        curl_easy_perform (mkCurl url proxy proxytype slist p) in
      let blob_has_nl := existsb (byte_eqb newline) reply in
      if negb (c =? 0) then Ok (c, sig, freed) else
      let attach (p7 : PKCS7) : res (Z * PKCS7 * bool) :=
        if negb (type_is_signed p7) then Fault else
        let sig := add_certificates_rev sig (cert p7) in
        match signer_info p7 with
        | [] => Ok (-1, sig, freed)
        | info :: _ =>
            let astr := i2d_PKCS7_SIGNER_INFO info in
            if len astr <=? 0 then Ok (-1, sig, freed) else
            si <- mapped si ;;
            let si := PKCS7_add_attribute si NID_pkcs9_countersignature
                                          (V_ASN1_SEQUENCE astr) in
            Ok (0, set_signer_info sig (si :: tl (signer_info sig)), freed)
        end in
      if rfc3161 then
        match d2i_TimeStampResp reply with
        | None => Ok (-1, sig, freed)
        | Some r =>
            if negb (tsp_status r =? 0) then Ok (-1, sig, freed) else
            match tsp_token r with
            | None => Fault
            | Some p7 => attach p7
            end
        end
      else
        match d2i_PKCS7 (base64_decode (negb blob_has_nl) reply) with
        | None => Ok (-1, sig, freed)
        | Some p7 => attach p7
        end
  end.

Definition add_timestamp_authenticode (sig : PKCS7) (url proxy : option string) :
  res (Z * PKCS7 * bool) :=
  add_timestamp sig url proxy false EVP_sha1 [].

Definition add_timestamp_rfc3161 (sig : PKCS7) (url proxy : option string)
  (md : EVP_MD) (mdbuf : list byte) : res (Z * PKCS7 * bool) :=
  add_timestamp sig url proxy true md mdbuf.

(* ------------------------------------------------------------------ *)
(** *** [main]: the signing steps shared by the three file types

    From [sig = PKCS7_new()] to [i2d_PKCS7(sig, &p)]: [digested] is what went
    through [hash] before.  The result is the signature and its DER.  A
    signature whose [enc_digest] a timestamp request freed has no DER:
    [i2d_PKCS7] reads the freed octets. *)
Definition main_sign (o : options) (type : file_type_t) (digested : list byte) :
  res (PKCS7 * list byte) :=
  let md := opt_md o in
  match add_signature o with
  | None => Exit E_add_signature
  | Some si =>
      let si := PKCS7_add_signed_attribute si NID_pkcs9_contentType
                  (V_ASN1_OBJECT SPC_INDIRECT_DATA_OBJID) in
      let si :=
        if type_eqb type FILE_TYPE_CAB && (0 <=? opt_jp o) && (opt_jp o =? 0)
        then PKCS7_add_signed_attribute si SPC_MS_JAVA_SOMETHING
               (V_ASN1_SEQUENCE java_attrs_low)
        else si in
      let si := PKCS7_add_signed_attribute si SPC_STATEMENT_TYPE_OBJID
                  (V_ASN1_SEQUENCE (if opt_comm o then purpose_comm else purpose_ind)) in
      si <- (match opt_desc o, opt_url o with
             | None, None => Ok si
             | desc, url =>
                 let p := i2d_SpcSpOpusInfo (createOpus desc url) in
                 check (0 <? len p) E_opus ;;;
                 Ok (PKCS7_add_signed_attribute si SPC_SP_OPUS_INFO_OBJID
                       (V_ASN1_SEQUENCE p))
             end) ;;
      let sig := mkPKCS7 true [] [si] NID_pkcs7_data None in
      let sig := match opt_cert o with
                 | Some c => PKCS7_add_certificate sig c
                 | None => sig
                 end in
      let sig := add_certificates_rev sig (opt_certs o) in
      check (PKCS7_dataInit sig) E_dataInit ;;;
      let p := get_indirect_data_blob md type in
      let n := len p - EVP_MD_size md in
      buf <- mapped (slice p 0 n) ;;
      let mdbuf := EVP_Digest md digested in
      let mdlen := len mdbuf in
      let buf := buf ++ mdbuf in
      seqhdrlen <- asn1_simple_hdr_len buf n ;;
      content <- mapped (slice buf seqhdrlen (n - seqhdrlen + mdlen)) ;;
      match PKCS7_dataFinal sig content with
      | None => Exit E_dataFinal
      | Some sig =>
          let sig := set_contents sig SPC_INDIRECT_DATA_OBJID (V_ASN1_SEQUENCE buf) in
          st <- (match opt_turl o with
                 | Some _ =>
                     r <- add_timestamp_authenticode sig (opt_turl o) (opt_proxy o) ;;
                     let '(c, sig, freed) := r in
                     check (c =? 0) E_ts_authenticode ;;; Ok (sig, freed)
                 | None => Ok (sig, false)
                 end) ;;
          st <- (match opt_tsurl o with
                 | Some _ =>
                     r <- add_timestamp_rfc3161 (fst st) (opt_tsurl o) (opt_proxy o)
                                                md mdbuf ;;
                     let '(c, sig, freed) := r in
                     check (c =? 0) E_ts_rfc3161 ;;; Ok (sig, snd st || freed)
                 | None => Ok st
                 end) ;;
          let '(sig, freed) := st in
          (* [i2d_PKCS7] encodes the signer info and reads its [enc_digest] *)
          if freed then Fault else
          let p := i2d_PKCS7 sig in
          check (0 <? len p) (E_i2d_pkcs7 (len p)) ;;;
          Ok (sig, p)
      end
  end.

(** [padlen = (8 - len%8) % 8] *)
Definition padlen_of (n : Z) : Z := (8 - n mod 8) mod 8.

(** How [main] ends when it does not leave through [err_cleanup]: the value
    it returns, the output file (none for [verify]) and what [verify_pe_file]
    printed.  [main] then prints Succeeded when [ret] is zero and Failed
    otherwise. *)
Record finished : Set := mkFinished {
  ret : retval;
  outfile : option (list byte);
  stdout : list msg
}.

(** The process status of a run, and the output file it leaves.
    [err_cleanup] unlinks the output and returns -1. *)
Definition exit_status (r : res finished) : option retval :=
  match r with
  | Ok f => Some (ret f)
  | Exit _ => Some (Ret (-1))
  | _ => None
  end.

Definition output_artifact (r : res finished) : option (list byte) :=
  match r with
  | Ok f => outfile f
  | _ => None
  end.

Definition new_io : io := mkIo (mkFile [] 0) [].

(* ------------------------------------------------------------------ *)
(** *** [main] on a PE file *)

Definition PE_signature : list byte := bytes [0x50; 0x45; 0x00; 0x00].

(** The checks on the DOS and PE headers, up to [peheader]. *)
Definition pe_header (indata : list byte) : res Z :=
  let st_size := len indata in
  check (64 <=? st_size) E_dos_too_short ;;;
  peheader <- mapped (GET_UINT32_LE indata 60) ;;
  check (uint32 (peheader + 160) <=? st_size) E_pe_too_short ;;;
  sg <- mapped (slice indata peheader 4) ;;
  check (bytes_eqb sg PE_signature) E_dos_type ;;;
  Ok peheader.

(** What [main] reads of the optional header: [pe32plus], [sigpos] and
    [siglen], with the checks on them.  The size check before it covers
    [peheader + 160] octets; the entry of a PE32+ file ends 16 octets behind
    that, and the model has no outcome for a file that ends before it. *)
Definition pe_layout (cmd : cmd_type_t) (indata : list byte) (peheader : Z) :
  res (Z * Z * Z) :=
  let st_size := len indata in
  magic <- mapped (GET_UINT16_LE indata (peheader + 24)) ;;
  pe32plus <- (if magic =? 0x20b then Ok 1
               else if magic =? 0x10b then Ok 0
               else Exit (E_pe_magic magic)) ;;
  nrvas <- mapped (GET_UINT32_LE indata (peheader + 116 + pe32plus * 16)) ;;
  check (5 <=? nrvas) E_no_cert_table ;;;
  sigpos <- mapped (GET_UINT32_LE indata (peheader + 152 + pe32plus * 16)) ;;
  siglen <- mapped (GET_UINT32_LE indata (peheader + 152 + pe32plus * 16 + 4)) ;;
  check (negb ((0 <? sigpos) && negb (uint32 (sigpos + siglen) =? st_size)))
        E_sig_not_at_end ;;;
  check (negb ((cmd_eqb cmd CMD_REMOVE || cmd_eqb cmd CMD_EXTRACT) &&
               (sigpos =? 0)))
        E_no_signature ;;;
  Ok (pe32plus, sigpos, siglen).

(** The copy of the image to the output, through [hash] except for the zeroed
    checksum and the zeroed certificate-table entry, and the padding to an
    8 byte boundary.  Gives the state of the output and [fileend] after it. *)
Definition pe_copy (indata : list byte) (peheader pe32plus fileend : Z) (s : io) :
  res (io * Z) :=
  s <- write_hash_from indata s 0 (int32 (uint32 (peheader + 88))) ;;
  let i := int32 (uint32 (peheader + 88)) in
  let s := BIO_write_outdata s (zeros 4) in
  let i := int32 (i + 4) in
  s <- write_hash_from indata s i (60 + pe32plus * 16) ;;
  let i := int32 (i + (60 + pe32plus * 16)) in
  let s := BIO_write_outdata s (zeros 8) in
  let i := int32 (i + 8) in
  s <- write_hash_from indata s i (int32 (fileend - i)) ;;
  let n := int32 (8 - fileend mod 8) in
  if (0 <? n) && negb (n =? 8)
  then Ok (BIO_write_hash s (zeros n), fileend + n)
  else Ok (s, fileend).

(** The [WIN_CERTIFICATE] record appended to a PE file: header, DER, padding. *)
Definition win_certificate (p : list byte) : list byte :=
  let padlen := padlen_of (len p) in
  PUT_UINT32_LE (uint32 (len p + 8 + padlen)) ++
  PUT_UINT16_LE WIN_CERT_REVISION_2 ++
  PUT_UINT16_LE WIN_CERT_TYPE_PKCS_SIGNED_DATA ++
  p ++ zeros padlen.

Definition main_pe (fuel : nat) (cmd : cmd_type_t) (o : options)
  (indata : list byte) : res finished :=
  let st_size := len indata in
  peheader <- pe_header indata ;;
  lay <- pe_layout cmd indata peheader ;;
  let '(pe32plus, sigpos, siglen) := lay in
  match cmd with
  | CMD_EXTRACT =>
      s <- write_outdata_from indata new_io sigpos (int32 siglen) ;;
      Ok (mkFinished (Ret 0) (Some (file_data (outdata s))) [])
  | CMD_VERIFY =>
      r <- verify_pe_file fuel indata peheader pe32plus
             (uint32 (if negb (sigpos =? 0) then sigpos else st_size)) siglen ;;
      Ok (mkFinished (fst r) None (snd r))
  | CMD_REMOVE =>
      let fileend := if 0 <? sigpos then sigpos else st_size in
      r <- pe_copy indata peheader pe32plus fileend new_io ;;
      let f := recalc_pe_checksum (outdata (fst r)) peheader in
      Ok (mkFinished (Ret 0) (Some (file_data f)) [])
  | CMD_SIGN =>
      let fileend := if 0 <? sigpos then sigpos else st_size in
      r <- pe_copy indata peheader pe32plus fileend new_io ;;
      let '(s, fileend) := r in
      sg <- main_sign o FILE_TYPE_PE (md_ctx s) ;;
      let p := snd sg in
      let padlen := padlen_of (len p) in
      let s := BIO_write_outdata s (win_certificate p) in
      let f := BIO_seek (outdata s)
                 (int32 (uint32 (peheader + 152 + pe32plus * 16))) in
      let f := file_write f (PUT_UINT32_LE fileend) in
      let f := file_write f (PUT_UINT32_LE (uint32 (len p + 8 + padlen))) in
      let f := recalc_pe_checksum f peheader in
      Ok (mkFinished (Ret 0) (Some (file_data f)) [])
  end.

(* ------------------------------------------------------------------ *)
(** *** [main] on a CAB file *)

(** Whether plain [char] is signed is the platform's choice; [indata] is a
    [char *] and the folder count is read through it without a cast. *)
Variable char_is_signed : bool.

Definition char_value (b : byte) : Z :=
  if char_is_signed && (128 <=? u8 b) then u8 b - 256 else u8 b.

Definition cabsigned : list byte :=
  bytes [0x14; 0x00; 0x00; 0x00; 0x00; 0x00; 0x10; 0x00;
         0xde; 0xad; 0xbe; 0xef;   (* size of cab file *)
         0xde; 0xad; 0xbe; 0xef;   (* size of asn1 blob *)
         0x00; 0x00; 0x00; 0x00; 0x00; 0x00; 0x00; 0x00].

(** [for (i = 36; nfolders; nfolders--, i+=8)] *)
Fixpoint cab_folders (nfolders : nat) (indata : list byte) (i : Z) (s : io) :
  res (io * Z) :=
  match nfolders with
  | O => Ok (s, i)
  | S n =>
      tmp <- mapped (GET_UINT32_LE indata i) ;;
      let tmp := uint32 (tmp + 24) in
      let s := BIO_write_hash s (PUT_UINT32_LE tmp) in
      s <- write_hash_from indata s (i + 4) 4 ;;
      cab_folders n indata (i + 8) s
  end.

(** The copy of the cabinet to the output: header fields raised by 24, the
    reserve flag, the [cabsigned] area, the folder entries, the rest. *)
Definition cab_copy (indata : list byte) (s : io) : res io :=
  let st_size := len indata in
  s <- write_hash_from indata s 0 4 ;;
  s <- write_outdata_from indata s 4 4 ;;
  tmp <- mapped (GET_UINT32_LE indata 8) ;;
  let buf0 := PUT_UINT32_LE (uint32 (tmp + 24)) in
  let s := BIO_write_hash s buf0 in
  s <- write_hash_from indata s 12 4 ;;
  tmp <- mapped (GET_UINT32_LE indata 16) ;;
  let buf4 := PUT_UINT32_LE (uint32 (tmp + 24)) in
  let s := BIO_write_hash s buf4 in
  hdr <- mapped (slice indata 20 14) ;;
  let buf4 := firstn 10 hdr ++ [to_u8 0x04] ++ skipn 11 hdr in
  let s := BIO_write_hash s buf4 in
  s <- write_outdata_from indata s 34 2 ;;
  let reserve := firstn 8 cabsigned ++ buf0 ++ skipn 12 cabsigned in
  let s := BIO_write_outdata s (firstn 20 reserve) in
  let s := BIO_write_hash s (firstn 4 (skipn 20 reserve)) in
  b26 <- mapped (slice indata 26 1) ;;
  b27 <- mapped (slice indata 27 1) ;;
  let nfolders :=
    uint16 (Z.lor (char_value (hd Byte.x00 b26))
                  (Z.shiftl (char_value (hd Byte.x00 b27)) 8)) in
  r <- cab_folders (Z.to_nat nfolders) indata 36 s ;;
  let '(s, i) := r in
  write_hash_from indata s i (int32 (st_size - i)).

Definition main_cab (o : options) (indata : list byte) : res finished :=
  let st_size := len indata in
  check (44 <=? st_size) E_cab_too_short ;;;
  flags <- mapped (slice indata 0x1e 2) ;;
  check (bytes_eqb flags (zeros 2)) E_cab_flags ;;;
  s <- cab_copy indata new_io ;;
  sg <- main_sign o FILE_TYPE_CAB (md_ctx s) ;;
  let p := snd sg in
  let padlen := padlen_of (len p) in
  let s := BIO_write_outdata s (p ++ zeros padlen) in
  let f := file_write (BIO_seek (outdata s) 0x30)
                      (PUT_UINT32_LE (uint32 (len p + padlen))) in
  Ok (mkFinished (Ret 0) (Some (file_data f)) []).

(* ------------------------------------------------------------------ *)
(** *** [main] on an MSI file *)

(** [WITH_GSF]: libgsf, when the program is built with it. *)
Variable gsf : option Gsf.

Definition DigitalSignature : list byte :=
  to_u8 5 :: bytes_of_string "DigitalSignature".

Definition gsf_infile_child_by_name (ole : GsfInfile) (name : list byte) :
  option GsfInput :=
  find (fun c => bytes_eqb (gsf_input_name c) name) (gsf_children ole).

(** The first loop: the names of the streams to keep, in the order
    [g_slist_insert_sorted] gives them. *)
Fixpoint msi_sorted (children : list GsfInput) (sorted : list (list byte)) :
  res (list (list byte)) :=
  match children with
  | [] => Ok sorted
  | child :: r =>
      let name := gsf_input_name child in
      decoded <- msi_decode name ;;
      if bytes_eqb decoded DigitalSignature then msi_sorted r sorted
      else sorted <- g_slist_insert_sorted sorted name ;; msi_sorted r sorted
  end.

(** The second loop: the streams copied to the output and digested. *)
Definition msi_copied (ole : GsfInfile) (sorted : list (list byte)) : list GsfInput :=
  flat_map (fun name => match gsf_infile_child_by_name ole name with
                        | Some c => [c]
                        | None => []
                        end) sorted.

Definition main_msi (o : options) (indata : list byte) : res finished :=
  match gsf with
  | None => Exit E_no_gsf
  | Some g =>
      ole <- mapped (@gsf_infile_msole_new g indata) ;;
      sorted <- msi_sorted (gsf_children ole) [] ;;
      let copied := msi_copied ole sorted in
      let digested := List.concat (List.map gsf_input_data copied) ++ gsf_class_id ole in
      sg <- main_sign o FILE_TYPE_MSI digested ;;
      let p := snd sg in
      let out := mkGsfInfile (gsf_class_id ole)
                             (copied ++ [mkGsfInput DigitalSignature p]) in
      Ok (mkFinished (Ret 0) (Some (@gsf_outfile_msole g out)) [])
  end.

(* ------------------------------------------------------------------ *)
(** *** [main] *)

Definition msi_signature : list byte :=
  bytes [0xd0; 0xcf; 0x11; 0xe0; 0xa1; 0xb1; 0x1a; 0xe1].

(** The file type, from the first octets of the file. *)
Definition file_type (indata : list byte) : res file_type_t :=
  m <- mapped (slice indata 0 4) ;;
  if bytes_eqb m (bytes_of_string "MSCF") then Ok FILE_TYPE_CAB
  else if bytes_eqb (firstn 2 m) (bytes_of_string "MZ") then Ok FILE_TYPE_PE
  else
    m <- mapped (slice indata 0 8) ;;
    if bytes_eqb m msi_signature then Ok FILE_TYPE_MSI
    else Exit E_unrecognized.

(** [main], from the point where the command line is read and the signing
    material loaded: [cmd] on the file whose contents are [indata].  Opening
    the input and creating the output succeed. *)
Definition main (fuel : nat) (cmd : cmd_type_t) (o : options)
  (indata : list byte) : res finished :=
  check (4 <=? len indata) E_too_short ;;;
  type <- file_type indata ;;
  check (cmd_eqb cmd CMD_SIGN || type_eqb type FILE_TYPE_PE) E_non_pe ;;;
  match type with
  | FILE_TYPE_CAB => main_cab o indata
  | FILE_TYPE_PE => main_pe fuel cmd o indata
  | FILE_TYPE_MSI => main_msi o indata
  end.

End WithOpenSSL.

(* ================================================================== *)
(** ** The command line

    [main] from [if (argc > 1)] to the last call of [usage], as built with
    libcurl and an OpenSSL that reads PVK files.  A word of [argv] is a C
    string, so [strcmp] is equality of the words. *)

(** The variables of [main] that the command line sets; [cl_version] counts
    how often the version text was printed. *)
Record cmdline : Set := mkCmdline {
  cl_cmd : cmd_type_t;
  cl_infile : option string;
  cl_outfile : option string;
  cl_spcfile : option string;
  cl_keyfile : option string;
  cl_pkcs12file : option string;
  cl_pvkfile : option string;
  cl_pass : string;
  cl_comm : bool;
  cl_desc : option string;
  cl_md : EVP_MD;
  cl_url : option string;
  cl_turl : option string;
  cl_tsurl : option string;
  cl_proxy : option string;
  cl_jp : Z;
  cl_version : nat
}.

(** The initial values, with the command read from [argv[1]]. *)
Definition cmdline_init (cmd : cmd_type_t) : cmdline :=
  mkCmdline cmd None None None None None None EmptyString false None EVP_sha1
            None None None None (-1) 0.

Definition set_infile (c : cmdline) (v : string) : cmdline :=
  mkCmdline (cl_cmd c) (Some v) (cl_outfile c) (cl_spcfile c) (cl_keyfile c)
    (cl_pkcs12file c) (cl_pvkfile c) (cl_pass c) (cl_comm c) (cl_desc c)
    (cl_md c) (cl_url c) (cl_turl c) (cl_tsurl c) (cl_proxy c) (cl_jp c)
    (cl_version c).

Definition set_outfile (c : cmdline) (v : string) : cmdline :=
  mkCmdline (cl_cmd c) (cl_infile c) (Some v) (cl_spcfile c) (cl_keyfile c)
    (cl_pkcs12file c) (cl_pvkfile c) (cl_pass c) (cl_comm c) (cl_desc c)
    (cl_md c) (cl_url c) (cl_turl c) (cl_tsurl c) (cl_proxy c) (cl_jp c)
    (cl_version c).

Definition set_spcfile (c : cmdline) (v : string) : cmdline :=
  mkCmdline (cl_cmd c) (cl_infile c) (cl_outfile c) (Some v) (cl_keyfile c)
    (cl_pkcs12file c) (cl_pvkfile c) (cl_pass c) (cl_comm c) (cl_desc c)
    (cl_md c) (cl_url c) (cl_turl c) (cl_tsurl c) (cl_proxy c) (cl_jp c)
    (cl_version c).

Definition set_keyfile (c : cmdline) (v : string) : cmdline :=
  mkCmdline (cl_cmd c) (cl_infile c) (cl_outfile c) (cl_spcfile c) (Some v)
    (cl_pkcs12file c) (cl_pvkfile c) (cl_pass c) (cl_comm c) (cl_desc c)
    (cl_md c) (cl_url c) (cl_turl c) (cl_tsurl c) (cl_proxy c) (cl_jp c)
    (cl_version c).

Definition set_pkcs12file (c : cmdline) (v : string) : cmdline :=
  mkCmdline (cl_cmd c) (cl_infile c) (cl_outfile c) (cl_spcfile c) (cl_keyfile c)
    (Some v) (cl_pvkfile c) (cl_pass c) (cl_comm c) (cl_desc c)
    (cl_md c) (cl_url c) (cl_turl c) (cl_tsurl c) (cl_proxy c) (cl_jp c)
    (cl_version c).

Definition set_pvkfile (c : cmdline) (v : string) : cmdline :=
  mkCmdline (cl_cmd c) (cl_infile c) (cl_outfile c) (cl_spcfile c) (cl_keyfile c)
    (cl_pkcs12file c) (Some v) (cl_pass c) (cl_comm c) (cl_desc c)
    (cl_md c) (cl_url c) (cl_turl c) (cl_tsurl c) (cl_proxy c) (cl_jp c)
    (cl_version c).

Definition set_pass (c : cmdline) (v : string) : cmdline :=
  mkCmdline (cl_cmd c) (cl_infile c) (cl_outfile c) (cl_spcfile c) (cl_keyfile c)
    (cl_pkcs12file c) (cl_pvkfile c) v (cl_comm c) (cl_desc c)
    (cl_md c) (cl_url c) (cl_turl c) (cl_tsurl c) (cl_proxy c) (cl_jp c)
    (cl_version c).

Definition set_comm (c : cmdline) : cmdline :=
  mkCmdline (cl_cmd c) (cl_infile c) (cl_outfile c) (cl_spcfile c) (cl_keyfile c)
    (cl_pkcs12file c) (cl_pvkfile c) (cl_pass c) true (cl_desc c)
    (cl_md c) (cl_url c) (cl_turl c) (cl_tsurl c) (cl_proxy c) (cl_jp c)
    (cl_version c).

Definition set_desc (c : cmdline) (v : string) : cmdline :=
  mkCmdline (cl_cmd c) (cl_infile c) (cl_outfile c) (cl_spcfile c) (cl_keyfile c)
    (cl_pkcs12file c) (cl_pvkfile c) (cl_pass c) (cl_comm c) (Some v)
    (cl_md c) (cl_url c) (cl_turl c) (cl_tsurl c) (cl_proxy c) (cl_jp c)
    (cl_version c).

Definition set_md (c : cmdline) (md : EVP_MD) : cmdline :=
  mkCmdline (cl_cmd c) (cl_infile c) (cl_outfile c) (cl_spcfile c) (cl_keyfile c)
    (cl_pkcs12file c) (cl_pvkfile c) (cl_pass c) (cl_comm c) (cl_desc c)
    md (cl_url c) (cl_turl c) (cl_tsurl c) (cl_proxy c) (cl_jp c)
    (cl_version c).

Definition set_url (c : cmdline) (v : string) : cmdline :=
  mkCmdline (cl_cmd c) (cl_infile c) (cl_outfile c) (cl_spcfile c) (cl_keyfile c)
    (cl_pkcs12file c) (cl_pvkfile c) (cl_pass c) (cl_comm c) (cl_desc c)
    (cl_md c) (Some v) (cl_turl c) (cl_tsurl c) (cl_proxy c) (cl_jp c)
    (cl_version c).

Definition set_turl (c : cmdline) (v : string) : cmdline :=
  mkCmdline (cl_cmd c) (cl_infile c) (cl_outfile c) (cl_spcfile c) (cl_keyfile c)
    (cl_pkcs12file c) (cl_pvkfile c) (cl_pass c) (cl_comm c) (cl_desc c)
    (cl_md c) (cl_url c) (Some v) (cl_tsurl c) (cl_proxy c) (cl_jp c)
    (cl_version c).

Definition set_tsurl (c : cmdline) (v : string) : cmdline :=
  mkCmdline (cl_cmd c) (cl_infile c) (cl_outfile c) (cl_spcfile c) (cl_keyfile c)
    (cl_pkcs12file c) (cl_pvkfile c) (cl_pass c) (cl_comm c) (cl_desc c)
    (cl_md c) (cl_url c) (cl_turl c) (Some v) (cl_proxy c) (cl_jp c)
    (cl_version c).

Definition set_proxy (c : cmdline) (v : string) : cmdline :=
  mkCmdline (cl_cmd c) (cl_infile c) (cl_outfile c) (cl_spcfile c) (cl_keyfile c)
    (cl_pkcs12file c) (cl_pvkfile c) (cl_pass c) (cl_comm c) (cl_desc c)
    (cl_md c) (cl_url c) (cl_turl c) (cl_tsurl c) (Some v) (cl_jp c)
    (cl_version c).

Definition set_jp (c : cmdline) (jp : Z) : cmdline :=
  mkCmdline (cl_cmd c) (cl_infile c) (cl_outfile c) (cl_spcfile c) (cl_keyfile c)
    (cl_pkcs12file c) (cl_pvkfile c) (cl_pass c) (cl_comm c) (cl_desc c)
    (cl_md c) (cl_url c) (cl_turl c) (cl_tsurl c) (cl_proxy c) jp
    (cl_version c).

Definition print_version (c : cmdline) : cmdline :=
  mkCmdline (cl_cmd c) (cl_infile c) (cl_outfile c) (cl_spcfile c) (cl_keyfile c)
    (cl_pkcs12file c) (cl_pvkfile c) (cl_pass c) (cl_comm c) (cl_desc c)
    (cl_md c) (cl_url c) (cl_turl c) (cl_tsurl c) (cl_proxy c) (cl_jp c)
    (S (cl_version c)).

(** [tolower] in the C locale, which the program never leaves. *)
Definition tolower (a : ascii) : ascii :=
  let n := nat_of_ascii a in
  if (Nat.leb 65 n && Nat.leb n 90)%bool then ascii_of_nat (n + 32) else a.

Fixpoint lowercase (s : string) : string :=
  match s with
  | EmptyString => EmptyString
  | String a r => String (tolower a) (lowercase r)
  end.

(** What a word does in the loop over the options: it takes the next word as
    its value (and may refuse it), stands alone, or is no option, which ends
    the loop. *)
Inductive action : Set :=
| Take (set : string -> option cmdline)
| Flag (c : cmdline)
| Stop.

Definition option_action (c : cmdline) (a : string) : action :=
  let sign := cmd_eqb (cl_cmd c) CMD_SIGN in
  if (a =? "-in")%string then Take (fun v => Some (set_infile c v))
  else if (a =? "-out")%string then Take (fun v => Some (set_outfile c v))
  else if sign && (a =? "-spc")%string then Take (fun v => Some (set_spcfile c v))
  else if sign && (a =? "-key")%string then Take (fun v => Some (set_keyfile c v))
  else if sign && (a =? "-pkcs12")%string
  then Take (fun v => Some (set_pkcs12file c v))
  else if sign && (a =? "-pvk")%string then Take (fun v => Some (set_pvkfile c v))
  else if sign && (a =? "-pass")%string then Take (fun v => Some (set_pass c v))
  else if sign && (a =? "-comm")%string then Flag (set_comm c)
  else if sign && (a =? "-n")%string then Take (fun v => Some (set_desc c v))
  else if sign && (a =? "-h")%string
  then Take (fun v =>
               if (v =? "md5")%string then Some (set_md c EVP_md5)
               else if (v =? "sha1")%string then Some (set_md c EVP_sha1)
               else if (v =? "sha2")%string then Some (set_md c EVP_sha256)
               else None)
  else if sign && (a =? "-i")%string then Take (fun v => Some (set_url c v))
  else if sign && (a =? "-t")%string then Take (fun v => Some (set_turl c v))
  else if sign && (a =? "-ts")%string then Take (fun v => Some (set_tsurl c v))
  else if sign && (a =? "-p")%string then Take (fun v => Some (set_proxy c v))
  else if (a =? "-v")%string || (a =? "--version")%string
  then Flag (print_version c)
  else if (a =? "-jp")%string
  then Take (fun v =>
               let ap := lowercase v in
               let jp := if (ap =? "low")%string then 0
                         else if (ap =? "medium")%string then 1
                         else if (ap =? "high")%string then 2
                         else cl_jp c in
               if negb (jp =? 0) then None else Some (set_jp c jp))
  else Stop.

(** How the command line is left: with the variables set, or through
    [usage], after the message about an unknown option when there is one. *)
Inductive parsed (A : Type) : Type :=
| Parsed (a : A)
| Usage (unknown : option string).

Arguments Parsed {A} a.
Arguments Usage {A} unknown.

(** The loop over the options.  It gives the variables, [failarg] and the
    words left, the first of them [failarg] when the loop ended at it. *)
Fixpoint parse_options (argv : list string) (c : cmdline) :
  parsed (cmdline * option string * list string) :=
  match argv with
  | [] => Parsed (c, None, [])
  | a :: rest =>
      match option_action c a with
      | Take set =>
          match rest with
          | [] => Usage None
          | v :: rest' =>
              match set v with
              | Some c' => parse_options rest' c'
              | None => Usage None
              end
          end
      | Flag c' => parse_options rest c'
      | Stop => Parsed (c, Some a, argv)
      end
  end.

Definition is_some {A : Type} (o : option A) : bool :=
  match o with Some _ => true | None => false end.

(** The command, when [argv[1]] names one, and the words after it. *)
Definition command_word (args : list string) : cmd_type_t * list string :=
  match args with
  | a :: r =>
      if (a =? "sign")%string then (CMD_SIGN, r)
      else if (a =? "extract-signature")%string then (CMD_EXTRACT, r)
      else if (a =? "remove-signature")%string then (CMD_REMOVE, r)
      else if (a =? "verify")%string then (CMD_VERIFY, r)
      else (CMD_SIGN, args)
  | [] => (CMD_SIGN, args)
  end.

(** After the loop: the input and output files taken from the words left,
    and the check of what is set. *)
Definition after_options (c : cmdline) (failarg : option string)
  (rest : list string) : parsed cmdline :=
  let '(c, rest) :=
    match cl_infile c, rest with
    | None, a :: r => (set_infile c a, r)
    | _, _ => (c, rest)
    end in
  let '(c, rest) :=
    match rest with
    | a :: r =>
        if negb (cmd_eqb (cl_cmd c) CMD_VERIFY) && negb (is_some (cl_outfile c))
        then
          let rest := if (a =? "-out")%string then r else rest in
          match rest with
          | o :: r' => (set_outfile c o, r')
          | [] => (c, rest)
          end
        else (c, rest)
    | [] => (c, rest)
    end in
  if negb (Nat.eqb (List.length rest) 0)
     || (is_some (cl_turl c) && is_some (cl_tsurl c))
     || negb (is_some (cl_infile c))
     || (negb (cmd_eqb (cl_cmd c) CMD_VERIFY) && negb (is_some (cl_outfile c)))
     || (cmd_eqb (cl_cmd c) CMD_SIGN &&
         negb ((is_some (cl_spcfile c) && is_some (cl_keyfile c))
               || is_some (cl_pkcs12file c)
               || (is_some (cl_spcfile c) && is_some (cl_pvkfile c))))
  then Usage failarg
  else Parsed c.

(** [argv], with [argv[0]] at its head. *)
Definition parse_command_line (argv : list string) : parsed cmdline :=
  let '(cmd, args) := command_word (tl argv) in
  match parse_options args (cmdline_init cmd) with
  | Usage u => Usage u
  | Parsed (c, failarg, rest) => after_options c failarg rest
  end.

(* ================================================================== *)
(** ** The signing material

    [main] from [if (cmd == CMD_SIGN)] after the command line to the end of
    the reading of the credentials.  The files and OpenSSL's readers of
    PKCS#12, PVK and private-key files are an interface; a reader of a key
    takes the BIO where it stands and leaves it further on. *)
Class KeyFiles : Type := {
  PKCS12 : Set;
  BIO_new_file : string -> option BIO_file;
  d2i_PKCS12_bio : BIO_file -> option PKCS12;
  (** [PKCS12_parse]: [pkey], [cert] and [ca], each of which may stay NULL *)
  PKCS12_parse :
    PKCS12 -> string -> option (option EVP_PKEY * option X509 * list X509);
  d2i_PKCS7_bio : BIO_file -> option PKCS7;
  (** [b2i_PVK_bio(bio, NULL, u)] *)
  b2i_PVK_bio : BIO_file -> option string -> option EVP_PKEY * BIO_file;
  d2i_PrivateKey_bio : BIO_file -> option EVP_PKEY * BIO_file;
  (** [PEM_read_bio_PrivateKey(bio, NULL, NULL, u)] *)
  PEM_read_bio_PrivateKey : BIO_file -> option string -> option EVP_PKEY * BIO_file
}.

Inductive cred_error : Set :=
| E_read_pkcs12 (file : string)    (* Failed to read PKCS#12 file *)
| E_parse_pkcs12 (file : string)   (* Failed to parse PKCS#12 file *)
| E_read_spc (file : string)       (* Failed to read DER-encoded spc file *)
| E_read_pvk (file : string)       (* Failed to read PVK file *)
| E_read_key (file : string).      (* Failed to read private key file *)

(** The credentials are read, or the program leaves with a message, or it
    does what the model does not track: it opens a file whose name is NULL,
    or takes the certificates of a PKCS#7 that is not SignedData. *)
Inductive loaded (A : Type) : Type :=
| Loaded (a : A)
| Failed (e : cred_error)
| Untracked.

Arguments Loaded {A} a.
Arguments Failed {A} e.
Arguments Untracked {A}.

(** [cert], [certs] and [pkey] as the reading leaves them; NULL is [None]
    for [cert] and [pkey], and for [certs] the empty stack ([sk_X509_num]
    gives -1 for NULL and the loops over [certs] do nothing then). *)
Definition credentials : Set := (option X509 * list X509 * option EVP_PKEY)%type.

Section WithKeyFiles.

Context {kf : KeyFiles}.

(** The SPC file: [p7], read and kept. *)
Definition read_spc (spcfile : string) : loaded PKCS7 :=
  match BIO_new_file spcfile with
  | None => Failed (E_read_spc spcfile)
  | Some btmp =>
      match d2i_PKCS7_bio btmp with
      | None => Failed (E_read_spc spcfile)
      | Some p7 => Loaded p7
      end
  end.

Definition load_credentials (c : cmdline) : loaded credentials :=
  match cl_pkcs12file c with
  | Some pkcs12file =>
      match BIO_new_file pkcs12file with
      | None => Failed (E_read_pkcs12 pkcs12file)
      | Some btmp =>
          match d2i_PKCS12_bio btmp with
          | None => Failed (E_read_pkcs12 pkcs12file)
          | Some p12 =>
              match PKCS12_parse p12 (cl_pass c) with
              | None => Failed (E_parse_pkcs12 pkcs12file)
              | Some (pkey, cert, certs) => Loaded (cert, certs, pkey)
              end
          end
      end
  | None =>
      match cl_pvkfile c with
      | Some pvkfile =>
          match cl_spcfile c with
          | None => Untracked
          | Some spcfile =>
              match read_spc spcfile with
              | Loaded _ =>
                  match BIO_new_file pvkfile with
                  | None => Failed (E_read_pvk pvkfile)
                  | Some btmp =>
                      match b2i_PVK_bio btmp None with
                      | (Some pkey, _) => Loaded (None, [], Some pkey)
                      | (None, btmp) =>
                          match b2i_PVK_bio btmp (Some (cl_pass c)) with
                          | (Some pkey, _) => Loaded (None, [], Some pkey)
                          | (None, _) => Failed (E_read_pvk pvkfile)
                          end
                      end
                  end
              | Failed e => Failed e
              | Untracked => Untracked
              end
          end
      | None =>
          match cl_spcfile c with
          | None => Untracked
          | Some spcfile =>
              match read_spc spcfile with
              | Loaded p7 =>
                  match cl_keyfile c with
                  | None => Untracked
                  | Some keyfile =>
                      let failed := Failed (E_read_key keyfile) in
                      match BIO_new_file keyfile with
                      | None => failed
                      | Some btmp =>
                          (* certs = p7->d.sign->cert *)
                          let done (pkey : EVP_PKEY) :=
                            if type_is_signed p7
                            then Loaded (None, cert p7, Some pkey)
                            else Untracked in
                          match d2i_PrivateKey_bio btmp with
                          | (Some pkey, _) => done pkey
                          | (None, btmp) =>
                              match PEM_read_bio_PrivateKey btmp (Some (cl_pass c)) with
                              | (Some pkey, _) => done pkey
                              | (None, btmp) =>
                                  match PEM_read_bio_PrivateKey btmp None with
                                  | (Some pkey, _) => done pkey
                                  | (None, _) => failed
                                  end
                              end
                          end
                      end
                  end
              | Failed e => Failed e
              | Untracked => Untracked
              end
          end
      end
  end.

End WithKeyFiles.

(* ================================================================== *)
(** ** Printing a digest *)

(** A digit of [%02X]. *)
Definition hex_digit (n : Z) : ascii :=
  ascii_of_nat (Z.to_nat (if n <? 10 then 48 + n else 55 + n)).

(** [tohex(v, b, len)], on the [len] octets it reads from [v]: where [b] ends
    up, without the NUL that closes it. *)
Fixpoint tohex (v : list byte) : string :=
  match v with
  | [] => EmptyString
  | x :: r =>
      String (hex_digit (u8 x / 16)) (String (hex_digit (u8 x mod 16)) (tohex r))
  end.

(* ================================================================== *)
(** ** A test double of the libraries, and sample files

    Small stand-ins for OpenSSL and libcurl on which the model can run: a
    digest that folds the octets, encoders that write a tag and a length in
    front of what they encode, and a PKCS#7 whose encrypted digest is the
    digest of the content.  The sample files are the smallest PE and CAB
    files the program accepts. *)

Module Sample.

Definition fold_digest (data : list byte) : Z :=
  fold_left (fun acc b => (acc * 31 + u8 b + 1) mod 2 ^ 32) data 7.

Definition md_size (md : EVP_MD) : Z :=
  match md with
  | EVP_md5 => 16
  | EVP_sha1 => 20
  | EVP_sha256 => 32
  | EVP_md_other _ => 0
  end.

Definition digest (md : EVP_MD) (data : list byte) : list byte :=
  let w := PUT_UINT32_LE (fold_digest data) in
  firstn (Z.to_nat (md_size md)) (w ++ w ++ w ++ w ++ w ++ w ++ w ++ w).

Definition digestbynid (nid : ASN1_OBJECT) : option EVP_MD :=
  if String.eqb nid (EVP_MD_nid EVP_md5) then Some EVP_md5
  else if String.eqb nid (EVP_MD_nid EVP_sha1) then Some EVP_sha1
  else if String.eqb nid (EVP_MD_nid EVP_sha256) then Some EVP_sha256
  else None.

Definition tlv (tag : Z) (v : list byte) : list byte :=
  to_u8 tag :: to_u8 (len v) :: v.

(** The value behind a tag and a length, with what follows it. *)
Definition untlv (tag : Z) (p : list byte) : option (list byte * list byte) :=
  match p with
  | t :: n :: r =>
      if (u8 t =? tag) && (u8 n <=? len r)
      then Some (firstn (Z.to_nat (u8 n)) r, skipn (Z.to_nat (u8 n)) r)
      else None
  | _ => None
  end.

Definition md_tag (nid : ASN1_OBJECT) : Z :=
  match digestbynid nid with
  | Some EVP_md5 => 1
  | Some EVP_sha1 => 2
  | Some EVP_sha256 => 3
  | _ => 0
  end.

Definition md_of_tag (t : Z) : ASN1_OBJECT :=
  if t =? 1 then EVP_MD_nid EVP_md5
  else if t =? 2 then EVP_MD_nid EVP_sha1
  else if t =? 3 then EVP_MD_nid EVP_sha256
  else "0.0".

Definition encode_idc (idc : SpcIndirectDataContent) : list byte :=
  tlv 0x30 (tlv 0x06 (bytes_of_string (satv_type (idc_data idc))) ++
            [to_u8 (md_tag (idc_digestAlgorithm idc))] ++
            tlv 0x04 (idc_digest idc)).

Definition string_of_bytes (l : list byte) : string :=
  string_of_list_ascii (List.map Ascii.ascii_of_byte l).

Definition decode_idc (p : list byte) : option SpcIndirectDataContent :=
  match untlv 0x30 p with
  | Some (body, _) =>
      match untlv 0x06 body with
      | Some (oid, t :: r) =>
          match untlv 0x04 r with
          | Some (d, _) =>
              Some (mkIdc (mkSatv (string_of_bytes oid) (Some (V_ASN1_SEQUENCE [])))
                          (md_of_tag (u8 t)) d)
          | None => None
          end
      | _ => None
      end
  | None => None
  end.

Definition contents_bytes (sig : PKCS7) : list byte :=
  match contents_other sig with
  | Some (V_ASN1_SEQUENCE b) => b
  | _ => []
  end.

Definition first_enc_digest (sig : PKCS7) : list byte :=
  match signer_info sig with
  | si :: _ => enc_digest si
  | [] => []
  end.

Definition first_md (sig : PKCS7) : EVP_MD :=
  match signer_info sig with
  | si :: _ => si_md si
  | [] => EVP_sha1
  end.

Definition encode_pkcs7 (sig : PKCS7) : list byte :=
  tlv 0x30 (to_u8 (md_tag (EVP_MD_nid (first_md sig))) ::
            tlv 0x04 (first_enc_digest sig) ++ tlv 0x30 (contents_bytes sig)).

Definition signer : X509 := mkX509 "CN=signer" "CN=issuer".

Definition decode_pkcs7 (p : list byte) : option PKCS7 :=
  match untlv 0x30 p with
  | Some (t :: body, _) =>
      match digestbynid (md_of_tag (u8 t)), untlv 0x04 body with
      | Some md, Some (enc, r) =>
          match untlv 0x30 r with
          | Some (c, _) =>
              Some (mkPKCS7 true [signer]
                            [mkSI signer [] md [] [] enc]
                            SPC_INDIRECT_DATA_OBJID
                            (Some (V_ASN1_SEQUENCE c)))
          | None => None
          end
      | _, _ => None
      end
  | _ => None
  end.

Definition dataFinal (sig : PKCS7) (content : list byte) : option PKCS7 :=
  match signer_info sig with
  | si :: r =>
      Some (set_signer_info sig
              (mkSI (si_cert si) (si_pkey si) (si_md si) (auth_attr si)
                    (unauth_attr si) (digest (si_md si) content) :: r))
  | [] => None
  end.

Definition verify (p7 : PKCS7) (content : list byte) : bool :=
  match signer_info p7 with
  | si :: _ => bytes_eqb (enc_digest si) (digest (si_md si) content)
  | [] => false
  end.

(** The token of the sample time-stamping service. *)
Definition tsa : X509 := mkX509 "CN=tsa" "CN=tsa root".

Definition token : PKCS7 :=
  mkPKCS7 true [tsa] [mkSI tsa [] EVP_sha1 [] [] (bytes [1; 2; 3])]
          NID_pkcs7_data None.

#[export] Instance openssl : OpenSSL := {
  EVP_MD_size := md_size;
  EVP_Digest := digest;
  EVP_get_digestbynid := digestbynid;
  i2d_SpcLink := fun _ => tlv 0xA2 [];
  i2d_SpcPeImageData := fun _ => tlv 0x30 [];
  i2d_SpcSipinfo := fun _ => tlv 0x30 [];
  i2d_SpcSpOpusInfo := fun _ => tlv 0x30 [];
  i2d_SpcIndirectDataContent := encode_idc;
  d2i_SpcIndirectDataContent := decode_idc;
  d2i_SpcPeImageData := fun _ => None;
  d2i_SpcAttributeTypeAndOptionalValue := fun _ => None;
  i2d_PKCS7 := encode_pkcs7;
  d2i_PKCS7 := decode_pkcs7;
  i2d_PKCS7_SIGNER_INFO := fun si => tlv 0x30 (enc_digest si);
  i2d_TimeStampRequest := fun r => tlv 0x30 (tsr_blob_signature r);
  i2d_TimeStampReq := fun r => tlv 0x30 (tsq_digest r);
  d2i_TimeStampResp := fun _ => Some (mkTSResp 0 (Some token));
  base64_encode := fun p => p;
  base64_decode := fun _ p => p;
  PKCS7_SIGNER_INFO_new := fun c k md => Some (mkSI c k md [] [] []);
  PKCS7_dataInit := fun _ => true;
  PKCS7_dataFinal := dataFinal;
  PKCS7_verify := verify;
  PKCS7_get0_signers := fun p7 => List.map si_cert (signer_info p7)
}.

#[export] Instance libcurl : Curl := {
  curl_easy_perform := fun _ => (0, tlv 0x30 [])
}.

(** Octets [data] stored at [off] of an image. *)
Definition poke (img : list byte) (off : Z) (data : list byte) : list byte :=
  file_data (file_write (mkFile img off) data).

(** A PE32 image of [n] octets: MZ, the PE header at 64, sixteen data
    directories, no certificate table. *)
Definition pe32 (n : Z) : list byte :=
  let img := zeros n in
  let img := poke img 0 (bytes_of_string "MZ") in
  let img := poke img 60 (PUT_UINT32_LE 64) in
  let img := poke img 64 PE_signature in
  let img := poke img (64 + 24) (PUT_UINT16_LE 0x10b) in
  let img := poke img (64 + 116) (PUT_UINT32_LE 16) in
  poke img 230 (bytes [0xAA; 0xBB]).

(** The same image with a certificate table of [siglen] octets appended: one
    [WIN_CERTIFICATE] record whose payload is [payload]. *)
Definition pe32_signed (n : Z) (payload : list byte) : list byte :=
  let table := PUT_UINT32_LE (8 + len payload) ++
               PUT_UINT16_LE WIN_CERT_REVISION_2 ++
               PUT_UINT16_LE WIN_CERT_TYPE_PKCS_SIGNED_DATA ++ payload in
  let img := pe32 n ++ table in
  let img := poke img (64 + 152) (PUT_UINT32_LE n) in
  poke img (64 + 156) (PUT_UINT32_LE (len table)).

(** A cabinet with one folder: header of 36 octets, one folder entry, data. *)
Definition cab : list byte :=
  let img := zeros 60 in
  let img := poke img 0 (bytes_of_string "MSCF") in
  let img := poke img 8 (PUT_UINT32_LE 60) in
  let img := poke img 16 (PUT_UINT32_LE 44) in
  let img := poke img 26 (PUT_UINT16_LE 1) in
  let img := poke img 36 (PUT_UINT32_LE 44) in
  poke img 44 (bytes [1; 2; 3; 4; 5; 6; 7; 8; 9; 10; 11; 12; 13; 14; 15; 16]).

Definition opts (md : EVP_MD) : options :=
  mkOptions md false None None (-1) None None None (Some signer) [] [].

(** The program on these libraries, on a platform whose [char] is signed,
    built without libgsf. *)
Definition run : nat -> cmd_type_t -> options -> list byte -> res finished :=
  @main openssl libcurl true None.

(** The sample image as [sign] leaves it with the digest [md]. *)
Definition signed_pe (md : EVP_MD) : list byte :=
  match run 1 CMD_SIGN (opts md) (pe32 234) with
  | Ok f => match outfile f with Some q => q | None => [] end
  | _ => []
  end.

End Sample.

(* ================================================================== *)
(** ** More test doubles and sample files *)

Module Fixtures.

(** The key files: every file opens but the one named [missing], a file
    holds the octets of its name, and every reader accepts what it is
    given. *)
Definition keyfiles : KeyFiles :=
  {| PKCS12 := list byte;
     BIO_new_file := fun name =>
       if String.eqb name "missing" then None
       else Some (mkFile (bytes_of_string name) 0);
     d2i_PKCS12_bio := fun b => Some (file_data b);
     PKCS12_parse := fun p12 _ => Some (Some p12, Some Sample.signer, []);
     d2i_PKCS7_bio := fun _ =>
       Some (mkPKCS7 true [Sample.signer] [] NID_pkcs7_data None);
     b2i_PVK_bio := fun b _ => (Some (file_data b), b);
     d2i_PrivateKey_bio := fun b => (Some (file_data b), b);
     PEM_read_bio_PrivateKey := fun b _ => (Some (file_data b), b) |}.

(** [sign -spc cert.spc -pvk key.pvk] *)
Definition pvk_line : cmdline :=
  set_pvkfile (set_spcfile (cmdline_init CMD_SIGN) "cert.spc") "key.pvk".

(** A timestamp server of the legacy kind: it answers every request with
    the encoding of [Sample.token]. *)
Definition legacy_tsa : Curl :=
  {| curl_easy_perform := fun _ => (0, Sample.encode_pkcs7 Sample.token) |}.

(** A signature with one signer, as [sign] has it before the timestamp. *)
Definition one_signer : PKCS7 :=
  mkPKCS7 true [Sample.signer]
          [mkSI Sample.signer [] EVP_sha1 [] [] (bytes [9; 8; 7])]
          SPC_INDIRECT_DATA_OBJID (Some (V_ASN1_SEQUENCE [])).

(** [sign -ts http://tsa.example/rfc3161] with the sample certificate. *)
Definition opts_ts : options :=
  mkOptions EVP_sha1 false None None (-1) None
            (Some "http://tsa.example/rfc3161") None
            (Some Sample.signer) [] [].


(** [sign -comm -n "My program" -jp low] with the sample certificate. *)
Definition opts_cab_comm : options :=
  mkOptions EVP_sha1 true (Some "My program") None 0 None None None
            (Some Sample.signer) [] [].

(** A signed sample image whose certificate table is one record of length
    zero and of another revision. *)
Definition empty_record_image : list byte :=
  Sample.poke (Sample.pe32_signed 232 (bytes [1; 2; 3; 4; 5; 6; 7; 8])) 232
              (PUT_UINT32_LE 0 ++ PUT_UINT16_LE 0x100).

(** A cabinet with 128 folder entries: the header, the entries from 36 to
    1060, and forty octets of data. *)
Definition cab_128_folders : list byte :=
  let img := zeros 1100 in
  let img := Sample.poke img 0 (bytes_of_string "MSCF") in
  Sample.poke img 26 (PUT_UINT16_LE 0x80).

(** libgsf: every file is the compound document of three streams, the
    second of them a signature, and a document is written as its streams one
    after the other. *)
Definition gsf : Gsf :=
  {| gsf_infile_msole_new := fun _ =>
       Some (mkGsfInfile (zeros 16)
               [mkGsfInput (bytes_of_string "b") (bytes [1]);
                mkGsfInput DigitalSignature (bytes [9]);
                mkGsfInput (bytes_of_string "a") (bytes [2])]);
     gsf_outfile_msole := fun out =>
       List.concat (List.map (fun c => gsf_input_name c ++ gsf_input_data c)
                             (gsf_children out)) |}.

Definition msi : list byte := msi_signature ++ zeros 8.

(** The sample image as a PE32+ file of 234 octets: the certificate-table
    entry of such a file ends at 64 + 176. *)
Definition pe32plus_short : list byte :=
  let img := Sample.poke (Sample.pe32 234) (64 + 24) (PUT_UINT16_LE 0x20b) in
  Sample.poke img (64 + 132) (PUT_UINT32_LE 16).

(** A DOS file of 200 octets that gives 0xfffffff0 as the offset of its PE
    header. *)
Definition pe_far_header : list byte :=
  let img := zeros 200 in
  let img := Sample.poke img 0 (bytes_of_string "MZ") in
  Sample.poke img 60 (PUT_UINT32_LE 0xfffffff0).

(** The sample image, of 248 octets, with the certificate-table entry
    (264, 0xfffffff0): position and length add up to 248 in 32 bits. *)
Definition pe_wrapped_table : list byte :=
  let img := Sample.poke (Sample.pe32 248) (64 + 152) (PUT_UINT32_LE 264) in
  Sample.poke img (64 + 156) (PUT_UINT32_LE 0xfffffff0).

End Fixtures.

(* ================================================================== *)
(** ** Vocabulary of the statements

    What the lemmas below use to speak of the program: the parts of a file,
    the state of the output, and the wording of the specification where a
    statement is compared with it. *)

(** The value of four octets read as a little-endian field. *)
Definition le32 (b0 b1 b2 b3 : byte) : Z :=
  u8 b0 + u8 b1 * 2 ^ 8 + u8 b2 * 2 ^ 16 + u8 b3 * 2 ^ 24.

(** The claim's words for what extract-signature writes: the payload of the
    [WIN_CERTIFICATE] record at [sigpos], its 8-byte header left out. *)
Definition claimed_extract_output (indata : list byte) (sigpos siglen : Z) :
  option (list byte) :=
  slice indata (sigpos + 8) (siglen - 8).

(** The state of the output while everything written so far was appended:
    the file holds [d], positioned at its end, and [h] was digested. *)
Definition io_at (d h : list byte) : io := mkIo (mkFile d (len d)) h.

(** The offset behind the certificate-table entry of the optional header,
    [peheader + 88 + 4 + 60 + pe32plus*16 + 8]. *)
Definition pe_tail_start (peheader pe32plus : Z) : Z :=
  peheader + 160 + 16 * pe32plus.

(** The comparator as the claim words it: the names converted to UTF-16LE,
    [memcmp] over the octets of the shorter encoding, the longer name greater
    on a tie. *)
Definition claimed_msi_cmp (a b : list byte) : option Z :=
  match utf8_to_utf16 a, utf8_to_utf16 b with
  | Some pa, Some pb =>
      let diff := memcmp pa pb (Nat.min (Datatypes.length pa) (Datatypes.length pb)) in
      if diff =? 0 then Some (if len pb <? len pa then 1 else -1) else Some diff
  | _, _ => None
  end.

(** The names of two streams that installers carry side by side. *)
Definition SummaryInformation : list byte :=
  to_u8 5 :: bytes_of_string "SummaryInformation".

Definition DocumentSummaryInformation : list byte :=
  to_u8 5 :: bytes_of_string "DocumentSummaryInformation".

(** A search for [pat] in [l]. *)
Fixpoint occurs (pat l : list byte) : bool :=
  bytes_eqb pat (firstn (Datatypes.length pat) l) ||
  match l with
  | [] => false
  | _ :: r => occurs pat r
  end.

(** The claim's words: the digest input holds the 20 octets of the
    [cabsigned] area, which start with the reserve sizes
    14 00 00 00 00 00 10 00. *)
Definition claimed_cab_template_in (digested : list byte) : Prop :=
  exists pre template post,
    digested = pre ++ template ++ post /\
    len template = 20 /\
    firstn 8 template = firstn 8 cabsigned.

(** The claim's words for the stream that [sign] digests: the three ranges
    of the file, then zero octets that pad that stream to an 8-byte boundary,
    none when it is aligned already. *)
Definition claimed_digest_stream (A B C : list byte) : list byte :=
  let stream := A ++ B ++ C in
  stream ++ zeros (8 * ((len stream + 7) / 8) - len stream).

(** The image [sign] leaves for a PE file: [A], [B], [C] are the three parts
    of the input it copies, [fileend] the end of the input without its
    certificate table, [p] the DER of the signature. *)
Definition signed_image (peheader : Z) (A B C : list byte) (fileend : Z)
  (p : list byte) : list byte :=
  let R := B ++
           PUT_UINT32_LE (fileend + padlen_of fileend) ++
           PUT_UINT32_LE (uint32 (len p + 8 + padlen_of (len p))) ++
           C ++ zeros (padlen_of fileend) ++ win_certificate p in
  A ++ PUT_UINT32_LE (calc_pe_checksum (A ++ zeros 4 ++ R) peheader) ++ R.


(* ================================================================== *)
(** ** More vocabulary of the statements *)

(** The image that remove-signature leaves of an image whose parts before
    [fileend] are [A], the checksum, [B], the certificate-table entry and
    [C]. *)
Definition stripped_image (peheader : Z) (A B C : list byte) (fileend : Z) :
  list byte :=
  let R := B ++ zeros 8 ++ C ++ zeros (padlen_of fileend) in
  A ++ PUT_UINT32_LE (calc_pe_checksum (A ++ zeros 4 ++ R) peheader) ++ R.

(** The word that names a command. *)
Definition command_name (cmd : cmd_type_t) : string :=
  match cmd with
  | CMD_SIGN => "sign"
  | CMD_EXTRACT => "extract-signature"
  | CMD_REMOVE => "remove-signature"
  | CMD_VERIFY => "verify"
  end.

(** The options of [sign] that the command line and the credentials give. *)
Definition sign_options (c : cmdline) (cert : option X509) (certs : list X509)
  (pkey : EVP_PKEY) : options :=
  mkOptions (cl_md c) (cl_comm c) (cl_desc c) (cl_url c) (cl_jp c)
            (cl_turl c) (cl_tsurl c) (cl_proxy c) cert certs pkey.

(** The settings that only [sign] has, at their initial values. *)
Definition sign_settings_initial (c : cmdline) : Prop :=
  cl_spcfile c = None /\ cl_keyfile c = None /\ cl_pkcs12file c = None /\
  cl_pvkfile c = None /\ cl_pass c = EmptyString /\ cl_comm c = false /\
  cl_desc c = None /\ cl_md c = EVP_sha1 /\ cl_url c = None /\
  cl_turl c = None /\ cl_tsurl c = None /\ cl_proxy c = None.

(** What the loop over the options keeps. *)
Definition cmdline_invariant (cmd : cmd_type_t) (c : cmdline) : Prop :=
  cl_cmd c = cmd /\
  (cl_jp c = -1 \/ cl_jp c = 0) /\
  (cl_md c = EVP_md5 \/ cl_md c = EVP_sha1 \/ cl_md c = EVP_sha256) /\
  (cmd <> CMD_SIGN -> sign_settings_initial c).

(** Whether [msi_decode] turns the name of a stream into the name of the
    signature stream. *)
Definition is_signature_stream (c : GsfInput) : bool :=
  match msi_decode (gsf_input_name c) with
  | Ok d => bytes_eqb d DigitalSignature
  | _ => false
  end.

(** The value of a digit that [tohex] writes. *)
Definition hex_value (a : ascii) : Z :=
  let n := Z.of_nat (nat_of_ascii a) in
  if n <? 58 then n - 48 else n - 55.

(* ================================================================== *)
(** ** Facts about bytes and slices *)

Lemma u8_range (b : byte) : 0 <= u8 b < 256.
Proof.
  unfold u8. pose proof (Byte.to_N_bounded b). lia.
Qed.

Lemma u8_to_u8 (z : Z) : u8 (to_u8 z) = z mod 256.
Proof.
  unfold u8, to_u8.
  assert (Hz : 0 <= z mod 256 < 256) by (apply Z.mod_pos_bound; lia).
  destruct (Byte.of_N (Z.to_N (z mod 256))) as [b|] eqn:E.
  - apply Byte.to_of_N in E. rewrite E. lia.
  - apply Byte.of_N_None_iff in E. lia.
Qed.

Lemma to_u8_u8 (b : byte) : to_u8 (u8 b) = b.
Proof.
  unfold to_u8, u8.
  pose proof (Byte.to_N_bounded b) as Hb.
  rewrite Z.mod_small by lia.
  rewrite N2Z.id, Byte.of_to_N. reflexivity.
Qed.

Lemma len_app (a b : list byte) : len (a ++ b) = len a + len b.
Proof. unfold len. rewrite length_app. lia. Qed.

Lemma len_nonneg (a : list byte) : 0 <= len a.
Proof. unfold len. lia. Qed.

Lemma len_zeros (n : Z) : 0 <= n -> len (zeros n) = n.
Proof. intros. unfold len, zeros. rewrite repeat_length. lia. Qed.

Lemma len_firstn (n : Z) (l : list byte) :
  0 <= n <= len l -> len (firstn (Z.to_nat n) l) = n.
Proof. unfold len. intros. rewrite length_firstn. lia. Qed.

Lemma len_skipn (n : Z) (l : list byte) :
  0 <= n <= len l -> len (skipn (Z.to_nat n) l) = len l - n.
Proof. unfold len. intros. rewrite length_skipn. lia. Qed.

Lemma slice_Some (p : list byte) (off n : Z) (s : list byte) :
  slice p off n = Some s ->
  0 <= off /\ 0 <= n /\ off + n <= len p /\
  s = firstn (Z.to_nat n) (skipn (Z.to_nat off) p) /\ len s = n.
Proof.
  unfold slice. intros H.
  destruct (0 <=? off) eqn:E1; [|discriminate].
  destruct (0 <=? n) eqn:E2; [|discriminate].
  destruct (off + n <=? len p) eqn:E3; [|discriminate].
  simpl in H. inversion H; subst; clear H.
  apply Z.leb_le in E1, E2, E3.
  repeat split; try assumption.
  unfold len in *. rewrite length_firstn, length_skipn. lia.
Qed.

Lemma slice_ok (p : list byte) (off n : Z) :
  0 <= off -> 0 <= n -> off + n <= len p ->
  slice p off n = Some (firstn (Z.to_nat n) (skipn (Z.to_nat off) p)).
Proof.
  intros H1 H2 H3. unfold slice.
  apply Z.leb_le in H1, H2, H3. rewrite H1, H2, H3. reflexivity.
Qed.

Lemma slice_len (p : list byte) (off n : Z) (s : list byte) :
  slice p off n = Some s -> len s = n.
Proof. intros H. apply slice_Some in H. tauto. Qed.

(** A read inside the left part of a concatenation does not see the right. *)
Lemma slice_app_l (a b : list byte) (off n : Z) :
  off + n <= len a -> slice (a ++ b) off n = slice a off n.
Proof.
  intros H. unfold slice. rewrite len_app.
  destruct (0 <=? off) eqn:E1; [|reflexivity].
  destruct (0 <=? n) eqn:E2; [|reflexivity].
  apply Z.leb_le in E1, E2. pose proof (len_nonneg b).
  replace (off + n <=? len a + len b) with true by (symmetry; apply Z.leb_le; lia).
  replace (off + n <=? len a) with true by (symmetry; apply Z.leb_le; lia).
  simpl. f_equal.
  rewrite skipn_app, firstn_app.
  replace (Z.to_nat n - Datatypes.length (skipn (Z.to_nat off) a))%nat with 0%nat
    by (rewrite length_skipn; unfold len in *; lia).
  simpl. rewrite app_nil_r. reflexivity.
Qed.

(** A read past the left part is a read of the right part. *)
Lemma slice_app_r (a b : list byte) (off n : Z) :
  len a <= off -> slice (a ++ b) off n = slice b (off - len a) n.
Proof.
  intros H. unfold slice. rewrite len_app. pose proof (len_nonneg a).
  replace (0 <=? off) with true by (symmetry; apply Z.leb_le; lia).
  replace (0 <=? off - len a) with true by (symmetry; apply Z.leb_le; lia).
  replace (off - len a + n <=? len b) with (off + n <=? len a + len b).
  2:{ destruct (off + n <=? len a + len b) eqn:E; symmetry.
      - apply Z.leb_le in E. apply Z.leb_le. lia.
      - apply Z.leb_gt in E. apply Z.leb_gt. lia. }
  destruct ((true && (0 <=? n)) && (off + n <=? len a + len b)); [|reflexivity].
  f_equal. rewrite skipn_app.
  rewrite skipn_all2 by (unfold len in *; lia). simpl.
  replace (Z.to_nat off - Datatypes.length a)%nat with (Z.to_nat (off - len a))
    by (unfold len in *; lia).
  reflexivity.
Qed.

(** The whole of the left part. *)
Lemma slice_app_exact (a b : list byte) :
  slice (a ++ b) 0 (len a) = Some a.
Proof.
  rewrite slice_app_l by lia.
  rewrite slice_ok by (pose proof (len_nonneg a); lia).
  simpl. unfold len. rewrite Nat2Z.id, firstn_all. reflexivity.
Qed.

(** A slice of a slice. *)
Lemma slice_slice (p s : list byte) (off n off' n' : Z) :
  slice p off n = Some s ->
  0 <= off' -> 0 <= n' -> off' + n' <= n ->
  slice s off' n' = slice p (off + off') n'.
Proof.
  intros H H1 H2 H3. apply slice_Some in H.
  destruct H as (Ha & Hb & Hc & -> & Hl).
  rewrite (slice_ok p (off + off') n') by lia.
  rewrite slice_ok by lia.
  f_equal. rewrite skipn_firstn_comm, firstn_firstn, skipn_skipn.
  f_equal; [lia|]. f_equal. lia.
Qed.

(* ================================================================== *)
(** ** Commands other than [sign] on CAB and MSI files *)

Lemma file_type_len (indata : list byte) (t : file_type_t) :
  file_type indata = Ok t -> 4 <= len indata.
Proof.
  unfold file_type. intros H.
  destruct (slice indata 0 4) as [m|] eqn:E; [|discriminate].
  apply slice_Some in E. lia.
Qed.

Lemma main_non_pe `{OpenSSL} `{Curl} (cs : bool) (gsf : option Gsf)
  (fuel : nat) (cmd : cmd_type_t) (o : options) (indata : list byte)
  (t : file_type_t) :
  cmd <> CMD_SIGN -> t <> FILE_TYPE_PE -> file_type indata = Ok t ->
  main cs gsf fuel cmd o indata = Exit E_non_pe.
Proof.
  intros Hc Ht Hf. unfold main.
  pose proof (file_type_len _ _ Hf) as Hl.
  apply Z.leb_le in Hl. rewrite Hl, Hf. simpl.
  destruct cmd, t; try contradiction; reflexivity.
Qed.

(** C9: for a file whose first octets make it a CAB or an MSI file, each of
    extract-signature, remove-signature and verify leaves through
    [err_cleanup] with "Command is not supported for non-PE files": the
    process returns -1 and no output file remains. *)
Theorem non_pe_commands_refused `{OpenSSL} `{Curl} (cs : bool)
  (gsf : option Gsf) (fuel : nat) (cmd : cmd_type_t) (o : options)
  (indata : list byte) :
  cmd = CMD_EXTRACT \/ cmd = CMD_REMOVE \/ cmd = CMD_VERIFY ->
  file_type indata = Ok FILE_TYPE_CAB \/ file_type indata = Ok FILE_TYPE_MSI ->
  main cs gsf fuel cmd o indata = Exit E_non_pe /\
  exit_status (main cs gsf fuel cmd o indata) = Some (Ret (-1)) /\
  output_artifact (main cs gsf fuel cmd o indata) = None.
Proof.
  intros Hc Ht.
  assert (Hm : main cs gsf fuel cmd o indata = Exit E_non_pe).
  { destruct Ht as [Ht|Ht];
      (eapply main_non_pe; [| |exact Ht]; [|discriminate]);
      intros ->; destruct Hc as [Hc|[Hc|Hc]]; discriminate. }
  rewrite Hm. repeat split.
Qed.

Lemma non_pe_commands_refused_witness :
  file_type Sample.cab = Ok FILE_TYPE_CAB /\
  Sample.run 0 CMD_VERIFY (Sample.opts EVP_sha1) Sample.cab = Exit E_non_pe /\
  exit_status (Sample.run 0 CMD_VERIFY (Sample.opts EVP_sha1) Sample.cab)
    = Some (Ret (-1)) /\
  output_artifact (Sample.run 0 CMD_VERIFY (Sample.opts EVP_sha1) Sample.cab)
    = None.
Proof.
  split; [reflexivity|].
  apply (@non_pe_commands_refused Sample.openssl Sample.libcurl true None 0
           CMD_VERIFY (Sample.opts EVP_sha1) Sample.cab).
  - right; right; reflexivity.
  - left; reflexivity.
Defined.

(* ================================================================== *)
(** ** The checksum comparison of [verify_pe_file] *)

Ltac inv_res H :=
  unfold bind, mapped, check in H;
  repeat match type of H with
         | context [match ?x with _ => _ end] =>
             destruct x eqn:?; cbn beta iota in H; try discriminate H
         end.

Lemma checksum_ret_spec (pe real : Z) :
  (checksum_ret pe real = 1 /\ pe <> 0 /\ pe <> real) \/
  (checksum_ret pe real = 0 /\ (pe = 0 \/ pe = real)).
Proof.
  unfold checksum_ret.
  destruct (Z.eqb_spec pe 0); destruct (Z.eqb_spec pe real); simpl; lia.
Qed.

(** Every run of [verify_pe_file] that returns prints the stored checksum,
    then the recomputed one with the mismatch mark set from [checksum_ret],
    and no other checksum line. *)
Lemma verify_pe_file_log `{OpenSSL} (fuel : nat) (indata : list byte)
  (peheader pe32plus sigpos siglen : Z) (r : retval) (log : list msg) :
  verify_pe_file fuel indata peheader pe32plus sigpos siglen = Ok (r, log) ->
  exists pe bio rest,
    GET_UINT32_LE indata (peheader + 88) = Some pe /\
    slice indata 0 (int32 (uint32 (sigpos + siglen))) = Some bio /\
    log = M_current_pe_checksum pe ::
          M_calculated_pe_checksum (calc_pe_checksum bio peheader)
            (negb (checksum_ret pe (calc_pe_checksum bio peheader) =? 0)) :: rest /\
    (forall v b, ~ In (M_calculated_pe_checksum v b) rest) /\
    (siglen = 0 -> r = Ret (checksum_ret pe (calc_pe_checksum bio peheader))).
Proof.
  unfold verify_pe_file. intros Hv.
  destruct (GET_UINT32_LE indata (peheader + 88)) as [pe|] eqn:Epe;
    [|discriminate Hv].
  destruct (slice indata 0 (int32 (uint32 (sigpos + siglen)))) as [bio|] eqn:Eb;
    [|discriminate Hv].
  simpl in Hv. unfold verify_signature in Hv.
  destruct (siglen =? 0) eqn:Es.
  - inversion Hv; subst; clear Hv.
    exists pe, bio, [M_no_signature_found].
    repeat split; auto.
    intros v b [Hc|[]]; discriminate Hc.
  - apply Z.eqb_neq in Es.
    destruct (cert_loop fuel indata sigpos siglen 0) as [[[[p7 idc] ph]|]| | |] eqn:El;
      simpl in Hv; try discriminate Hv.
    + inv_res Hv; inversion Hv; subst; clear Hv;
        eexists pe, bio, _;
        (split; [reflexivity|split; [reflexivity|split; [reflexivity|split]]]);
        try (intros; contradiction);
        intros v' b' Hin; simpl in Hin;
        repeat (destruct Hin as [Hin|Hin]; [discriminate Hin|]);
        try contradiction.
    + inversion Hv; subst; clear Hv.
      exists pe, bio, [M_failed_to_extract_digest].
      repeat split; auto; try contradiction.
      intros v b [Hc|[]]; discriminate Hc.
Qed.

(** The second stage of [verify_pe_file] only raises [ret]: entered with 1
    it does not hand back 0. *)
Lemma verify_signature_from_one `{OpenSSL} (fuel : nat) (indata bio : list byte)
  (peheader pe32plus sigpos siglen : Z) (log : list msg) (r : retval)
  (log' : list msg) :
  verify_signature fuel indata bio peheader pe32plus sigpos siglen 1 log
  = Ok (r, log') ->
  r = Ret 1 \/ r = Indeterminate.
Proof.
  unfold verify_signature. intros Hv.
  destruct (siglen =? 0).
  - inversion Hv. auto.
  - destruct (cert_loop fuel indata sigpos siglen 0) as [[[[p7 idc] ph]|]| | |];
      simpl in Hv; try discriminate Hv.
    + inv_res Hv; inversion Hv; auto.
    + inversion Hv. auto.
Qed.

(** C10: [verify_pe_file] and the stored checksum [pe], the four octets at
    [peheader + 88], against the recomputed checksum [real].  A run that
    returns prints the mismatch mark exactly when [pe] is nonzero and differs
    from [real].  When [pe] is zero, whatever [real] is, or when the two are
    equal, no mismatch is reported and what the run returns and prints is
    what the signature stage gives when entered with [ret = 0] after a
    passing comparison: the checksum adds nothing to the value returned, and
    a file without certificate table returns 0.  When [pe] is nonzero and
    differs from [real] the value returned is not 0: it is 1, or the
    indeterminate value of the bare [return;]. *)
Theorem zero_checksum_passes `{OpenSSL} (fuel : nat) (indata : list byte)
  (peheader pe32plus sigpos siglen : Z) (r : retval) (log : list msg) :
  verify_pe_file fuel indata peheader pe32plus sigpos siglen = Ok (r, log) ->
  exists pe bio,
    GET_UINT32_LE indata (peheader + 88) = Some pe /\
    slice indata 0 (int32 (uint32 (sigpos + siglen))) = Some bio /\
    let real := calc_pe_checksum bio peheader in
    ((exists v, In (M_calculated_pe_checksum v true) log) <->
     pe <> 0 /\ pe <> real) /\
    (pe = 0 \/ pe = real ->
     In (M_calculated_pe_checksum real false) log /\
     verify_signature fuel indata bio peheader pe32plus sigpos siglen 0
       [M_current_pe_checksum pe; M_calculated_pe_checksum real false]
     = Ok (r, log) /\
     (siglen = 0 -> r = Ret 0)) /\
    (pe <> 0 -> pe <> real ->
     In (M_calculated_pe_checksum real true) log /\
     (r = Ret 1 \/ r = Indeterminate)).
Proof.
  intros Hv.
  destruct (verify_pe_file_log _ _ _ _ _ _ _ _ Hv)
    as (pe & bio & rest & Hpe & Hbio & Hlog & Hrest & Hret).
  exists pe, bio. split; [exact Hpe|]. split; [exact Hbio|]. cbv zeta.
  set (real := calc_pe_checksum bio peheader) in *.
  assert (Hrun : verify_signature fuel indata bio peheader pe32plus sigpos siglen
                   (checksum_ret pe real)
                   [M_current_pe_checksum pe;
                    M_calculated_pe_checksum real
                      (negb (checksum_ret pe real =? 0))]
                 = Ok (r, log)).
  { rewrite <- Hv. unfold verify_pe_file. rewrite Hpe, Hbio. reflexivity. }
  destruct (checksum_ret_spec pe real) as [(Hc & Hnz & Hne)|(Hc & Hz)];
    rewrite Hc in Hlog, Hret, Hrun; cbn [Z.eqb negb] in Hlog, Hrun.
  - split; [|split].
    + split; [intros _; auto|]. intros _. exists real. subst log. right. left.
      reflexivity.
    + intros [Hz|Hz]; contradiction.
    + intros _ _. split; [subst log; right; left; reflexivity|].
      eapply verify_signature_from_one. exact Hrun.
  - split; [|split].
    + split; [|intros (Hnz & Hne); destruct Hz; contradiction].
      intros (v & Hin). subst log.
      destruct Hin as [Hin|[Hin|Hin]]; try discriminate Hin.
      exfalso. exact (Hrest _ _ Hin).
    + intros _. split; [subst log; right; left; reflexivity|].
      split; [exact Hrun|exact Hret].
    + intros Hnz Hne. destruct Hz; contradiction.
Qed.

Lemma zero_checksum_passes_witness :
  @verify_pe_file Sample.openssl 1 (Sample.pe32 234) 64 0 234 0
    = Ok (Ret 0, [M_current_pe_checksum 0;
                  M_calculated_pe_checksum 23949 false;
                  M_no_signature_found]) /\
  exists pe bio,
    GET_UINT32_LE (Sample.pe32 234) (64 + 88) = Some pe /\
    slice (Sample.pe32 234) 0 (int32 (uint32 (234 + 0))) = Some bio /\
    let real := calc_pe_checksum bio 64 in
    let log := [M_current_pe_checksum 0;
                M_calculated_pe_checksum 23949 false;
                M_no_signature_found] in
    ((exists v, In (M_calculated_pe_checksum v true) log) <->
     pe <> 0 /\ pe <> real) /\
    (pe = 0 \/ pe = real ->
     In (M_calculated_pe_checksum real false) log /\
     @verify_signature Sample.openssl 1 (Sample.pe32 234) bio 64 0 234 0 0
       [M_current_pe_checksum pe; M_calculated_pe_checksum real false]
     = Ok (Ret 0, log) /\
     (0 = 0 -> Ret 0 = Ret 0)) /\
    (pe <> 0 -> pe <> real ->
     In (M_calculated_pe_checksum real true) log /\
     (Ret 0 = Ret 1 \/ Ret 0 = Indeterminate)).
Proof.
  split; [vm_compute; reflexivity|].
  apply (@zero_checksum_passes Sample.openssl 1 (Sample.pe32 234) 64 0 234 0
           (Ret 0)
           [M_current_pe_checksum 0; M_calculated_pe_checksum 23949 false;
            M_no_signature_found]).
  vm_compute; reflexivity.
Defined.

(** Both sides of the comparison occur: the sample image with 0x1234 stored
    as its checksum is reported as a mismatch and [verify] returns 1; with
    the recomputed checksum stored, it is not and [verify] returns 0. *)
Lemma nonzero_checksum_compared :
  (let img := Sample.poke (Sample.pe32 234) (64 + 88) (PUT_UINT32_LE 0x1234) in
   exists real,
     real <> 0x1234 /\
     @verify_pe_file Sample.openssl 1 img 64 0 234 0
     = Ok (Ret 1, [M_current_pe_checksum 0x1234;
                   M_calculated_pe_checksum real true;
                   M_no_signature_found])) /\
  (let img := Sample.poke (Sample.pe32 234) (64 + 88) (PUT_UINT32_LE 23949) in
   @verify_pe_file Sample.openssl 1 img 64 0 234 0
   = Ok (Ret 0, [M_current_pe_checksum 23949;
                 M_calculated_pe_checksum 23949 false;
                 M_no_signature_found])).
Proof.
  split.
  - eexists. split; [|vm_compute; reflexivity]. discriminate.
  - vm_compute; reflexivity.
Qed.

(* ================================================================== *)
(** ** Little-endian fields *)

Lemma lor_shiftl_add (a b n : Z) :
  0 <= n -> 0 <= a < 2 ^ n -> Z.lor a (Z.shiftl b n) = a + b * 2 ^ n.
Proof.
  intros Hn Ha.
  assert (Hl : Z.land a (Z.shiftl b n) = 0).
  { apply Z.bits_inj'. intros m Hm.
    rewrite Z.land_spec, Z.bits_0.
    destruct (Z.lt_ge_cases m n) as [Hlt|Hge].
    - rewrite Z.shiftl_spec_low by assumption. apply andb_false_r.
    - destruct (Z.eq_dec a 0) as [->|Hne].
      + rewrite Z.bits_0. reflexivity.
      + rewrite Z.bits_above_log2; [reflexivity|lia|].
        apply Z.lt_le_trans with n; [|assumption].
        apply Z.log2_lt_pow2; lia. }
  rewrite <- Z.lxor_lor by assumption.
  rewrite <- Z.add_nocarry_lxor by assumption.
  rewrite Z.shiftl_mul_pow2 by assumption. reflexivity.
Qed.

Lemma le32_lor (b0 b1 b2 b3 : byte) :
  Z.lor (Z.lor (Z.lor (u8 b0) (Z.shiftl (u8 b1) 8)) (Z.shiftl (u8 b2) 16))
        (Z.shiftl (u8 b3) 24) = le32 b0 b1 b2 b3.
Proof.
  pose proof (u8_range b0). pose proof (u8_range b1).
  pose proof (u8_range b2). pose proof (u8_range b3).
  unfold le32.
  rewrite (lor_shiftl_add (u8 b0)) by lia.
  rewrite (lor_shiftl_add (u8 b0 + _)) by lia.
  rewrite (lor_shiftl_add (u8 b0 + _ + _)) by lia.
  reflexivity.
Qed.

Lemma le32_range (b0 b1 b2 b3 : byte) : 0 <= le32 b0 b1 b2 b3 < 2 ^ 32.
Proof.
  pose proof (u8_range b0). pose proof (u8_range b1).
  pose proof (u8_range b2). pose proof (u8_range b3).
  unfold le32. lia.
Qed.

Lemma GET_UINT32_LE_range (p : list byte) (off v : Z) :
  GET_UINT32_LE p off = Some v -> 0 <= v < 2 ^ 32.
Proof.
  unfold GET_UINT32_LE. intros Hg.
  destruct (slice p off 4) as [[|b0 [|b1 [|b2 [|b3 [|]]]]]|]; try discriminate.
  match type of Hg with
  | Some ?x = Some _ => assert (Hv : v = x) by congruence
  end.
  rewrite Hv, le32_lor. apply le32_range.
Qed.

Lemma GET_UINT32_LE_inside (p : list byte) (off v : Z) :
  GET_UINT32_LE p off = Some v -> 0 <= off /\ off + 4 <= len p.
Proof.
  unfold GET_UINT32_LE. intros Hg.
  destruct (slice p off 4) as [s|] eqn:E; [|discriminate].
  apply slice_Some in E. lia.
Qed.

Lemma u8_byte_of (i k : Z) :
  0 <= k -> u8 (to_u8 (Z.land (Z.shiftr i k) 255)) = (i / 2 ^ k) mod 256.
Proof.
  intros Hk. rewrite u8_to_u8. change 255 with (Z.ones 8).
  rewrite Z.land_ones by lia. rewrite Z.shiftr_div_pow2 by assumption.
  change (2 ^ 8) with 256. rewrite Z.mod_mod by lia. reflexivity.
Qed.

Lemma u8_byte_0 (i : Z) : u8 (to_u8 (Z.land i 255)) = i mod 256.
Proof.
  rewrite u8_to_u8. change 255 with (Z.ones 8).
  rewrite Z.land_ones by lia.
  change (2 ^ 8) with 256. rewrite Z.mod_mod by lia. reflexivity.
Qed.

Lemma le32_PUT (i : Z) :
  match PUT_UINT32_LE i with
  | [b0; b1; b2; b3] => le32 b0 b1 b2 b3 = i mod 2 ^ 32
  | _ => False
  end.
Proof.
  unfold PUT_UINT32_LE, le32.
  rewrite u8_byte_0, !u8_byte_of by lia.
  pose proof (Z.div_mod i 256 ltac:(lia)) as H0.
  pose proof (Z.div_mod (i / 256) 256 ltac:(lia)) as H1.
  pose proof (Z.div_mod (i / 256 / 256) 256 ltac:(lia)) as H2.
  pose proof (Z.div_mod (i / 256 / 256 / 256) 256 ltac:(lia)) as H3.
  pose proof (Z.mod_pos_bound i 256 ltac:(lia)).
  pose proof (Z.mod_pos_bound (i / 256) 256 ltac:(lia)).
  pose proof (Z.mod_pos_bound (i / 256 / 256) 256 ltac:(lia)).
  pose proof (Z.mod_pos_bound (i / 256 / 256 / 256) 256 ltac:(lia)).
  change (2 ^ 8) with 256.
  replace (i / 2 ^ 16) with (i / 256 / 256)
    by (rewrite Z.div_div by lia; reflexivity).
  replace (i / 2 ^ 24) with (i / 256 / 256 / 256)
    by (rewrite !Z.div_div by lia; reflexivity).
  apply Z.mod_unique with (q := i / 256 / 256 / 256 / 256); lia.
Qed.

Lemma len_PUT_UINT32_LE (i : Z) : len (PUT_UINT32_LE i) = 4.
Proof. reflexivity. Qed.

(** A field written with [PUT_UINT32_LE] reads back with [GET_UINT32_LE]. *)
Lemma GET_PUT_UINT32_LE (a b : list byte) (i : Z) :
  GET_UINT32_LE (a ++ PUT_UINT32_LE i ++ b) (len a) = Some (i mod 2 ^ 32).
Proof.
  unfold GET_UINT32_LE.
  rewrite slice_app_r by lia. rewrite Z.sub_diag.
  rewrite (slice_app_l _ b) by (rewrite len_PUT_UINT32_LE; lia).
  assert (Hs : slice (PUT_UINT32_LE i) 0 4 = Some (PUT_UINT32_LE i))
    by reflexivity.
  rewrite Hs. pose proof (le32_PUT i) as Hp.
  unfold PUT_UINT32_LE in *. cbv beta iota. rewrite le32_lor, Hp. reflexivity.
Qed.

(* ================================================================== *)
(** ** extract-signature *)

(** A command other than [sign] that does not leave through [err_cleanup]
    ran on a PE file. *)
Lemma main_is_main_pe `{OpenSSL} `{Curl} (cs : bool) (gsf : option Gsf)
  (fuel : nat) (cmd : cmd_type_t) (o : options) (indata : list byte)
  (f : finished) :
  cmd <> CMD_SIGN ->
  main cs gsf fuel cmd o indata = Ok f ->
  file_type indata = Ok FILE_TYPE_PE /\ main_pe fuel cmd o indata = Ok f.
Proof.
  intros Hc Hm. unfold main in Hm.
  destruct (4 <=? len indata); [|discriminate Hm]. simpl in Hm.
  destruct (file_type indata) as [t| | |]; try discriminate Hm. simpl in Hm.
  destruct cmd, t; try contradiction; simpl in Hm;
    try discriminate Hm; auto.
Qed.

(** C3, as stated, fails: on a PE file whose certificate table is one record
    of 16 octets, extract-signature writes the 16 octets of the table, and
    they begin with the 8-byte header (length 16, revision 0x0200, type 2);
    the payload without the header is the 8 octets after it. *)
Lemma extract_payload_counterexample :
  let indata := Sample.pe32_signed 232 (bytes [1; 2; 3; 4; 5; 6; 7; 8]) in
  let header := bytes [16; 0; 0; 0; 0; 2; 2; 0] in
  let payload := bytes [1; 2; 3; 4; 5; 6; 7; 8] in
  pe_layout CMD_EXTRACT indata 64 = Ok (0, 232, 16) /\
  Sample.run 0 CMD_EXTRACT (Sample.opts EVP_sha1) indata
    = Ok (mkFinished (Ret 0) (Some (header ++ payload)) []) /\
  claimed_extract_output indata 232 16 = Some payload /\
  header ++ payload <> payload.
Proof.
  vm_compute. repeat split; discriminate.
Qed.

Lemma uint32_small (z : Z) : 0 <= z < 2 ^ 32 -> uint32 z = z.
Proof. intros. unfold uint32. apply Z.mod_small. assumption. Qed.

Lemma uint32_range (z : Z) : 0 <= uint32 z < 2 ^ 32.
Proof. unfold uint32. apply Z.mod_pos_bound. lia. Qed.

Lemma int32_small (z : Z) : - 2 ^ 31 <= z < 2 ^ 31 -> int32 z = z.
Proof. intros. unfold int32. rewrite Z.mod_small; lia. Qed.

Lemma int32_high (z : Z) : 2 ^ 31 <= z < 2 ^ 32 -> int32 z = z - 2 ^ 32.
Proof.
  intros. unfold int32.
  replace (z + 2 ^ 31) with (z - 2 ^ 31 + 1 * 2 ^ 32) by lia.
  rewrite Z.mod_add by lia. rewrite Z.mod_small; lia.
Qed.

(** An unsigned value that is not negative as an [int] is that [int]. *)
Lemma int32_nonneg (z : Z) : 0 <= z < 2 ^ 32 -> 0 <= int32 z -> int32 z = z.
Proof.
  intros Hz Hi. destruct (Z.lt_ge_cases z (2 ^ 31)).
  - apply int32_small. lia.
  - rewrite int32_high in Hi by lia. lia.
Qed.

Lemma int32_zero (z : Z) : 0 <= z < 2 ^ 32 -> int32 z = 0 -> z = 0.
Proof.
  intros Hz Hi. destruct (Z.lt_ge_cases z (2 ^ 31)).
  - rewrite int32_small in Hi; lia.
  - rewrite int32_high in Hi by lia. lia.
Qed.

Lemma file_write_new (d : list byte) :
  file_write (mkFile [] 0) d = mkFile d (len d).
Proof.
  unfold file_write. simpl. rewrite skipn_nil, app_nil_r. reflexivity.
Qed.

(** What [pe_layout] has checked when it returns. *)
Lemma pe_layout_Ok (cmd : cmd_type_t) (indata : list byte)
  (peheader pe32plus sigpos siglen : Z) :
  pe_layout cmd indata peheader = Ok (pe32plus, sigpos, siglen) ->
  (pe32plus = 0 \/ pe32plus = 1) /\
  GET_UINT16_LE indata (peheader + 24)
    = Some (if pe32plus =? 1 then 0x20b else 0x10b) /\
  (exists nrvas,
     GET_UINT32_LE indata (peheader + 116 + pe32plus * 16) = Some nrvas /\
     5 <= nrvas) /\
  GET_UINT32_LE indata (peheader + 152 + pe32plus * 16) = Some sigpos /\
  GET_UINT32_LE indata (peheader + 152 + pe32plus * 16 + 4) = Some siglen /\
  (0 < sigpos -> uint32 (sigpos + siglen) = len indata) /\
  (cmd = CMD_REMOVE \/ cmd = CMD_EXTRACT -> sigpos <> 0).
Proof.
  unfold pe_layout. intros Hl.
  destruct (GET_UINT16_LE indata (peheader + 24)) as [magic|] eqn:Em;
    [|discriminate Hl]. simpl in Hl.
  assert (Hp : exists p, (p = 0 \/ p = 1) /\
            magic = (if p =? 1 then 0x20b else 0x10b) /\
            (if magic =? 523 then Ok 1
             else if magic =? 267 then Ok 0 else Exit (E_pe_magic magic))
            = @Ok Z p).
  { destruct (Z.eqb_spec magic 523); [exists 1; subst; auto|].
    destruct (Z.eqb_spec magic 267); [exists 0; subst; auto|].
    simpl in Hl. discriminate Hl. }
  destruct Hp as (p & Hp01 & Hmagic & Hp). rewrite Hp in Hl. simpl in Hl.
  destruct (GET_UINT32_LE indata (peheader + 116 + p * 16)) as [nrvas|] eqn:En;
    [|discriminate Hl]. simpl in Hl.
  destruct (5 <=? nrvas) eqn:E5; [|discriminate Hl]. simpl in Hl.
  destruct (GET_UINT32_LE indata (peheader + 152 + p * 16)) as [sp|] eqn:Esp;
    [|discriminate Hl]. simpl in Hl.
  destruct (GET_UINT32_LE indata (peheader + 152 + p * 16 + 4)) as [sl|] eqn:Esl;
    [|discriminate Hl]. simpl in Hl.
  destruct (negb ((0 <? sp) && negb (uint32 (sp + sl) =? len indata))) eqn:Eend;
    [|discriminate Hl]. simpl in Hl.
  destruct (negb ((cmd_eqb cmd CMD_REMOVE || cmd_eqb cmd CMD_EXTRACT)
                  && (sp =? 0))) eqn:Esig; [|discriminate Hl]. simpl in Hl.
  assert (Heq : (p, sp, sl) = (pe32plus, sigpos, siglen)) by congruence.
  injection Heq as -> -> ->.
  apply Z.leb_le in E5.
  repeat split; auto.
  - rewrite <- Hmagic. reflexivity.
  - exists nrvas. auto.
  - intros Hpos. apply negb_true_iff in Eend.
    apply Z.ltb_lt in Hpos. rewrite Hpos in Eend. simpl in Eend.
    apply negb_false_iff in Eend. apply Z.eqb_eq in Eend. exact Eend.
  - intros Hcmd Hz. apply negb_true_iff in Esig.
    apply Z.eqb_eq in Hz. rewrite Hz in Esig.
    destruct Hcmd as [-> | ->]; discriminate Esig.
Qed.

(** C3 (amended): extract-signature on a PE input that passes the checks
    of [main] with the certificate-table entry ([sigpos], [siglen]), where
    [sigpos] is not zero.  [siglen] is an [unsigned int] and the count of
    [BIO_write] an [int].  When the table is shorter than 2^31 octets and
    lies inside the file, extract-signature returns 0 and the output is
    exactly the [siglen] octets at [sigpos], the whole certificate table,
    which starts with the 8-byte header of the table's first
    [WIN_CERTIFICATE] record (it is not left out).  When [siglen] is 2^31 or
    more the count is negative: extract-signature returns 0, nothing is
    written and the output is empty. *)
Theorem extract_writes_certificate_table `{OpenSSL} `{Curl} (cs : bool)
  (gsf : option Gsf) (fuel : nat) (o : options) (indata : list byte)
  (peheader pe32plus sigpos siglen : Z) :
  file_type indata = Ok FILE_TYPE_PE ->
  pe_header indata = Ok peheader ->
  pe_layout CMD_EXTRACT indata peheader = Ok (pe32plus, sigpos, siglen) ->
  0 < sigpos /\
  (siglen < 2 ^ 31 -> sigpos + siglen <= len indata ->
   exists out,
     main cs gsf fuel CMD_EXTRACT o indata
     = Ok (mkFinished (Ret 0) (Some out) []) /\
     slice indata sigpos siglen = Some out /\
     len out = siglen /\
     (8 <= siglen -> slice out 0 8 = slice indata sigpos 8)) /\
  (2 ^ 31 <= siglen ->
   main cs gsf fuel CMD_EXTRACT o indata
   = Ok (mkFinished (Ret 0) (Some []) [])).
Proof.
  intros Ht Eh El.
  pose proof (file_type_len _ _ Ht) as H4.
  pose proof (pe_layout_Ok _ _ _ _ _ _ El)
    as (_ & _ & _ & Hsp & Hsl & Hend & Hsig).
  pose proof (GET_UINT32_LE_range _ _ _ Hsp) as Rsp.
  pose proof (GET_UINT32_LE_range _ _ _ Hsl) as Rsl.
  assert (Hnz : sigpos <> 0) by (apply Hsig; auto).
  assert (Hm : main cs gsf fuel CMD_EXTRACT o indata
               = (s <- write_outdata_from indata new_io sigpos (int32 siglen) ;;
                  Ok (mkFinished (Ret 0) (Some (file_data (outdata s))) []))).
  { unfold main.
    replace (4 <=? len indata) with true by (symmetry; apply Z.leb_le; lia).
    rewrite Ht. cbn [check bind cmd_eqb type_eqb orb].
    unfold main_pe. rewrite Eh. cbn [bind]. rewrite El. reflexivity. }
  rewrite Hm. unfold write_outdata_from.
  split; [lia|]. split.
  - intros Hlt Hin. rewrite int32_small by lia.
    destruct (Z.leb_spec siglen 0) as [Hz|Hz].
    + assert (siglen = 0) by lia. subst siglen.
      exists []. cbn [bind new_io outdata file_data].
      split; [reflexivity|].
      split; [rewrite slice_ok by lia; reflexivity|].
      split; [reflexivity|]. intros H8. lia.
    + rewrite slice_ok by lia. cbn [mapped bind].
      unfold BIO_write_outdata, new_io. cbn [outdata md_ctx].
      rewrite file_write_new. cbn [outdata file_data].
      eexists. split; [reflexivity|].
      assert (Hs : slice indata sigpos siglen
                   = Some (firstn (Z.to_nat siglen) (skipn (Z.to_nat sigpos) indata)))
        by (apply slice_ok; lia).
      split; [reflexivity|].
      split; [eapply slice_len; exact Hs|].
      intros H8. rewrite (slice_slice _ _ _ _ 0 8 Hs) by lia.
      rewrite Z.add_0_r. reflexivity.
  - intros Hge. rewrite int32_high by lia.
    replace (siglen - 2 ^ 32 <=? 0) with true by (symmetry; apply Z.leb_le; lia).
    reflexivity.
Qed.

Lemma extract_writes_certificate_table_witness :
  let indata := Sample.pe32_signed 232 (bytes [1; 2; 3; 4; 5; 6; 7; 8]) in
  pe_layout CMD_EXTRACT indata 64 = Ok (0, 232, 16) /\
  exists out,
    Sample.run 0 CMD_EXTRACT (Sample.opts EVP_sha1) indata
    = Ok (mkFinished (Ret 0) (Some out) []) /\
    slice indata 232 16 = Some out /\
    len out = 16 /\
    (8 <= 16 -> slice out 0 8 = slice indata 232 8).
Proof.
  cbv zeta. split; [vm_compute; reflexivity|].
  destruct (@extract_writes_certificate_table Sample.openssl Sample.libcurl
              true None 0 (Sample.opts EVP_sha1)
              (Sample.pe32_signed 232 (bytes [1; 2; 3; 4; 5; 6; 7; 8]))
              64 0 232 16) as (_ & Hin & _);
    [vm_compute; reflexivity|vm_compute; reflexivity|vm_compute; reflexivity|].
  apply Hin; [lia|vm_compute; discriminate].
Defined.

(** A table length of 2^31 or more does occur on a file that passes the
    checks of [main]: with the entry (264, 0xfffffff0) on a file of 248
    octets, [sigpos + siglen] is 248 in 32 bits; extract-signature returns 0
    and leaves an empty output. *)
Lemma extract_negative_count :
  pe_layout CMD_EXTRACT Fixtures.pe_wrapped_table 64
  = Ok (0, 264, 0xfffffff0) /\
  Sample.run 0 CMD_EXTRACT (Sample.opts EVP_sha1) Fixtures.pe_wrapped_table
  = Ok (mkFinished (Ret 0) (Some []) []).
Proof. split; vm_compute; reflexivity. Qed.

(* ================================================================== *)
(** ** The copy of a PE image *)

Lemma file_write_end (d x : list byte) :
  file_write (mkFile d (len d)) x = mkFile (d ++ x) (len d + len x).
Proof.
  unfold file_write. cbn [file_data file_pos].
  rewrite Z.sub_diag. change (zeros 0) with (@nil byte). rewrite app_nil_r.
  unfold len at 1. rewrite Nat2Z.id, firstn_all.
  rewrite skipn_all2 by (pose proof (len_nonneg x); unfold len in *; lia).
  rewrite app_nil_r. reflexivity.
Qed.

(** Overwriting a field inside the file. *)
Lemma file_write_mid (a x r d : list byte) :
  len x = len d ->
  file_write (mkFile (a ++ x ++ r) (len a)) d
  = mkFile (a ++ d ++ r) (len a + len d).
Proof.
  intros Hx. unfold file_write. cbn [file_data file_pos].
  replace (zeros (len a - len (a ++ x ++ r))) with (@nil byte).
  2:{ unfold zeros. rewrite !len_app.
      pose proof (len_nonneg x). pose proof (len_nonneg r).
      replace (Z.to_nat (len a - (len a + (len x + len r)))) with 0%nat by lia.
      reflexivity. }
  rewrite app_nil_r. f_equal.
  rewrite firstn_app.
  replace (Z.to_nat (len a) - Datatypes.length a)%nat with 0%nat
    by (unfold len; lia).
  unfold len at 1. rewrite Nat2Z.id, firstn_all. simpl firstn.
  rewrite app_nil_r. f_equal. f_equal.
  rewrite skipn_app.
  rewrite skipn_all2 by (unfold len in *; lia). simpl app.
  replace (Z.to_nat (len a + len d) - Datatypes.length a)%nat
    with (Datatypes.length x) by (unfold len in *; lia).
  rewrite skipn_app, skipn_all, Nat.sub_diag. reflexivity.
Qed.

Lemma slice_of_prefix (p a r : list byte) (k off n : Z) :
  slice p 0 k = Some a -> 0 <= off -> 0 <= n -> off + n <= k ->
  slice (a ++ r) off n = slice p off n.
Proof.
  intros Ha H1 H2 H3.
  pose proof (slice_len _ _ _ _ Ha) as Hl.
  rewrite slice_app_l by lia.
  rewrite (slice_slice _ _ _ _ off n Ha) by lia.
  reflexivity.
Qed.

(** A read inside the second of three parts. *)
Lemma slice_of_middle (p a b r : list byte) (k m off n : Z) :
  slice p k m = Some b -> len a = k ->
  k <= off -> 0 <= n -> off + n <= k + m ->
  slice (a ++ b ++ r) off n = slice p off n.
Proof.
  intros Hb Ha H1 H2 H3.
  pose proof (slice_len _ _ _ _ Hb) as Hl.
  pose proof (slice_Some _ _ _ _ Hb) as (Hk & _).
  rewrite slice_app_r by lia.
  rewrite slice_app_l by lia.
  rewrite (slice_slice _ _ _ _ (off - len a) n Hb) by lia.
  f_equal. lia.
Qed.

Lemma firstn_skipn_repeat (x : byte) (k off n : nat) :
  (off + n <= k)%nat -> firstn n (skipn off (repeat x k)) = repeat x n.
Proof.
  intros Hk.
  replace k with (off + (n + (k - off - n)))%nat by lia.
  rewrite !repeat_app.
  rewrite skipn_app, skipn_all2 by (rewrite repeat_length; lia).
  rewrite repeat_length, Nat.sub_diag. simpl.
  rewrite firstn_app, repeat_length, Nat.sub_diag. simpl.
  rewrite firstn_all2 by (rewrite repeat_length; lia).
  apply app_nil_r.
Qed.

Lemma slice_zeros (k off n : Z) :
  0 <= off -> 0 <= n -> off + n <= k -> slice (zeros k) off n = Some (zeros n).
Proof.
  intros H1 H2 H3. rewrite slice_ok by (try rewrite len_zeros; lia).
  f_equal. unfold zeros. apply firstn_skipn_repeat. lia.
Qed.

Lemma GET_UINT32_LE_zeros (a r : list byte) (k off : Z) :
  len a <= off -> off + 4 <= len a + k ->
  GET_UINT32_LE (a ++ zeros k ++ r) off = Some 0.
Proof.
  intros H1 H2. unfold GET_UINT32_LE.
  pose proof (len_nonneg a).
  rewrite slice_app_r by lia.
  rewrite slice_app_l by (rewrite len_zeros; lia).
  rewrite slice_zeros by lia. reflexivity.
Qed.

Lemma bytes_eqb_eq (a b : list byte) : bytes_eqb a b = true <-> a = b.
Proof.
  revert b. induction a as [|x a IH]; intros [|y b]; simpl;
    try (split; [discriminate|discriminate]); try tauto.
  rewrite andb_true_iff, IH. unfold byte_eqb. split.
  - intros [Hx ->]. apply Byte.byte_dec_bl in Hx. subst. reflexivity.
  - intros Heq. injection Heq as -> ->. split; [apply Byte.byte_dec_lb|]; reflexivity.
Qed.

Lemma new_io_at : new_io = io_at [] [].
Proof. reflexivity. Qed.

Lemma BIO_write_hash_at (d h x : list byte) :
  BIO_write_hash (io_at d h) x = io_at (d ++ x) (h ++ x).
Proof.
  unfold BIO_write_hash, io_at. cbn [outdata md_ctx].
  rewrite file_write_end, <- len_app. reflexivity.
Qed.

Lemma BIO_write_outdata_at (d h x : list byte) :
  BIO_write_outdata (io_at d h) x = io_at (d ++ x) h.
Proof.
  unfold BIO_write_outdata, io_at. cbn [outdata md_ctx].
  rewrite file_write_end, <- len_app. reflexivity.
Qed.

Lemma write_hash_from_at (indata d h : list byte) (off n : Z) (s : io) :
  write_hash_from indata (io_at d h) off n = Ok s ->
  exists x, s = io_at (d ++ x) (h ++ x) /\
            ((n <= 0 /\ x = []) \/ (0 < n /\ slice indata off n = Some x)).
Proof.
  unfold write_hash_from. destruct (Z.leb_spec n 0) as [Hn|Hn]; intros Hw.
  - exists []. rewrite !app_nil_r. split; [congruence|left; auto].
  - destruct (slice indata off n) as [x|] eqn:Es; [|discriminate Hw].
    simpl in Hw. rewrite BIO_write_hash_at in Hw.
    exists x. split; [congruence|right; auto].
Qed.

Lemma pe_header_Ok (indata : list byte) (peheader : Z) :
  pe_header indata = Ok peheader ->
  64 <= len indata /\
  GET_UINT32_LE indata 60 = Some peheader /\
  uint32 (peheader + 160) <= len indata /\
  slice indata peheader 4 = Some PE_signature /\
  0 <= peheader < 2 ^ 32.
Proof.
  unfold pe_header. intros Hh.
  destruct (Z.leb_spec 64 (len indata)) as [H64|]; [|discriminate Hh].
  simpl in Hh.
  destruct (GET_UINT32_LE indata 60) as [ph|] eqn:Eg; [|discriminate Hh].
  simpl in Hh.
  destruct (Z.leb_spec (uint32 (ph + 160)) (len indata)) as [H160|];
    [|discriminate Hh].
  simpl in Hh.
  destruct (slice indata ph 4) as [sg|] eqn:Es; [|discriminate Hh].
  simpl in Hh.
  destruct (bytes_eqb sg PE_signature) eqn:Eb; [|discriminate Hh].
  simpl in Hh. apply bytes_eqb_eq in Eb.
  assert (ph = peheader) by congruence. subst.
  repeat split; auto; eapply GET_UINT32_LE_range; eassumption.
Qed.

(** What [pe_copy] leaves: the output holds the header up to the checksum,
    four zero octets, the optional header up to the certificate-table entry,
    eight zero octets, the rest of the image up to [fileend] and the padding;
    the digest has seen the same without the twelve zero octets. *)
Lemma pe_copy_Ok (indata : list byte) (peheader pe32plus fileend : Z)
  (s : io) (fileend' : Z) :
  0 <= peheader -> pe32plus = 0 \/ pe32plus = 1 ->
  pe_tail_start peheader pe32plus <= len indata -> len indata < 2 ^ 31 ->
  0 <= fileend ->
  pe_copy indata peheader pe32plus fileend new_io = Ok (s, fileend') ->
  exists A B C,
    slice indata 0 (peheader + 88) = Some A /\
    slice indata (peheader + 92) (60 + 16 * pe32plus) = Some B /\
    ((int32 (fileend - pe_tail_start peheader pe32plus) <= 0 /\ C = []) \/
     (0 < int32 (fileend - pe_tail_start peheader pe32plus) /\
      slice indata (pe_tail_start peheader pe32plus)
            (int32 (fileend - pe_tail_start peheader pe32plus)) = Some C)) /\
    s = io_at (A ++ zeros 4 ++ B ++ zeros 8 ++ C ++ zeros (padlen_of fileend))
              (A ++ B ++ C ++ zeros (padlen_of fileend)) /\
    fileend' = fileend + padlen_of fileend.
Proof.
  intros Hph Hp Hlen H31 Hfe Hc. unfold pe_tail_start in *.
  unfold pe_copy in Hc. rewrite new_io_at in Hc.
  assert (E1 : int32 (uint32 (peheader + 88)) = peheader + 88).
  { rewrite uint32_small by lia. apply int32_small. lia. }
  rewrite E1 in Hc.
  assert (E2 : int32 (peheader + 88 + 4) = peheader + 92)
    by (rewrite int32_small; lia).
  rewrite E2 in Hc.
  assert (E3 : int32 (peheader + 92 + (60 + pe32plus * 16))
               = peheader + 152 + 16 * pe32plus)
    by (rewrite int32_small; lia).
  rewrite E3 in Hc.
  assert (E4 : int32 (peheader + 152 + 16 * pe32plus + 8)
               = peheader + 160 + 16 * pe32plus)
    by (rewrite int32_small; lia).
  rewrite E4 in Hc.
  destruct (write_hash_from indata (io_at [] []) 0 (peheader + 88))
    as [s1| | |] eqn:W1; try discriminate Hc.
  apply write_hash_from_at in W1. destruct W1 as (A & -> & [[? _]|[_ HA]]); [lia|].
  cbn [bind] in Hc. rewrite BIO_write_outdata_at in Hc.
  destruct (write_hash_from indata _ (peheader + 92) (60 + pe32plus * 16))
    as [s2| | |] eqn:W2; try discriminate Hc.
  apply write_hash_from_at in W2. destruct W2 as (B & -> & [[? _]|[_ HB]]); [lia|].
  cbn [bind] in Hc. rewrite BIO_write_outdata_at in Hc.
  destruct (write_hash_from indata _ (peheader + 160 + 16 * pe32plus) _)
    as [s3| | |] eqn:W3; try discriminate Hc.
  apply write_hash_from_at in W3. destruct W3 as (C & -> & HC).
  cbn [bind] in Hc.
  exists A, B, C.
  replace (60 + 16 * pe32plus) with (60 + pe32plus * 16) by lia.
  split; [exact HA|]. split; [exact HB|]. split; [tauto|].
  assert (Hm : 0 <= fileend mod 8 < 8) by (apply Z.mod_pos_bound; lia).
  rewrite int32_small in Hc by lia.
  unfold padlen_of.
  simpl app in Hc. rewrite <- !app_assoc in Hc.
  destruct (Z.eq_dec (fileend mod 8) 0) as [E0|E0].
  - rewrite E0 in *. simpl in Hc. change ((8 - 0) mod 8) with 0.
    change (zeros 0) with (@nil byte). rewrite !app_nil_r, Z.add_0_r.
    injection Hc as <- <-. split; reflexivity.
  - replace ((0 <? 8 - fileend mod 8) && negb (8 - fileend mod 8 =? 8))
      with true in Hc.
    2:{ symmetry. apply andb_true_iff. split; [apply Z.ltb_lt; lia|].
        apply negb_true_iff. apply Z.eqb_neq. lia. }
    rewrite BIO_write_hash_at in Hc. rewrite <- !app_assoc in Hc.
    rewrite (Z.mod_small (8 - fileend mod 8)) by lia.
    injection Hc as <- <-. split; reflexivity.
Qed.

Lemma recalc_pe_checksum_at (A R : list byte) (peheader pos : Z) :
  len A = peheader + 88 -> 0 <= peheader -> peheader + 88 < 2 ^ 31 ->
  file_data (recalc_pe_checksum (mkFile (A ++ zeros 4 ++ R) pos) peheader)
  = A ++ PUT_UINT32_LE (calc_pe_checksum (A ++ zeros 4 ++ R) peheader) ++ R.
Proof.
  intros HA Hph H31. unfold recalc_pe_checksum, BIO_seek. cbn [file_data].
  rewrite uint32_small by lia. rewrite int32_small by lia.
  rewrite <- HA. rewrite file_write_mid by reflexivity. reflexivity.
Qed.

(** The output of [sign] and of [remove-signature] keeps, outside the
    checksum and the certificate-table entry, the header fields of the
    input. *)
Section Reread.

Variables (indata A B ck R : list byte) (peheader pe32plus : Z).
Hypothesis HA : slice indata 0 (peheader + 88) = Some A.
Hypothesis HB : slice indata (peheader + 92) (60 + 16 * pe32plus) = Some B.
Hypothesis Hck : len ck = 4.
Hypothesis Hph : 0 <= peheader.
Hypothesis Hp : pe32plus = 0 \/ pe32plus = 1.

Let Q := A ++ ck ++ B ++ R.

Lemma reread_low (off n : Z) :
  0 <= off -> 0 <= n -> off + n <= peheader + 88 ->
  slice Q off n = slice indata off n.
Proof. intros. unfold Q. eapply slice_of_prefix; eauto. Qed.

Lemma reread_high (off n : Z) :
  peheader + 92 <= off -> 0 <= n -> off + n <= peheader + 152 + 16 * pe32plus ->
  slice Q off n = slice indata off n.
Proof.
  intros. unfold Q. rewrite app_assoc.
  pose proof (slice_len _ _ _ _ HA).
  eapply slice_of_middle; eauto.
  - rewrite len_app. lia.
  - lia.
Qed.

Lemma reread_len : peheader + 152 + 16 * pe32plus + len R = len Q.
Proof.
  unfold Q. rewrite !len_app.
  pose proof (slice_len _ _ _ _ HA). pose proof (slice_len _ _ _ _ HB). lia.
Qed.

Lemma reread_file_type :
  file_type indata = Ok FILE_TYPE_PE -> file_type Q = Ok FILE_TYPE_PE.
Proof.
  unfold file_type. rewrite reread_low by lia.
  destruct (slice indata 0 4) as [m|]; [|discriminate]. cbn [mapped bind].
  destruct (bytes_eqb m (bytes_of_string "MSCF")); [discriminate|].
  destruct (bytes_eqb (firstn 2 m) (bytes_of_string "MZ")); [reflexivity|].
  intros Hf. exfalso.
  destruct (slice indata 0 8) as [m8|]; [|discriminate Hf].
  cbn [mapped bind] in Hf.
  destruct (bytes_eqb m8 msi_signature); discriminate Hf.
Qed.

Lemma reread_pe_header :
  pe_header indata = Ok peheader -> 8 <= len R -> len indata < 2 ^ 31 ->
  pe_tail_start peheader pe32plus <= len indata ->
  pe_header Q = Ok peheader.
Proof.
  intros Hh HR H31 Ht. unfold pe_tail_start in Ht.
  pose proof (pe_header_Ok _ _ Hh) as (H64 & Hg & H160 & Hs & _).
  pose proof reread_len as Hl.
  unfold pe_header, GET_UINT32_LE in *.
  rewrite reread_low by lia.
  replace (64 <=? len Q) with true by (symmetry; apply Z.leb_le; lia).
  cbn [check bind].
  destruct (slice indata 60 4) as [[|b0 [|b1 [|b2 [|b3 [|]]]]]|];
    try discriminate Hg.
  cbn [mapped bind]. cbn [mapped] in Hg.
  assert (Hv : Z.lor (Z.lor (Z.lor (u8 b0) (Z.shiftl (u8 b1) 8))
                            (Z.shiftl (u8 b2) 16)) (Z.shiftl (u8 b3) 24)
               = peheader) by congruence.
  rewrite Hv.
  rewrite uint32_small by lia.
  replace (peheader + 160 <=? len Q) with true by (symmetry; apply Z.leb_le; lia).
  cbn [check bind].
  rewrite reread_low by lia. rewrite Hs. cbn [mapped bind].
  replace (bytes_eqb PE_signature PE_signature) with true
    by (symmetry; apply bytes_eqb_eq; reflexivity).
  reflexivity.
Qed.

End Reread.

(** A file written by [pe_copy] and not signed afterwards has an empty
    certificate-table entry: [pe_layout] reads [sigpos = siglen = 0] from it,
    and refuses it for remove-signature and extract-signature. *)
Lemma pe_layout_after_copy (cmd0 cmd : cmd_type_t)
  (indata A B ck R : list byte) (peheader pe32plus sigpos siglen : Z) :
  slice indata 0 (peheader + 88) = Some A ->
  slice indata (peheader + 92) (60 + 16 * pe32plus) = Some B ->
  len ck = 4 -> 0 <= peheader ->
  pe_layout cmd0 indata peheader = Ok (pe32plus, sigpos, siglen) ->
  pe_layout cmd (A ++ ck ++ B ++ zeros 8 ++ R) peheader
  = if cmd_eqb cmd CMD_REMOVE || cmd_eqb cmd CMD_EXTRACT
    then Exit E_no_signature else Ok (pe32plus, 0, 0).
Proof.
  intros HA HB Hck Hph Hl.
  pose proof (pe_layout_Ok _ _ _ _ _ _ Hl)
    as (Hp & Hmagic & (nrvas & Hn & H5) & _).
  pose proof (slice_len _ _ _ _ HA) as LA.
  pose proof (slice_len _ _ _ _ HB) as LB.
  unfold pe_layout.
  assert (Em : GET_UINT16_LE (A ++ ck ++ B ++ zeros 8 ++ R) (peheader + 24)
               = GET_UINT16_LE indata (peheader + 24)).
  { unfold GET_UINT16_LE.
    rewrite (reread_low indata A B ck _ peheader HA) by lia. reflexivity. }
  rewrite Em, Hmagic. cbn [mapped bind].
  assert (Ep : (if (if pe32plus =? 1 then 523 else 267) =? 523
                then Ok 1
                else if (if pe32plus =? 1 then 523 else 267) =? 267
                     then Ok 0
                     else Exit (E_pe_magic (if pe32plus =? 1 then 523 else 267)))
               = @Ok Z pe32plus)
    by (destruct Hp as [-> | ->]; reflexivity).
  rewrite Ep. cbn [bind].
  assert (En : GET_UINT32_LE (A ++ ck ++ B ++ zeros 8 ++ R)
                 (peheader + 116 + pe32plus * 16)
               = GET_UINT32_LE indata (peheader + 116 + pe32plus * 16)).
  { unfold GET_UINT32_LE.
    rewrite (reread_high indata A B ck _ peheader pe32plus HA HB) by lia.
    reflexivity. }
  rewrite En, Hn. cbn [mapped bind].
  replace (5 <=? nrvas) with true by (symmetry; apply Z.leb_le; assumption).
  cbn [check bind].
  replace (A ++ ck ++ B ++ zeros 8 ++ R) with ((A ++ ck ++ B) ++ zeros 8 ++ R)
    by (rewrite <- !app_assoc; reflexivity).
  rewrite !GET_UINT32_LE_zeros by (rewrite !len_app; lia).
  cbn [mapped bind].
  change (0 <? 0) with false. cbn [andb negb check bind].
  change (0 =? 0) with true. rewrite andb_true_r.
  destruct (cmd_eqb cmd CMD_REMOVE || cmd_eqb cmd CMD_EXTRACT); reflexivity.
Qed.

(** remove-signature on a PE file smaller than 2 GiB: what it writes. *)
Lemma main_remove_Ok `{OpenSSL} `{Curl} (cs : bool) (gsf : option Gsf)
  (fuel : nat) (o : options) (indata : list byte) (f : finished) :
  len indata < 2 ^ 31 ->
  main cs gsf fuel CMD_REMOVE o indata = Ok f ->
  exists peheader pe32plus sigpos siglen A B C,
    file_type indata = Ok FILE_TYPE_PE /\
    pe_header indata = Ok peheader /\
    pe_layout CMD_REMOVE indata peheader = Ok (pe32plus, sigpos, siglen) /\
    pe_tail_start peheader pe32plus <= len indata /\
    slice indata 0 (peheader + 88) = Some A /\
    slice indata (peheader + 92) (60 + 16 * pe32plus) = Some B /\
    f = mkFinished (Ret 0)
          (Some (A ++ PUT_UINT32_LE
                        (calc_pe_checksum
                           (A ++ zeros 4 ++ B ++ zeros 8 ++ C ++
                            zeros (padlen_of sigpos)) peheader) ++
                 B ++ zeros 8 ++ C ++ zeros (padlen_of sigpos))) [].
Proof.
  intros H31 Hm.
  apply main_is_main_pe in Hm; [|discriminate]. destruct Hm as [Ht Hm].
  unfold main_pe in Hm.
  destruct (pe_header indata) as [peheader| | |] eqn:Eh; try discriminate Hm.
  cbn [bind] in Hm.
  destruct (pe_layout CMD_REMOVE indata peheader)
    as [[[pe32plus sigpos] siglen]| | |] eqn:El; try discriminate Hm.
  cbn [bind] in Hm.
  pose proof (pe_header_Ok _ _ Eh) as (_ & _ & _ & _ & Rph).
  pose proof (pe_layout_Ok _ _ _ _ _ _ El)
    as (Hp & _ & _ & Hsp & Hsl & _ & Hsig).
  pose proof (GET_UINT32_LE_range _ _ _ Hsp) as Rsp.
  pose proof (GET_UINT32_LE_inside _ _ _ Hsl) as Isl.
  assert (Hnz : sigpos <> 0) by (apply Hsig; auto).
  replace (0 <? sigpos) with true in Hm by (symmetry; apply Z.ltb_lt; lia).
  destruct (pe_copy indata peheader pe32plus sigpos new_io)
    as [[s fe]| | |] eqn:Ec; try discriminate Hm.
  cbn [bind fst] in Hm.
  assert (Hts : pe_tail_start peheader pe32plus <= len indata)
    by (unfold pe_tail_start; lia).
  apply pe_copy_Ok in Ec; try lia; try assumption.
  destruct Ec as (A & B & C & HA & HB & _ & -> & _).
  unfold io_at in Hm. cbn [outdata] in Hm.
  pose proof (slice_len _ _ _ _ HA) as LA.
  rewrite recalc_pe_checksum_at in Hm by lia.
  exists peheader, pe32plus, sigpos, siglen, A, B, C.
  repeat split; auto. congruence.
Qed.

(** C5, as stated, fails: remove-signature on the output of remove-signature
    does not give that output again, it is refused.  Here the input is a PE
    file with a certificate table of 16 octets. *)
Lemma remove_twice_counterexample :
  exists Q,
    Sample.run 0 CMD_REMOVE (Sample.opts EVP_sha1)
      (Sample.pe32_signed 232 (bytes [1; 2; 3; 4; 5; 6; 7; 8]))
    = Ok (mkFinished (Ret 0) (Some Q) []) /\
    Sample.run 0 CMD_REMOVE (Sample.opts EVP_sha1) Q = Exit E_no_signature /\
    exit_status (Sample.run 0 CMD_REMOVE (Sample.opts EVP_sha1) Q)
    = Some (Ret (-1)) /\
    output_artifact (Sample.run 0 CMD_REMOVE (Sample.opts EVP_sha1) Q) = None.
Proof.
  eexists. split; [vm_compute; reflexivity|].
  vm_compute. repeat split.
Qed.

(** C5 (amended): for every PE file P (smaller than 2 GiB) on which
    remove-signature succeeds, remove-signature applied to the result does
    not succeed: the result has an empty certificate-table entry, and the
    second run leaves through [err_cleanup] with "PE file does not have any
    signature", returning -1 and leaving no output. *)
Theorem remove_twice_refused `{OpenSSL} `{Curl} (cs : bool) (gsf : option Gsf)
  (fuel fuel' : nat) (o o' : options) (P Q : list byte) (r : retval)
  (log : list msg) :
  len P < 2 ^ 31 ->
  main cs gsf fuel CMD_REMOVE o P = Ok (mkFinished r (Some Q) log) ->
  main cs gsf fuel' CMD_REMOVE o' Q = Exit E_no_signature /\
  exit_status (main cs gsf fuel' CMD_REMOVE o' Q) = Some (Ret (-1)) /\
  output_artifact (main cs gsf fuel' CMD_REMOVE o' Q) = None.
Proof.
  intros H31 Hm.
  destruct (main_remove_Ok _ _ _ _ _ _ H31 Hm)
    as (peheader & pe32plus & sigpos & siglen & A & B & C
        & Ht & Hh & Hl & Hts & HA & HB & Hf).
  match type of Hf with
  | _ = mkFinished _ (Some ?x) _ => assert (HQ : Q = x) by congruence
  end.
  clear Hf.
  pose proof (pe_header_Ok _ _ Hh) as (_ & _ & _ & _ & Rph).
  pose proof (pe_layout_Ok _ _ _ _ _ _ Hl) as (Hp & _).
  set (ck := PUT_UINT32_LE _) in HQ.
  set (R := zeros 8 ++ C ++ zeros (padlen_of sigpos)) in *.
  assert (Hck : len ck = 4) by reflexivity.
  assert (HR : 8 <= len R).
  { unfold R. rewrite len_app, len_zeros by lia.
    pose proof (len_nonneg (C ++ zeros (padlen_of sigpos))). lia. }
  assert (Hmain : main cs gsf fuel' CMD_REMOVE o' Q = Exit E_no_signature).
  { subst Q. unfold main.
    pose proof (reread_len P A B ck R peheader pe32plus HA HB Hck) as Hlen.
    replace (4 <=? len (A ++ ck ++ B ++ R)) with true
      by (symmetry; apply Z.leb_le; lia).
    cbn [check bind].
    rewrite (reread_file_type P A B ck R peheader HA) by (lia || assumption).
    cbn [bind cmd_eqb type_eqb orb check].
    unfold main_pe.
    rewrite (reread_pe_header P A B ck R peheader pe32plus HA HB Hck)
      by (lia || assumption).
    cbn [bind]. unfold R.
    rewrite (pe_layout_after_copy CMD_REMOVE CMD_REMOVE P A B ck _
               peheader pe32plus sigpos siglen) by (lia || assumption).
    reflexivity. }
  rewrite Hmain. repeat split.
Qed.

Lemma remove_twice_refused_witness :
  len (Sample.pe32_signed 232 (bytes [1; 2; 3; 4; 5; 6; 7; 8])) < 2 ^ 31 /\
  exists Q,
    Sample.run 0 CMD_REMOVE (Sample.opts EVP_sha1)
      (Sample.pe32_signed 232 (bytes [1; 2; 3; 4; 5; 6; 7; 8]))
    = Ok (mkFinished (Ret 0) (Some Q) []) /\
    Sample.run 1 CMD_REMOVE (Sample.opts EVP_sha256) Q = Exit E_no_signature.
Proof.
  split; [vm_compute; reflexivity|].
  eexists. split; [vm_compute; reflexivity|].
  refine (proj1 (@remove_twice_refused Sample.openssl Sample.libcurl true None
                   0 1 (Sample.opts EVP_sha1) (Sample.opts EVP_sha256)
                   (Sample.pe32_signed 232 (bytes [1; 2; 3; 4; 5; 6; 7; 8]))
                   _ (Ret 0) [] _ _)).
  - vm_compute; reflexivity.
  - vm_compute; reflexivity.
Defined.

(* ================================================================== *)
(** ** The order of MSI streams *)

(** C8: [msi_cmp] measures the UTF-16 buffers with [strlen], which stops at
    the first zero octet, the high octet of the first character for a name
    that starts with U+0005 or with a letter.  It then compares one octet,
    finds a tie, and answers -1 for both orders of two distinct names, where
    the comparator of the claim orders them ('D' before 'S'). *)
Lemma msi_cmp_stops_at_zero_octet :
  msi_cmp SummaryInformation DocumentSummaryInformation = Ok (-1) /\
  msi_cmp DocumentSummaryInformation SummaryInformation = Ok (-1) /\
  claimed_msi_cmp SummaryInformation DocumentSummaryInformation = Some 15 /\
  claimed_msi_cmp DocumentSummaryInformation SummaryInformation = Some (-15) /\
  option_map strlen (g_utf8_to_utf16 SummaryInformation) = Some 1 /\
  msi_cmp (bytes_of_string "AB") (bytes_of_string "AC") = Ok (-1) /\
  msi_cmp (bytes_of_string "AC") (bytes_of_string "AB") = Ok (-1).
Proof.
  vm_compute. repeat split.
Qed.

(** With such a comparator the order of the output depends on the order in
    which the streams are met. *)
Lemma msi_sorted_depends_on_input_order :
  g_slist_insert_sorted [SummaryInformation] DocumentSummaryInformation
  = Ok [DocumentSummaryInformation; SummaryInformation] /\
  g_slist_insert_sorted [DocumentSummaryInformation] SummaryInformation
  = Ok [SummaryInformation; DocumentSummaryInformation].
Proof.
  vm_compute. split; reflexivity.
Qed.

(* ================================================================== *)
(** ** The digest of a CAB file *)

Lemma write_outdata_from_at (indata d h : list byte) (off n : Z) (s : io) :
  0 < n ->
  write_outdata_from indata (io_at d h) off n = Ok s ->
  exists x, slice indata off n = Some x /\ s = io_at (d ++ x) h.
Proof.
  intros Hn. unfold write_outdata_from.
  replace (n <=? 0) with false by (symmetry; apply Z.leb_gt; lia).
  destruct (slice indata off n) as [x|]; [|discriminate].
  cbn [mapped bind]. rewrite BIO_write_outdata_at.
  intros Hs. exists x. split; [reflexivity|congruence].
Qed.

Lemma cab_folders_at (indata : list byte) (n : nat) :
  forall (i : Z) (d h : list byte) (s : io) (i' : Z),
    cab_folders n indata i (io_at d h) = Ok (s, i') ->
    exists F, s = io_at (d ++ F) (h ++ F) /\
              i' = i + 8 * Z.of_nat n /\ len F = 8 * Z.of_nat n.
Proof.
  induction n as [|n IH]; intros i d h s i' Hc.
  - simpl in Hc. exists []. rewrite !app_nil_r.
    split; [congruence|]. split; [|reflexivity].
    injection Hc as _ <-. lia.
  - cbn [cab_folders] in Hc.
    destruct (GET_UINT32_LE indata i) as [tmp|]; [|discriminate Hc].
    cbn [mapped bind] in Hc. rewrite BIO_write_hash_at in Hc.
    destruct (write_hash_from indata _ (i + 4) 4) as [s1| | |] eqn:W;
      try discriminate Hc.
    apply write_hash_from_at in W.
    destruct W as (x & -> & [[? _]|[_ Hx]]); [lia|].
    cbn [bind] in Hc. apply IH in Hc.
    destruct Hc as (F & -> & -> & HF).
    exists (PUT_UINT32_LE (uint32 (tmp + 24)) ++ x ++ F).
    rewrite <- !app_assoc. split; [reflexivity|].
    rewrite !len_app, len_PUT_UINT32_LE, (slice_len _ _ _ _ Hx). lia.
Qed.

Lemma occurs_app (pat pre post : list byte) :
  occurs pat (pre ++ pat ++ post) = true.
Proof.
  induction pre as [|x pre IH].
  - simpl app. destruct (pat ++ post) eqn:E; simpl;
      apply orb_true_iff; left; apply bytes_eqb_eq; rewrite <- E;
      rewrite firstn_app, Nat.sub_diag, firstn_all; simpl;
      rewrite app_nil_r; reflexivity.
  - simpl. rewrite IH. apply orb_true_r.
Qed.

Lemma claimed_cab_template_occurs (digested : list byte) :
  claimed_cab_template_in digested ->
  occurs (firstn 8 cabsigned) digested = true.
Proof.
  intros (pre & template & post & -> & _ & H8).
  rewrite <- (firstn_skipn 8 template), H8, <- app_assoc.
  apply occurs_app.
Qed.

(** C7, as stated, fails: for the sample cabinet the digest input is 50
    octets and the [cabsigned] area is nowhere in it; after the 30 octets of
    the header come four zero octets and then the folder entry.  The area is
    in the output file, at offset 36. *)
Lemma cab_template_counterexample :
  exists s,
    @cab_copy true Sample.cab new_io = Ok s /\
    ~ claimed_cab_template_in (md_ctx s) /\
    slice (md_ctx s) 30 12
    = Some (zeros 4 ++ PUT_UINT32_LE (44 + 24) ++ zeros 4) /\
    slice (file_data (outdata s)) 36 20
    = Some (firstn 8 cabsigned ++ PUT_UINT32_LE (60 + 24) ++
            bytes [0xde; 0xad; 0xbe; 0xef] ++ zeros 4).
Proof.
  eexists. split; [vm_compute; reflexivity|].
  split; [|split; vm_compute; reflexivity].
  intros Hc. apply claimed_cab_template_occurs in Hc.
  vm_compute in Hc. discriminate Hc.
Qed.

(** The folder entries that [cab_folders] writes and digests: entry [k] is
    the entry of the input at [i + 8k] with its offset raised by 24. *)
Lemma cab_folders_entries (indata : list byte) (n : nat) :
  forall (i : Z) (d h : list byte) (s : io) (i' : Z),
    cab_folders n indata i (io_at d h) = Ok (s, i') ->
    exists F, s = io_at (d ++ F) (h ++ F) /\
              i' = i + 8 * Z.of_nat n /\ len F = 8 * Z.of_nat n /\
              forall k, 0 <= k < Z.of_nat n ->
                exists v x,
                  GET_UINT32_LE indata (i + 8 * k) = Some v /\
                  slice indata (i + 8 * k + 4) 4 = Some x /\
                  slice F (8 * k) 8
                  = Some (PUT_UINT32_LE (uint32 (v + 24)) ++ x).
Proof.
  induction n as [|n IH]; intros i d h s i' Hc.
  - simpl in Hc. exists []. rewrite !app_nil_r.
    split; [congruence|]. split; [injection Hc as _ <-; lia|].
    split; [reflexivity|]. intros k Hk. simpl in Hk. lia.
  - cbn [cab_folders] in Hc.
    destruct (GET_UINT32_LE indata i) as [tmp|] eqn:Eg; [|discriminate Hc].
    cbn [mapped bind] in Hc. rewrite BIO_write_hash_at in Hc.
    destruct (write_hash_from indata _ (i + 4) 4) as [s1| | |] eqn:W;
      try discriminate Hc.
    apply write_hash_from_at in W.
    destruct W as (x & -> & [[? _]|[_ Hx]]); [lia|].
    cbn [bind] in Hc. rewrite <- !app_assoc in Hc. apply IH in Hc.
    destruct Hc as (F & -> & -> & HF & Hk).
    pose proof (slice_len _ _ _ _ Hx) as Lx.
    set (e := PUT_UINT32_LE (uint32 (tmp + 24)) ++ x).
    assert (Le : len e = 8)
      by (unfold e; rewrite len_app, len_PUT_UINT32_LE; lia).
    exists (e ++ F).
    split; [unfold e; rewrite <- !app_assoc; reflexivity|].
    split; [lia|].
    split; [rewrite len_app, Le; lia|].
    intros k Hr.
    destruct (Z.eq_dec k 0) as [->|Hne].
    + exists tmp, x. rewrite Z.mul_0_r, !Z.add_0_r.
      split; [exact Eg|]. split; [exact Hx|].
      fold e. rewrite <- Le. apply slice_app_exact.
    + destruct (Hk (k - 1) ltac:(lia)) as (v & y & Hv & Hy & Hs).
      exists v, y.
      replace (i + 8 * k) with (i + 8 + 8 * (k - 1)) by lia.
      split; [exact Hv|]. split; [exact Hy|].
      rewrite slice_app_r by lia. rewrite Le.
      replace (8 * k - 8) with (8 * (k - 1)) by lia. exact Hs.
Qed.

Lemma slice_one (p : list byte) (off : Z) (l : list byte) :
  slice p off 1 = Some l -> exists b, l = [b].
Proof.
  intros H. apply slice_len in H. unfold len in H.
  destruct l as [|b [|c l]]; cbn [Datatypes.length] in H; [lia|eauto|lia].
Qed.

(** C7 (amended): for every CAB input that [cab_copy] gets through, the 20
    octets of the [cabsigned] area (the reserve sizes, the cab-size field
    overwritten with the raised size, the blob-length field still 0xdeadbeef
    until [main] patches the file at 0x30, four zero octets) are written to
    the output file only, after the 36 octets of the header; they are not
    digested.  The digest input is exactly this: the 30 octets of the header
    that go through the digest (octets 0 to 4, the raised size, octets 12 to
    16, the raised offset, octets 20 to 34 with the reserve flag set), the
    four zero octets that follow the area in the [cabsigned] array, the
    folder entries [F] of the input, each with its offset raised by 24, and
    the rest [T] of the input behind the folder entries.  The output file
    is the same with octets 4 to 8 and 34 to 36 of the header and the area
    put in. *)
Theorem cab_template_bypasses_digest (char_is_signed : bool)
  (indata : list byte) (s : io) :
  cab_copy char_is_signed indata new_io = Ok s ->
  exists m0 m4 m12 hdr m34 size off b26 b27 F T,
    slice indata 0 4 = Some m0 /\ slice indata 4 4 = Some m4 /\
    GET_UINT32_LE indata 8 = Some size /\ slice indata 12 4 = Some m12 /\
    GET_UINT32_LE indata 16 = Some off /\ slice indata 20 14 = Some hdr /\
    slice indata 34 2 = Some m34 /\
    slice indata 26 1 = Some [b26] /\ slice indata 27 1 = Some [b27] /\
    let size' := PUT_UINT32_LE (uint32 (size + 24)) in
    let off' := PUT_UINT32_LE (uint32 (off + 24)) in
    let hdr' := firstn 10 hdr ++ [to_u8 0x04] ++ skipn 11 hdr in
    let area := firstn 8 cabsigned ++ size' ++
                bytes [0xde; 0xad; 0xbe; 0xef] ++ zeros 4 in
    let nfolders := uint16 (Z.lor (char_value char_is_signed b26)
                              (Z.shiftl (char_value char_is_signed b27) 8)) in
    let rest := 36 + 8 * nfolders in
    len area = 20 /\
    md_ctx s = m0 ++ size' ++ m12 ++ off' ++ hdr' ++ zeros 4 ++ F ++ T /\
    file_data (outdata s)
    = m0 ++ m4 ++ size' ++ m12 ++ off' ++ hdr' ++ m34 ++
      area ++ zeros 4 ++ F ++ T /\
    len F = 8 * nfolders /\
    (forall k, 0 <= k < nfolders ->
       exists v x,
         GET_UINT32_LE indata (36 + 8 * k) = Some v /\
         slice indata (36 + 8 * k + 4) 4 = Some x /\
         slice F (8 * k) 8 = Some (PUT_UINT32_LE (uint32 (v + 24)) ++ x)) /\
    ((int32 (len indata - rest) <= 0 /\ T = []) \/
     slice indata rest (int32 (len indata - rest)) = Some T).
Proof.
  unfold cab_copy. rewrite new_io_at. intros Hc.
  destruct (write_hash_from indata (io_at [] []) 0 4) as [s1| | |] eqn:W1;
    try discriminate Hc.
  apply write_hash_from_at in W1.
  destruct W1 as (m0 & -> & [[? _]|[_ H0]]); [lia|]. cbn [bind] in Hc.
  destruct (write_outdata_from indata _ 4 4) as [s2| | |] eqn:W2;
    try discriminate Hc.
  apply write_outdata_from_at in W2; [|lia].
  destruct W2 as (m4 & H4 & ->). cbn [bind] in Hc.
  destruct (GET_UINT32_LE indata 8) as [size|] eqn:E8; [|discriminate Hc].
  cbn [mapped bind] in Hc. rewrite BIO_write_hash_at in Hc.
  destruct (write_hash_from indata _ 12 4) as [s3| | |] eqn:W3;
    try discriminate Hc.
  apply write_hash_from_at in W3.
  destruct W3 as (m12 & -> & [[? _]|[_ H12]]); [lia|]. cbn [bind] in Hc.
  destruct (GET_UINT32_LE indata 16) as [off|] eqn:E16; [|discriminate Hc].
  cbn [mapped bind] in Hc. rewrite BIO_write_hash_at in Hc.
  destruct (slice indata 20 14) as [hdr|] eqn:E20; [|discriminate Hc].
  cbn [mapped bind] in Hc. rewrite BIO_write_hash_at in Hc.
  destruct (write_outdata_from indata _ 34 2) as [s4| | |] eqn:W4;
    try discriminate Hc.
  apply write_outdata_from_at in W4; [|lia].
  destruct W4 as (m34 & H34 & ->). cbn [bind] in Hc.
  rewrite BIO_write_outdata_at, BIO_write_hash_at in Hc.
  destruct (slice indata 26 1) as [l26|] eqn:E26; [|discriminate Hc].
  destruct (slice indata 27 1) as [l27|] eqn:E27; [|discriminate Hc].
  destruct (slice_one _ _ _ E26) as (b26 & ->).
  destruct (slice_one _ _ _ E27) as (b27 & ->).
  cbn [mapped bind hd] in Hc.
  set (nfolders := uint16 (Z.lor (char_value char_is_signed b26)
                             (Z.shiftl (char_value char_is_signed b27) 8))) in *.
  assert (Hnf : Z.of_nat (Z.to_nat nfolders) = nfolders).
  { apply Z2Nat.id. unfold nfolders, uint16.
    apply Z.mod_pos_bound. lia. }
  destruct (cab_folders _ indata 36 _) as [[s5 i]| | |] eqn:Ef;
    try discriminate Hc.
  apply cab_folders_entries in Ef. destruct Ef as (F & -> & -> & LF & HF).
  rewrite Hnf in *.
  cbn [bind] in Hc.
  apply write_hash_from_at in Hc. destruct Hc as (T & -> & HT).
  exists m0, m4, m12, hdr, m34, size, off, b26, b27, F, T.
  do 9 (split; [first [assumption|reflexivity]|]).
  cbv zeta. fold nfolders. split; [reflexivity|].
  unfold io_at. cbn [md_ctx outdata file_data].
  split; [rewrite <- ?app_assoc; reflexivity|].
  split; [rewrite <- ?app_assoc; reflexivity|].
  split; [exact LF|]. split; [exact HF|].
  destruct HT as [[Hle ->]|[_ HT]]; [left; auto|right; exact HT].
Qed.

Lemma cab_template_bypasses_digest_witness :
  exists s,
    @cab_copy true Sample.cab new_io = Ok s /\
    exists m0 m4 m12 hdr m34 size off b26 b27 F T,
      slice Sample.cab 0 4 = Some m0 /\ slice Sample.cab 4 4 = Some m4 /\
      GET_UINT32_LE Sample.cab 8 = Some size /\
      slice Sample.cab 12 4 = Some m12 /\
      GET_UINT32_LE Sample.cab 16 = Some off /\
      slice Sample.cab 20 14 = Some hdr /\
      slice Sample.cab 34 2 = Some m34 /\
      slice Sample.cab 26 1 = Some [b26] /\
      slice Sample.cab 27 1 = Some [b27] /\
      let size' := PUT_UINT32_LE (uint32 (size + 24)) in
      let off' := PUT_UINT32_LE (uint32 (off + 24)) in
      let hdr' := firstn 10 hdr ++ [to_u8 0x04] ++ skipn 11 hdr in
      let area := firstn 8 cabsigned ++ size' ++
                  bytes [0xde; 0xad; 0xbe; 0xef] ++ zeros 4 in
      let nfolders := uint16 (Z.lor (char_value true b26)
                                (Z.shiftl (char_value true b27) 8)) in
      let rest := 36 + 8 * nfolders in
      len area = 20 /\
      md_ctx s = m0 ++ size' ++ m12 ++ off' ++ hdr' ++ zeros 4 ++ F ++ T /\
      file_data (outdata s)
      = m0 ++ m4 ++ size' ++ m12 ++ off' ++ hdr' ++ m34 ++
        area ++ zeros 4 ++ F ++ T /\
      len F = 8 * nfolders /\
      (forall k, 0 <= k < nfolders ->
         exists v x,
           GET_UINT32_LE Sample.cab (36 + 8 * k) = Some v /\
           slice Sample.cab (36 + 8 * k + 4) 4 = Some x /\
           slice F (8 * k) 8 = Some (PUT_UINT32_LE (uint32 (v + 24)) ++ x)) /\
      ((int32 (len Sample.cab - rest) <= 0 /\ T = []) \/
       slice Sample.cab rest (int32 (len Sample.cab - rest)) = Some T).
Proof.
  eexists. split; [vm_compute; reflexivity|].
  apply (cab_template_bypasses_digest true Sample.cab).
  vm_compute; reflexivity.
Defined.

(* ================================================================== *)
(** ** The RFC 3161 timestamp *)

Lemma add_attribute_In (sk : list X509_ATTRIBUTE) (a : X509_ATTRIBUTE) :
  In a (add_attribute sk a).
Proof.
  induction sk as [|x sk IH]; simpl; [auto|].
  destruct (String.eqb (attr_object x) (attr_object a)); simpl; auto.
Qed.

Lemma add_attribute_elim (sk : list X509_ATTRIBUTE) (a b : X509_ATTRIBUTE) :
  In b (add_attribute sk a) -> b = a \/ In b sk.
Proof.
  induction sk as [|x sk IH]; simpl.
  - intros [->|[]]. auto.
  - destruct (String.eqb (attr_object x) (attr_object a)); simpl.
    + intros [->|Hin]; auto.
    + intros [->|Hin]; auto. destruct (IH Hin); auto.
Qed.

Lemma fold_add_certificate_fields (l : list X509) (sig : PKCS7) :
  cert (fold_left PKCS7_add_certificate l sig) = cert sig ++ l /\
  signer_info (fold_left PKCS7_add_certificate l sig) = signer_info sig /\
  contents_other (fold_left PKCS7_add_certificate l sig) = contents_other sig.
Proof.
  revert sig. induction l as [|x l IH]; intros sig; simpl.
  - rewrite app_nil_r. auto.
  - destruct (IH (PKCS7_add_certificate sig x)) as (Hc & Hs & Ho).
    rewrite Hc, Hs, Ho. simpl. rewrite <- app_assoc. auto.
Qed.

Lemma add_certificates_rev_fields (sig : PKCS7) (certs : list X509) :
  cert (add_certificates_rev sig certs) = cert sig ++ rev certs /\
  signer_info (add_certificates_rev sig certs) = signer_info sig /\
  contents_other (add_certificates_rev sig certs) = contents_other sig.
Proof. apply fold_add_certificate_fields. Qed.

(** C6, as stated, fails: a sign run with [-ts] that succeeds leaves on the
    SignerInfo one unauthenticated attribute, whose object is
    pkcs9-countersignature (1.2.840.113549.1.9.6) and whose value is the
    encoding of the token's first SignerInfo; no attribute has the object
    id-smime-aa-timeStampToken. *)
Lemma rfc3161_attribute_counterexample :
  let o := mkOptions EVP_sha1 false None None (-1) None
             (Some "http://tsa.example/rfc3161") None
             (Some Sample.signer) [] [] in
  exists sig p si info,
    @main_sign Sample.openssl Sample.libcurl o FILE_TYPE_PE (bytes [1; 2; 3])
    = Ok (sig, p) /\
    signer_info sig = [si] /\
    signer_info Sample.token = [info] /\
    unauth_attr si
    = [mkAttr NID_pkcs9_countersignature
              (V_ASN1_SEQUENCE (@i2d_PKCS7_SIGNER_INFO Sample.openssl info))] /\
    NID_pkcs9_countersignature <> id_smime_aa_timeStampToken /\
    forall a, In a (unauth_attr si) ->
              attr_object a <> id_smime_aa_timeStampToken.
Proof.
  cbv zeta. eexists _, _, _, _.
  split; [vm_compute; reflexivity|].
  split; [reflexivity|]. split; [reflexivity|]. split; [reflexivity|].
  split; [discriminate|].
  intros a [<-|[]]. discriminate.
Qed.

(** C6 (amended): whenever [add_timestamp] in its RFC 3161 mode returns 0,
    the reply decoded as a [TimeStampResp] with status 0 and a token, and
    what is attached to the first SignerInfo of the signature is the DER of
    the first SignerInfo of that token, as the unauthenticated attribute
    pkcs9-countersignature (the attribute the legacy mode uses), encoded as a
    SEQUENCE; the token's certificates are added to the signature.  No
    attribute with the object id-smime-aa-timeStampToken is added.  The
    encrypted digest of the signer info is not freed. *)
Theorem rfc3161_attached_as_countersignature `{OpenSSL} `{Curl}
  (sig : PKCS7) (url : string) (proxy : option string) (md : EVP_MD)
  (mdbuf : list byte) (sig' : PKCS7) (freed : bool) :
  add_timestamp_rfc3161 sig (Some url) proxy md mdbuf = Ok (0, sig', freed) ->
  freed = false /\
  exists si others req reply r token info more,
    signer_info sig = si :: others /\
    CURLOPT_URL req = url /\
    curl_easy_perform req = (0, reply) /\
    d2i_TimeStampResp reply = Some r /\
    tsp_status r = 0 /\ tsp_token r = Some token /\
    signer_info token = info :: more /\
    let si' := PKCS7_add_attribute si NID_pkcs9_countersignature
                 (V_ASN1_SEQUENCE (i2d_PKCS7_SIGNER_INFO info)) in
    signer_info sig' = si' :: others /\
    cert sig' = cert sig ++ rev (cert token) /\
    contents_other sig' = contents_other sig /\
    In (mkAttr NID_pkcs9_countersignature
               (V_ASN1_SEQUENCE (i2d_PKCS7_SIGNER_INFO info)))
       (unauth_attr si') /\
    forall a, In a (unauth_attr si') ->
              attr_object a = id_smime_aa_timeStampToken ->
              In a (unauth_attr si).
Proof.
  unfold add_timestamp_rfc3161, add_timestamp. intros Ha.
  destruct (slice mdbuf 0 (EVP_MD_size md)) as [d|]; [|discriminate Ha].
  cbn [mapped bind] in Ha.
  match type of Ha with
  | context [curl_easy_perform ?q] =>
      set (req := q) in Ha; destruct (curl_easy_perform req) as [c reply] eqn:Ec
  end.
  destruct (Z.eqb_spec c 0) as [->|Hc]; cbn [negb] in Ha.
  2:{ injection Ha as Hc0 _ _. contradiction. }
  destruct (d2i_TimeStampResp reply) as [r|] eqn:Er; [|discriminate Ha].
  destruct (Z.eqb_spec (tsp_status r) 0) as [Hst|Hst]; cbn [negb] in Ha;
    [|discriminate Ha].
  destruct (tsp_token r) as [token|] eqn:Et; [|discriminate Ha].
  destruct (type_is_signed token); cbn [negb] in Ha; [|discriminate Ha].
  destruct (signer_info token) as [|info more] eqn:Ei; [discriminate Ha|].
  destruct (len (i2d_PKCS7_SIGNER_INFO info) <=? 0); [discriminate Ha|].
  destruct (add_certificates_rev_fields sig (cert token)) as (Hce & Hsi & Hco).
  rewrite Hsi in Ha.
  destruct (signer_info sig) as [|si others] eqn:Esi; [discriminate Ha|].
  cbn [hd_error mapped bind tl] in Ha.
  assert (Hs : sig' = set_signer_info (add_certificates_rev sig (cert token))
                        (PKCS7_add_attribute si NID_pkcs9_countersignature
                           (V_ASN1_SEQUENCE (i2d_PKCS7_SIGNER_INFO info))
                         :: others)) by congruence.
  assert (Hfr : freed = false) by congruence.
  clear Ha. subst sig'. split; [exact Hfr|].
  exists si, others, req, reply, r, token, info, more.
  do 7 (split; [first [assumption|reflexivity]|]).
  cbv zeta. split; [reflexivity|].
  split; [exact Hce|]. split; [exact Hco|].
  split.
  - apply add_attribute_In.
  - intros a Hin Ho. cbn [PKCS7_add_attribute unauth_attr] in Hin.
    apply add_attribute_elim in Hin. destruct Hin as [->|Hin]; [|exact Hin].
    discriminate Ho.
Qed.

Lemma rfc3161_attached_as_countersignature_witness :
  let sig := mkPKCS7 true [Sample.signer]
               [mkSI Sample.signer [] EVP_sha1 [] [] (bytes [9])]
               SPC_INDIRECT_DATA_OBJID None in
  exists sig' si',
    @add_timestamp_rfc3161 Sample.openssl Sample.libcurl sig
      (Some "http://tsa.example/rfc3161") None EVP_sha1
      (Sample.digest EVP_sha1 []) = Ok (0, sig', false) /\
    signer_info sig' = [si'] /\
    cert sig' = [Sample.signer; Sample.tsa] /\
    List.map attr_object (unauth_attr si') = [NID_pkcs9_countersignature].
Proof.
  cbv zeta.
  eexists _, _. split; [vm_compute; reflexivity|].
  destruct (@rfc3161_attached_as_countersignature Sample.openssl
              Sample.libcurl
              (mkPKCS7 true [Sample.signer]
                 [mkSI Sample.signer [] EVP_sha1 [] [] (bytes [9])]
                 SPC_INDIRECT_DATA_OBJID None)
              "http://tsa.example/rfc3161" None EVP_sha1
              (Sample.digest EVP_sha1 []) _ _ eq_refl)
    as (_ & si & others & req & reply & r & token & info & more & _).
  repeat split.
Defined.

(* ================================================================== *)
(** ** The value [verify] returns *)

(** C4, as stated, fails: the sample PE image has no certificate table and a
    stored checksum of zero, while the recomputed checksum is 23949.  The
    checksums do not match, no digest is compared and no PKCS#7 is verified,
    and [verify] returns 0. *)
Lemma verify_returns_zero_counterexample :
  GET_UINT32_LE (Sample.pe32 234) (64 + 88) = Some 0 /\
  calc_pe_checksum (Sample.pe32 234) 64 = 23949 /\
  Sample.run 0 CMD_VERIFY (Sample.opts EVP_sha1) (Sample.pe32 234)
  = Ok (mkFinished (Ret 0) None
          [M_current_pe_checksum 0; M_calculated_pe_checksum 23949 false;
           M_no_signature_found]).
Proof.
  vm_compute. repeat split.
Qed.

(** C4 (amended): whenever [verify_pe_file] returns a value, the value is 0
    or 1, and it is 0 exactly when the stored PE checksum is zero or equals
    the recomputed one, and either the certificate table is empty
    ([siglen = 0]) or the digest taken from the certificate table equals the
    recomputed digest and [PKCS7_verify] succeeds.  (The path on which no
    digest can be taken from the table ends in [return;] and gives no
    value; nothing is said of it.) *)
Theorem verify_return_value `{OpenSSL} (fuel : nat) (indata : list byte)
  (peheader pe32plus sigpos siglen : Z) (v : Z) (log : list msg) :
  verify_pe_file fuel indata peheader pe32plus sigpos siglen = Ok (Ret v, log) ->
  exists pe bio,
    GET_UINT32_LE indata (peheader + 88) = Some pe /\
    slice indata 0 (int32 (uint32 (sigpos + siglen))) = Some bio /\
    (v = 0 \/ v = 1) /\
    ((siglen = 0 /\
      (v = 0 <-> pe = 0 \/ pe = calc_pe_checksum bio peheader)) \/
     (siglen <> 0 /\
      exists p7 idc ph md mdbuf input astr seqhdrlen content,
        cert_loop fuel indata sigpos siglen 0 = Ok (Some (p7, idc, ph)) /\
        EVP_get_digestbynid (idc_digestAlgorithm idc) = Some md /\
        slice (idc_digest idc) 0 (EVP_MD_size md) = Some mdbuf /\
        pe_digest_input bio peheader pe32plus sigpos = Ok input /\
        contents_other p7 = Some (V_ASN1_SEQUENCE astr) /\
        asn1_simple_hdr_len astr (len astr) = Ok seqhdrlen /\
        slice astr seqhdrlen (len astr - seqhdrlen) = Some content /\
        (v = 0 <->
         (pe = 0 \/ pe = calc_pe_checksum bio peheader) /\
         mdbuf = firstn (Z.to_nat (EVP_MD_size md))
                        (EVP_Digest md input ++ zeros EVP_MAX_MD_SIZE) /\
         PKCS7_verify p7 content = true))).
Proof.
  unfold verify_pe_file. intros Hv.
  destruct (GET_UINT32_LE indata (peheader + 88)) as [pe|] eqn:Epe;
    [|discriminate Hv].
  destruct (slice indata 0 (int32 (uint32 (sigpos + siglen)))) as [bio|] eqn:Eb;
    [|discriminate Hv].
  cbn [mapped bind] in Hv. unfold verify_signature in Hv.
  exists pe, bio. split; [reflexivity|]. split; [reflexivity|].
  set (real := calc_pe_checksum bio peheader) in *.
  pose proof (checksum_ret_spec pe real) as Hcr.
  destruct (Z.eqb_spec siglen 0) as [Hs|Hs].
  - assert (Hr : v = checksum_ret pe real) by congruence.
    split; [lia|]. left. split; [assumption|]. lia.
  - destruct (cert_loop fuel indata sigpos siglen 0)
      as [[[[p7 idc] ph]|]| | |] eqn:El; cbn [bind] in Hv;
      try discriminate Hv.
    destruct (EVP_get_digestbynid (idc_digestAlgorithm idc)) as [md|] eqn:Emd;
      [|discriminate Hv].
    cbn [mapped bind] in Hv.
    destruct (EVP_MAX_MD_SIZE <? len (idc_digest idc)); [discriminate Hv|].
    destruct (slice (idc_digest idc) 0 (EVP_MD_size md)) as [mdbuf|] eqn:Emb;
      [|discriminate Hv].
    cbn [mapped bind] in Hv.
    destruct (pe_digest_input bio peheader pe32plus sigpos) as [input| | |] eqn:Ein;
      try discriminate Hv.
    cbn [bind] in Hv.
    destruct (contents_other p7) as [[o|astr| |tag der]|] eqn:Eco;
      try discriminate Hv.
    cbn [sequence_data bind] in Hv.
    destruct (asn1_simple_hdr_len astr (len astr)) as [seqhdrlen| | |] eqn:Eh;
      try discriminate Hv.
    cbn [bind] in Hv.
    destruct (slice astr seqhdrlen (len astr - seqhdrlen)) as [content|] eqn:Ec;
      [|discriminate Hv].
    cbn [mapped bind] in Hv.
    set (cmdbuf := firstn (Z.to_nat (EVP_MD_size md))
                          (EVP_Digest md input ++ zeros EVP_MAX_MD_SIZE)) in *.
    assert (Hr : v = if PKCS7_verify p7 content
                     then (if bytes_eqb mdbuf cmdbuf
                           then checksum_ret pe real else 1)
                     else 1) by congruence.
    clear Hv.
    assert (Hmd : bytes_eqb mdbuf cmdbuf = true <-> mdbuf = cmdbuf)
      by apply bytes_eqb_eq.
    split.
    + destruct (PKCS7_verify p7 content), (bytes_eqb mdbuf cmdbuf); lia.
    + right. split; [assumption|].
      exists p7, idc, ph, md, mdbuf, input, astr, seqhdrlen, content.
      do 7 (split; [first [assumption|reflexivity]|]).
      destruct (PKCS7_verify p7 content), (bytes_eqb mdbuf cmdbuf) eqn:Em;
        (split; [intros Hx|intros (Hx0 & Hx1 & Hx2)]).
      * split; [lia|]. split; [apply Hmd; reflexivity|reflexivity].
      * lia.
      * lia.
      * apply Hmd in Hx1. discriminate Hx1.
      * lia.
      * discriminate Hx2.
      * lia.
      * discriminate Hx2.
Qed.

Lemma verify_return_value_witness :
  (* the sample image, not signed: 0 *)
  (exists log,
     @verify_pe_file Sample.openssl 1 (Sample.pe32 234) 64 0 234 0
     = Ok (Ret 0, log) /\
  exists pe bio,
       GET_UINT32_LE (Sample.pe32 234) (64 + 88) = Some pe /\
       slice (Sample.pe32 234) 0 (int32 (uint32 (234 + 0))) = Some bio /\
       (0 = 0 \/ 0 = 1) /\
       ((0 = 0 /\
         (0 = 0 <-> pe = 0 \/ pe = calc_pe_checksum bio 64)) \/
        (0 <> 0 /\
         exists p7 idc ph md mdbuf input astr seqhdrlen content,
           @cert_loop Sample.openssl 1 (Sample.pe32 234) 234 0 0
           = Ok (Some (p7, idc, ph)) /\
           Sample.digestbynid (idc_digestAlgorithm idc) = Some md /\
           slice (idc_digest idc) 0 (Sample.md_size md) = Some mdbuf /\
           pe_digest_input bio 64 0 234 = Ok input /\
           contents_other p7 = Some (V_ASN1_SEQUENCE astr) /\
           asn1_simple_hdr_len astr (len astr) = Ok seqhdrlen /\
           slice astr seqhdrlen (len astr - seqhdrlen) = Some content /\
           (0 = 0 <->
            (pe = 0 \/ pe = calc_pe_checksum bio 64) /\
            mdbuf = firstn (Z.to_nat (Sample.md_size md))
                           (Sample.digest md input ++ zeros EVP_MAX_MD_SIZE) /\
            Sample.verify p7 content = true)))) /\
  (* the sample image, signed: 0 *)
  (exists log,
     @verify_pe_file Sample.openssl 1 (Sample.signed_pe EVP_sha1) 64 0 240 88
     = Ok (Ret 0, log) /\
  exists pe bio,
       GET_UINT32_LE (Sample.signed_pe EVP_sha1) (64 + 88) = Some pe /\
       slice (Sample.signed_pe EVP_sha1) 0 (int32 (uint32 (240 + 88))) = Some bio /\
       (0 = 0 \/ 0 = 1) /\
       ((88 = 0 /\
         (0 = 0 <-> pe = 0 \/ pe = calc_pe_checksum bio 64)) \/
        (88 <> 0 /\
         exists p7 idc ph md mdbuf input astr seqhdrlen content,
           @cert_loop Sample.openssl 1 (Sample.signed_pe EVP_sha1) 240 88 0
           = Ok (Some (p7, idc, ph)) /\
           Sample.digestbynid (idc_digestAlgorithm idc) = Some md /\
           slice (idc_digest idc) 0 (Sample.md_size md) = Some mdbuf /\
           pe_digest_input bio 64 0 240 = Ok input /\
           contents_other p7 = Some (V_ASN1_SEQUENCE astr) /\
           asn1_simple_hdr_len astr (len astr) = Ok seqhdrlen /\
           slice astr seqhdrlen (len astr - seqhdrlen) = Some content /\
           (0 = 0 <->
            (pe = 0 \/ pe = calc_pe_checksum bio 64) /\
            mdbuf = firstn (Z.to_nat (Sample.md_size md))
                           (Sample.digest md input ++ zeros EVP_MAX_MD_SIZE) /\
            Sample.verify p7 content = true)))) /\
  (* the signed image with an octet of its body changed: 1 *)
  (exists log,
     @verify_pe_file Sample.openssl 1
       (Sample.poke (Sample.signed_pe EVP_sha1) 232 (bytes [0x55])) 64 0 240 88
     = Ok (Ret 1, log) /\
  exists pe bio,
       GET_UINT32_LE (Sample.poke (Sample.signed_pe EVP_sha1) 232 (bytes [0x55])) (64 + 88) = Some pe /\
       slice (Sample.poke (Sample.signed_pe EVP_sha1) 232 (bytes [0x55])) 0 (int32 (uint32 (240 + 88))) = Some bio /\
       (1 = 0 \/ 1 = 1) /\
       ((88 = 0 /\
         (1 = 0 <-> pe = 0 \/ pe = calc_pe_checksum bio 64)) \/
        (88 <> 0 /\
         exists p7 idc ph md mdbuf input astr seqhdrlen content,
           @cert_loop Sample.openssl 1 (Sample.poke (Sample.signed_pe EVP_sha1) 232 (bytes [0x55])) 240 88 0
           = Ok (Some (p7, idc, ph)) /\
           Sample.digestbynid (idc_digestAlgorithm idc) = Some md /\
           slice (idc_digest idc) 0 (Sample.md_size md) = Some mdbuf /\
           pe_digest_input bio 64 0 240 = Ok input /\
           contents_other p7 = Some (V_ASN1_SEQUENCE astr) /\
           asn1_simple_hdr_len astr (len astr) = Ok seqhdrlen /\
           slice astr seqhdrlen (len astr - seqhdrlen) = Some content /\
           (1 = 0 <->
            (pe = 0 \/ pe = calc_pe_checksum bio 64) /\
            mdbuf = firstn (Z.to_nat (Sample.md_size md))
                           (Sample.digest md input ++ zeros EVP_MAX_MD_SIZE) /\
            Sample.verify p7 content = true)))).
Proof.
  split; [|split].
  - eexists. split; [vm_compute; reflexivity|].
    eapply (@verify_return_value Sample.openssl 1 (Sample.pe32 234) 64 0 234 0 0).
    vm_compute; reflexivity.
  - eexists. split; [vm_compute; reflexivity|].
    eapply (@verify_return_value Sample.openssl 1 (Sample.signed_pe EVP_sha1)
              64 0 240 88 0).
    vm_compute; reflexivity.
  - eexists. split; [vm_compute; reflexivity|].
    eapply (@verify_return_value Sample.openssl 1
              (Sample.poke (Sample.signed_pe EVP_sha1) 232 (bytes [0x55]))
              64 0 240 88 1).
    vm_compute; reflexivity.
Defined.

(* ================================================================== *)
(** ** What [sign] embeds *)

Lemma fold_add_certificate_contents (l : list X509) (sig : PKCS7) :
  contents_type (fold_left PKCS7_add_certificate l sig) = contents_type sig /\
  contents_other (fold_left PKCS7_add_certificate l sig) = contents_other sig.
Proof.
  revert sig. induction l as [|x l IH]; intros sig; simpl; [auto|].
  destruct (IH (PKCS7_add_certificate sig x)) as (Ht & Ho).
  rewrite Ht, Ho. auto.
Qed.

(** [add_timestamp] leaves the contents of the signature alone. *)
Lemma add_timestamp_contents `{OpenSSL} `{Curl} (sig : PKCS7)
  (url proxy : option string) (rfc3161 : bool) (md : EVP_MD)
  (mdbuf : list byte) (c : Z) (sig' : PKCS7) (freed : bool) :
  add_timestamp sig url proxy rfc3161 md mdbuf = Ok (c, sig', freed) ->
  contents_type sig' = contents_type sig /\
  contents_other sig' = contents_other sig.
Proof.
  unfold add_timestamp. intros Ha.
  pose proof (fun l => fold_add_certificate_contents l sig) as Hf.
  unfold add_certificates_rev in Ha.
  inv_res Ha;
    match type of Ha with
    | Ok (_, ?x, _) = Ok (_, _, _) => assert (Hs : sig' = x) by congruence
    end;
    subst sig'; auto; unfold set_signer_info; cbn [contents_type contents_other];
    apply Hf.
Qed.

(** What [main_sign] leaves when it succeeds: the DER [p] of a signature
    [sig] that [PKCS7_dataFinal] signed over [content], the
    [SpcIndirectDataContent] blob behind its SEQUENCE header, with the digest
    of [digested] in place of the blob's last octets.  Between the signature
    as [PKCS7_dataFinal] left it, with the blob for content, and [sig] lie the
    timestamps: [R] is any relation that [add_timestamp] keeps. *)
Lemma main_sign_rel `{OpenSSL} `{Curl} (R : PKCS7 -> PKCS7 -> Prop) :
  (forall a, R a a) ->
  (forall a s url proxy rfc3161 md mdbuf c s' freed,
     R a s -> add_timestamp s url proxy rfc3161 md mdbuf = Ok (c, s', freed) ->
     R a s') ->
  forall (o : options) (type : file_type_t) (digested : list byte)
         (sig : PKCS7) (p : list byte),
  main_sign o type digested = Ok (sig, p) ->
  let md := opt_md o in
  let blob := get_indirect_data_blob md type in
  let n := len blob - EVP_MD_size md in
  let mdbuf := EVP_Digest md digested in
  exists prefix seqhdrlen content sig0 sig1,
    slice blob 0 n = Some prefix /\
    asn1_simple_hdr_len (prefix ++ mdbuf) n = Ok seqhdrlen /\
    slice (prefix ++ mdbuf) seqhdrlen (n - seqhdrlen + len mdbuf) = Some content /\
    PKCS7_dataFinal sig0 content = Some sig1 /\
    R (set_contents sig1 SPC_INDIRECT_DATA_OBJID
         (V_ASN1_SEQUENCE (prefix ++ mdbuf))) sig /\
    p = i2d_PKCS7 sig /\ 0 < len p.
Proof.
  intros Hrefl Hstep o type digested sig p.
  unfold main_sign. intros Hs. cbv zeta.
  destruct (add_signature o) as [si|]; [|discriminate Hs].
  match type of Hs with
  | bind ?m _ = _ => destruct m as [si'| | |]; try discriminate Hs
  end.
  cbn [bind] in Hs.
  match type of Hs with
  | bind (check (PKCS7_dataInit ?s) _) _ = _ =>
      set (sig0 := s) in *; destruct (PKCS7_dataInit sig0); [|discriminate Hs]
  end.
  cbn [check bind] in Hs.
  set (blob := get_indirect_data_blob (opt_md o) type) in *.
  set (n := len blob - EVP_MD_size (opt_md o)) in *.
  set (mdbuf := EVP_Digest (opt_md o) digested) in *.
  destruct (slice blob 0 n) as [prefix|] eqn:Ep; [|discriminate Hs].
  cbn [mapped bind] in Hs.
  destruct (asn1_simple_hdr_len (prefix ++ mdbuf) n) as [h| | |] eqn:Eh;
    try discriminate Hs.
  cbn [bind] in Hs.
  destruct (slice (prefix ++ mdbuf) h (n - h + len mdbuf)) as [content|] eqn:Ec;
    [|discriminate Hs].
  cbn [mapped bind] in Hs.
  destruct (PKCS7_dataFinal sig0 content) as [sig1|] eqn:Ef; [|discriminate Hs].
  set (sig2 := set_contents sig1 SPC_INDIRECT_DATA_OBJID
                 (V_ASN1_SEQUENCE (prefix ++ mdbuf))) in *.
  assert (H3 : exists sig3 fr3,
             R sig2 sig3 /\
             (st <- match opt_tsurl o with
                    | Some _ =>
                        r <- add_timestamp_rfc3161 sig3 (opt_tsurl o)
                               (opt_proxy o) (opt_md o) mdbuf ;;
                        let '(c, sig, freed) := r in
                        check (c =? 0) E_ts_rfc3161 ;;; Ok (sig, fr3 || freed)
                    | None => Ok (sig3, fr3)
                    end ;;
              let '(sig, freed) := st in
              if freed then Fault else
              check (0 <? len (i2d_PKCS7 sig)) (E_i2d_pkcs7 (len (i2d_PKCS7 sig))) ;;;
              Ok (sig, i2d_PKCS7 sig)) = Ok (sig, p)).
  { destruct (opt_turl o) as [u|].
    - destruct (add_timestamp_authenticode sig2 (Some u) (opt_proxy o))
        as [[[c s3] fr]| | |] eqn:Et; try discriminate Hs.
      cbn [bind] in Hs.
      destruct (c =? 0); [|discriminate Hs]. cbn [check bind fst snd] in Hs.
      unfold add_timestamp_authenticode in Et.
      exists s3, fr. split; [|exact Hs].
      eapply Hstep; [apply Hrefl|exact Et].
    - cbn [bind fst snd] in Hs. exists sig2, false. auto. }
  destruct H3 as (sig3 & fr3 & H3r & Hs3). clear Hs.
  assert (H4 : exists sig4 fr4,
             R sig2 sig4 /\
             (if fr4 : bool then Fault else
              check (0 <? len (i2d_PKCS7 sig4)) (E_i2d_pkcs7 (len (i2d_PKCS7 sig4))) ;;;
              Ok (sig4, i2d_PKCS7 sig4)) = Ok (sig, p)).
  { destruct (opt_tsurl o) as [u|].
    - destruct (add_timestamp_rfc3161 sig3 (Some u) (opt_proxy o) (opt_md o) mdbuf)
        as [[[c s4] fr]| | |] eqn:Et; try discriminate Hs3.
      cbn [bind] in Hs3.
      destruct (c =? 0); [|discriminate Hs3]. cbn [check bind] in Hs3.
      unfold add_timestamp_rfc3161 in Et.
      exists s4, (fr3 || fr). split; [|exact Hs3].
      eapply Hstep; [exact H3r|exact Et].
    - cbn [bind] in Hs3. exists sig3, fr3. auto. }
  destruct H4 as (sig4 & fr4 & H4r & Hs4). clear Hs3.
  destruct fr4; [discriminate Hs4|].
  destruct (Z.ltb_spec 0 (len (i2d_PKCS7 sig4))) as [Hl|Hl];
    [|discriminate Hs4].
  cbn [check bind] in Hs4.
  assert (sig4 = sig) by congruence. assert (i2d_PKCS7 sig4 = p) by congruence.
  subst sig4. subst p.
  exists prefix, h, content, sig0, sig1.
  repeat split; auto.
Qed.

(** In particular the content of [sig] is that blob. *)
Lemma main_sign_Ok `{OpenSSL} `{Curl} (o : options) (type : file_type_t)
  (digested : list byte) (sig : PKCS7) (p : list byte) :
  main_sign o type digested = Ok (sig, p) ->
  let md := opt_md o in
  let blob := get_indirect_data_blob md type in
  let n := len blob - EVP_MD_size md in
  let mdbuf := EVP_Digest md digested in
  exists prefix seqhdrlen content sig0 sig1,
    slice blob 0 n = Some prefix /\
    asn1_simple_hdr_len (prefix ++ mdbuf) n = Ok seqhdrlen /\
    slice (prefix ++ mdbuf) seqhdrlen (n - seqhdrlen + len mdbuf) = Some content /\
    PKCS7_dataFinal sig0 content = Some sig1 /\
    contents_type sig = SPC_INDIRECT_DATA_OBJID /\
    contents_other sig = Some (V_ASN1_SEQUENCE (prefix ++ mdbuf)) /\
    p = i2d_PKCS7 sig /\ 0 < len p.
Proof.
  intros Hs. cbv zeta.
  assert (Hstep : forall a s url proxy rfc md mdbuf c s' freed,
             contents_type s = contents_type a /\
             contents_other s = contents_other a ->
             add_timestamp s url proxy rfc md mdbuf = Ok (c, s', freed) ->
             contents_type s' = contents_type a /\
             contents_other s' = contents_other a).
  { intros a s url proxy rfc md mdbuf c s' freed (Ht & Ho) Ha.
    apply add_timestamp_contents in Ha. destruct Ha as (Ht' & Ho').
    split; congruence. }
  destruct (main_sign_rel
              (fun a s => contents_type s = contents_type a /\
                          contents_other s = contents_other a)
              (fun a => conj eq_refl eq_refl) Hstep o type digested sig p Hs)
    as (prefix & h & content & sig0 & sig1 & Hp & Hh & Hc & Hf & (Ht & Ho) &
        Hd & Hl).
  exists prefix, h, content, sig0, sig1. repeat split; auto.
Qed.

(* ================================================================== *)
(** ** The image that [sign] writes *)

(** The two writes of [sign] into the certificate-table entry. *)
Lemma file_write_directory (A B T d1 d2 : list byte) (pos : Z) :
  len d1 = 4 -> len d2 = 4 -> pos = len A + 4 + len B ->
  file_write (file_write (mkFile (A ++ zeros 4 ++ B ++ zeros 8 ++ T) pos) d1) d2
  = mkFile (A ++ zeros 4 ++ B ++ d1 ++ d2 ++ T) (pos + 8).
Proof.
  intros H1 H2 ->.
  replace (A ++ zeros 4 ++ B ++ zeros 8 ++ T)
    with ((A ++ zeros 4 ++ B) ++ zeros 4 ++ (zeros 4 ++ T))
    by (rewrite <- !app_assoc; reflexivity).
  replace (len A + 4 + len B) with (len (A ++ zeros 4 ++ B))
    by (rewrite !len_app; change (len (zeros 4)) with 4; lia).
  rewrite file_write_mid by (rewrite H1; reflexivity).
  replace ((A ++ zeros 4 ++ B) ++ d1 ++ zeros 4 ++ T)
    with (((A ++ zeros 4 ++ B) ++ d1) ++ zeros 4 ++ T)
    by (rewrite <- !app_assoc; reflexivity).
  rewrite <- len_app.
  rewrite file_write_mid by (rewrite H2; reflexivity).
  f_equal.
  - rewrite <- !app_assoc. reflexivity.
  - rewrite !len_app. lia.
Qed.

Lemma padlen_of_range (n : Z) : 0 <= padlen_of n < 8.
Proof. unfold padlen_of. apply Z.mod_pos_bound. lia. Qed.

Lemma padlen_of_aligned (n : Z) : (n + padlen_of n) mod 8 = 0.
Proof.
  unfold padlen_of.
  pose proof (Z.mod_pos_bound n 8 ltac:(lia)) as Hm.
  destruct (Z.eq_dec (n mod 8) 0) as [E|E].
  - rewrite E. change ((8 - 0) mod 8) with 0. rewrite Z.add_0_r. exact E.
  - rewrite (Z.mod_small (8 - n mod 8)) by lia.
    rewrite (Z.div_mod n 8) at 1 by lia.
    replace (8 * (n / 8) + n mod 8 + (8 - n mod 8)) with ((n / 8 + 1) * 8) by lia.
    apply Z.mod_mul. lia.
Qed.

Lemma padlen_of_zero (n : Z) : n mod 8 = 0 -> padlen_of n = 0.
Proof. intros E. unfold padlen_of. rewrite E. reflexivity. Qed.

(** [sign] on a PE file smaller than 2 GiB whose certificate table, if any,
    lies behind the headers and inside the file: what it digests and what it
    writes. *)
Lemma main_sign_pe_Ok `{OpenSSL} `{Curl} (cs : bool) (gsf : option Gsf)
  (fuel : nat) (o : options) (indata : list byte)
  (peheader pe32plus sigpos siglen : Z) (f : finished) :
  file_type indata = Ok FILE_TYPE_PE ->
  len indata < 2 ^ 31 ->
  pe_header indata = Ok peheader ->
  pe_layout CMD_SIGN indata peheader = Ok (pe32plus, sigpos, siglen) ->
  let fileend := if 0 <? sigpos then sigpos else len indata in
  pe_tail_start peheader pe32plus <= fileend <= len indata ->
  main cs gsf fuel CMD_SIGN o indata = Ok f ->
  exists A B C sig p,
    slice indata 0 (peheader + 88) = Some A /\
    slice indata (peheader + 92) (60 + 16 * pe32plus) = Some B /\
    slice indata (pe_tail_start peheader pe32plus)
          (fileend - pe_tail_start peheader pe32plus) = Some C /\
    main_sign o FILE_TYPE_PE (A ++ B ++ C ++ zeros (padlen_of fileend))
      = Ok (sig, p) /\
    f = mkFinished (Ret 0) (Some (signed_image peheader A B C fileend p)) [].
Proof.
  intros Ht H31 Eh El fileend Hfe Hm.
  pose proof (file_type_len _ _ Ht) as H4.
  unfold main in Hm.
  replace (4 <=? len indata) with true in Hm by (symmetry; apply Z.leb_le; lia).
  rewrite Ht in Hm. cbn [check bind cmd_eqb orb] in Hm.
  unfold main_pe in Hm. rewrite Eh in Hm. cbn [bind] in Hm.
  rewrite El in Hm. cbn [bind] in Hm. fold fileend in Hm.
  pose proof (pe_header_Ok _ _ Eh) as (_ & _ & _ & _ & Rph).
  pose proof (pe_layout_Ok _ _ _ _ _ _ El) as (Hp & _).
  destruct (pe_copy indata peheader pe32plus fileend new_io)
    as [[s fe]| | |] eqn:Ec; try discriminate Hm.
  cbn [bind] in Hm.
  pose proof (padlen_of_range fileend) as Rpad.
  assert (Hts : 0 <= pe_tail_start peheader pe32plus)
    by (unfold pe_tail_start; lia).
  apply pe_copy_Ok in Ec; try lia; try assumption.
  destruct Ec as (A & B & C & HA & HB & HC & -> & ->).
  destruct (main_sign o FILE_TYPE_PE
              (md_ctx (io_at (A ++ zeros 4 ++ B ++ zeros 8 ++ C ++
                              zeros (padlen_of fileend))
                             (A ++ B ++ C ++ zeros (padlen_of fileend)))))
    as [[sig p]| | |] eqn:Es; try discriminate Hm.
  cbn [bind snd] in Hm. unfold io_at at 1 in Es. cbn [md_ctx] in Es.
  exists A, B, C, sig, p.
  split; [exact HA|]. split; [exact HB|].
  split.
  { rewrite int32_small in HC by lia.
    destruct HC as [[Hle ->]|[_ HC]]; [|exact HC].
    rewrite slice_ok by lia.
    replace (fileend - pe_tail_start peheader pe32plus) with 0 by lia.
    reflexivity. }
  split; [exact Es|].
  pose proof (slice_len _ _ _ _ HA) as LA.
  pose proof (slice_len _ _ _ _ HB) as LB.
  rewrite BIO_write_outdata_at in Hm. unfold io_at in Hm. cbn [outdata] in Hm.
  unfold BIO_seek in Hm. cbn [file_data] in Hm.
  unfold pe_tail_start in *.
  rewrite uint32_small in Hm by lia. rewrite int32_small in Hm by lia.
  rewrite <- !app_assoc in Hm.
  rewrite file_write_directory in Hm
    by (try apply len_PUT_UINT32_LE; lia).
  rewrite recalc_pe_checksum_at in Hm by lia.
  unfold signed_image. congruence.
Qed.

(** When the DER of [SpcIndirectDataContent] ends with the digest octets,
    what [main_sign] puts together, the blob's head and the digest, is the
    DER of the content with that digest. *)
Lemma indirect_data_with_digest `{OpenSSL} (md : EVP_MD) (type : file_type_t)
  (pre prefix d : list byte) :
  (forall d, len d = EVP_MD_size md ->
     i2d_SpcIndirectDataContent (set_digest (indirect_data md type) d)
     = pre ++ d) ->
  0 <= EVP_MD_size md -> len d = EVP_MD_size md ->
  slice (get_indirect_data_blob md type) 0
        (len (get_indirect_data_blob md type) - EVP_MD_size md) = Some prefix ->
  prefix ++ d
  = i2d_SpcIndirectDataContent (set_digest (indirect_data md type) d).
Proof.
  intros Hlaw Hsz Hd Hs.
  assert (Hb : get_indirect_data_blob md type = pre ++ zeros (EVP_MD_size md)).
  { unfold get_indirect_data_blob.
    rewrite <- (Hlaw (zeros (EVP_MD_size md))) by (apply len_zeros; exact Hsz).
    f_equal. destruct type; reflexivity. }
  rewrite Hb in Hs. rewrite len_app, len_zeros in Hs by exact Hsz.
  replace (len pre + EVP_MD_size md - EVP_MD_size md) with (len pre) in Hs by lia.
  rewrite slice_app_exact in Hs.
  assert (prefix = pre) by congruence. subst prefix.
  symmetry. apply Hlaw. exact Hd.
Qed.

(* ================================================================== *)
(** ** C2: the digest that [sign] stores for a PE file *)

(** The sample encoder writes the digest last. *)
Lemma sample_encode_idc_digest_last (idc : SpcIndirectDataContent)
  (d : list byte) :
  Sample.encode_idc (set_digest idc d)
  = ([to_u8 0x30;
      to_u8 (len (bytes_of_string (satv_type (idc_data idc))) + 5 + len d)] ++
     Sample.tlv 0x06 (bytes_of_string (satv_type (idc_data idc))) ++
     [to_u8 (Sample.md_tag (idc_digestAlgorithm idc)); to_u8 0x04;
      to_u8 (len d)]) ++ d.
Proof.
  unfold Sample.encode_idc, Sample.tlv, set_digest.
  cbn [idc_data idc_digest idc_digestAlgorithm].
  cbn [app]. rewrite <- !app_assoc. cbn [app].
  f_equal. f_equal.
  f_equal. unfold len. cbn [Datatypes.length].
  rewrite length_app. cbn [Datatypes.length]. lia.
Qed.

Lemma sample_digest_len (md : EVP_MD) (x : list byte) :
  len (Sample.digest md x) = Sample.md_size md.
Proof.
  unfold Sample.digest. rewrite len_firstn; [reflexivity|].
  rewrite !len_app, len_PUT_UINT32_LE. destruct md; simpl; lia.
Qed.

(** The claim's stream is a whole number of 8-byte blocks. *)
Lemma claimed_digest_stream_aligned (A B C : list byte) :
  len (claimed_digest_stream A B C) mod 8 = 0.
Proof.
  unfold claimed_digest_stream. cbv zeta.
  set (L := len (A ++ B ++ C)).
  assert (HL : 0 <= L) by apply len_nonneg.
  pose proof (Z.div_mod (L + 7) 8 ltac:(lia)) as Hd.
  pose proof (Z.mod_pos_bound (L + 7) 8 ltac:(lia)) as Hm.
  rewrite len_app, len_zeros by lia. fold L.
  replace (L + (8 * ((L + 7) / 8) - L)) with (((L + 7) / 8) * 8) by lia.
  apply Z.mod_mul. lia.
Qed.

(** C2, as stated, fails: the sample image ends at offset 234 and the three
    ranges that [sign] digests are 222 octets of it.  The claim pads that
    stream to an 8-byte boundary, with 2 zero octets; [sign] pads the file
    offset 234 to a multiple of 8, with 6.  The [messageDigest] that [sign]
    stores is the digest of the 228 octets and differs from the digest of the
    224 octets of the claim. *)
Lemma sign_digest_padding_counterexample :
  exists A B C sig p blob idc,
    slice (Sample.pe32 234) 0 (64 + 88) = Some A /\
    slice (Sample.pe32 234) (64 + 92) 60 = Some B /\
    slice (Sample.pe32 234) (64 + 92 + 60 + 8) (234 - (64 + 92 + 60 + 8))
    = Some C /\
    @main_sign Sample.openssl Sample.libcurl (Sample.opts EVP_sha1)
      FILE_TYPE_PE (A ++ B ++ C ++ zeros 6) = Ok (sig, p) /\
    Sample.run 1 CMD_SIGN (Sample.opts EVP_sha1) (Sample.pe32 234)
    = Ok (mkFinished (Ret 0) (Some (signed_image 64 A B C 234 p)) []) /\
    contents_other sig = Some (V_ASN1_SEQUENCE blob) /\
    Sample.decode_idc blob = Some idc /\
    idc_digest idc = Sample.digest EVP_sha1 (A ++ B ++ C ++ zeros 6) /\
    claimed_digest_stream A B C = A ++ B ++ C ++ zeros 2 /\
    len (A ++ B ++ C ++ zeros 6) = 228 /\
    len (claimed_digest_stream A B C) = 224 /\
    idc_digest idc <> Sample.digest EVP_sha1 (claimed_digest_stream A B C).
Proof.
  eexists _, _, _, _, _, _, _.
  do 7 (split; [vm_compute; reflexivity|]).
  split; [vm_compute; reflexivity|].
  split; [vm_compute; reflexivity|].
  split; [vm_compute; reflexivity|].
  split; [vm_compute; reflexivity|].
  vm_compute. discriminate.
Qed.

(** C2 (amended): on a PE input smaller than 2 GiB whose certificate table,
    if it has one, lies behind the headers and inside the file, a [sign] that
    completes embeds a PKCS#7 whose content is the [SpcIndirectDataContent]
    with [messageDigest] the selected digest of this stream: the octets
    [0, peheader+88), the octets [peheader+92, peheader+92+60+pe32plus*16),
    the octets from the end of the certificate-table entry to [fileend], the
    end of the input without its certificate table, and [padlen_of fileend]
    zero octets.  The padding takes the file offset [fileend], not the length
    of the stream, to a multiple of 8: it is shorter than 8 octets and it is
    empty when [fileend] is a multiple of 8 already.  The three ranges leave
    out the 12 octets of the checksum and of the certificate-table entry, so
    the stream is [fileend + padlen_of fileend - 12] octets, 4 more than a
    multiple of 8, and is never the stream of the claim.  The digest has the
    size of the algorithm, and the DER of [SpcIndirectDataContent] ends with
    the digest octets, which is how [main] stores it. *)
Theorem sign_digest_of_authenticode_stream `{OpenSSL} `{Curl} (cs : bool)
  (gsf : option Gsf) (fuel : nat) (o : options) (indata : list byte)
  (peheader pe32plus sigpos siglen : Z) (f : finished) :
  let md := opt_md o in
  let fileend := if 0 <? sigpos then sigpos else len indata in
  file_type indata = Ok FILE_TYPE_PE ->
  len indata < 2 ^ 31 ->
  pe_header indata = Ok peheader ->
  pe_layout CMD_SIGN indata peheader = Ok (pe32plus, sigpos, siglen) ->
  pe_tail_start peheader pe32plus <= fileend <= len indata ->
  (forall x, len (EVP_Digest md x) = EVP_MD_size md) ->
  (exists pre, forall d, len d = EVP_MD_size md ->
     i2d_SpcIndirectDataContent (set_digest (indirect_data md FILE_TYPE_PE) d)
     = pre ++ d) ->
  main cs gsf fuel CMD_SIGN o indata = Ok f ->
  exists A B C sig,
    slice indata 0 (peheader + 88) = Some A /\
    slice indata (peheader + 92) (60 + pe32plus * 16) = Some B /\
    slice indata (peheader + 92 + 60 + pe32plus * 16 + 8)
          (fileend - (peheader + 92 + 60 + pe32plus * 16 + 8)) = Some C /\
    outfile f = Some (signed_image peheader A B C fileend (i2d_PKCS7 sig)) /\
    contents_type sig = SPC_INDIRECT_DATA_OBJID /\
    contents_other sig
    = Some (V_ASN1_SEQUENCE
              (i2d_SpcIndirectDataContent
                 (set_digest (indirect_data md FILE_TYPE_PE)
                    (EVP_Digest md
                       (A ++ B ++ C ++ zeros (padlen_of fileend)))))) /\
    0 <= padlen_of fileend < 8 /\
    (fileend + padlen_of fileend) mod 8 = 0 /\
    (fileend mod 8 = 0 -> padlen_of fileend = 0) /\
    len (A ++ B ++ C ++ zeros (padlen_of fileend))
    = fileend + padlen_of fileend - 12 /\
    len (A ++ B ++ C ++ zeros (padlen_of fileend)) mod 8 = 4 /\
    A ++ B ++ C ++ zeros (padlen_of fileend) <> claimed_digest_stream A B C.
Proof.
  intros md fileend Ht H31 Eh El Hfe Hdl (pre & Hlaw) Hm.
  destruct (main_sign_pe_Ok cs gsf fuel o indata peheader pe32plus sigpos siglen
              f Ht H31 Eh El Hfe Hm)
    as (A & B & C & sig & p & HA & HB & HC & Hs & ->).
  fold fileend in HC, Hs.
  apply main_sign_Ok in Hs. cbv zeta in Hs. fold md in Hs.
  destruct Hs as (prefix & h & content & sig0 & sig1 & Hp & _ & _ & _ &
                  Hct & Hco & -> & _).
  assert (Hsz : 0 <= EVP_MD_size md)
    by (rewrite <- (Hdl []); apply len_nonneg).
  rewrite (indirect_data_with_digest md FILE_TYPE_PE pre prefix _
             Hlaw Hsz (Hdl _) Hp) in Hco.
  pose proof (padlen_of_range fileend) as Rpad.
  pose proof (padlen_of_aligned fileend) as Hal.
  assert (Hlen : len (A ++ B ++ C ++ zeros (padlen_of fileend))
                 = fileend + padlen_of fileend - 12).
  { rewrite !len_app, len_zeros by lia.
    rewrite (slice_len _ _ _ _ HA), (slice_len _ _ _ _ HB),
            (slice_len _ _ _ _ HC).
    unfold pe_tail_start. lia. }
  assert (Hmod : len (A ++ B ++ C ++ zeros (padlen_of fileend)) mod 8 = 4).
  { rewrite Hlen.
    pose proof (Z.div_mod (fileend + padlen_of fileend) 8 ltac:(lia)) as Hd.
    rewrite Hal in Hd.
    symmetry.
    apply Z.mod_unique with (q := (fileend + padlen_of fileend) / 8 - 2); lia. }
  exists A, B, C, sig.
  unfold pe_tail_start in HC.
  replace (peheader + 92 + 60 + pe32plus * 16 + 8)
    with (peheader + 160 + 16 * pe32plus) by lia.
  replace (60 + pe32plus * 16) with (60 + 16 * pe32plus) by lia.
  split; [exact HA|]. split; [exact HB|]. split; [exact HC|].
  split; [reflexivity|]. split; [exact Hct|]. split; [exact Hco|].
  split; [exact Rpad|].
  split; [exact Hal|]. split; [apply padlen_of_zero|].
  split; [exact Hlen|]. split; [exact Hmod|].
  intros Heq. pose proof (claimed_digest_stream_aligned A B C) as Hc.
  rewrite <- Heq, Hmod in Hc. discriminate Hc.
Qed.

Lemma sign_digest_of_authenticode_stream_witness :
  exists f,
    Sample.run 1 CMD_SIGN (Sample.opts EVP_sha1) (Sample.pe32 234) = Ok f /\
    exists A B C sig,
      slice (Sample.pe32 234) 0 (64 + 88) = Some A /\
      slice (Sample.pe32 234) (64 + 92) (60 + 0 * 16) = Some B /\
      slice (Sample.pe32 234) (64 + 92 + 60 + 0 * 16 + 8)
            (234 - (64 + 92 + 60 + 0 * 16 + 8)) = Some C /\
      outfile f
      = Some (signed_image 64 A B C 234 (Sample.encode_pkcs7 sig)) /\
      contents_type sig = SPC_INDIRECT_DATA_OBJID /\
      contents_other sig
      = Some (V_ASN1_SEQUENCE
                (Sample.encode_idc
                   (set_digest
                      (@indirect_data Sample.openssl EVP_sha1 FILE_TYPE_PE)
                      (Sample.digest EVP_sha1
                         (A ++ B ++ C ++ zeros (padlen_of 234)))))) /\
      0 <= padlen_of 234 < 8 /\
      (234 + padlen_of 234) mod 8 = 0 /\
      (234 mod 8 = 0 -> padlen_of 234 = 0) /\
      len (A ++ B ++ C ++ zeros (padlen_of 234)) = 234 + padlen_of 234 - 12 /\
      len (A ++ B ++ C ++ zeros (padlen_of 234)) mod 8 = 4 /\
      A ++ B ++ C ++ zeros (padlen_of 234) <> claimed_digest_stream A B C.
Proof.
  eexists. split; [vm_compute; reflexivity|].
  apply (@sign_digest_of_authenticode_stream Sample.openssl Sample.libcurl
           true None 1 (Sample.opts EVP_sha1) (Sample.pe32 234) 64 0 0 0).
  - vm_compute; reflexivity.
  - vm_compute; reflexivity.
  - vm_compute; reflexivity.
  - vm_compute; reflexivity.
  - vm_compute. split; discriminate.
  - intros x. apply (sample_digest_len EVP_sha1).
  - eexists. intros d Hd.
    change (@i2d_SpcIndirectDataContent Sample.openssl) with Sample.encode_idc.
    rewrite sample_encode_idc_digest_last.
    change (@EVP_MD_size Sample.openssl (opt_md (Sample.opts EVP_sha1)))
      with 20 in Hd.
    rewrite Hd. reflexivity.
  - vm_compute; reflexivity.
Defined.

(* ================================================================== *)
(** ** The checksum of a signed image *)

Lemma list_pair_ind (P : list byte -> Prop) :
  P [] -> (forall a, P [a]) -> (forall a b l, P l -> P (a :: b :: l)) ->
  forall l, P l.
Proof.
  intros H0 H1 H2 l.
  assert (Hb : P l /\ forall a, P (a :: l)).
  { induction l as [|x l [IH IH']].
    - split; [exact H0|exact H1].
    - split; [apply IH'|]. intros a. apply H2. exact IH. }
  apply Hb.
Qed.

Lemma len_4 (x : list byte) :
  len x = 4 -> exists x0 x1 x2 x3, x = [x0; x1; x2; x3].
Proof.
  unfold len. intros Hx.
  destruct x as [|x0 [|x1 [|x2 [|x3 [|x4 x]]]]]; simpl in Hx; try lia.
  exists x0, x1, x2, x3. reflexivity.
Qed.

(** [calc_pe_checksum] reads the two words of the checksum field as zero:
    when the field lies at an even offset, what it holds does not count. *)
Lemma checksum_loop_field (peheader : Z) (x y R : list byte) :
  len x = 4 -> len y = 4 -> 0 <= peheader -> peheader + 92 < 2 ^ 32 ->
  forall A size checkSum,
    Z.even (len A) = true -> 0 <= size -> size + len A = peheader + 88 ->
    checksum_loop (A ++ x ++ R) peheader size checkSum
    = checksum_loop (A ++ y ++ R) peheader size checkSum.
Proof.
  intros Hx Hy Hph H32 A.
  induction A as [|a|a b A IH] using list_pair_ind; intros size c He Hs Hl.
  - change (len []) with 0 in Hl.
    destruct (len_4 x Hx) as (x0 & x1 & x2 & x3 & ->).
    destruct (len_4 y Hy) as (y0 & y1 & y2 & y3 & ->).
    cbn [app checksum_loop].
    rewrite !(uint32_small (peheader + 88)) by lia.
    rewrite !(uint32_small (peheader + 90)) by lia.
    rewrite !(uint32_small (size + 2)) by lia.
    replace (size =? peheader + 88) with true by (symmetry; apply Z.eqb_eq; lia).
    replace (size + 2 =? peheader + 90) with true
      by (symmetry; apply Z.eqb_eq; lia).
    rewrite orb_true_r. cbn [orb]. reflexivity.
  - discriminate He.
  - cbn [app checksum_loop].
    assert (Hl2 : len (a :: b :: A) = len A + 2) by (unfold len; simpl; lia).
    rewrite Hl2 in He, Hl.
    pose proof (len_nonneg A).
    rewrite (uint32_small (size + 2)) by lia.
    apply IH; try lia.
    rewrite Z.even_add in He. destruct (Z.even (len A)); [reflexivity|discriminate He].
Qed.

Lemma calc_pe_checksum_field (peheader : Z) (A x y R : list byte) :
  len x = 4 -> len y = 4 -> 0 <= peheader -> peheader + 92 < 2 ^ 32 ->
  len A = peheader + 88 -> Z.even peheader = true ->
  calc_pe_checksum (A ++ x ++ R) peheader = calc_pe_checksum (A ++ y ++ R) peheader.
Proof.
  intros Hx Hy Hph H32 HA He. unfold calc_pe_checksum.
  rewrite (checksum_loop_field peheader x y R Hx Hy Hph H32 A 0 0);
    [reflexivity| |lia|lia].
  rewrite HA, Z.even_add, He. reflexivity.
Qed.

Lemma calc_pe_checksum_range (bio : list byte) (peheader : Z) :
  0 <= calc_pe_checksum bio peheader < 2 ^ 32.
Proof.
  unfold calc_pe_checksum.
  destruct (checksum_loop bio peheader 0 0) as [c s]. apply uint32_range.
Qed.


(* ================================================================== *)
(** ** [verify] on the image that [sign] wrote *)

Lemma slice_mid (a x b : list byte) (off n : Z) :
  off = len a -> n = len x -> slice (a ++ x ++ b) off n = Some x.
Proof.
  intros -> ->. rewrite slice_app_r by lia. rewrite Z.sub_diag.
  apply slice_app_exact.
Qed.

Lemma GET_UINT32_LE_mid (a b : list byte) (i off : Z) :
  off = len a ->
  GET_UINT32_LE (a ++ PUT_UINT32_LE i ++ b) off = Some (i mod 2 ^ 32).
Proof. intros ->. apply GET_PUT_UINT32_LE. Qed.


Lemma slice_tail (a b : list byte) (off n : Z) :
  off = len a -> n = len b -> slice (a ++ b) off n = Some b.
Proof.
  intros -> ->. rewrite <- (app_nil_r b) at 1. apply slice_mid; reflexivity.
Qed.

Lemma BIO_read_slice (bio s : list byte) (pos n : Z) :
  slice bio pos n = Some s -> BIO_read bio pos n = (s, pos + n).
Proof.
  intros Hs. apply slice_Some in Hs. destruct Hs as (_ & _ & _ & Hs & Hl).
  unfold BIO_read. rewrite <- Hs, Hl. reflexivity.
Qed.

Lemma len_win_certificate (p : list byte) :
  len (win_certificate p) = len p + 8 + padlen_of (len p).
Proof.
  unfold win_certificate. rewrite !len_app, len_PUT_UINT32_LE.
  pose proof (padlen_of_range (len p)).
  rewrite len_zeros by lia.
  change (len (PUT_UINT16_LE WIN_CERT_REVISION_2)) with 2.
  change (len (PUT_UINT16_LE WIN_CERT_TYPE_PKCS_SIGNED_DATA)) with 2. lia.
Qed.

Section Signed.

Context {ossl : OpenSSL}.

Variables (indata A B C p : list byte) (peheader pe32plus fileend : Z).
Hypothesis HA : slice indata 0 (peheader + 88) = Some A.
Hypothesis HB : slice indata (peheader + 92) (60 + 16 * pe32plus) = Some B.
Hypothesis HC : len C = fileend - pe_tail_start peheader pe32plus.
Hypothesis Hph : 0 <= peheader.
Hypothesis Hp : pe32plus = 0 \/ pe32plus = 1.
Hypothesis Hsz : fileend + padlen_of fileend + len (win_certificate p) < 2 ^ 31.

Let fileend' := fileend + padlen_of fileend.
Let siglen' := len p + 8 + padlen_of (len p).
Let Q := signed_image peheader A B C fileend p.

Lemma signed_parts :
  len A = peheader + 88 /\ len B = 60 + 16 * pe32plus /\
  0 <= padlen_of fileend < 8 /\ 0 <= padlen_of (len p) < 8 /\
  0 <= len p /\ 0 <= len C /\ 8 <= siglen' < 2 ^ 31 /\
  pe_tail_start peheader pe32plus <= fileend' /\ fileend' + siglen' < 2 ^ 31.
Proof.
  pose proof (slice_len _ _ _ _ HA). pose proof (slice_len _ _ _ _ HB).
  pose proof (padlen_of_range fileend). pose proof (padlen_of_range (len p)).
  pose proof (len_nonneg p). pose proof (len_nonneg C).
  pose proof (len_win_certificate p).
  unfold siglen', fileend', pe_tail_start in *.
  repeat split; try lia.
Qed.


Lemma signed_len : len Q = fileend' + siglen'.
Proof.
  destruct signed_parts as (LA & LB & Rp & Rq & _).
  unfold Q, signed_image, fileend', siglen'.
  rewrite !len_app, !len_PUT_UINT32_LE, len_win_certificate, LA, LB, HC.
  rewrite len_zeros by lia. unfold pe_tail_start. lia.
Qed.

Lemma signed_sigpos :
  GET_UINT32_LE Q (peheader + 152 + pe32plus * 16) = Some fileend'.
Proof.
  destruct signed_parts as (LA & LB & Rp & Rq & Lp & LC & Rs & Rf & Rt).
  unfold Q, signed_image. cbv zeta. do 2 rewrite app_assoc.
  rewrite GET_UINT32_LE_mid
    by (rewrite !len_app, len_PUT_UINT32_LE; lia).
  f_equal. apply Z.mod_small. unfold fileend', pe_tail_start in *. lia.
Qed.

Lemma signed_siglen :
  GET_UINT32_LE Q (peheader + 152 + pe32plus * 16 + 4) = Some siglen'.
Proof.
  destruct signed_parts as (LA & LB & Rp & Rq & Lp & LC & Rs & Rf & Rt).
  unfold Q, signed_image. cbv zeta. do 3 rewrite app_assoc.
  rewrite GET_UINT32_LE_mid
    by (rewrite !len_app, !len_PUT_UINT32_LE; lia).
  f_equal. fold siglen'. rewrite uint32_small by lia.
  apply Z.mod_small. lia.
Qed.


Lemma signed_pe_layout (cmd0 cmd : cmd_type_t) (sigpos siglen : Z) :
  pe_layout cmd0 indata peheader = Ok (pe32plus, sigpos, siglen) ->
  pe_layout cmd Q peheader = Ok (pe32plus, fileend', siglen').
Proof.
  intros Hl.
  pose proof (pe_layout_Ok _ _ _ _ _ _ Hl)
    as (_ & Hmagic & (nrvas & Hn & H5) & _).
  destruct signed_parts as (LA & LB & Rp & Rq & Lp & LC & Rs & Rf & Rt).
  unfold pe_tail_start in Rf.
  unfold pe_layout.
  assert (Em : GET_UINT16_LE Q (peheader + 24)
               = GET_UINT16_LE indata (peheader + 24)).
  { unfold GET_UINT16_LE, Q, signed_image. cbv zeta.
    rewrite (reread_low indata A B _ _ peheader HA) by lia. reflexivity. }
  rewrite Em, Hmagic. cbn [mapped bind].
  assert (Ep : (if (if pe32plus =? 1 then 523 else 267) =? 523
                then Ok 1
                else if (if pe32plus =? 1 then 523 else 267) =? 267
                     then Ok 0
                     else Exit (E_pe_magic (if pe32plus =? 1 then 523 else 267)))
               = @Ok Z pe32plus)
    by (destruct Hp as [-> | ->]; reflexivity).
  rewrite Ep. cbn [bind].
  assert (En : GET_UINT32_LE Q (peheader + 116 + pe32plus * 16)
               = GET_UINT32_LE indata (peheader + 116 + pe32plus * 16)).
  { unfold GET_UINT32_LE, Q, signed_image. cbv zeta.
    rewrite (reread_high indata A B _ _ peheader pe32plus HA HB) by
      (try apply len_PUT_UINT32_LE; lia).
    reflexivity. }
  rewrite En, Hn. cbn [mapped bind].
  replace (5 <=? nrvas) with true by (symmetry; apply Z.leb_le; assumption).
  cbn [check bind].
  rewrite signed_sigpos, signed_siglen. cbn [mapped bind].
  rewrite signed_len, uint32_small by lia.
  rewrite Z.eqb_refl. cbn [negb]. rewrite andb_false_r. cbn [negb check bind].
  replace (fileend' =? 0) with false by (symmetry; apply Z.eqb_neq; lia).
  rewrite andb_false_r. reflexivity.
Qed.

Lemma signed_file_type :
  file_type indata = Ok FILE_TYPE_PE -> file_type Q = Ok FILE_TYPE_PE.
Proof.
  intros Ht. unfold Q, signed_image. cbv zeta.
  exact (reread_file_type indata A B _ _ peheader HA Hph Ht).
Qed.

Lemma signed_pe_header :
  pe_header indata = Ok peheader -> len indata < 2 ^ 31 ->
  pe_tail_start peheader pe32plus <= len indata ->
  pe_header Q = Ok peheader.
Proof.
  intros Hh H31 Ht. unfold Q, signed_image. cbv zeta.
  apply (reread_pe_header indata A B _ _ peheader pe32plus HA HB);
    try assumption; try apply len_PUT_UINT32_LE.
  rewrite !len_app, !len_PUT_UINT32_LE.
  pose proof (len_nonneg C). pose proof (len_nonneg (zeros (padlen_of fileend))).
  pose proof (len_nonneg (win_certificate p)). lia.
Qed.





End Signed.

(** *** What the signature verifies over *)

Section Verifies.

Context {ossl : OpenSSL} {curl : Curl}.

(** What the library is taken to grant: a signature that [PKCS7_dataFinal]
    made verifies over the content it was made for, and neither the content
    stored in the structure, nor a further certificate, nor an
    unauthenticated attribute changes what a signature verifies over. *)
Hypothesis Hfinal : forall sig0 content sig1,
  PKCS7_dataFinal sig0 content = Some sig1 -> PKCS7_verify sig1 content = true.
Hypothesis Hset : forall s t v content,
  PKCS7_verify (set_contents s t v) content = PKCS7_verify s content.
Hypothesis Hcert : forall s x content,
  PKCS7_verify (PKCS7_add_certificate s x) content = PKCS7_verify s content.
Hypothesis Hattr : forall s si others nid v content,
  signer_info s = si :: others ->
  PKCS7_verify (set_signer_info s (PKCS7_add_attribute si nid v :: others)) content
  = PKCS7_verify s content.





End Verifies.

Lemma slice_fun (p a b : list byte) (off n : Z) :
  slice p off n = Some a -> slice p off n = Some b -> a = b.
Proof. congruence. Qed.




(* ================================================================== *)
(** ** C1: [verify] after [sign] *)








(* ================================================================== *)
(** ** Runs on well-formed PE files *)

Lemma write_hash_from_run (indata d h x : list byte) (off n : Z) :
  slice indata off n = Some x ->
  write_hash_from indata (io_at d h) off n = Ok (io_at (d ++ x) (h ++ x)).
Proof.
  intros Hs. unfold write_hash_from.
  destruct (Z.leb_spec n 0) as [Hn|Hn].
  - pose proof (slice_len _ _ _ _ Hs) as Hl. pose proof (len_nonneg x).
    assert (x = []) by (destruct x; [reflexivity|unfold len in *; simpl in *; lia]).
    subst x. rewrite !app_nil_r. reflexivity.
  - rewrite Hs. cbn [mapped bind]. rewrite BIO_write_hash_at. reflexivity.
Qed.

(** The three parts of a PE file that [pe_copy] copies, when the headers fit
    the file and [fileend] lies behind them. *)
Lemma pe_parts (indata : list byte) (peheader pe32plus fileend : Z) :
  0 <= peheader -> pe32plus = 0 \/ pe32plus = 1 ->
  pe_tail_start peheader pe32plus <= fileend <= len indata ->
  exists A B C,
    slice indata 0 (peheader + 88) = Some A /\
    slice indata (peheader + 92) (60 + 16 * pe32plus) = Some B /\
    slice indata (pe_tail_start peheader pe32plus)
          (fileend - pe_tail_start peheader pe32plus) = Some C.
Proof.
  intros Hph Hp Hfe. unfold pe_tail_start in *.
  eexists _, _, _. split; [|split]; apply slice_ok; lia.
Qed.

Lemma pe_copy_run (indata A B C : list byte) (peheader pe32plus fileend : Z) :
  0 <= peheader -> pe32plus = 0 \/ pe32plus = 1 ->
  pe_tail_start peheader pe32plus <= fileend -> fileend < 2 ^ 31 ->
  slice indata 0 (peheader + 88) = Some A ->
  slice indata (peheader + 92) (60 + 16 * pe32plus) = Some B ->
  slice indata (pe_tail_start peheader pe32plus)
        (fileend - pe_tail_start peheader pe32plus) = Some C ->
  pe_copy indata peheader pe32plus fileend new_io
  = Ok (io_at (A ++ zeros 4 ++ B ++ zeros 8 ++ C ++ zeros (padlen_of fileend))
              (A ++ B ++ C ++ zeros (padlen_of fileend)),
        fileend + padlen_of fileend).
Proof.
  intros Hph Hp Hfe H31 HA HB HC. unfold pe_tail_start in *.
  unfold pe_copy. rewrite new_io_at.
  rewrite (uint32_small (peheader + 88)) by lia.
  rewrite (int32_small (peheader + 88)) by lia.
  rewrite (int32_small (peheader + 88 + 4)) by lia.
  rewrite (int32_small (peheader + 88 + 4 + (60 + pe32plus * 16))) by lia.
  rewrite (int32_small (peheader + 88 + 4 + (60 + pe32plus * 16) + 8)) by lia.
  rewrite (write_hash_from_run _ _ _ A) by exact HA.
  cbn [bind]. rewrite BIO_write_outdata_at.
  rewrite (write_hash_from_run _ _ _ B)
    by (rewrite <- HB; f_equal; lia).
  cbn [bind]. rewrite BIO_write_outdata_at.
  rewrite (int32_small (fileend - _)) by lia.
  rewrite (write_hash_from_run _ _ _ C)
    by (rewrite <- HC; f_equal; lia).
  cbn [bind].
  assert (Hm : 0 <= fileend mod 8 < 8) by (apply Z.mod_pos_bound; lia).
  rewrite int32_small by lia.
  cbn [app]. rewrite <- !app_assoc.
  unfold padlen_of.
  destruct (Z.eq_dec (fileend mod 8) 0) as [E0|E0].
  - rewrite E0. change (8 - 0) with 8. cbn [Z.ltb Z.eqb Z.compare Pos.compare
      Pos.compare_cont Pos.eqb andb negb].
    change (8 mod 8) with 0. change (zeros 0) with (@nil byte).
    rewrite !app_nil_r, Z.add_0_r. reflexivity.
  - replace ((0 <? 8 - fileend mod 8) && negb (8 - fileend mod 8 =? 8)) with true.
    2:{ symmetry. apply andb_true_iff. split; [apply Z.ltb_lt; lia|].
        apply negb_true_iff. apply Z.eqb_neq. lia. }
    rewrite BIO_write_hash_at. rewrite <- !app_assoc.
    rewrite (Z.mod_small (8 - fileend mod 8)) by lia. reflexivity.
Qed.

(** remove-signature on a PE file under 2 GiB whose certificate table lies
    behind the headers and inside the file: it succeeds and writes this. *)
Lemma main_remove_run `{OpenSSL} `{Curl} (cs : bool) (gsf : option Gsf)
  (fuel : nat) (o : options) (indata : list byte)
  (peheader pe32plus sigpos siglen : Z) :
  file_type indata = Ok FILE_TYPE_PE -> len indata < 2 ^ 31 ->
  pe_header indata = Ok peheader ->
  pe_layout CMD_REMOVE indata peheader = Ok (pe32plus, sigpos, siglen) ->
  pe_tail_start peheader pe32plus <= sigpos <= len indata ->
  exists A B C,
    slice indata 0 (peheader + 88) = Some A /\
    slice indata (peheader + 92) (60 + 16 * pe32plus) = Some B /\
    slice indata (pe_tail_start peheader pe32plus)
          (sigpos - pe_tail_start peheader pe32plus) = Some C /\
    main cs gsf fuel CMD_REMOVE o indata
    = Ok (mkFinished (Ret 0) (Some (stripped_image peheader A B C sigpos)) []).
Proof.
  intros Ht H31 Eh El Hfe.
  pose proof (pe_header_Ok _ _ Eh) as (_ & _ & _ & _ & Rph).
  pose proof (pe_layout_Ok _ _ _ _ _ _ El) as (Hp & _).
  destruct (pe_parts indata peheader pe32plus sigpos) as (A & B & C & HA & HB & HC);
    try lia; try assumption.
  exists A, B, C. split; [exact HA|]. split; [exact HB|]. split; [exact HC|].
  pose proof (file_type_len _ _ Ht) as H4.
  unfold main.
  replace (4 <=? len indata) with true by (symmetry; apply Z.leb_le; lia).
  rewrite Ht. cbn [check bind cmd_eqb type_eqb orb].
  unfold main_pe. rewrite Eh. cbn [bind]. rewrite El. cbn [bind].
  assert (Hpos : 0 < sigpos) by (unfold pe_tail_start in *; lia).
  replace (0 <? sigpos) with true by (symmetry; apply Z.ltb_lt; lia).
  rewrite (pe_copy_run indata A B C) by (assumption || lia).
  cbn [bind fst]. unfold io_at. cbn [outdata].
  pose proof (slice_len _ _ _ _ HA) as LA.
  unfold pe_tail_start in Hfe.
  rewrite recalc_pe_checksum_at by lia. reflexivity.
Qed.

(** [sign] on such a PE file is the signing of the stream it copies, and
    then the image. *)
Lemma main_sign_pe_eq `{OpenSSL} `{Curl} (cs : bool) (gsf : option Gsf)
  (fuel : nat) (o : options) (indata A B C : list byte)
  (peheader pe32plus sigpos siglen : Z) :
  file_type indata = Ok FILE_TYPE_PE -> len indata < 2 ^ 31 ->
  pe_header indata = Ok peheader ->
  pe_layout CMD_SIGN indata peheader = Ok (pe32plus, sigpos, siglen) ->
  let fileend := if 0 <? sigpos then sigpos else len indata in
  pe_tail_start peheader pe32plus <= fileend <= len indata ->
  slice indata 0 (peheader + 88) = Some A ->
  slice indata (peheader + 92) (60 + 16 * pe32plus) = Some B ->
  slice indata (pe_tail_start peheader pe32plus)
        (fileend - pe_tail_start peheader pe32plus) = Some C ->
  main cs gsf fuel CMD_SIGN o indata
  = (sg <- main_sign o FILE_TYPE_PE (A ++ B ++ C ++ zeros (padlen_of fileend)) ;;
     Ok (mkFinished (Ret 0)
           (Some (signed_image peheader A B C fileend (snd sg))) [])).
Proof.
  intros Ht H31 Eh El fileend Hfe HA HB HC.
  pose proof (pe_header_Ok _ _ Eh) as (_ & _ & _ & _ & Rph).
  pose proof (pe_layout_Ok _ _ _ _ _ _ El) as (Hp & _).
  pose proof (file_type_len _ _ Ht) as H4.
  unfold main.
  replace (4 <=? len indata) with true by (symmetry; apply Z.leb_le; lia).
  rewrite Ht. cbn [check bind cmd_eqb type_eqb orb].
  unfold main_pe. rewrite Eh. cbn [bind]. rewrite El. cbn [bind].
  fold fileend.
  rewrite (pe_copy_run indata A B C) by (assumption || lia).
  cbn [bind]. unfold io_at at 1. cbn [md_ctx].
  destruct (main_sign o FILE_TYPE_PE (A ++ B ++ C ++ zeros (padlen_of fileend)))
    as [[sig p]| | |]; try reflexivity.
  cbn [bind snd].
  pose proof (slice_len _ _ _ _ HA) as LA.
  pose proof (slice_len _ _ _ _ HB) as LB.
  pose proof (padlen_of_range fileend) as Rpad.
  rewrite BIO_write_outdata_at. unfold io_at. cbn [outdata].
  unfold BIO_seek. cbn [file_data].
  unfold pe_tail_start in *.
  rewrite uint32_small by lia. rewrite int32_small by lia.
  rewrite <- !app_assoc.
  rewrite file_write_directory by (try apply len_PUT_UINT32_LE; lia).
  rewrite recalc_pe_checksum_at by lia.
  reflexivity.
Qed.

(* ================================================================== *)
(** ** The image that remove-signature writes *)

Section Stripped.

Variables (indata A B C : list byte) (peheader pe32plus fileend : Z).
Hypothesis HA : slice indata 0 (peheader + 88) = Some A.
Hypothesis HB : slice indata (peheader + 92) (60 + 16 * pe32plus) = Some B.
Hypothesis HC : len C = fileend - pe_tail_start peheader pe32plus.
Hypothesis Hph : 0 <= peheader.
Hypothesis Hp : pe32plus = 0 \/ pe32plus = 1.

Let R := stripped_image peheader A B C fileend.

Lemma stripped_len : len R = fileend + padlen_of fileend.
Proof.
  pose proof (slice_len _ _ _ _ HA). pose proof (slice_len _ _ _ _ HB).
  pose proof (padlen_of_range fileend).
  unfold R, stripped_image. cbv zeta.
  rewrite !len_app, len_PUT_UINT32_LE, HC, !len_zeros by lia.
  unfold pe_tail_start. lia.
Qed.

Lemma stripped_file_type :
  file_type indata = Ok FILE_TYPE_PE -> file_type R = Ok FILE_TYPE_PE.
Proof.
  intros Ht. unfold R, stripped_image. cbv zeta.
  exact (reread_file_type indata A B _ _ peheader HA Hph Ht).
Qed.

Lemma stripped_pe_header :
  pe_header indata = Ok peheader -> len indata < 2 ^ 31 ->
  pe_tail_start peheader pe32plus <= len indata ->
  pe_header R = Ok peheader.
Proof.
  intros Hh H31 Ht. unfold R, stripped_image. cbv zeta.
  apply (reread_pe_header indata A B _ _ peheader pe32plus HA HB);
    try assumption; try apply len_PUT_UINT32_LE.
  rewrite !len_app. change (len (zeros 8)) with 8.
  pose proof (len_nonneg C). pose proof (len_nonneg (zeros (padlen_of fileend))).
  lia.
Qed.

Lemma stripped_pe_layout (cmd0 cmd : cmd_type_t) (sigpos siglen : Z) :
  pe_layout cmd0 indata peheader = Ok (pe32plus, sigpos, siglen) ->
  pe_layout cmd R peheader
  = if cmd_eqb cmd CMD_REMOVE || cmd_eqb cmd CMD_EXTRACT
    then Exit E_no_signature else Ok (pe32plus, 0, 0).
Proof.
  intros Hl. unfold R, stripped_image. cbv zeta.
  apply (pe_layout_after_copy cmd0 cmd indata A B _ _ peheader pe32plus
           sigpos siglen HA HB); try assumption. apply len_PUT_UINT32_LE.
Qed.

Lemma stripped_checksum :
  Z.even peheader = true -> peheader + 92 < 2 ^ 32 ->
  GET_UINT32_LE R (peheader + 88) = Some (calc_pe_checksum R peheader).
Proof.
  intros He H32. pose proof (slice_len _ _ _ _ HA) as LA.
  unfold R, stripped_image. cbv zeta.
  rewrite GET_UINT32_LE_mid by lia.
  rewrite Z.mod_small by apply calc_pe_checksum_range.
  f_equal. apply calc_pe_checksum_field; try reflexivity; try lia; assumption.
Qed.

(** [verify_pe_file] on it: the checksum stored is the checksum computed, and
    there is no signature. *)
Lemma stripped_verify `{OpenSSL} (fuel : nat) :
  Z.even peheader = true -> len R < 2 ^ 31 ->
  verify_pe_file fuel R peheader pe32plus (len R) 0
  = Ok (Ret 0, [M_current_pe_checksum (calc_pe_checksum R peheader);
                M_calculated_pe_checksum (calc_pe_checksum R peheader) false;
                M_no_signature_found]).
Proof.
  intros He H31.
  pose proof (slice_len _ _ _ _ HA) as LA.
  pose proof (len_nonneg R) as LR.
  assert (HRA : peheader + 92 <= len R).
  { unfold R, stripped_image. cbv zeta.
    rewrite !len_app, len_PUT_UINT32_LE, LA.
    pose proof (len_nonneg B).
    pose proof (len_nonneg (zeros 8 ++ C ++ zeros (padlen_of fileend))).
    rewrite !len_app in *. lia. }
  unfold verify_pe_file.
  rewrite stripped_checksum by (assumption || lia).
  cbn [mapped bind].
  rewrite Z.add_0_r, uint32_small, int32_small by lia.
  assert (Hw : slice R 0 (len R) = Some R).
  { rewrite <- (app_nil_r R) at 1. apply slice_app_exact. }
  rewrite Hw. cbn [mapped bind].
  unfold verify_signature. cbn [Z.eqb].
  assert (Hck : checksum_ret (calc_pe_checksum R peheader)
                             (calc_pe_checksum R peheader) = 0).
  { unfold checksum_ret. rewrite Z.eqb_refl. cbn [negb].
    rewrite andb_false_r. reflexivity. }
  rewrite Hck. reflexivity.
Qed.

End Stripped.

(** X1: [remove-signature] and then [verify].  On a PE file shorter than
    2 GiB whose header is at an even offset and whose signature is at its
    end, [remove-signature] returns 0 and writes the image before the
    signature, padded with zeros to a multiple of eight octets; [verify] on
    that file prints the stored checksum, the same value as the calculated
    checksum with no mismatch mark, then that no signature was found, and
    returns 0. *)
Theorem verify_after_remove `{OpenSSL} `{Curl} (cs : bool) (gsf : option Gsf)
  (fuel fuel' : nat) (o o' : options) (indata : list byte)
  (peheader pe32plus sigpos siglen : Z) :
  file_type indata = Ok FILE_TYPE_PE -> len indata < 2 ^ 31 - 8 ->
  pe_header indata = Ok peheader ->
  pe_layout CMD_REMOVE indata peheader = Ok (pe32plus, sigpos, siglen) ->
  pe_tail_start peheader pe32plus <= sigpos <= len indata ->
  Z.even peheader = true ->
  exists R c,
    main cs gsf fuel CMD_REMOVE o indata = Ok (mkFinished (Ret 0) (Some R) []) /\
    len R = sigpos + padlen_of sigpos /\
    GET_UINT32_LE R (peheader + 88) = Some c /\
    main cs gsf fuel' CMD_VERIFY o' R
    = Ok (mkFinished (Ret 0) None
            [M_current_pe_checksum c; M_calculated_pe_checksum c false;
             M_no_signature_found]).
Proof.
  intros Ht H31 Eh El Hfe He.
  pose proof (pe_header_Ok _ _ Eh) as (_ & _ & _ & _ & Rph).
  pose proof (pe_layout_Ok _ _ _ _ _ _ El) as (Hp & _).
  assert (Hph : 0 <= peheader) by lia.
  destruct (main_remove_run cs gsf fuel o indata peheader pe32plus sigpos siglen
              Ht ltac:(lia) Eh El Hfe) as (A & B & C & HA & HB & HC & Hm).
  pose proof (slice_len _ _ _ _ HC) as LC.
  pose proof (stripped_len indata A B C peheader pe32plus sigpos HA HB LC) as Hlen.
  pose proof (padlen_of_range sigpos) as Rpad.
  set (R := stripped_image peheader A B C sigpos) in *.
  exists R, (calc_pe_checksum R peheader).
  split; [exact Hm|]. split; [exact Hlen|].
  unfold pe_tail_start in Hfe.
  split.
  { unfold R. eapply (stripped_checksum indata); first [eassumption|lia]. }
  unfold main.
  replace (4 <=? len R) with true by (symmetry; apply Z.leb_le; lia).
  unfold R. rewrite (stripped_file_type indata) by assumption.
  cbn [check bind cmd_eqb type_eqb orb].
  unfold main_pe.
  rewrite (stripped_pe_header indata A B C peheader pe32plus sigpos)
    by (assumption || unfold pe_tail_start; lia).
  cbn [bind].
  rewrite (stripped_pe_layout indata A B C peheader pe32plus sigpos)
    with (cmd0 := CMD_REMOVE) (sigpos := sigpos) (siglen := siglen)
    by assumption.
  cbn [cmd_eqb orb bind Z.eqb negb].
  fold R. rewrite uint32_small by lia.
  unfold R.
  erewrite (stripped_verify indata)
    by first [eassumption | fold R; lia].
  reflexivity.
Qed.

Lemma verify_after_remove_witness :
  exists R c,
    Sample.run 0 CMD_REMOVE (Sample.opts EVP_sha1)
      (Sample.pe32_signed 232 (bytes [1; 2; 3; 4; 5; 6; 7; 8]))
    = Ok (mkFinished (Ret 0) (Some R) []) /\
    len R = 232 + padlen_of 232 /\
    GET_UINT32_LE R (64 + 88) = Some c /\
    Sample.run 1 CMD_VERIFY (Sample.opts EVP_sha256) R
    = Ok (mkFinished (Ret 0) None
            [M_current_pe_checksum c; M_calculated_pe_checksum c false;
             M_no_signature_found]).
Proof.
  apply (@verify_after_remove Sample.openssl Sample.libcurl true None 0 1
           (Sample.opts EVP_sha1) (Sample.opts EVP_sha256)
           (Sample.pe32_signed 232 (bytes [1; 2; 3; 4; 5; 6; 7; 8]))
           64 0 232 16);
    first [ vm_compute; reflexivity | vm_compute; split; discriminate ].
Defined.

(** [pe_layout] from what it checks. *)
Lemma pe_layout_intro (cmd : cmd_type_t) (indata : list byte)
  (peheader pe32plus nrvas sigpos siglen : Z) :
  pe32plus = 0 \/ pe32plus = 1 ->
  GET_UINT16_LE indata (peheader + 24)
    = Some (if pe32plus =? 1 then 0x20b else 0x10b) ->
  GET_UINT32_LE indata (peheader + 116 + pe32plus * 16) = Some nrvas ->
  5 <= nrvas ->
  GET_UINT32_LE indata (peheader + 152 + pe32plus * 16) = Some sigpos ->
  GET_UINT32_LE indata (peheader + 152 + pe32plus * 16 + 4) = Some siglen ->
  (0 < sigpos -> uint32 (sigpos + siglen) = len indata) ->
  (cmd = CMD_REMOVE \/ cmd = CMD_EXTRACT -> sigpos <> 0) ->
  pe_layout cmd indata peheader = Ok (pe32plus, sigpos, siglen).
Proof.
  intros Hp Hm Hn H5 Hsp Hsl Hend Hsig. unfold pe_layout.
  rewrite Hm. cbn [mapped bind].
  assert (Ep : (if (if pe32plus =? 1 then 523 else 267) =? 523
                then Ok 1
                else if (if pe32plus =? 1 then 523 else 267) =? 267
                     then Ok 0
                     else Exit (E_pe_magic (if pe32plus =? 1 then 523 else 267)))
               = @Ok Z pe32plus)
    by (destruct Hp as [-> | ->]; reflexivity).
  rewrite Ep. cbn [bind]. rewrite Hn. cbn [mapped bind].
  replace (5 <=? nrvas) with true by (symmetry; apply Z.leb_le; assumption).
  cbn [check bind]. rewrite Hsp, Hsl. cbn [mapped bind].
  assert (E1 : negb ((0 <? sigpos) && negb (uint32 (sigpos + siglen) =? len indata))
               = true).
  { destruct (Z.ltb_spec 0 sigpos) as [Hpos|Hpos]; [|reflexivity].
    rewrite (Hend Hpos), Z.eqb_refl. reflexivity. }
  rewrite E1. cbn [check bind].
  assert (E2 : negb ((cmd_eqb cmd CMD_REMOVE || cmd_eqb cmd CMD_EXTRACT)
                     && (sigpos =? 0)) = true).
  { destruct (Z.eqb_spec sigpos 0) as [Hz|Hz]; [|rewrite andb_false_r; reflexivity].
    destruct cmd; try reflexivity; exfalso; apply Hsig; auto. }
  rewrite E2. reflexivity.
Qed.

(** The command counts in [pe_layout] only where there is no signature. *)
Lemma pe_layout_signed (cmd cmd' : cmd_type_t) (indata : list byte)
  (peheader pe32plus sigpos siglen : Z) :
  pe_layout cmd indata peheader = Ok (pe32plus, sigpos, siglen) ->
  sigpos <> 0 ->
  pe_layout cmd' indata peheader = Ok (pe32plus, sigpos, siglen).
Proof.
  intros Hl Hnz.
  destruct (pe_layout_Ok _ _ _ _ _ _ Hl)
    as (Hp & Hm & (nrvas & Hn & H5) & Hsp & Hsl & Hend & _).
  eapply pe_layout_intro; eauto.
Qed.

(* ================================================================== *)
(** ** [sign] on a PE file: what it keeps and how the image is laid out *)

(** X2: [sign] keeps the image.  In the file that [sign] writes for a PE
    file, every range before the checksum field, between the checksum field
    and the certificate-table entry, or between that entry and the end of the
    image (the start of the old signature when there is one, else the end of
    the file) holds the octets of the input. *)
Theorem sign_keeps_image `{OpenSSL} `{Curl} (cs : bool) (gsf : option Gsf)
  (fuel : nat) (o : options) (indata : list byte)
  (peheader pe32plus sigpos siglen : Z) (f : finished) :
  let fileend := if 0 <? sigpos then sigpos else len indata in
  file_type indata = Ok FILE_TYPE_PE -> len indata < 2 ^ 31 ->
  pe_header indata = Ok peheader ->
  pe_layout CMD_SIGN indata peheader = Ok (pe32plus, sigpos, siglen) ->
  pe_tail_start peheader pe32plus <= fileend <= len indata ->
  main cs gsf fuel CMD_SIGN o indata = Ok f ->
  exists Q,
    outfile f = Some Q /\
    forall off n,
      0 <= n ->
      (0 <= off /\ off + n <= peheader + 88) \/
      (peheader + 92 <= off /\ off + n <= peheader + 152 + pe32plus * 16) \/
      (peheader + 160 + pe32plus * 16 <= off /\ off + n <= fileend) ->
      slice Q off n = slice indata off n.
Proof.
  intros fileend Ht H31 Eh El Hfe Hm.
  destruct (main_sign_pe_Ok cs gsf fuel o indata peheader pe32plus sigpos siglen
              f Ht H31 Eh El Hfe Hm)
    as (A & B & C & sig & p & HA & HB & HC & _ & ->).
  fold fileend in HC.
  pose proof (pe_header_Ok _ _ Eh) as (_ & _ & _ & _ & Rph).
  pose proof (slice_len _ _ _ _ HA) as LA.
  pose proof (slice_len _ _ _ _ HB) as LB.
  eexists. split; [reflexivity|].
  intros off n Hn Hr. unfold signed_image. cbv zeta.
  destruct Hr as [[Ha Hb]|[[Ha Hb]|[Ha Hb]]].
  - eapply (reread_low indata); first [eassumption | lia].
  - eapply (reread_high indata); first [eassumption | apply len_PUT_UINT32_LE | lia].
  - do 4 rewrite app_assoc.
    eapply slice_of_middle; [exact HC| | | |];
      unfold pe_tail_start in *;
      rewrite ?len_app, ?len_PUT_UINT32_LE, ?len_zeros; lia.
Qed.

Lemma sign_keeps_image_witness :
  exists f,
    Sample.run 1 CMD_SIGN (Sample.opts EVP_sha1) (Sample.pe32 234) = Ok f /\
    exists Q,
      outfile f = Some Q /\
      forall off n,
        0 <= n ->
        (0 <= off /\ off + n <= 64 + 88) \/
        (64 + 92 <= off /\ off + n <= 64 + 152 + 0 * 16) \/
        (64 + 160 + 0 * 16 <= off /\ off + n <= 234) ->
        slice Q off n = slice (Sample.pe32 234) off n.
Proof.
  eexists. split; [vm_compute; reflexivity|].
  apply (@sign_keeps_image Sample.openssl Sample.libcurl true None 1
           (Sample.opts EVP_sha1) (Sample.pe32 234) 64 0 0 0);
    first [ vm_compute; reflexivity | vm_compute; split; discriminate ].
Defined.

(** X3: the layout of a signed image.  The file that [sign] writes for a
    PE file has the PE header where the input has it, and for every command
    the certificate-table entry read from it names a table that starts at the
    end of the image rounded up to a multiple of eight, whose length is a
    multiple of eight and more than the eight octets of a record header, and
    which ends where the file ends. *)
Theorem signed_image_layout `{OpenSSL} `{Curl} (cs : bool) (gsf : option Gsf)
  (fuel : nat) (o : options) (indata : list byte)
  (peheader pe32plus sigpos siglen : Z) (f : finished) (Q : list byte) :
  let fileend := if 0 <? sigpos then sigpos else len indata in
  file_type indata = Ok FILE_TYPE_PE -> len indata < 2 ^ 31 ->
  pe_header indata = Ok peheader ->
  pe_layout CMD_SIGN indata peheader = Ok (pe32plus, sigpos, siglen) ->
  pe_tail_start peheader pe32plus <= fileend <= len indata ->
  main cs gsf fuel CMD_SIGN o indata = Ok f ->
  outfile f = Some Q -> len Q < 2 ^ 31 ->
  exists sigpos' siglen',
    pe_header Q = Ok peheader /\
    (forall cmd, pe_layout cmd Q peheader = Ok (pe32plus, sigpos', siglen')) /\
    fileend <= sigpos' < fileend + 8 /\
    sigpos' mod 8 = 0 /\ siglen' mod 8 = 0 /\ 8 < siglen' /\
    sigpos' + siglen' = len Q.
Proof.
  intros fileend Ht H31 Eh El Hfe Hm Hq Hsz.
  destruct (main_sign_pe_Ok cs gsf fuel o indata peheader pe32plus sigpos siglen
              f Ht H31 Eh El Hfe Hm)
    as (A & B & C & sig & p & HA & HB & HC & Hs & ->).
  fold fileend in HC, Hs. cbn [outfile] in Hq.
  injection Hq as Hq. subst Q. fold fileend in Hsz |- *.
  pose proof (pe_header_Ok _ _ Eh) as (_ & _ & _ & _ & Rph).
  pose proof (pe_layout_Ok _ _ _ _ _ _ El) as (Hp & _).
  pose proof (slice_len _ _ _ _ HC) as LC.
  pose proof (padlen_of_range fileend) as Rpad.
  pose proof (padlen_of_range (len p)) as Rpad'.
  apply main_sign_Ok in Hs.
  destruct Hs as (? & ? & ? & ? & ? & _ & _ & _ & _ & _ & _ & _ & Hpos).
  assert (Hph : 0 <= peheader) by lia.
  assert (Hlen0 : forall pp : Z, len (signed_image peheader A B C fileend p)
                        = fileend + padlen_of fileend + len (win_certificate p)).
  { intros _. unfold signed_image. cbv zeta.
    rewrite !len_app, !len_PUT_UINT32_LE, LC.
    rewrite (slice_len _ _ _ _ HA), (slice_len _ _ _ _ HB), len_zeros by lia.
    unfold pe_tail_start. lia. }
  assert (Hsz' : fileend + padlen_of fileend + len (win_certificate p) < 2 ^ 31)
    by (rewrite <- (Hlen0 0); exact Hsz).
  exists (fileend + padlen_of fileend), (len p + 8 + padlen_of (len p)).
  split.
  { apply (signed_pe_header indata A B C p peheader pe32plus fileend);
      try assumption; lia. }
  split.
  { intros cmd.
    eapply (signed_pe_layout indata); eassumption. }
  split; [lia|]. split; [apply padlen_of_aligned|].
  split.
  { replace (len p + 8 + padlen_of (len p)) with (len p + padlen_of (len p) + 1 * 8)
      by lia.
    rewrite Z.mod_add by lia. apply padlen_of_aligned. }
  split; [lia|].
  rewrite (Hlen0 0), len_win_certificate. lia.
Qed.

Lemma signed_image_layout_witness :
  exists f Q,
    Sample.run 1 CMD_SIGN (Sample.opts EVP_sha1) (Sample.pe32 234) = Ok f /\
    outfile f = Some Q /\
    exists sigpos' siglen',
      pe_header Q = Ok 64 /\
      (forall cmd, pe_layout cmd Q 64 = Ok (0, sigpos', siglen')) /\
      234 <= sigpos' < 234 + 8 /\
      sigpos' mod 8 = 0 /\ siglen' mod 8 = 0 /\ 8 < siglen' /\
      sigpos' + siglen' = len Q.
Proof.
  do 2 eexists. split; [vm_compute; reflexivity|].
  split; [reflexivity|].
  eapply (@signed_image_layout Sample.openssl Sample.libcurl true None 1
            (Sample.opts EVP_sha1) (Sample.pe32 234) 64 0 0 0);
    first [ vm_compute; reflexivity | vm_compute; split; discriminate ].
Defined.

(** X4: [extract-signature] after [sign].  On the file that [sign] wrote
    for a PE file, [extract-signature] returns 0 and writes the one
    [WIN_CERTIFICATE] record that [sign] appended: its length, revision
    0x0200, type 2, the DER of the signature and the zeros that pad it. *)
Theorem extract_after_sign `{OpenSSL} `{Curl} (cs : bool) (gsf : option Gsf)
  (fuel fuel' : nat) (o o' : options) (indata : list byte)
  (peheader pe32plus sigpos siglen : Z) (f : finished) (Q : list byte) :
  let fileend := if 0 <? sigpos then sigpos else len indata in
  file_type indata = Ok FILE_TYPE_PE -> len indata < 2 ^ 31 ->
  pe_header indata = Ok peheader ->
  pe_layout CMD_SIGN indata peheader = Ok (pe32plus, sigpos, siglen) ->
  pe_tail_start peheader pe32plus <= fileend <= len indata ->
  main cs gsf fuel CMD_SIGN o indata = Ok f ->
  outfile f = Some Q -> len Q < 2 ^ 31 ->
  exists stream sig,
    main_sign o FILE_TYPE_PE stream = Ok (sig, i2d_PKCS7 sig) /\
    main cs gsf fuel' CMD_EXTRACT o' Q
    = Ok (mkFinished (Ret 0) (Some (win_certificate (i2d_PKCS7 sig))) []).
Proof.
  intros fileend Ht H31 Eh El Hfe Hm Hq Hsz.
  destruct (main_sign_pe_Ok cs gsf fuel o indata peheader pe32plus sigpos siglen
              f Ht H31 Eh El Hfe Hm)
    as (A & B & C & sig & p & HA & HB & HC & Hs & ->).
  fold fileend in HC, Hs. cbn [outfile] in Hq.
  injection Hq as Hq. subst Q. fold fileend in Hsz |- *.
  pose proof (pe_header_Ok _ _ Eh) as (_ & _ & _ & _ & Rph).
  pose proof (pe_layout_Ok _ _ _ _ _ _ El) as (Hp & _).
  pose proof (slice_len _ _ _ _ HC) as LC.
  pose proof (slice_len _ _ _ _ HA) as LA.
  pose proof (slice_len _ _ _ _ HB) as LB.
  pose proof (padlen_of_range fileend) as Rpad.
  pose proof (padlen_of_range (len p)) as Rpad'.
  pose proof (len_nonneg p) as Lp.
  pose proof Hs as Hs0.
  apply main_sign_Ok in Hs0.
  destruct Hs0 as (? & ? & ? & ? & ? & _ & _ & _ & _ & _ & _ & Hpe & Hpos).
  subst p.
  set (p := i2d_PKCS7 sig) in *.
  assert (Hph : 0 <= peheader) by lia.
  assert (Hlen0 : len (signed_image peheader A B C fileend p)
                  = fileend + padlen_of fileend + len (win_certificate p)).
  { unfold signed_image. cbv zeta.
    rewrite !len_app, !len_PUT_UINT32_LE, LC, LA, LB, len_zeros by lia.
    unfold pe_tail_start. lia. }
  assert (Hsz' : fileend + padlen_of fileend + len (win_certificate p) < 2 ^ 31)
    by (rewrite <- Hlen0; exact Hsz).
  pose proof (len_win_certificate p) as Lw.
  assert (Hfe0 : 0 <= fileend) by (unfold pe_tail_start in Hfe; lia).
  exists (A ++ B ++ C ++ zeros (padlen_of fileend)), sig.
  split; [exact Hs|].
  unfold main.
  replace (4 <=? len (signed_image peheader A B C fileend p)) with true
    by (symmetry; apply Z.leb_le; unfold pe_tail_start in *; lia).
  rewrite (signed_file_type indata) by assumption.
  cbn [check bind cmd_eqb type_eqb orb].
  unfold main_pe.
  rewrite (signed_pe_header indata A B C p peheader pe32plus fileend)
    by (assumption || lia).
  cbn [bind].
  erewrite (signed_pe_layout indata) by eassumption.
  cbn [bind].
  rewrite int32_small by lia.
  unfold write_outdata_from.
  replace (len p + 8 + padlen_of (len p) <=? 0) with false
    by (symmetry; apply Z.leb_gt; lia).
  assert (Hw : slice (signed_image peheader A B C fileend p)
                     (fileend + padlen_of fileend)
                     (len p + 8 + padlen_of (len p))
               = Some (win_certificate p)).
  { unfold signed_image. cbv zeta. do 6 rewrite app_assoc.
    apply slice_tail; [|lia].
    rewrite !len_app, !len_PUT_UINT32_LE, LA, LB, LC, len_zeros by lia.
    unfold pe_tail_start. lia. }
  rewrite Hw. cbn [mapped bind].
  rewrite new_io_at, BIO_write_outdata_at. unfold io_at. cbn [outdata file_data app].
  reflexivity.
Qed.

Lemma extract_after_sign_witness :
  exists f Q,
    Sample.run 1 CMD_SIGN (Sample.opts EVP_sha1) (Sample.pe32 234) = Ok f /\
    outfile f = Some Q /\
    exists stream sig,
      @main_sign Sample.openssl Sample.libcurl (Sample.opts EVP_sha1)
        FILE_TYPE_PE stream = Ok (sig, Sample.encode_pkcs7 sig) /\
      Sample.run 0 CMD_EXTRACT (Sample.opts EVP_md5) Q
      = Ok (mkFinished (Ret 0)
              (Some (win_certificate (Sample.encode_pkcs7 sig))) []).
Proof.
  do 2 eexists. split; [vm_compute; reflexivity|].
  split; [reflexivity|].
  eapply (@extract_after_sign Sample.openssl Sample.libcurl true None 1 0
            (Sample.opts EVP_sha1) (Sample.opts EVP_md5) (Sample.pe32 234)
            64 0 0 0);
    first [ vm_compute; reflexivity | vm_compute; split; discriminate ].
Defined.

(** X5: [sign] replaces a signature.  On a PE file that carries a
    signature, [sign] does what it does on the file that [remove-signature]
    leaves of it: the old signature is dropped, and the result does not
    depend on it. *)
Theorem sign_replaces_signature `{OpenSSL} `{Curl} (cs : bool) (gsf : option Gsf)
  (fuel fuel' : nat) (o o' : options) (indata : list byte)
  (peheader pe32plus sigpos siglen : Z) :
  file_type indata = Ok FILE_TYPE_PE -> len indata < 2 ^ 31 - 8 ->
  pe_header indata = Ok peheader ->
  pe_layout CMD_REMOVE indata peheader = Ok (pe32plus, sigpos, siglen) ->
  pe_tail_start peheader pe32plus <= sigpos <= len indata ->
  exists R,
    main cs gsf fuel' CMD_REMOVE o' indata = Ok (mkFinished (Ret 0) (Some R) []) /\
    main cs gsf fuel CMD_SIGN o indata = main cs gsf fuel CMD_SIGN o R.
Proof.
  intros Ht H31 Eh El Hfe.
  destruct (main_remove_run cs gsf fuel' o' indata peheader pe32plus sigpos siglen
              Ht ltac:(lia) Eh El Hfe)
    as (A & B & C & HA & HB & HC & Hm).
  exists (stripped_image peheader A B C sigpos). split; [exact Hm|].
  pose proof (pe_header_Ok _ _ Eh) as (_ & _ & _ & _ & Rph).
  pose proof (pe_layout_Ok _ _ _ _ _ _ El) as (Hp & _ & _ & _ & _ & _ & Hnz).
  specialize (Hnz (or_introl eq_refl)).
  pose proof (slice_len _ _ _ _ HA) as LA.
  pose proof (slice_len _ _ _ _ HB) as LB.
  pose proof (slice_len _ _ _ _ HC) as LC.
  pose proof (padlen_of_range sigpos) as Rpad.
  assert (Hph : 0 <= peheader) by lia.
  assert (Hpos : (0 <? sigpos) = true) by (apply Z.ltb_lt; unfold pe_tail_start in Hfe; lia).
  assert (LR : len (stripped_image peheader A B C sigpos) = sigpos + padlen_of sigpos)
    by (eapply (stripped_len indata); first [eassumption | lia]).
  set (R := stripped_image peheader A B C sigpos) in *.
  (* the signed file *)
  rewrite (main_sign_pe_eq cs gsf fuel o indata A B C peheader pe32plus sigpos siglen)
    by (first [assumption | lia | rewrite Hpos; assumption
              | eapply pe_layout_signed; eassumption ]).
  rewrite Hpos.
  (* the stripped file *)
  assert (HlR : pe_layout CMD_SIGN R peheader = Ok (pe32plus, 0, 0)).
  { unfold R. erewrite (stripped_pe_layout indata) by eassumption. reflexivity. }
  assert (HA' : slice R 0 (peheader + 88) = Some A).
  { unfold R, stripped_image. cbv zeta.
    change A with ([] ++ A) at 1. rewrite <- app_assoc.
    apply slice_mid; [reflexivity|lia]. }
  assert (HB' : slice R (peheader + 92) (60 + 16 * pe32plus) = Some B).
  { unfold R, stripped_image. cbv zeta.
    rewrite (app_assoc A). apply slice_mid; [|lia].
    rewrite len_app, len_PUT_UINT32_LE. lia. }
  assert (HC' : slice R (pe_tail_start peheader pe32plus)
                      (len R - pe_tail_start peheader pe32plus)
                = Some (C ++ zeros (padlen_of sigpos))).
  { unfold R at 1, stripped_image. cbv zeta.
    do 3 rewrite app_assoc.
    apply slice_tail.
    - rewrite !len_app, len_PUT_UINT32_LE. change (len (zeros 8)) with 8.
      unfold pe_tail_start. lia.
    - rewrite LR, len_app, len_zeros by lia. lia. }
  rewrite (main_sign_pe_eq cs gsf fuel o R A B (C ++ zeros (padlen_of sigpos))
             peheader pe32plus 0 0); cycle 1.
  { unfold R. eapply (stripped_file_type indata); eassumption. }
  { lia. }
  { unfold R. eapply (stripped_pe_header indata); first [eassumption | lia]. }
  { exact HlR. }
  { cbn [Z.ltb Z.compare]. unfold pe_tail_start in *. lia. }
  { exact HA'. }
  { exact HB'. }
  { exact HC'. }
  cbn [Z.ltb Z.compare].
  rewrite LR, (padlen_of_zero (sigpos + padlen_of sigpos)) by apply padlen_of_aligned.
  change (zeros 0) with (@nil byte).
  unfold signed_image. cbv zeta.
  rewrite (padlen_of_zero (sigpos + padlen_of sigpos)) by apply padlen_of_aligned.
  change (zeros 0) with (@nil byte).
  rewrite Z.add_0_r, ?app_nil_r, <- ?app_assoc. cbn [app].
  destruct (main_sign o FILE_TYPE_PE _) as [sg| | |]; cbn [bind]; try reflexivity.
  rewrite <- !app_assoc. reflexivity.
Qed.

Lemma sign_replaces_signature_witness :
  exists R,
    Sample.run 0 CMD_REMOVE (Sample.opts EVP_md5)
      (Sample.pe32_signed 232 (bytes [1; 2; 3; 4; 5; 6; 7; 8]))
    = Ok (mkFinished (Ret 0) (Some R) []) /\
    Sample.run 1 CMD_SIGN (Sample.opts EVP_sha1)
      (Sample.pe32_signed 232 (bytes [1; 2; 3; 4; 5; 6; 7; 8]))
    = Sample.run 1 CMD_SIGN (Sample.opts EVP_sha1) R.
Proof.
  apply (@sign_replaces_signature Sample.openssl Sample.libcurl true None 1 0
           (Sample.opts EVP_sha1) (Sample.opts EVP_md5)
           (Sample.pe32_signed 232 (bytes [1; 2; 3; 4; 5; 6; 7; 8]))
           64 0 232 16);
    first [ vm_compute; reflexivity | vm_compute; split; discriminate ].
Defined.

(* ================================================================== *)
(** ** [sign] ends in the signing steps *)

Lemma main_sign_reached `{OpenSSL} `{Curl} (cs : bool) (gsf : option Gsf)
  (fuel : nat) (o : options) (indata : list byte) (f : finished) :
  main cs gsf fuel CMD_SIGN o indata = Ok f ->
  exists type digested sg, main_sign o type digested = Ok sg.
Proof.
  unfold main. intros Hm.
  destruct (4 <=? len indata); [|discriminate Hm]. cbn [check bind] in Hm.
  destruct (file_type indata) as [t| | |]; try discriminate Hm.
  cbn [bind cmd_eqb orb check] in Hm.
  destruct t.
  - unfold main_cab in Hm. inv_res Hm. eauto.
  - unfold main_pe in Hm. inv_res Hm. eauto.
  - unfold main_msi in Hm. inv_res Hm. eauto.
Qed.

(* ================================================================== *)
(** ** The command line *)

(** A property of the variables that every option keeps holds when the loop
    over the options ends. *)
Lemma parse_options_inv (P : cmdline -> Prop) :
  (forall c a set v c',
     P c -> option_action c a = Take set -> set v = Some c' -> P c') ->
  (forall c a c', P c -> option_action c a = Flag c' -> P c') ->
  forall argv c c' failarg rest,
    P c -> parse_options argv c = Parsed (c', failarg, rest) -> P c'.
Proof.
  intros Htake Hflag argv.
  assert (Hn : forall n argv, (List.length argv <= n)%nat ->
             forall c c' failarg rest,
               P c -> parse_options argv c = Parsed (c', failarg, rest) -> P c').
  { induction n as [|n IH]; intros [|a rest0] Hlen c c' fa rest Hc Hp;
      cbn [List.length] in Hlen; try lia.
    - cbn in Hp. congruence.
    - cbn in Hp. congruence.
    - cbn [parse_options] in Hp.
      destruct (option_action c a) as [set|c1|] eqn:Ha.
      + destruct rest0 as [|v rest1]; [discriminate Hp|].
        destruct (set v) as [c1|] eqn:Hs; [|discriminate Hp].
        cbn [List.length] in Hlen.
        eapply (IH rest1); [lia| |exact Hp]. eapply Htake; eauto.
      + eapply (IH rest0); [lia| |exact Hp]. eapply Hflag; eauto.
      + congruence. }
  intros c c' fa rest. eapply Hn. reflexivity.
Qed.

Ltac option_cases H :=
  unfold option_action in H;
  repeat match type of H with
         | (if ?b then _ else _) = _ =>
             destruct b eqn:?; [try discriminate H|]
         end;
  try discriminate H.

Lemma cmdline_invariant_init (cmd : cmd_type_t) :
  cmdline_invariant cmd (cmdline_init cmd).
Proof.
  unfold cmdline_invariant, sign_settings_initial. cbn. intuition auto.
Qed.

Lemma cmd_eqb_sign (cmd : cmd_type_t) :
  cmd_eqb cmd CMD_SIGN = false -> cmd <> CMD_SIGN.
Proof. destruct cmd; cbn; congruence. Qed.

Ltac invariant_kept Hcmd Hinit Hns :=
  cbn;
  repeat match goal with
         | E : (_ && _)%bool = true |- _ => apply andb_prop in E; destruct E
         end;
  split; [exact Hcmd|];
  split; [first [assumption
                | right; apply Z.eqb_eq, negb_false_iff; assumption]|];
  split; [auto|];
  let N := fresh "N" in
  intros N;
  first [exfalso; eapply Hns; eassumption | apply Hinit in N; exact N].

Lemma cmdline_invariant_options (cmd : cmd_type_t) (argv : list string)
  (c c' : cmdline) (failarg : option string) (rest : list string) :
  cmdline_invariant cmd c ->
  parse_options argv c = Parsed (c', failarg, rest) ->
  cmdline_invariant cmd c'.
Proof.
  apply (parse_options_inv (cmdline_invariant cmd)).
  - intros c0 a set v c1 (Hcmd & Hjp & Hmd & Hinit) Ha Hs.
    assert (Hns : cmd_eqb (cl_cmd c0) CMD_SIGN = true -> cmd <> CMD_SIGN -> False).
    { intros E N. apply N. rewrite <- Hcmd. destruct (cl_cmd c0); cbn in E; congruence. }
    unfold cmdline_invariant, sign_settings_initial in *.
    option_cases Ha;
      injection Ha as <-;
      cbv beta zeta in Hs;
      repeat match type of Hs with
             | (if ?b then _ else _) = _ => destruct b eqn:?; try discriminate Hs
             end;
      injection Hs as <-; invariant_kept Hcmd Hinit Hns.
  - intros c0 a c1 (Hcmd & Hjp & Hmd & Hinit) Ha.
    assert (Hns : cmd_eqb (cl_cmd c0) CMD_SIGN = true -> cmd <> CMD_SIGN -> False).
    { intros E N. apply N. rewrite <- Hcmd. destruct (cl_cmd c0); cbn in E; congruence. }
    unfold cmdline_invariant, sign_settings_initial in *.
    option_cases Ha; injection Ha as <-; invariant_kept Hcmd Hinit Hns.
Qed.

Lemma is_some_true {A : Type} (o : option A) : is_some o = true <-> o <> None.
Proof. destruct o; cbn; split; congruence. Qed.

Lemma is_some_false {A : Type} (o : option A) : is_some o = false <-> o = None.
Proof. destruct o; cbn; split; congruence. Qed.

(** What [parse_command_line] does after the loop, as a relation. *)
Lemma parse_command_line_Parsed (argv : list string) (c : cmdline) :
  parse_command_line argv = Parsed c ->
  exists cmd,
    cmdline_invariant cmd c /\
    is_some (cl_turl c) && is_some (cl_tsurl c) = false /\
    is_some (cl_infile c) = true /\
    (negb (cmd_eqb (cl_cmd c) CMD_VERIFY) && negb (is_some (cl_outfile c))) = false /\
    (cmd_eqb (cl_cmd c) CMD_SIGN &&
     negb ((is_some (cl_spcfile c) && is_some (cl_keyfile c))
           || is_some (cl_pkcs12file c)
           || (is_some (cl_spcfile c) && is_some (cl_pvkfile c)))) = false.
Proof.
  unfold parse_command_line.
  destruct (command_word (tl argv)) as [cmd args]. intros Hp. exists cmd.
  destruct (parse_options args (cmdline_init cmd)) as [[[c0 fa] rest]|] eqn:Eo;
    [|discriminate Hp].
  pose proof (cmdline_invariant_options cmd _ _ _ _ _
                (cmdline_invariant_init cmd) Eo) as Hinv.
  unfold after_options in Hp.
  set (p1 := match cl_infile c0, rest with
             | None, a :: r => (set_infile c0 a, r)
             | _, _ => (c0, rest)
             end) in Hp.
  assert (H1 : cmdline_invariant cmd (fst p1)).
  { unfold p1. destruct (cl_infile c0); [exact Hinv|].
    destruct rest; exact Hinv. }
  destruct p1 as [c1 rest1]. cbn [fst] in H1.
  set (p2 := match rest1 with
             | a :: r => _
             | [] => _
             end) in Hp.
  assert (H2 : cmdline_invariant cmd (fst p2)).
  { unfold p2. destruct rest1 as [|a r]; [exact H1|].
    destruct (negb (cmd_eqb (cl_cmd c1) CMD_VERIFY) && negb (is_some (cl_outfile c1)));
      [|exact H1].
    destruct (if (a =? "-out")%string then r else a :: r); exact H1. }
  destruct p2 as [c2 rest2]. cbn [fst] in H2.
  match type of Hp with
  | (if ?b then _ else _) = _ => destruct b eqn:Eb; [discriminate Hp|]
  end.
  injection Hp as <-.
  apply orb_false_iff in Eb. destruct Eb as [Eb E5].
  apply orb_false_iff in Eb. destruct Eb as [Eb E4].
  apply orb_false_iff in Eb. destruct Eb as [Eb E3].
  apply orb_false_iff in Eb. destruct Eb as [_ E2].
  apply negb_false_iff in E3.
  split; [exact H2|]. auto.
Qed.

(** X6: what an accepted command line has.  When [main] goes on after
    reading the command line, there is an input file; an output file unless
    the command is [verify]; not both [-t] and [-ts]; [jp] is -1 or 0 (of
    the levels of [-jp] only [low] passes); the digest is MD5, SHA-1 or
    SHA-256; for [sign] there is a PKCS#12 file, or an SPC file with a key
    file or a PVK file; and for the other commands every setting that only
    [sign] has is at its initial value. *)
Theorem accepted_command_line (argv : list string) (c : cmdline) :
  parse_command_line argv = Parsed c ->
  cl_infile c <> None /\
  (cl_cmd c <> CMD_VERIFY -> cl_outfile c <> None) /\
  (cl_turl c = None \/ cl_tsurl c = None) /\
  (cl_jp c = -1 \/ cl_jp c = 0) /\
  (cl_md c = EVP_md5 \/ cl_md c = EVP_sha1 \/ cl_md c = EVP_sha256) /\
  (cl_cmd c = CMD_SIGN ->
   cl_pkcs12file c <> None \/
   (cl_spcfile c <> None /\ (cl_keyfile c <> None \/ cl_pvkfile c <> None))) /\
  (cl_cmd c <> CMD_SIGN -> sign_settings_initial c).
Proof.
  intros Hp.
  destruct (parse_command_line_Parsed _ _ Hp)
    as (cmd & (Hcmd & Hjp & Hmd & Hinit) & Hts & Hin & Hout & Hcred).
  split; [apply is_some_true, Hin|].
  split.
  { intros Nv. apply is_some_true.
    destruct (cl_cmd c); cbn in Hout; try congruence;
      apply negb_false_iff in Hout; exact Hout. }
  split.
  { apply andb_false_iff in Hts.
    destruct Hts as [E|E]; apply is_some_false in E; auto. }
  split; [exact Hjp|]. split; [exact Hmd|].
  split.
  { intros Es. rewrite Es in Hcred. cbn [cmd_eqb andb] in Hcred.
    apply negb_false_iff in Hcred.
    destruct (cl_pkcs12file c); [left; congruence|right].
    destruct (cl_spcfile c); [|discriminate Hcred].
    split; [congruence|].
    destruct (cl_keyfile c); [left; congruence|].
    destruct (cl_pvkfile c); [right; congruence|discriminate Hcred]. }
  intros N. apply Hinit. rewrite <- Hcmd. exact N.
Qed.

Lemma accepted_command_line_witness :
  exists c,
    parse_command_line
      ["osslsigncode"; "sign"; "-spc"; "cert.spc"; "-key"; "key.der";
       "-h"; "sha2"; "-jp"; "LOW"; "in.exe"; "out.exe"] = Parsed c /\
    (cl_infile c <> None /\
     (cl_cmd c <> CMD_VERIFY -> cl_outfile c <> None) /\
     (cl_turl c = None \/ cl_tsurl c = None) /\
     (cl_jp c = -1 \/ cl_jp c = 0) /\
     (cl_md c = EVP_md5 \/ cl_md c = EVP_sha1 \/ cl_md c = EVP_sha256) /\
     (cl_cmd c = CMD_SIGN ->
      cl_pkcs12file c <> None \/
      (cl_spcfile c <> None /\ (cl_keyfile c <> None \/ cl_pvkfile c <> None))) /\
     (cl_cmd c <> CMD_SIGN -> sign_settings_initial c)).
Proof.
  eexists. split; [vm_compute; reflexivity|].
  apply (accepted_command_line
           ["osslsigncode"; "sign"; "-spc"; "cert.spc"; "-key"; "key.der";
            "-h"; "sha2"; "-jp"; "LOW"; "in.exe"; "out.exe"]).
  vm_compute; reflexivity.
Defined.

(** The loop over the options goes through options that leave no word and
    then on with the words after them. *)
Lemma parse_options_app (opts rest : list string) (c c1 : cmdline) :
  parse_options opts c = Parsed (c1, None, []) ->
  parse_options (opts ++ rest) c = parse_options rest c1.
Proof.
  revert c.
  assert (Hn : forall n opts, (List.length opts <= n)%nat ->
             forall c, parse_options opts c = Parsed (c1, None, []) ->
                       parse_options (opts ++ rest) c = parse_options rest c1).
  { induction n as [|n IH]; intros [|a opts0] Hlen c Hp;
      cbn [List.length] in Hlen; try lia.
    - cbn in Hp. injection Hp as ->. reflexivity.
    - cbn in Hp. injection Hp as ->. reflexivity.
    - cbn [parse_options app] in *.
      destruct (option_action c a) as [set|c2|] eqn:Ha.
      + destruct opts0 as [|v opts1]; [discriminate Hp|].
        cbn [app]. destruct (set v) as [c2|] eqn:Hs; [|discriminate Hp].
        cbn [List.length] in Hlen. apply (IH opts1); [lia|exact Hp].
      + apply (IH opts0); [lia|exact Hp].
      + discriminate Hp. }
  intros c. apply (Hn (List.length opts)). apply le_n.
Qed.

(** X7: file names without [-in] and [-out].  After options that are
    complete and name no file, the input and the output file given as the
    last words, with or without [-out] before the second, are read as
    [-in] and [-out] read them, as long as the first is no option word of the
    command, the second is not [-out] and the command is not [verify]; a
    command line that is refused for another reason is then refused with the
    message that the input file is an unknown option. *)
Theorem positional_file_names (argv0 : string) (opts : list string)
  (cmd : cmd_type_t) (c : cmdline) (inf outf : string) :
  parse_options opts (cmdline_init cmd) = Parsed (c, None, []) ->
  cl_infile c = None -> cl_outfile c = None ->
  cmd <> CMD_VERIFY ->
  option_action c inf = Stop ->
  outf <> "-out" ->
  let explicit :=
    parse_command_line
      (argv0 :: command_name cmd :: opts ++ ["-in"; inf; "-out"; outf]) in
  let positional :=
    match explicit with
    | Parsed c' => Parsed c'
    | Usage _ => Usage (Some inf)
    end in
  parse_command_line (argv0 :: command_name cmd :: opts ++ [inf; outf])
  = positional /\
  parse_command_line (argv0 :: command_name cmd :: opts ++ [inf; "-out"; outf])
  = positional.
Proof.
  intros Hp Hin Hout Hcmd Hstop Hne.
  pose proof (cmdline_invariant_options cmd _ _ _ _ _
                (cmdline_invariant_init cmd) Hp) as (Hc & _).
  assert (Hv : cmd_eqb (cl_cmd c) CMD_VERIFY = false)
    by (rewrite Hc; destruct cmd; cbn; congruence).
  assert (Hw : forall rest,
             parse_command_line (argv0 :: command_name cmd :: opts ++ rest)
             = match parse_options (opts ++ rest) (cmdline_init cmd) with
               | Usage u => Usage u
               | Parsed (c, failarg, rest) => after_options c failarg rest
               end).
  { intros rest. unfold parse_command_line. destruct cmd; reflexivity. }
  cbv zeta.
  rewrite !Hw, !(parse_options_app opts _ _ _ Hp).
  assert (Ein : option_action c "-in" = Take (fun v => Some (set_infile c v)))
    by reflexivity.
  assert (Eout : forall c', option_action c' "-out"
                           = Take (fun v => Some (set_outfile c' v)))
    by reflexivity.
  cbn [parse_options]. rewrite Hstop, Ein, Eout. cbn [parse_options].
  unfold after_options.
  rewrite Hin. cbn [set_infile set_outfile cl_cmd cl_outfile cl_infile].
  rewrite Hv, Hout. cbn [negb is_some andb].
  destruct (String.eqb_spec outf "-out") as [E|_]; [contradiction|].
  change ("-out" =? "-out")%string with true. cbv iota.
  destruct (String.eqb_spec inf "-out") as [E|_].
  { subst inf. rewrite Eout in Hstop. discriminate Hstop. }
  cbn [List.length Nat.eqb negb orb is_some andb set_infile set_outfile cl_cmd
       cl_outfile cl_infile cl_turl cl_tsurl cl_spcfile cl_keyfile cl_pkcs12file
       cl_pvkfile].
  rewrite ?Hv. cbn [negb andb orb].
  match goal with
  | |- context [if ?b then _ else _] => destruct b
  end; split; reflexivity.
Qed.

Lemma positional_file_names_witness :
  exists c,
    parse_options ["-spc"; "cert.spc"; "-key"; "key.der"; "-comm"]
                  (cmdline_init CMD_SIGN) = Parsed (c, None, []) /\
    let explicit :=
      parse_command_line
        ("osslsigncode" :: command_name CMD_SIGN ::
         ["-spc"; "cert.spc"; "-key"; "key.der"; "-comm"] ++
         ["-in"; "in.exe"; "-out"; "out.exe"]) in
    let positional :=
      match explicit with
      | Parsed c' => Parsed c'
      | Usage _ => Usage (Some "in.exe")
      end in
    parse_command_line
      ("osslsigncode" :: command_name CMD_SIGN ::
       ["-spc"; "cert.spc"; "-key"; "key.der"; "-comm"] ++ ["in.exe"; "out.exe"])
    = positional /\
    parse_command_line
      ("osslsigncode" :: command_name CMD_SIGN ::
       ["-spc"; "cert.spc"; "-key"; "key.der"; "-comm"] ++
       ["in.exe"; "-out"; "out.exe"])
    = positional.
Proof.
  eexists. split; [vm_compute; reflexivity|].
  eapply (positional_file_names "osslsigncode"
            ["-spc"; "cert.spc"; "-key"; "key.der"; "-comm"] CMD_SIGN);
    first [ vm_compute; reflexivity | discriminate ].
Defined.

(* ================================================================== *)
(** ** The signing material *)

Lemma main_sign_no_signer `{OpenSSL} `{Curl} (cs : bool) (gsf : option Gsf)
  (fuel : nat) (o : options) (indata : list byte) (f : finished) :
  add_signature o = None ->
  main cs gsf fuel CMD_SIGN o indata <> Ok f.
Proof.
  intros Hn Hm.
  destruct (main_sign_reached cs gsf fuel o indata f Hm) as (t & d & sg & Hs).
  unfold main_sign in Hs. rewrite Hn in Hs. discriminate Hs.
Qed.

(** X8: [-pvk] gives no certificate.  When the key comes from a PVK file
    (no PKCS#12 file), the SPC file is read but its certificates are not
    taken: [cert] is NULL and [certs] is empty, so that [sign] with these
    credentials never ends well, whatever the input. *)
Theorem pvk_never_signs `{OpenSSL} `{Curl} `{KeyFiles} (cs : bool)
  (gsf : option Gsf) (fuel : nat) (c : cmdline) (pvkfile : string)
  (cert : option X509) (certs : list X509) (pkey : EVP_PKEY)
  (indata : list byte) (f : finished) :
  cl_pkcs12file c = None ->
  cl_pvkfile c = Some pvkfile ->
  load_credentials c = Loaded (cert, certs, Some pkey) ->
  cert = None /\ certs = [] /\
  main cs gsf fuel CMD_SIGN (sign_options c cert certs pkey) indata <> Ok f.
Proof.
  intros H12 Hpvk Hl.
  unfold load_credentials in Hl. rewrite H12, Hpvk in Hl.
  destruct (cl_spcfile c) as [spc|]; [|discriminate Hl].
  destruct (read_spc spc); try discriminate Hl.
  destruct (BIO_new_file pvkfile) as [b|]; [|discriminate Hl].
  assert (E : cert = None /\ certs = []).
  { destruct (b2i_PVK_bio b None) as [[k|] b1].
    - injection Hl as <- <- _. auto.
    - destruct (b2i_PVK_bio b1 (Some (cl_pass c))) as [[k|] b2];
        [|discriminate Hl].
      injection Hl as <- <- _. auto. }
  destruct E as [-> ->]. repeat split.
  apply main_sign_no_signer. reflexivity.
Qed.

Lemma pvk_never_signs_witness :
  @load_credentials Fixtures.keyfiles Fixtures.pvk_line
  = Loaded (None, [], Some (bytes_of_string "key.pvk")) /\
  Sample.run 1 CMD_SIGN
    (sign_options Fixtures.pvk_line None [] (bytes_of_string "key.pvk"))
    (Sample.pe32 234)
  <> Ok (mkFinished (Ret 0) None []).
Proof.
  split; [vm_compute; reflexivity|].
  refine (proj2 (proj2 (@pvk_never_signs Sample.openssl Sample.libcurl
                          Fixtures.keyfiles true None 1 Fixtures.pvk_line
                          "key.pvk" None [] (bytes_of_string "key.pvk")
                          (Sample.pe32 234) (mkFinished (Ret 0) None [])
                          _ _ _))); vm_compute; reflexivity.
Defined.

(* ================================================================== *)
(** ** What [calc_pe_digest] digests *)

(** X9: what [calc_pe_digest] digests.  Of a file made of a header part
    of [peheader + 88] octets, the four octets of the checksum, the
    [60 + 16 * pe32plus] octets that follow, the eight octets of the
    certificate-table entry, a tail and whatever comes after [fileend], the
    digest covers the header part, the octets after the checksum and the
    tail, and nothing else: not the checksum, not the entry, nothing from
    [fileend] on. *)
Theorem digest_skips_checksum_and_table (A ck B ce T U : list byte)
  (peheader pe32plus : Z) :
  0 <= peheader -> peheader + 88 <= sizeof_bfb ->
  pe32plus = 0 \/ pe32plus = 1 ->
  len A = peheader + 88 -> len ck = 4 ->
  len B = 60 + 16 * pe32plus -> len ce = 8 ->
  pe_digest_input (A ++ ck ++ B ++ ce ++ T ++ U) peheader pe32plus
                  (peheader + 160 + 16 * pe32plus + len T)
  = Ok (A ++ B ++ T).
Proof.
  intros Hph Hbfb Hp LA Lck LB Lce.
  assert (Hs : sizeof_bfb = 16777216) by reflexivity.
  pose proof (len_nonneg T) as LT.
  unfold pe_digest_input.
  rewrite !uint32_small by lia.
  replace (sizeof_bfb <? peheader + 88) with false
    by (symmetry; apply Z.ltb_ge; lia).
  rewrite (BIO_read_slice _ A 0 (peheader + 88))
    by (rewrite <- LA; apply slice_app_exact).
  rewrite LA, Z.eqb_refl. cbn [negb].
  rewrite (BIO_read_slice _ ck (0 + (peheader + 88)) 4)
    by (apply slice_mid; lia).
  rewrite (BIO_read_slice _ B (0 + (peheader + 88) + 4) (60 + pe32plus * 16))
    by (rewrite (app_assoc A); apply slice_mid; rewrite ?len_app; lia).
  replace (len B =? 60 + pe32plus * 16) with true
    by (symmetry; apply Z.eqb_eq; lia).
  cbn [negb].
  rewrite (BIO_read_slice _ ce (0 + (peheader + 88) + 4 + (60 + pe32plus * 16)) 8)
    by (do 2 rewrite app_assoc; apply slice_mid; rewrite ?len_app; lia).
  rewrite (BIO_read_slice _ T
             (0 + (peheader + 88) + 4 + (60 + pe32plus * 16) + 8)
             (peheader + 160 + 16 * pe32plus + len T
              - (peheader + 88 + 4 + 60 + pe32plus * 16 + 8)))
    by (do 3 rewrite app_assoc; apply slice_mid; rewrite ?len_app; lia).
  reflexivity.
Qed.

Lemma digest_skips_checksum_and_table_witness :
  let A := zeros 152 in
  let B := zeros 60 in
  let T := bytes [1; 2; 3] in
  pe_digest_input (A ++ bytes [9; 9; 9; 9] ++ B ++ bytes [7; 7; 7; 7; 7; 7; 7; 7]
                     ++ T ++ bytes [5; 5]) 64 0 (64 + 160 + 16 * 0 + len T)
  = Ok (A ++ B ++ T).
Proof.
  cbv zeta.
  apply (digest_skips_checksum_and_table (zeros 152) (bytes [9; 9; 9; 9])
           (zeros 60) (bytes [7; 7; 7; 7; 7; 7; 7; 7]) (bytes [1; 2; 3])
           (bytes [5; 5]) 64 0);
    first [reflexivity | left; reflexivity | vm_compute; discriminate | lia].
Defined.

(* ================================================================== *)
(** ** The PE checksum *)

Lemma checksum_loop_odd (peheader : Z) (b : byte) (p : list byte) :
  Z.even (len p) = true ->
  forall size checkSum,
    checksum_loop (p ++ [b]) peheader size checkSum
    = checksum_loop p peheader size checkSum.
Proof.
  induction p as [| a | a c l IH] using list_pair_ind; intros He size checkSum.
  - reflexivity.
  - discriminate He.
  - cbn [app checksum_loop]. apply IH.
    unfold len in *. cbn [Datatypes.length] in He.
    rewrite !Nat2Z.inj_succ in He.
    rewrite <- Z.add_1_r, <- Z.add_1_r, <- Z.add_assoc in He.
    rewrite Z.even_add in He. cbn in He.
    destruct (Z.even (Z.of_nat (Datatypes.length l))); [reflexivity|discriminate He].
Qed.

(** X10: the last octet of a file of odd length.  [calc_pe_checksum] reads
    the file two octets at a time and stops at the first read that is short:
    the last octet of a file of odd length changes neither the sum nor the
    size that is added to it. *)
Theorem checksum_ignores_odd_last_byte (peheader : Z) (p : list byte) (b : byte) :
  Z.even (len p) = true ->
  calc_pe_checksum (p ++ [b]) peheader = calc_pe_checksum p peheader.
Proof.
  intros He. unfold calc_pe_checksum.
  rewrite (checksum_loop_odd peheader b p He). reflexivity.
Qed.

Lemma checksum_ignores_odd_last_byte_witness :
  calc_pe_checksum (bytes [1; 2; 3; 4] ++ [to_u8 255]) 64
  = calc_pe_checksum (bytes [1; 2; 3; 4]) 64.
Proof.
  apply (checksum_ignores_odd_last_byte 64 (bytes [1; 2; 3; 4]) (to_u8 255)).
  reflexivity.
Defined.

Lemma split_at (p : list byte) (k : Z) :
  0 <= k <= len p ->
  exists a r, p = a ++ r /\ len a = k.
Proof.
  intros Hk. exists (firstn (Z.to_nat k) p), (skipn (Z.to_nat k) p).
  split; [symmetry; apply firstn_skipn|].
  unfold len in *. rewrite length_firstn. lia.
Qed.

(** X11: [recalc_pe_checksum] stores a checksum that holds.  On a file
    that has room for the checksum field, with the PE header at an even
    offset, [recalc_pe_checksum] keeps the length of the file and every octet
    outside the field, and the value it stores is the checksum of the file as
    it then is, which is also the checksum of the file as it was. *)
Theorem recalc_pe_checksum_stored (f : BIO_file) (peheader : Z) :
  Z.even peheader = true -> 0 <= peheader ->
  peheader + 92 <= len (file_data f) -> peheader + 92 < 2 ^ 31 ->
  let f' := recalc_pe_checksum f peheader in
  len (file_data f') = len (file_data f) /\
  GET_UINT32_LE (file_data f') (peheader + 88)
  = Some (calc_pe_checksum (file_data f') peheader) /\
  calc_pe_checksum (file_data f') peheader
  = calc_pe_checksum (file_data f) peheader /\
  (forall off n,
     0 <= off -> 0 <= n -> off + n <= peheader + 88 \/ peheader + 92 <= off ->
     slice (file_data f') off n = slice (file_data f) off n).
Proof.
  intros He Hph Hlen H31. cbv zeta.
  destruct (split_at (file_data f) (peheader + 88)) as (A & r & Ef & LA); [lia|].
  assert (Lr : 4 <= len r) by (rewrite Ef, len_app in Hlen; lia).
  destruct (split_at r 4) as (x & R & Er & Lx); [pose proof (len_nonneg r); lia|].
  subst r.
  assert (Ew : file_data (recalc_pe_checksum f peheader)
               = A ++ PUT_UINT32_LE (calc_pe_checksum (file_data f) peheader) ++ R).
  { unfold recalc_pe_checksum, BIO_seek.
    rewrite uint32_small, int32_small by lia.
    set (ck := calc_pe_checksum (file_data f) peheader).
    rewrite Ef, <- LA.
    rewrite file_write_mid by (rewrite len_PUT_UINT32_LE; exact Lx).
    reflexivity. }
  rewrite Ew.
  assert (Ec : calc_pe_checksum
                 (A ++ PUT_UINT32_LE (calc_pe_checksum (file_data f) peheader) ++ R)
                 peheader
               = calc_pe_checksum (file_data f) peheader).
  { set (ck := calc_pe_checksum (file_data f) peheader) at 1.
    rewrite Ef.
    apply calc_pe_checksum_field; try assumption; try lia.
    apply len_PUT_UINT32_LE. }
  split.
  { rewrite Ef, !len_app, len_PUT_UINT32_LE. lia. }
  split.
  { rewrite GET_UINT32_LE_mid by lia.
    rewrite Z.mod_small by apply calc_pe_checksum_range.
    rewrite Ec. reflexivity. }
  split; [exact Ec|].
  intros off n Hoff Hn [Hlow|Hhigh]; rewrite Ef.
  - rewrite !slice_app_l by lia. reflexivity.
  - rewrite !(slice_app_r A) by lia.
    rewrite !slice_app_r by (rewrite ?len_PUT_UINT32_LE; lia).
    rewrite len_PUT_UINT32_LE, Lx. reflexivity.
Qed.

Lemma recalc_pe_checksum_stored_witness :
  let f := mkFile (Sample.pe32 234) 0 in
  let f' := recalc_pe_checksum f 64 in
  len (file_data f') = len (file_data f) /\
  GET_UINT32_LE (file_data f') (64 + 88)
  = Some (calc_pe_checksum (file_data f') 64) /\
  calc_pe_checksum (file_data f') 64 = calc_pe_checksum (file_data f) 64 /\
  (forall off n,
     0 <= off -> 0 <= n -> off + n <= 64 + 88 \/ 64 + 92 <= off ->
     slice (file_data f') off n = slice (file_data f) off n).
Proof.
  apply (recalc_pe_checksum_stored (mkFile (Sample.pe32 234) 0) 64);
    first [reflexivity | vm_compute; discriminate | lia].
Defined.

(* ================================================================== *)
(** ** The length of an ASN.1 header *)

(** X12: the value of [asn1_simple_hdr_len].  For more than two octets
    and a first octet up to 0x31, the result is 2 for a length in short form
    and 2 plus the number of length octets for a long form of up to 125
    length octets; since [2 + p[1] & 0x7f] is read as [(2 + p[1]) & 0x7f],
    the second octets 0xfe and 0xff give 0 and 1. *)
Theorem asn1_simple_hdr_len_value (p0 p1 : byte) (r : list byte) (n : Z) :
  2 < n -> u8 p0 <= 0x31 ->
  asn1_simple_hdr_len (p0 :: p1 :: r) n
  = Ok (if u8 p1 <? 0x80 then 2
        else if u8 p1 <? 0xfe then 2 + (u8 p1 - 0x80)
        else u8 p1 - 0xfe).
Proof.
  intros Hn Hp0. unfold asn1_simple_hdr_len.
  replace (n <=? 2) with false by (symmetry; apply Z.leb_gt; lia).
  replace (49 <? u8 p0) with false by (symmetry; apply Z.ltb_ge; lia).
  destruct p1; reflexivity.
Qed.

Lemma asn1_simple_hdr_len_value_witness :
  asn1_simple_hdr_len (bytes [0x30; 0x82; 0x01; 0x00]) 4 = Ok 4 /\
  asn1_simple_hdr_len (bytes [0x30; 0xfe; 0x01; 0x00]) 4 = Ok 0.
Proof.
  split.
  - exact (asn1_simple_hdr_len_value (to_u8 0x30) (to_u8 0x82) (bytes [1; 0]) 4
             ltac:(lia) ltac:(vm_compute; discriminate)).
  - exact (asn1_simple_hdr_len_value (to_u8 0x30) (to_u8 0xfe) (bytes [1; 0]) 4
             ltac:(lia) ltac:(vm_compute; discriminate)).
Defined.

(* ================================================================== *)
(** ** A record of the certificate table that has no length *)

Lemma cert_loop_stuck `{OpenSSL} (indata : list byte) (sigpos siglen l rev ty : Z) :
  0 < siglen ->
  GET_UINT32_LE indata sigpos = Some l ->
  l = 0 \/ 2 ^ 32 - 8 < l ->
  GET_UINT16_LE indata (sigpos + 4) = Some rev ->
  GET_UINT16_LE indata (sigpos + 6) = Some ty ->
  rev <> WIN_CERT_REVISION_2 \/ ty <> WIN_CERT_TYPE_PKCS_SIGNED_DATA ->
  forall fuel, cert_loop fuel indata sigpos siglen 0 = OutOfFuel.
Proof.
  intros Hs Hl Hz Hr Ht Hne.
  pose proof (GET_UINT32_LE_range _ _ _ Hl) as Rl.
  induction fuel as [|fuel IH]; [reflexivity|].
  cbn [cert_loop].
  replace (0 <? siglen) with true by (symmetry; apply Z.ltb_lt; lia).
  rewrite !Z.add_0_r, Hl, Hr, Ht. cbn [mapped bind].
  replace ((rev =? WIN_CERT_REVISION_2) && (ty =? WIN_CERT_TYPE_PKCS_SIGNED_DATA))
    with false
    by (symmetry; apply andb_false_iff;
        destruct Hne; [left|right]; apply Z.eqb_neq; assumption).
  cbn [bind].
  assert (E : uint32 (0 + (if negb (l mod 8 =? 0)
                           then uint32 (l + (8 - l mod 8)) else l)) = 0).
  { unfold uint32. destruct Hz as [->|Hz]; [reflexivity|].
    pose proof (Z.div_mod l 8 ltac:(lia)) as Hd.
    pose proof (Z.mod_pos_bound l 8 ltac:(lia)) as Hm.
    set (q := l / 8) in *. set (m := l mod 8) in *.
    replace (m =? 0) with false by (symmetry; apply Z.eqb_neq; lia).
    cbn [negb].
    replace (l + (8 - m)) with (2 ^ 32) by lia.
    reflexivity. }
  rewrite E. exact IH.
Qed.

(** X13: a record of the certificate table without length.  When the
    first record of the certificate table of a PE file gives its length as 0
    (or as more than 2^32 - 8) and is not a PKCS#7 record of revision 0x0200,
    the walk of [verify_pe_file] over the table stays at that record:
    [verify] returns for no number of steps. *)
Theorem verify_never_returns_on_empty_record `{OpenSSL} `{Curl} (cs : bool)
  (gsf : option Gsf) (o : options) (indata : list byte)
  (peheader pe32plus sigpos siglen l rev ty : Z) :
  file_type indata = Ok FILE_TYPE_PE -> len indata < 2 ^ 31 ->
  pe_header indata = Ok peheader ->
  pe_layout CMD_VERIFY indata peheader = Ok (pe32plus, sigpos, siglen) ->
  0 < sigpos -> 0 < siglen ->
  GET_UINT32_LE indata sigpos = Some l ->
  l = 0 \/ 2 ^ 32 - 8 < l ->
  GET_UINT16_LE indata (sigpos + 4) = Some rev ->
  GET_UINT16_LE indata (sigpos + 6) = Some ty ->
  rev <> WIN_CERT_REVISION_2 \/ ty <> WIN_CERT_TYPE_PKCS_SIGNED_DATA ->
  forall fuel, main cs gsf fuel CMD_VERIFY o indata = OutOfFuel.
Proof.
  intros Ht H31 Eh El Hsp Hsl Hl Hz Hr Hty Hne fuel.
  pose proof (file_type_len _ _ Ht) as H4.
  pose proof (pe_header_Ok _ _ Eh) as (H64 & _ & H160 & _ & Rph).
  pose proof (pe_layout_Ok _ _ _ _ _ _ El) as (Hp & _ & _ & Gp & Gl & Hend & _).
  specialize (Hend Hsp).
  pose proof (GET_UINT32_LE_range _ _ _ Gp) as Rsp.
  pose proof (GET_UINT32_LE_range _ _ _ Gl) as Rsl.
  unfold main.
  replace (4 <=? len indata) with true by (symmetry; apply Z.leb_le; lia).
  rewrite Ht. cbn [check bind cmd_eqb type_eqb orb].
  unfold main_pe. rewrite Eh. cbn [bind]. rewrite El. cbn [bind].
  replace (sigpos =? 0) with false by (symmetry; apply Z.eqb_neq; lia).
  cbn [negb]. rewrite (uint32_small sigpos) by lia.
  unfold verify_pe_file.
  assert (Hck : exists v, GET_UINT32_LE indata (peheader + 88) = Some v).
  { pose proof (GET_UINT32_LE_inside _ _ _ Gp) as Hin.
    unfold GET_UINT32_LE.
    destruct (slice indata (peheader + 88) 4) as [x|] eqn:Ex.
    - pose proof (slice_len _ _ _ _ Ex) as Lx.
      destruct x as [|x0 [|x1 [|x2 [|x3 [|]]]]];
        try (unfold len in Lx; cbn in Lx; lia).
      eauto.
    - unfold slice in Ex.
      replace ((0 <=? peheader + 88) && (0 <=? 4) && (peheader + 88 + 4 <=? len indata))
        with true in Ex; [discriminate Ex|].
      symmetry. rewrite !andb_true_iff. repeat split; apply Z.leb_le; lia. }
  destruct Hck as (v & Hck). rewrite Hck. cbn [mapped bind].
  rewrite Hend. rewrite int32_small by lia.
  assert (Hw : slice indata 0 (len indata) = Some indata).
  { rewrite <- (app_nil_r indata) at 1. apply slice_app_exact. }
  rewrite Hw. cbn [mapped bind].
  unfold verify_signature.
  replace (siglen =? 0) with false by (symmetry; apply Z.eqb_neq; lia).
  rewrite (cert_loop_stuck indata sigpos siglen l rev ty) by assumption.
  reflexivity.
Qed.

Lemma verify_never_returns_on_empty_record_witness :
  GET_UINT32_LE Fixtures.empty_record_image 232 = Some 0 /\
  Sample.run 1000 CMD_VERIFY (Sample.opts EVP_sha1) Fixtures.empty_record_image = OutOfFuel.
Proof.
  split; [vm_compute; reflexivity|].
  apply (@verify_never_returns_on_empty_record Sample.openssl Sample.libcurl
           true None (Sample.opts EVP_sha1) Fixtures.empty_record_image
           64 0 232 16 0 0x100 2);
    first [ vm_compute; reflexivity | left; reflexivity
          | left; vm_compute; discriminate ].
Defined.

(* ================================================================== *)
(** ** Timestamps *)

(** A call of [add_timestamp] that returns zero has put a countersignature
    attribute on the first signer info and left the other signer infos. *)
Lemma add_timestamp_zero `{OpenSSL} `{Curl} (sig : PKCS7)
  (url proxy : option string) (rfc3161 : bool) (md : EVP_MD)
  (mdbuf : list byte) (sig' : PKCS7) (freed : bool) :
  add_timestamp sig url proxy rfc3161 md mdbuf = Ok (0, sig', freed) ->
  exists si others req reply token info more,
    signer_info sig = si :: others /\
    url = Some (CURLOPT_URL req) /\
    CURLOPT_PROXY req = proxy /\
    CURLOPT_HTTPHEADER req
    = (if rfc3161
       then ["Content-Type: application/timestamp-query";
             "Accept: application/timestamp-reply"]
       else ["Content-Type: application/octet-stream";
             "Accept: application/octet-stream"]) ++
      ["User-Agent: Transport"; "Cache-Control: no-cache"] /\
    CURLOPT_POSTFIELDS req
    = (if rfc3161
       then i2d_TimeStampReq
              (mkTSReq 1 (EVP_MD_nid md)
                       (firstn (Z.to_nat (EVP_MD_size md)) mdbuf) true)
       else base64_encode
              (i2d_TimeStampRequest
                 (mkTSRequest SPC_TIME_STAMP_REQUEST_OBJID NID_pkcs7_data
                              (enc_digest si)))) /\
    curl_easy_perform req = (0, reply) /\
    (if rfc3161
     then exists r, d2i_TimeStampResp reply = Some r /\ tsp_status r = 0 /\
                    tsp_token r = Some token
     else d2i_PKCS7 (base64_decode (negb (existsb (byte_eqb newline) reply)) reply)
          = Some token) /\
    signer_info token = info :: more /\
    sig' = set_signer_info (add_certificates_rev sig (cert token))
             (PKCS7_add_attribute si NID_pkcs9_countersignature
                (V_ASN1_SEQUENCE (i2d_PKCS7_SIGNER_INFO info)) :: others).
Proof.
  unfold add_timestamp. intros Ha.
  destruct url as [url|]; [|discriminate Ha].
  set (payload := if rfc3161 then _ else _) in Ha.
  destruct payload as [p| | |] eqn:Ep; try discriminate Ha.
  cbn [bind] in Ha.
  match type of Ha with
  | context [curl_easy_perform ?q] =>
      set (req := q) in Ha; destruct (curl_easy_perform req) as [c reply] eqn:Ec
  end.
  destruct (Z.eqb_spec c 0) as [->|Hc]; cbn [negb] in Ha.
  2:{ destruct rfc3161; injection Ha as Hc0 _ _; contradiction. }
  assert (Hattach :
    forall token fr,
      (if negb (type_is_signed token) then Fault
       else match signer_info token with
            | [] => Ok (-1, add_certificates_rev sig (cert token), fr)
            | info :: _ =>
                if len (i2d_PKCS7_SIGNER_INFO info) <=? 0
                then Ok (-1, add_certificates_rev sig (cert token), fr)
                else si <- mapped (hd_error (signer_info sig)) ;;
                     Ok (0, set_signer_info (add_certificates_rev sig (cert token))
                              (PKCS7_add_attribute si NID_pkcs9_countersignature
                                 (V_ASN1_SEQUENCE (i2d_PKCS7_SIGNER_INFO info))
                               :: tl (signer_info (add_certificates_rev sig
                                                     (cert token)))), fr)
            end) = Ok (0, sig', freed) ->
      exists si others info more,
        signer_info sig = si :: others /\
        signer_info token = info :: more /\
        sig' = set_signer_info (add_certificates_rev sig (cert token))
                 (PKCS7_add_attribute si NID_pkcs9_countersignature
                    (V_ASN1_SEQUENCE (i2d_PKCS7_SIGNER_INFO info)) :: others)).
  { intros token fr Ht.
    destruct (type_is_signed token); cbn [negb] in Ht; [|discriminate Ht].
    destruct (signer_info token) as [|info more]; [discriminate Ht|].
    destruct (len (i2d_PKCS7_SIGNER_INFO info) <=? 0); [discriminate Ht|].
    destruct (add_certificates_rev_fields sig (cert token)) as (_ & Hsi & _).
    rewrite Hsi in Ht.
    destruct (signer_info sig) as [|si others]; [discriminate Ht|].
    cbn [hd_error mapped bind tl] in Ht.
    exists si, others, info, more. repeat split. congruence. }
  destruct rfc3161.
  - destruct (d2i_TimeStampResp reply) as [r|] eqn:Er; [|discriminate Ha].
    destruct (Z.eqb_spec (tsp_status r) 0) as [Hst|Hst]; cbn [negb] in Ha;
      [|discriminate Ha].
    destruct (tsp_token r) as [token|] eqn:Et; [|discriminate Ha].
    destruct (Hattach token _ Ha) as (si & others & info & more & Hs & Hi & ->).
    exists si, others, req, reply, token, info, more.
    split; [exact Hs|]. split; [reflexivity|]. split; [reflexivity|].
    split; [reflexivity|].
    split.
    { unfold req. cbn [CURLOPT_POSTFIELDS]. subst payload.
      destruct (slice mdbuf 0 (EVP_MD_size md)) as [d|] eqn:Ed; [|discriminate Ep].
      cbn [mapped bind] in Ep. injection Ep as <-.
      apply slice_Some in Ed. destruct Ed as (_ & _ & _ & Ed & _).
      cbn [skipn Z.to_nat] in Ed. rewrite Ed. reflexivity. }
    split; [exact Ec|]. split; [eauto|]. split; [exact Hi|]. reflexivity.
  - destruct (d2i_PKCS7 _) as [token|] eqn:Ed; [|discriminate Ha].
    destruct (Hattach token _ Ha) as (si & others & info & more & Hs & Hi & ->).
    exists si, others, req, reply, token, info, more.
    split; [exact Hs|]. split; [reflexivity|]. split; [reflexivity|].
    split; [reflexivity|].
    split.
    { unfold req. cbn [CURLOPT_POSTFIELDS]. subst payload.
      rewrite Hs in Ep. cbn [hd_error mapped bind] in Ep. congruence. }
    split; [exact Ec|]. split; [exact Ed|]. split; [exact Hi|]. reflexivity.
Qed.

(** Whatever a call of [add_timestamp] with a URL returns, the legacy mode
    has freed the encrypted digest of the first signer info, and the RFC 3161
    mode has not. *)
Lemma add_timestamp_freed `{OpenSSL} `{Curl} (sig : PKCS7) (url : string)
  (proxy : option string) (rfc3161 : bool) (md : EVP_MD) (mdbuf : list byte)
  (c : Z) (sig' : PKCS7) (freed : bool) :
  add_timestamp sig (Some url) proxy rfc3161 md mdbuf = Ok (c, sig', freed) ->
  freed = negb rfc3161.
Proof.
  unfold add_timestamp. intros Ha.
  inv_res Ha; injection Ha as _ _ <-; reflexivity.
Qed.

(** X14: the legacy timestamp.  A call of [add_timestamp_authenticode]
    with a URL that comes back has built its request around the encrypted
    digest of the first signer info itself and freed it with the request,
    whatever value it returns: the signer info is left with an encrypted
    digest that must not be read any more.  When the call returns 0 it has
    posted, to the URL and through the proxy given, with the four headers of
    the octet-stream kind, the base64 of a [TimeStampRequest] over that
    digest; has decoded the reply from base64 (without newlines when the
    reply holds none) as a PKCS#7; and has added to the first signer info one
    unauthenticated attribute, the countersignature that is the first signer
    info of the reply, and to the certificates those of the reply, last
    first.  The certificate, key, digest algorithm and authenticated
    attributes of the signer info, the other signer infos and the contents
    stay. *)
Theorem authenticode_timestamp_attached `{OpenSSL} `{Curl}
  (sig : PKCS7) (url : string) (proxy : option string) (c : Z) (sig' : PKCS7)
  (freed : bool) :
  add_timestamp_authenticode sig (Some url) proxy = Ok (c, sig', freed) ->
  freed = true /\
  (c = 0 ->
   exists si others req reply token info more si',
     signer_info sig = si :: others /\
     CURLOPT_URL req = url /\ CURLOPT_PROXY req = proxy /\
     CURLOPT_HTTPHEADER req
     = ["Content-Type: application/octet-stream";
        "Accept: application/octet-stream";
        "User-Agent: Transport"; "Cache-Control: no-cache"] /\
     CURLOPT_POSTFIELDS req
     = base64_encode
         (i2d_TimeStampRequest
            (mkTSRequest SPC_TIME_STAMP_REQUEST_OBJID NID_pkcs7_data
                         (enc_digest si))) /\
     curl_easy_perform req = (0, reply) /\
     d2i_PKCS7 (base64_decode (negb (existsb (byte_eqb newline) reply)) reply)
     = Some token /\
     signer_info token = info :: more /\
     signer_info sig' = si' :: others /\
     unauth_attr si'
     = add_attribute (unauth_attr si)
         (mkAttr NID_pkcs9_countersignature
                 (V_ASN1_SEQUENCE (i2d_PKCS7_SIGNER_INFO info))) /\
     auth_attr si' = auth_attr si /\
     si_cert si' = si_cert si /\ si_pkey si' = si_pkey si /\
     si_md si' = si_md si /\
     cert sig' = cert sig ++ rev (cert token) /\
     contents_type sig' = contents_type sig /\
     contents_other sig' = contents_other sig).
Proof.
  unfold add_timestamp_authenticode. intros Ha.
  split; [apply add_timestamp_freed in Ha; exact Ha|].
  intros ->.
  pose proof (add_timestamp_contents _ _ _ _ _ _ _ _ _ Ha) as (Hct & Hco).
  apply add_timestamp_zero in Ha.
  destruct Ha as (si & others & req & reply & token & info & more &
                  Hs & Hu & Hpx & Hh & Hp & Hc & Hd & Hi & ->).
  destruct (add_certificates_rev_fields sig (cert token)) as (Hce & _ & _).
  exists si, others, req, reply, token, info, more,
         (PKCS7_add_attribute si NID_pkcs9_countersignature
            (V_ASN1_SEQUENCE (i2d_PKCS7_SIGNER_INFO info))).
  split; [exact Hs|]. split; [congruence|]. split; [exact Hpx|].
  split; [exact Hh|]. split; [exact Hp|].
  split; [exact Hc|]. split; [exact Hd|]. split; [exact Hi|].
  do 6 (split; [reflexivity|]).
  split; [exact Hce|]. split; [exact Hct|exact Hco].
Qed.

Lemma authenticode_timestamp_attached_witness :
  exists sig',
    @add_timestamp_authenticode Sample.openssl Fixtures.legacy_tsa
      Fixtures.one_signer (Some "http://tsa.example/legacy") None
    = Ok (0, sig', true) /\
    true = true /\
    (0 = 0 ->
     exists si others req reply token info more si',
       signer_info Fixtures.one_signer = si :: others /\
       CURLOPT_URL req = "http://tsa.example/legacy" /\
       CURLOPT_PROXY req = None /\
       CURLOPT_HTTPHEADER req
       = ["Content-Type: application/octet-stream";
          "Accept: application/octet-stream";
          "User-Agent: Transport"; "Cache-Control: no-cache"] /\
       CURLOPT_POSTFIELDS req
       = @base64_encode Sample.openssl
           (@i2d_TimeStampRequest Sample.openssl
              (mkTSRequest SPC_TIME_STAMP_REQUEST_OBJID NID_pkcs7_data
                           (enc_digest si))) /\
       @curl_easy_perform Fixtures.legacy_tsa req = (0, reply) /\
       @d2i_PKCS7 Sample.openssl
         (@base64_decode Sample.openssl
            (negb (existsb (byte_eqb newline) reply)) reply)
       = Some token /\
       signer_info token = info :: more /\
       signer_info sig' = si' :: others /\
       unauth_attr si'
       = add_attribute (unauth_attr si)
           (mkAttr NID_pkcs9_countersignature
                   (V_ASN1_SEQUENCE (@i2d_PKCS7_SIGNER_INFO Sample.openssl info))) /\
       auth_attr si' = auth_attr si /\
       si_cert si' = si_cert si /\ si_pkey si' = si_pkey si /\
       si_md si' = si_md si /\
       cert sig' = cert Fixtures.one_signer ++ rev (cert token) /\
       contents_type sig' = contents_type Fixtures.one_signer /\
       contents_other sig' = contents_other Fixtures.one_signer).
Proof.
  eexists. split; [vm_compute; reflexivity|].
  apply (@authenticode_timestamp_attached Sample.openssl Fixtures.legacy_tsa
           Fixtures.one_signer "http://tsa.example/legacy" None).
  vm_compute; reflexivity.
Defined.




(* ================================================================== *)
(** ** The streams of an MSI file *)

Lemma g_slist_insert_sorted_perm (l : list (list byte)) (data : list byte)
  (l' : list (list byte)) :
  g_slist_insert_sorted l data = Ok l' -> Permutation l' (data :: l).
Proof.
  revert l'. induction l as [|x r IH]; intros l' Hi; cbn [g_slist_insert_sorted] in Hi.
  - injection Hi as <-. apply Permutation_refl.
  - destruct (msi_cmp data x) as [c| | |]; try discriminate Hi.
    cbn [bind] in Hi. destruct (0 <? c).
    + destruct (g_slist_insert_sorted r data) as [r'| | |]; try discriminate Hi.
      cbn [bind] in Hi. injection Hi as <-.
      eapply Permutation_trans; [apply perm_skip, IH; reflexivity|].
      apply perm_swap.
    + injection Hi as <-. apply Permutation_refl.
Qed.

Lemma msi_sorted_perm (children : list GsfInput) (acc sorted : list (list byte)) :
  msi_sorted children acc = Ok sorted ->
  Permutation sorted
    (List.map gsf_input_name
       (filter (fun c => negb (is_signature_stream c)) children) ++ acc).
Proof.
  revert acc. induction children as [|c r IH]; intros acc Hm; cbn [msi_sorted] in Hm.
  - injection Hm as <-. apply Permutation_refl.
  - cbn [filter]. unfold is_signature_stream at 1.
    destruct (msi_decode (gsf_input_name c)) as [d| | |]; try discriminate Hm.
    cbn [bind] in Hm.
    destruct (bytes_eqb d DigitalSignature); cbn [negb].
    + apply IH, Hm.
    + destruct (g_slist_insert_sorted acc (gsf_input_name c)) as [acc'| | |] eqn:Ei;
        try discriminate Hm.
      cbn [bind] in Hm. apply IH in Hm.
      eapply Permutation_trans; [exact Hm|].
      cbn [List.map app].
      apply g_slist_insert_sorted_perm in Ei.
      eapply Permutation_trans; [apply Permutation_app_head, Ei|].
      apply Permutation_sym, Permutation_middle.
Qed.

Lemma find_by_name (l : list GsfInput) (c : GsfInput) :
  NoDup (List.map gsf_input_name l) -> In c l ->
  find (fun c' => bytes_eqb (gsf_input_name c') (gsf_input_name c)) l = Some c.
Proof.
  induction l as [|x r IH]; intros Hn Hin; [destruct Hin|].
  cbn [List.map] in Hn. inversion Hn as [|? ? Hx Hr]; subst.
  cbn [find]. destruct Hin as [->|Hin].
  - rewrite (proj2 (bytes_eqb_eq _ _) eq_refl). reflexivity.
  - destruct (bytes_eqb (gsf_input_name x) (gsf_input_name c)) eqn:E.
    + apply bytes_eqb_eq in E. exfalso. apply Hx. rewrite E.
      apply in_map, Hin.
    + apply IH; assumption.
Qed.

Lemma msi_copied_kept (ole : GsfInfile) (keep : GsfInput -> bool) :
  NoDup (List.map gsf_input_name (gsf_children ole)) ->
  msi_copied ole (List.map gsf_input_name (filter keep (gsf_children ole)))
  = filter keep (gsf_children ole).
Proof.
  intros Hn. unfold msi_copied, gsf_infile_child_by_name.
  assert (Hin : forall c, In c (filter keep (gsf_children ole)) ->
                          In c (gsf_children ole)).
  { intros c Hc. apply filter_In in Hc. apply Hc. }
  induction (filter keep (gsf_children ole)) as [|c r IH]; [reflexivity|].
  cbn [List.map flat_map].
  rewrite (find_by_name _ c Hn) by (apply Hin; left; reflexivity).
  cbn [app]. f_equal. apply IH. intros c' Hc'. apply Hin. right. exact Hc'.
Qed.

Lemma msi_copied_perm (ole : GsfInfile) (a b : list (list byte)) :
  Permutation a b -> Permutation (msi_copied ole a) (msi_copied ole b).
Proof.
  intros Hp. unfold msi_copied.
  induction Hp as [|x a b Hp IH|x y a|a b c H1 IH1 H2 IH2]; cbn [flat_map].
  - apply Permutation_refl.
  - apply Permutation_app_head, IH.
  - rewrite !app_assoc. apply Permutation_app_tail, Permutation_app_comm.
  - eapply Permutation_trans; eassumption.
Qed.

(** X16: the streams of a signed MSI file.  A run of [sign] on an MSI file
    that ends well returns 0 and has written a compound document with the
    class id of the input, streams taken from the input and, after them, the
    stream [\005DigitalSignature] with the DER of the signature, which is
    made over the contents of the streams written, in their order, and the
    class id.  When no two streams of the input have the same name, the
    streams written are those of the input whose decoded name is not that of
    the signature stream, each once. *)
Theorem msi_sign_keeps_streams `{OpenSSL} `{Curl} (cs : bool) (g : Gsf)
  (fuel : nat) (o : options) (indata : list byte) (f : finished) :
  file_type indata = Ok FILE_TYPE_MSI ->
  main cs (Some g) fuel CMD_SIGN o indata = Ok f ->
  exists ole copied sig,
    gsf_infile_msole_new indata = Some ole /\
    main_sign o FILE_TYPE_MSI
      (List.concat (List.map gsf_input_data copied) ++ gsf_class_id ole)
    = Ok (sig, i2d_PKCS7 sig) /\
    f = mkFinished (Ret 0)
          (Some (gsf_outfile_msole
                   (mkGsfInfile (gsf_class_id ole)
                      (copied ++ [mkGsfInput DigitalSignature (i2d_PKCS7 sig)]))))
          [] /\
    (NoDup (List.map gsf_input_name (gsf_children ole)) ->
     Permutation copied
       (filter (fun c => negb (is_signature_stream c)) (gsf_children ole))).
Proof.
  intros Ht Hm.
  pose proof (file_type_len _ _ Ht) as H4.
  unfold main in Hm.
  replace (4 <=? len indata) with true in Hm by (symmetry; apply Z.leb_le; lia).
  rewrite Ht in Hm. cbn [check bind cmd_eqb orb] in Hm.
  unfold main_msi in Hm.
  destruct (gsf_infile_msole_new indata) as [ole|]; [|discriminate Hm].
  cbn [mapped bind] in Hm.
  destruct (msi_sorted (gsf_children ole) []) as [sorted| | |] eqn:Es;
    try discriminate Hm.
  cbn [bind] in Hm.
  destruct (main_sign o FILE_TYPE_MSI _) as [[sig p]| | |] eqn:Eg;
    try discriminate Hm.
  cbn [bind snd] in Hm.
  pose proof Eg as Eg'. apply main_sign_Ok in Eg'.
  destruct Eg' as (? & ? & ? & ? & ? & _ & _ & _ & _ & _ & _ & -> & _).
  exists ole, (msi_copied ole sorted), sig.
  split; [reflexivity|]. split; [exact Eg|]. split; [congruence|].
  intros Hn. apply msi_sorted_perm in Es. rewrite app_nil_r in Es.
  rewrite <- (msi_copied_kept ole _ Hn).
  apply msi_copied_perm, Es.
Qed.

Lemma msi_sign_keeps_streams_witness :
  exists f,
    @main Sample.openssl Sample.libcurl true (Some Fixtures.gsf) 0 CMD_SIGN
      (Sample.opts EVP_sha1) Fixtures.msi = Ok f /\
    exists ole copied sig,
      @gsf_infile_msole_new Fixtures.gsf Fixtures.msi = Some ole /\
      @main_sign Sample.openssl Sample.libcurl (Sample.opts EVP_sha1) FILE_TYPE_MSI
        (List.concat (List.map gsf_input_data copied) ++ gsf_class_id ole)
      = Ok (sig, Sample.encode_pkcs7 sig) /\
      f = mkFinished (Ret 0)
            (Some (@gsf_outfile_msole Fixtures.gsf
                     (mkGsfInfile (gsf_class_id ole)
                        (copied ++
                         [mkGsfInput DigitalSignature (Sample.encode_pkcs7 sig)]))))
            [] /\
      (NoDup (List.map gsf_input_name (gsf_children ole)) ->
       Permutation copied
         (filter (fun c => negb (is_signature_stream c)) (gsf_children ole))).
Proof.
  eexists. split; [vm_compute; reflexivity|].
  apply (@msi_sign_keeps_streams Sample.openssl Sample.libcurl true Fixtures.gsf
           0 (Sample.opts EVP_sha1) Fixtures.msi);
    vm_compute; reflexivity.
Defined.

Lemma peek_next (c : byte) (r : list byte) : exists v, peek (c :: r) 1 = Ok v.
Proof.
  unfold peek. destruct r as [|b r]; cbn; eauto.
Qed.

Lemma msi_decode_loop_plain (inp : list byte) :
  Forall (fun b => u8 b < 0xc1) inp ->
  msi_decode_loop (Datatypes.length inp) inp = Ok inp.
Proof.
  induction inp as [|c r IH]; intros Hf; [reflexivity|].
  inversion Hf as [|? ? Hc Hr]; subst.
  cbn [Datatypes.length msi_decode_loop].
  destruct (peek_next c r) as (v & ->). cbn [bind].
  replace (u8 c =? 227) with false by (symmetry; apply Z.eqb_neq; lia).
  replace (u8 c =? 228) with false by (symmetry; apply Z.eqb_neq; lia).
  cbn [andb orb].
  replace (193 <=? u8 c) with false by (symmetry; apply Z.leb_gt; lia).
  replace (224 <=? u8 c) with false by (symmetry; apply Z.leb_gt; lia).
  replace (240 <=? u8 c) with false by (symmetry; apply Z.leb_gt; lia).
  cbn [Nat.add advance Datatypes.length Nat.leb skipn bind firstn app].
  rewrite (IH Hr). reflexivity.
Qed.

(** X17: [msi_decode] on a plain name.  A name all of whose octets are
    below 0xc1 is decoded to itself; [decoded] has room for 0x40 octets with
    the NUL, so a name of 64 octets or more is written past its end. *)
Theorem msi_decode_plain_name (name : list byte) :
  Forall (fun b => u8 b < 0xc1) name ->
  msi_decode name = if 0x40 <=? len name then Fault else Ok name.
Proof.
  intros Hf. unfold msi_decode.
  assert (E : match name with
              | a :: b :: c :: rest =>
                  if (u8 a =? 0xe4) && (u8 b =? 0xa1) && (u8 c =? 0x80)
                  then rest else name
              | _ => name
              end = name).
  { destruct name as [|a [|b [|c rest]]]; try reflexivity.
    inversion Hf; subst.
    replace (u8 a =? 228) with false by (symmetry; apply Z.eqb_neq; lia).
    reflexivity. }
  rewrite E, (msi_decode_loop_plain name Hf). reflexivity.
Qed.

Lemma msi_decode_plain_name_witness :
  msi_decode (bytes_of_string "SummaryInformation")
  = Ok (bytes_of_string "SummaryInformation") /\
  msi_decode (repeat (to_u8 65) 64) = Fault.
Proof.
  split.
  - apply (msi_decode_plain_name (bytes_of_string "SummaryInformation")).
    repeat constructor.
  - apply (msi_decode_plain_name (repeat (to_u8 65) 64)).
    repeat constructor.
Defined.

(* ================================================================== *)
(** ** The folder count of a cabinet *)

Lemma write_hash_from_Ok_or_Fault (indata : list byte) (s : io) (off n : Z) :
  (exists s', write_hash_from indata s off n = Ok s') \/
  write_hash_from indata s off n = Fault.
Proof.
  unfold write_hash_from. destruct (n <=? 0); [eauto|].
  destruct (slice indata off n); cbn [mapped bind]; eauto.
Qed.

Lemma cab_folders_short (indata : list byte) (n : nat) :
  forall (i : Z) (s : io),
    0 <= i -> len indata < i + 8 * Z.of_nat (S n) - 4 ->
    cab_folders (S n) indata i s = Fault.
Proof.
  induction n as [|n IH]; intros i s Hi Hlen.
  - cbn [cab_folders].
    destruct (GET_UINT32_LE indata i) as [v|] eqn:E; [|reflexivity].
    apply GET_UINT32_LE_inside in E. lia.
  - remember (S n) as m. cbn [cab_folders].
    destruct (GET_UINT32_LE indata i) as [v|] eqn:E; [|reflexivity].
    cbn [mapped bind].
    destruct (write_hash_from_Ok_or_Fault indata
                (BIO_write_hash s (PUT_UINT32_LE (uint32 (v + 24)))) (i + 4) 4)
      as [(s' & ->)| ->]; [|reflexivity].
    cbn [bind]. subst m. apply IH; lia.
Qed.

Lemma lor_high_ones (x z : Z) :
  - 256 <= x < 0 -> Z.lor x (Z.shiftl z 8) = x.
Proof.
  intros Hx. apply Z.bits_inj'. intros n Hn.
  rewrite Z.lor_spec.
  destruct (Z.ltb_spec n 8) as [Hlt|Hge].
  - rewrite (Z.shiftl_spec_low z 8 n) by lia. apply orb_false_r.
  - assert (Ht : Z.testbit x n = true).
    { replace n with (n - 8 + 8) by lia.
      rewrite <- Z.shiftr_spec by lia.
      rewrite Z.shiftr_div_pow2 by lia.
      replace (x / 2 ^ 8) with (-1).
      - apply Z.bits_m1. lia.
      - apply Z.div_unique with (r := x + 256); lia. }
    rewrite Ht. reflexivity.
Qed.

Lemma signed_char_folders (b26 b27 : byte) :
  0x80 <= u8 b26 ->
  0xff80 <= uint16 (Z.lor (char_value true b26) (Z.shiftl (char_value true b27) 8)).
Proof.
  intros H. pose proof (u8_range b26) as R.
  unfold char_value at 1. cbn [andb].
  replace (128 <=? u8 b26) with true by (symmetry; apply Z.leb_le; lia).
  rewrite lor_high_ones by lia.
  unfold uint16.
  replace (u8 b26 - 256) with (u8 b26 + 65280 + (-1) * 2 ^ 16) by lia.
  rewrite Z.mod_add by lia. rewrite Z.mod_small by lia. lia.
Qed.

Lemma bind_Fault {A B : Type} (m : res A) (k : A -> res B) :
  (exists a, m = Ok a) \/ m = Fault ->
  (forall a, m = Ok a -> k a = Fault) ->
  bind m k = Fault.
Proof.
  intros [(a & ->)| ->] Hk; cbn [bind]; [apply Hk|]; reflexivity.
Qed.

Lemma mapped_Ok_or_Fault {A : Type} (o : option A) :
  (exists a, mapped o = Ok a) \/ mapped o = Fault.
Proof. destruct o; cbn; eauto. Qed.

Lemma write_outdata_from_Ok_or_Fault (indata : list byte) (s : io) (off n : Z) :
  (exists s', write_outdata_from indata s off n = Ok s') \/
  write_outdata_from indata s off n = Fault.
Proof.
  unfold write_outdata_from. destruct (n <=? 0); [eauto|].
  destruct (slice indata off n); cbn [mapped bind]; eauto.
Qed.

(** X18: the folder count of a cabinet where [char] is signed.  The count
    is read through [char *indata] without a cast: when its low octet is 0x80
    or more, the loop over the folder entries takes the count for at least
    0xff80, and on a cabinet shorter than 36 + 8 * 0xff80 - 4 octets [sign]
    reads past the end of the input. *)
Theorem cab_with_signed_char_folder_count `{OpenSSL} `{Curl}
  (gsf : option Gsf) (fuel : nat) (o : options) (indata : list byte)
  (b26 : byte) :
  file_type indata = Ok FILE_TYPE_CAB ->
  44 <= len indata < 36 + 8 * 0xff80 - 4 ->
  slice indata 0x1e 2 = Some (zeros 2) ->
  slice indata 26 1 = Some [b26] -> 0x80 <= u8 b26 ->
  main true gsf fuel CMD_SIGN o indata = Fault.
Proof.
  intros Ht Hlen Hflags H26 Hb.
  unfold main.
  replace (4 <=? len indata) with true by (symmetry; apply Z.leb_le; lia).
  rewrite Ht. cbn [check bind cmd_eqb orb].
  unfold main_cab.
  replace (44 <=? len indata) with true by (symmetry; apply Z.leb_le; lia).
  cbn [check bind]. rewrite Hflags. cbn [mapped bind].
  rewrite (proj2 (bytes_eqb_eq _ _) eq_refl). cbn [check bind].
  assert (F : forall s, cab_copy true indata s = Fault).
  { intros s. unfold cab_copy.
    apply bind_Fault; [apply write_hash_from_Ok_or_Fault|intros s1 _].
    apply bind_Fault; [apply write_outdata_from_Ok_or_Fault|intros s2 _].
    apply bind_Fault; [apply mapped_Ok_or_Fault|intros t8 _].
    apply bind_Fault; [apply write_hash_from_Ok_or_Fault|intros s3 _].
    apply bind_Fault; [apply mapped_Ok_or_Fault|intros t16 _].
    apply bind_Fault; [apply mapped_Ok_or_Fault|intros hdr _].
    apply bind_Fault; [apply write_outdata_from_Ok_or_Fault|intros s4 _].
    rewrite H26. cbn [mapped bind hd].
    apply bind_Fault; [apply mapped_Ok_or_Fault|intros b27 _].
    pose proof (signed_char_folders b26 (hd Byte.x00 b27) Hb) as Hn.
    destruct (Z.to_nat _) as [|n] eqn:En; [lia|].
    rewrite cab_folders_short by lia. reflexivity. }
  rewrite F. reflexivity.
Qed.

Lemma cab_with_signed_char_folder_count_witness :
  @main Sample.openssl Sample.libcurl true None 0 CMD_SIGN
    (Sample.opts EVP_sha1) Fixtures.cab_128_folders = Fault /\
  exit_status (@main Sample.openssl Sample.libcurl false None 0 CMD_SIGN
                 (Sample.opts EVP_sha1) Fixtures.cab_128_folders) = Some (Ret 0).
Proof.
  split; [|vm_compute; reflexivity].
  apply (@cab_with_signed_char_folder_count Sample.openssl Sample.libcurl None 0
           (Sample.opts EVP_sha1) Fixtures.cab_128_folders (to_u8 0x80));
    first [ vm_compute; reflexivity
          | vm_compute; split; [discriminate|reflexivity]
          | vm_compute; discriminate ].
Defined.

(* ================================================================== *)
(** ** Printing a digest *)

Lemma hex_value_digit (n : Z) : 0 <= n < 16 -> hex_value (hex_digit n) = n.
Proof.
  intros Hn. rewrite <- (Z2Nat.id n) by lia.
  assert (Hk : (Z.to_nat n < 16)%nat) by lia.
  generalize dependent (Z.to_nat n). clear. intros k Hk.
  do 16 (destruct k as [|k]; [reflexivity|]). lia.
Qed.

Lemma hex_digits_of_byte (x : byte) :
  to_u8 (16 * hex_value (hex_digit (u8 x / 16)) + hex_value (hex_digit (u8 x mod 16)))
  = x.
Proof.
  pose proof (u8_range x) as R.
  rewrite !hex_value_digit.
  - rewrite <- Z.div_mod by lia. apply to_u8_u8.
  - apply Z.mod_pos_bound. lia.
  - split; [apply Z.div_pos; lia|apply Z.div_lt_upper_bound; lia].
Qed.

(** X19: [tohex] loses nothing.  It writes two characters for each octet,
    and two buffers whose hexadecimal texts are equal are equal. *)
Theorem tohex_faithful (v w : list byte) :
  String.length (tohex v) = (2 * Datatypes.length v)%nat /\
  (tohex v = tohex w -> v = w).
Proof.
  split.
  - induction v as [|x r IH]; [reflexivity|].
    cbn [tohex String.length Datatypes.length]. rewrite IH. lia.
  - revert w. induction v as [|x r IH]; intros [|y s] E; cbn [tohex] in E;
      try discriminate E; [reflexivity|].
    injection E as E1 E2 E3.
    rewrite <- (hex_digits_of_byte x), <- (hex_digits_of_byte y), E1, E2.
    f_equal. apply IH, E3.
Qed.

(* ================================================================== *)
(** ** The attributes that [sign] has signed *)

Lemma add_attribute_keeps (sk : list X509_ATTRIBUTE) (a b : X509_ATTRIBUTE) :
  In a sk -> attr_object a <> attr_object b -> In a (add_attribute sk b).
Proof.
  induction sk as [|x sk IH]; intros Hin Hne; [destruct Hin|].
  cbn [add_attribute].
  destruct (String.eqb_spec (attr_object x) (attr_object b)) as [E|E].
  - destruct Hin as [->|Hin]; [contradiction|]. right. exact Hin.
  - destruct Hin as [->|Hin]; [left; reflexivity|]. right. apply IH; assumption.
Qed.

(** X20: the attributes that are signed.  When the signing steps end well,
    [PKCS7_dataFinal] was called on a SignedData with the certificate [cert]
    followed by [certs] from last to first and with one signer info: the one
    that [PKCS7_add_signature] made, its certificate, key, digest and
    unauthenticated attributes as they were.  The authenticated attributes
    of that signer info hold the content type SPC_INDIRECT_DATA, the
    statement type with the commercial purpose under [-comm] and the
    individual one otherwise, the Java attribute when the file is a cabinet
    and [jp] is 0, and the opus info when [-n] or [-i] was given; and they
    hold nothing else that the new signer info did not have. *)
Theorem sign_authenticated_attributes `{OpenSSL} `{Curl} (o : options)
  (type : file_type_t) (digested : list byte) (sig : PKCS7) (p : list byte) :
  main_sign o type digested = Ok (sig, p) ->
  let content_type := mkAttr NID_pkcs9_contentType
                             (V_ASN1_OBJECT SPC_INDIRECT_DATA_OBJID) in
  let java := mkAttr SPC_MS_JAVA_SOMETHING (V_ASN1_SEQUENCE java_attrs_low) in
  let statement := mkAttr SPC_STATEMENT_TYPE_OBJID
                     (V_ASN1_SEQUENCE
                        (if opt_comm o then purpose_comm else purpose_ind)) in
  let opus := mkAttr SPC_SP_OPUS_INFO_OBJID
                (V_ASN1_SEQUENCE
                   (i2d_SpcSpOpusInfo (createOpus (opt_desc o) (opt_url o)))) in
  let with_java := type = FILE_TYPE_CAB /\ opt_jp o = 0 in
  let with_opus := opt_desc o <> None \/ opt_url o <> None in
  exists si0 si sig0 content sig1,
    add_signature o = Some si0 /\
    PKCS7_dataFinal sig0 content = Some sig1 /\
    type_is_signed sig0 = true /\
    signer_info sig0 = [si] /\
    cert sig0 = match opt_cert o with Some c => [c] | None => [] end
                ++ rev (opt_certs o) /\
    si_cert si = si_cert si0 /\ si_pkey si = si_pkey si0 /\
    si_md si = si_md si0 /\ unauth_attr si = unauth_attr si0 /\
    In content_type (auth_attr si) /\
    In statement (auth_attr si) /\
    (with_java -> In java (auth_attr si)) /\
    (with_opus -> In opus (auth_attr si)) /\
    (forall a, In a (auth_attr si) ->
               In a (auth_attr si0) \/ a = content_type \/ a = statement \/
               (a = java /\ with_java) \/ (a = opus /\ with_opus)).
Proof.
  unfold main_sign. intros Hs. cbv zeta.
  destruct (add_signature o) as [si0|]; [|discriminate Hs].
  set (si1 := PKCS7_add_signed_attribute si0 NID_pkcs9_contentType
                (V_ASN1_OBJECT SPC_INDIRECT_DATA_OBJID)) in Hs.
  set (jv := type_eqb type FILE_TYPE_CAB && (0 <=? opt_jp o) && (opt_jp o =? 0)) in Hs.
  set (si2 := if jv
              then PKCS7_add_signed_attribute si1 SPC_MS_JAVA_SOMETHING
                     (V_ASN1_SEQUENCE java_attrs_low)
              else si1) in Hs.
  set (si3 := PKCS7_add_signed_attribute si2 SPC_STATEMENT_TYPE_OBJID
                (V_ASN1_SEQUENCE (if opt_comm o then purpose_comm else purpose_ind)))
    in Hs.
  match type of Hs with
  | bind ?m _ = _ => destruct m as [si| | |] eqn:E4; try discriminate Hs
  end.
  cbn [bind] in Hs.
  match type of Hs with
  | bind (check (PKCS7_dataInit ?s) _) _ = _ =>
      set (sig0 := s) in Hs; destruct (PKCS7_dataInit sig0); [|discriminate Hs]
  end.
  cbn [check bind] in Hs.
  match type of Hs with
  | bind (mapped ?x) _ = _ => destruct x as [prefix|]; [|discriminate Hs]
  end.
  cbn [mapped bind] in Hs.
  match type of Hs with
  | bind ?m _ = _ => destruct m as [h| | |]; try discriminate Hs
  end.
  cbn [bind] in Hs.
  match type of Hs with
  | bind (mapped ?x) _ = _ => destruct x as [content|]; [|discriminate Hs]
  end.
  cbn [mapped bind] in Hs.
  destruct (PKCS7_dataFinal sig0 content) as [sig1|] eqn:Ef; [|discriminate Hs].
  clear Hs.
  assert (Hjv : jv = true <-> type = FILE_TYPE_CAB /\ opt_jp o = 0).
  { unfold jv. rewrite !andb_true_iff, Z.leb_le, Z.eqb_eq.
    split.
    - intros [[Ht _] Hj]. split; [|exact Hj]. destruct type; cbn in Ht; congruence.
    - intros [-> Hj]. rewrite Hj. repeat split; lia. }
  assert (Hopus : (si = si3 /\ opt_desc o = None /\ opt_url o = None) \/
                  (si = PKCS7_add_signed_attribute si3 SPC_SP_OPUS_INFO_OBJID
                          (V_ASN1_SEQUENCE
                             (i2d_SpcSpOpusInfo (createOpus (opt_desc o) (opt_url o))))
                   /\ (opt_desc o <> None \/ opt_url o <> None))).
  { destruct (opt_desc o) as [dsc|] eqn:Ed; [|destruct (opt_url o) as [u|] eqn:Eu].
    - right. destruct (0 <? len _); [|discriminate E4]. cbn [check bind] in E4.
      split; [congruence|]. left. discriminate.
    - right. destruct (0 <? len _); [|discriminate E4]. cbn [check bind] in E4.
      split; [congruence|]. right. discriminate.
    - left. split; [congruence|]. auto. }
  exists si0, si, sig0, content, sig1.
  split; [reflexivity|]. split; [exact Ef|].
  assert (Hsig0 : type_is_signed sig0 = true /\ signer_info sig0 = [si] /\
                  cert sig0 = match opt_cert o with Some c => [c] | None => [] end
                              ++ rev (opt_certs o)).
  { unfold sig0.
    match goal with
    | |- context [add_certificates_rev ?s ?l] =>
        destruct (add_certificates_rev_fields s l) as (Hc & Hi & _);
        rewrite Hc, Hi;
        assert (Ht : type_is_signed (add_certificates_rev s l) = type_is_signed s)
    end.
    { unfold add_certificates_rev. generalize (rev (opt_certs o)).
      match goal with |- forall l, type_is_signed (fold_left _ l ?s) = _ =>
        generalize s end.
      intros s l. revert s. induction l as [|x l IH]; intros s; [reflexivity|].
      cbn [fold_left]. rewrite IH. reflexivity. }
    rewrite Ht. destruct (opt_cert o); cbn; auto. }
  destruct Hsig0 as (Hty & Hsi & Hce).
  split; [exact Hty|]. split; [exact Hsi|]. split; [exact Hce|].
  assert (Hfields : forall s nid v,
            si_cert (PKCS7_add_signed_attribute s nid v) = si_cert s /\
            si_pkey (PKCS7_add_signed_attribute s nid v) = si_pkey s /\
            si_md (PKCS7_add_signed_attribute s nid v) = si_md s /\
            unauth_attr (PKCS7_add_signed_attribute s nid v) = unauth_attr s)
    by (intros; cbn; auto).
  assert (H3 : si_cert si3 = si_cert si0 /\ si_pkey si3 = si_pkey si0 /\
               si_md si3 = si_md si0 /\ unauth_attr si3 = unauth_attr si0).
  { unfold si3, si2, si1. destruct jv; cbn; auto. }
  assert (A1 : auth_attr si1
               = add_attribute (auth_attr si0)
                   (mkAttr NID_pkcs9_contentType
                           (V_ASN1_OBJECT SPC_INDIRECT_DATA_OBJID)))
    by reflexivity.
  assert (A2 : auth_attr si2
               = if jv
                 then add_attribute (auth_attr si1)
                        (mkAttr SPC_MS_JAVA_SOMETHING (V_ASN1_SEQUENCE java_attrs_low))
                 else auth_attr si1)
    by (unfold si2; destruct jv; reflexivity).
  assert (A3 : auth_attr si3
               = add_attribute (auth_attr si2)
                   (mkAttr SPC_STATEMENT_TYPE_OBJID
                      (V_ASN1_SEQUENCE
                         (if opt_comm o then purpose_comm else purpose_ind))))
    by reflexivity.
  assert (I1 : In (mkAttr NID_pkcs9_contentType
                          (V_ASN1_OBJECT SPC_INDIRECT_DATA_OBJID)) (auth_attr si3)).
  { rewrite A3. apply add_attribute_keeps; [|cbn; discriminate].
    rewrite A2. destruct jv.
    - apply add_attribute_keeps; [|cbn; discriminate].
      rewrite A1. apply add_attribute_In.
    - rewrite A1. apply add_attribute_In. }
  assert (I2 : jv = true ->
               In (mkAttr SPC_MS_JAVA_SOMETHING (V_ASN1_SEQUENCE java_attrs_low))
                  (auth_attr si3)).
  { intros Ej. rewrite A3. apply add_attribute_keeps; [|cbn; discriminate].
    rewrite A2, Ej. apply add_attribute_In. }
  assert (I3 : In (mkAttr SPC_STATEMENT_TYPE_OBJID
                     (V_ASN1_SEQUENCE
                        (if opt_comm o then purpose_comm else purpose_ind)))
                  (auth_attr si3))
    by (rewrite A3; apply add_attribute_In).
  assert (E3 : forall a, In a (auth_attr si3) ->
               In a (auth_attr si0) \/
               a = mkAttr NID_pkcs9_contentType
                          (V_ASN1_OBJECT SPC_INDIRECT_DATA_OBJID) \/
               a = mkAttr SPC_STATEMENT_TYPE_OBJID
                     (V_ASN1_SEQUENCE
                        (if opt_comm o then purpose_comm else purpose_ind)) \/
               (a = mkAttr SPC_MS_JAVA_SOMETHING (V_ASN1_SEQUENCE java_attrs_low) /\
                jv = true)).
  { intros a Ha. rewrite A3 in Ha. apply add_attribute_elim in Ha.
    destruct Ha as [->|Ha]; [auto|].
    rewrite A2 in Ha. destruct jv.
    - apply add_attribute_elim in Ha. destruct Ha as [->|Ha]; [auto|].
      rewrite A1 in Ha. apply add_attribute_elim in Ha. destruct Ha; auto.
    - rewrite A1 in Ha. apply add_attribute_elim in Ha. destruct Ha; auto. }
  destruct Hopus as [(-> & Hd & Hu)|(-> & Hw)].
  - destruct H3 as (? & ? & ? & ?).
    do 4 (split; [assumption|]).
    split; [exact I1|]. split; [exact I3|].
    split; [intros Hj; apply I2, Hjv, Hj|].
    split; [intros [N|N]; congruence|].
    intros a Ha. destruct (E3 a Ha) as [?|[?|[?|[? Ej]]]]; auto.
    right. right. right. left. split; [assumption|apply Hjv, Ej].
  - destruct H3 as (? & ? & ? & ?).
    cbn [PKCS7_add_signed_attribute si_cert si_pkey si_md unauth_attr auth_attr].
    do 4 (split; [assumption|]).
    split; [apply add_attribute_keeps; [exact I1|cbn; discriminate]|].
    split; [apply add_attribute_keeps; [exact I3|cbn; discriminate]|].
    split.
    { intros Hj. apply add_attribute_keeps; [apply I2, Hjv, Hj|cbn; discriminate]. }
    split; [intros _; apply add_attribute_In|].
    intros a Ha. apply add_attribute_elim in Ha.
    destruct Ha as [->|Ha]; [auto 10|].
    destruct (E3 a Ha) as [?|[?|[?|[? Ej]]]]; auto.
    right. right. right. left. split; [assumption|apply Hjv, Ej].
Qed.

Lemma sign_authenticated_attributes_witness :
  exists sig p,
    @main_sign Sample.openssl Sample.libcurl Fixtures.opts_cab_comm FILE_TYPE_CAB
      (bytes [1; 2; 3]) = Ok (sig, p) /\
    exists si0 si sig0 content sig1,
      @add_signature Sample.openssl Fixtures.opts_cab_comm = Some si0 /\
      @PKCS7_dataFinal Sample.openssl sig0 content = Some sig1 /\
      signer_info sig0 = [si] /\
      In (mkAttr SPC_STATEMENT_TYPE_OBJID (V_ASN1_SEQUENCE purpose_comm))
         (auth_attr si) /\
      In (mkAttr SPC_MS_JAVA_SOMETHING (V_ASN1_SEQUENCE java_attrs_low))
         (auth_attr si) /\
      In (mkAttr SPC_SP_OPUS_INFO_OBJID
            (V_ASN1_SEQUENCE
               (@i2d_SpcSpOpusInfo Sample.openssl
                  (createOpus (Some "My program") None))))
         (auth_attr si).
Proof.
  do 2 eexists. split; [vm_compute; reflexivity|].
  edestruct (@sign_authenticated_attributes Sample.openssl Sample.libcurl
               Fixtures.opts_cab_comm FILE_TYPE_CAB (bytes [1; 2; 3]))
    as (si0 & si & sig0 & content & sig1 & Ha & Hf & _ & Hs & _ & _ & _ & _ & _ &
        _ & Hst & Hj & Ho & _);
    [vm_compute; reflexivity|].
  exists si0, si, sig0, content, sig1.
  split; [exact Ha|]. split; [exact Hf|]. split; [exact Hs|].
  split; [exact Hst|].
  split; [apply Hj; split; reflexivity|].
  apply Ho. left. discriminate.
Defined.

(* ================================================================== *)
(** ** Where [sign] puts the signature of a cabinet *)

Lemma cab_copy_Ok (char_is_signed : bool) (indata : list byte) (s : io) :
  len indata < 2 ^ 31 -> 44 <= len indata ->
  cab_copy char_is_signed indata new_io = Ok s ->
  exists H1 size H2 body,
    GET_UINT32_LE indata 8 = Some size /\
    len H1 = 8 /\ len H2 = 32 /\ len body = len indata - 36 /\
    file_data (outdata s)
    = H1 ++ PUT_UINT32_LE (uint32 (size + 24)) ++ H2 ++
      PUT_UINT32_LE (uint32 (size + 24)) ++ bytes [0xde; 0xad; 0xbe; 0xef] ++
      zeros 8 ++ body /\
    file_pos (outdata s) = len (file_data (outdata s)).
Proof.
  intros H31 H44.
  unfold cab_copy. rewrite new_io_at. intros Hc.
  destruct (write_hash_from indata (io_at [] []) 0 4) as [s1| | |] eqn:W1;
    try discriminate Hc.
  apply write_hash_from_at in W1.
  destruct W1 as (m0 & -> & [[? _]|[_ H0]]); [lia|]. cbn [bind] in Hc.
  destruct (write_outdata_from indata _ 4 4) as [s2| | |] eqn:W2;
    try discriminate Hc.
  apply write_outdata_from_at in W2; [|lia].
  destruct W2 as (m4 & H4 & ->). cbn [bind] in Hc.
  destruct (GET_UINT32_LE indata 8) as [size|] eqn:E8; [|discriminate Hc].
  cbn [mapped bind] in Hc. rewrite BIO_write_hash_at in Hc.
  destruct (write_hash_from indata _ 12 4) as [s3| | |] eqn:W3;
    try discriminate Hc.
  apply write_hash_from_at in W3.
  destruct W3 as (m12 & -> & [[? _]|[_ H12]]); [lia|]. cbn [bind] in Hc.
  destruct (GET_UINT32_LE indata 16) as [off|] eqn:E16; [|discriminate Hc].
  cbn [mapped bind] in Hc. rewrite BIO_write_hash_at in Hc.
  destruct (slice indata 20 14) as [hdr|] eqn:E20; [|discriminate Hc].
  cbn [mapped bind] in Hc. rewrite BIO_write_hash_at in Hc.
  destruct (write_outdata_from indata _ 34 2) as [s4| | |] eqn:W4;
    try discriminate Hc.
  apply write_outdata_from_at in W4; [|lia].
  destruct W4 as (m34 & H34 & ->). cbn [bind] in Hc.
  rewrite BIO_write_outdata_at, BIO_write_hash_at in Hc.
  destruct (slice indata 26 1) as [b26|]; [|discriminate Hc].
  destruct (slice indata 27 1) as [b27|]; [|discriminate Hc].
  cbn [mapped bind] in Hc.
  destruct (cab_folders _ indata 36 _) as [[s5 i]| | |] eqn:Ef;
    try discriminate Hc.
  pose proof Ef as Ef'.
  apply cab_folders_at in Ef. destruct Ef as (F & -> & -> & LF).
  cbn [bind] in Hc.
  assert (Hi : 36 + 8 * Z.of_nat (Z.to_nat
                 (uint16 (Z.lor (char_value char_is_signed (hd Byte.x00 b26))
                    (Z.shiftl (char_value char_is_signed (hd Byte.x00 b27)) 8))))
               <= len indata).
  { destruct (Z.to_nat _) as [|n]; [lia|].
    destruct (Z_le_gt_dec (36 + 8 * Z.of_nat (S n)) (len indata)) as [Hle|Hgt];
      [exact Hle|].
    assert (Hnn : forall m i s, 0 <= i -> len indata < i + 8 * Z.of_nat (S m) ->
                  forall r, cab_folders (S m) indata i s <> Ok r).
    { induction m as [|m IHm]; intros i0 s0 Hi0 Hl0 r Hr.
      - cbn [cab_folders] in Hr.
        destruct (GET_UINT32_LE indata i0) as [v|] eqn:Ev; [|discriminate Hr].
        cbn [mapped bind] in Hr.
        unfold write_hash_from in Hr. cbn [Z.leb Z.compare] in Hr.
        destruct (slice indata (i0 + 4) 4) as [x|] eqn:Ex; [|discriminate Hr].
        apply slice_Some in Ex. lia.
      - remember (S m) as k. cbn [cab_folders] in Hr.
        destruct (GET_UINT32_LE indata i0) as [v|] eqn:Ev; [|discriminate Hr].
        cbn [mapped bind] in Hr.
        destruct (write_hash_from indata _ (i0 + 4) 4) as [s1| | |];
          try discriminate Hr.
        cbn [bind] in Hr. subst k. apply IHm in Hr; [exact Hr|lia|lia]. }
    exfalso. eapply Hnn; [| |exact Ef']; lia. }
  set (i := 36 + 8 * Z.of_nat _) in *.
  rewrite int32_small in Hc by lia.
  apply write_hash_from_at in Hc. destruct Hc as (T & -> & HT).
  assert (LT : len T = len indata - i).
  { destruct HT as [[Hle ->]|[_ HT]]; [change (len []) with 0; lia|].
    apply (slice_len _ _ _ _ HT). }
  exists (m0 ++ m4), size,
         (m12 ++ PUT_UINT32_LE (uint32 (off + 24)) ++
          (firstn 10 hdr ++ [to_u8 4] ++ skipn 11 hdr) ++ m34 ++
          firstn 8 cabsigned),
         (F ++ T).
  pose proof (slice_len _ _ _ _ H0). pose proof (slice_len _ _ _ _ H4).
  pose proof (slice_len _ _ _ _ H12). pose proof (slice_len _ _ _ _ E20).
  pose proof (slice_len _ _ _ _ H34).
  split; [reflexivity|].
  split; [rewrite len_app; lia|].
  split.
  { assert (Lh : len (firstn 10 hdr ++ [to_u8 4] ++ skipn 11 hdr) = 14).
    { unfold len in *. rewrite !length_app, length_firstn, length_skipn.
      cbn [Datatypes.length]. lia. }
    set (hdr' := firstn 10 hdr ++ [to_u8 4] ++ skipn 11 hdr) in *.
    rewrite !len_app, len_PUT_UINT32_LE.
    change (len (firstn 8 cabsigned)) with 8. lia. }
  split; [rewrite len_app; lia|].
  unfold io_at. cbn [outdata file_data file_pos]. split; [|reflexivity].
  rewrite <- ?app_assoc. cbn [app]. reflexivity.
Qed.

(** X21: where the signature of a cabinet is.  The file that [sign] writes
    for a cabinet is 24 octets longer than the input, plus the length of the
    signature padded to a multiple of eight; the padded signature is its
    tail; the size field at offset 8 and the field at 0x2c of the reserved
    area both hold the size field of the input plus 24, and the field at
    0x30 holds the length of the padded signature. *)
Theorem cab_signature_location `{OpenSSL} `{Curl} (cs : bool) (gsf : option Gsf)
  (fuel : nat) (o : options) (indata : list byte) (f : finished) :
  file_type indata = Ok FILE_TYPE_CAB -> len indata < 2 ^ 31 - 24 ->
  main cs gsf fuel CMD_SIGN o indata = Ok f ->
  exists Q size sig,
    outfile f = Some Q /\
    GET_UINT32_LE indata 8 = Some size /\
    let p := i2d_PKCS7 sig in
    let blob := p ++ zeros (padlen_of (len p)) in
    len blob mod 8 = 0 /\
    len Q = len indata + 24 + len blob /\
    GET_UINT32_LE Q 8 = Some (uint32 (size + 24)) /\
    GET_UINT32_LE Q 0x2c = Some (uint32 (size + 24)) /\
    GET_UINT32_LE Q 0x30 = Some (uint32 (len blob)) /\
    slice Q (len indata + 24) (len blob) = Some blob.
Proof.
  intros Ht H31 Hm.
  pose proof (file_type_len _ _ Ht) as H4.
  unfold main in Hm.
  replace (4 <=? len indata) with true in Hm by (symmetry; apply Z.leb_le; lia).
  rewrite Ht in Hm. cbn [check bind cmd_eqb orb] in Hm.
  unfold main_cab in Hm.
  destruct (Z.leb_spec 44 (len indata)) as [H44|]; [|discriminate Hm].
  cbn [check bind] in Hm.
  destruct (slice indata 30 2) as [flags|]; [|discriminate Hm].
  cbn [mapped bind] in Hm.
  destruct (bytes_eqb flags (zeros 2)); [|discriminate Hm].
  cbn [check bind] in Hm.
  destruct (cab_copy cs indata new_io) as [s| | |] eqn:Ec; try discriminate Hm.
  cbn [bind] in Hm.
  destruct (main_sign o FILE_TYPE_CAB (md_ctx s)) as [[sig p]| | |] eqn:Es;
    try discriminate Hm.
  cbn [bind snd] in Hm.
  apply main_sign_Ok in Es.
  destruct Es as (? & ? & ? & ? & ? & _ & _ & _ & _ & _ & _ & -> & Hpos).
  apply cab_copy_Ok in Ec; [|lia|lia].
  destruct Ec as (H1 & size & H2 & body & E8 & L1 & L2 & Lb & Ed & Ep).
  set (p := i2d_PKCS7 sig) in *.
  set (blob := p ++ zeros (padlen_of (len p))) in *.
  pose proof (padlen_of_range (len p)) as Rpad.
  assert (Lblob : len blob = len p + padlen_of (len p)).
  { unfold blob. rewrite len_app, len_zeros by lia. reflexivity. }
  match type of Hm with
  | Ok (mkFinished _ (Some ?q) _) = _ => set (Q0 := q) in Hm
  end.
  assert (Hf : outfile f = Some Q0)
    by (destruct f as [r0 o0 l0]; cbn [outfile]; congruence).
  clear Hm. rewrite Hf. subst Q0.
  exists (H1 ++ PUT_UINT32_LE (uint32 (size + 24)) ++ H2 ++
          PUT_UINT32_LE (uint32 (size + 24)) ++
          PUT_UINT32_LE (uint32 (len p + padlen_of (len p))) ++
          zeros 8 ++ body ++ blob), size, sig.
  split.
  { f_equal. unfold BIO_write_outdata, BIO_seek. cbn [outdata file_data].
    destruct s as [[d pos] h]. cbn [outdata file_data file_pos] in *. subst pos d.
    fold blob.
    match goal with
    | |- file_data (file_write (mkFile (file_data (file_write ?f0 blob)) 48) ?d) = _ =>
        assert (Ew : file_data (file_write f0 blob)
                     = (H1 ++ PUT_UINT32_LE (uint32 (size + 24)) ++ H2 ++
                        PUT_UINT32_LE (uint32 (size + 24))) ++
                       bytes [0xde; 0xad; 0xbe; 0xef] ++
                       (zeros 8 ++ body ++ blob))
    end.
    { rewrite file_write_end. rewrite <- !app_assoc. reflexivity. }
    rewrite Ew.
    replace 48 with (len (H1 ++ PUT_UINT32_LE (uint32 (size + 24)) ++ H2 ++
                          PUT_UINT32_LE (uint32 (size + 24))))
      by (rewrite !len_app, !len_PUT_UINT32_LE; lia).
    rewrite file_write_mid by (rewrite len_PUT_UINT32_LE; reflexivity).
    cbn [file_data]. rewrite <- !app_assoc. reflexivity. }
  split; [exact E8|]. cbv zeta. fold p. fold blob.
  split; [rewrite Lblob; apply padlen_of_aligned|].
  split.
  { rewrite !len_app, !len_PUT_UINT32_LE. change (len (zeros 8)) with 8. lia. }
  split.
  { rewrite GET_UINT32_LE_mid by lia.
    f_equal. apply Z.mod_small, uint32_range. }
  split.
  { do 2 rewrite app_assoc.
    rewrite GET_UINT32_LE_mid by (rewrite !len_app, len_PUT_UINT32_LE; lia).
    f_equal. apply Z.mod_small, uint32_range. }
  split.
  { do 3 rewrite app_assoc.
    rewrite GET_UINT32_LE_mid by (rewrite !len_app, !len_PUT_UINT32_LE; lia).
    rewrite Lblob. f_equal. apply Z.mod_small, uint32_range. }
  do 6 rewrite app_assoc. apply slice_tail; [|reflexivity].
  rewrite !len_app, !len_PUT_UINT32_LE. change (len (zeros 8)) with 8. lia.
Qed.

Lemma cab_signature_location_witness :
  exists f,
    Sample.run 0 CMD_SIGN (Sample.opts EVP_sha1) Sample.cab = Ok f /\
    exists Q size sig,
      outfile f = Some Q /\
      GET_UINT32_LE Sample.cab 8 = Some size /\
      let p := Sample.encode_pkcs7 sig in
      let blob := p ++ zeros (padlen_of (len p)) in
      len blob mod 8 = 0 /\
      len Q = len Sample.cab + 24 + len blob /\
      GET_UINT32_LE Q 8 = Some (uint32 (size + 24)) /\
      GET_UINT32_LE Q 0x2c = Some (uint32 (size + 24)) /\
      GET_UINT32_LE Q 0x30 = Some (uint32 (len blob)) /\
      slice Q (len Sample.cab + 24) (len blob) = Some blob.
Proof.
  eexists. split; [vm_compute; reflexivity|].
  apply (@cab_signature_location Sample.openssl Sample.libcurl true None 0
           (Sample.opts EVP_sha1) Sample.cab);
    vm_compute; reflexivity.
Defined.

(* ================================================================== *)
(** ** Headers that the size checks let through *)

Lemma GET_UINT32_LE_outside (p : list byte) (off : Z) :
  len p < off + 4 -> GET_UINT32_LE p off = None.
Proof.
  intros H. destruct (GET_UINT32_LE p off) as [v|] eqn:E; [|reflexivity].
  apply GET_UINT32_LE_inside in E. lia.
Qed.

Lemma GET_UINT32_LE_Some (p : list byte) (off : Z) :
  0 <= off -> off + 4 <= len p -> exists v, GET_UINT32_LE p off = Some v.
Proof.
  intros H0 H4. unfold GET_UINT32_LE.
  destruct (slice p off 4) as [s|] eqn:E.
  - pose proof (slice_len _ _ _ _ E) as L. unfold len in L.
    destruct s as [|b0 [|b1 [|b2 [|b3 [|b4 s]]]]];
      cbn [Datatypes.length] in L; try lia. eauto.
  - rewrite slice_ok in E by lia. discriminate E.
Qed.

(** X22: the size check of [main] and the certificate-table entry.  The
    check asks for [peheader + 160] octets, which is where the entry of a
    PE32 file ends: on a PE32 file smaller than 2 GiB that passes the checks
    on its headers, every field that [main] reads of the optional header lies
    inside the file.  The entry of a PE32+ file is 16 octets further and ends
    at [peheader + 176]: the fields lie inside the file when it has that many
    octets, and on a PE32+ file that passes the checks and is shorter, the
    number of directories is still inside the file and the length field of
    the entry, which [main] reads as [siglen], lies beyond its end. *)
Theorem pe32plus_header_past_the_end (indata : list byte) (peheader : Z) :
  len indata < 2 ^ 31 ->
  pe_header indata = Ok peheader ->
  peheader + 160 <= len indata /\
  (GET_UINT16_LE indata (peheader + 24) = Some 0x10b ->
   forall cmd, pe_layout cmd indata peheader <> Fault) /\
  (GET_UINT16_LE indata (peheader + 24) = Some 0x20b ->
   (peheader + 176 <= len indata ->
    forall cmd, pe_layout cmd indata peheader <> Fault) /\
   (len indata < peheader + 176 ->
    (exists nrvas,
       GET_UINT32_LE indata (peheader + 116 + 1 * 16) = Some nrvas) /\
    GET_UINT32_LE indata (peheader + 152 + 1 * 16 + 4) = None)).
Proof.
  intros H31 Eh.
  pose proof (pe_header_Ok _ _ Eh) as (H64 & Hg & Hu & Hs & Rph).
  assert (Hlen : peheader + 160 <= len indata).
  { apply slice_Some in Hs.
    destruct (Z.lt_ge_cases (peheader + 160) (2 ^ 32)) as [Hlt|Hge]; [|lia].
    rewrite uint32_small in Hu by lia. exact Hu. }
  assert (Hlay : forall cmd p,
             p = 0 \/ p = 1 ->
             GET_UINT16_LE indata (peheader + 24)
             = Some (if p =? 1 then 0x20b else 0x10b) ->
             peheader + 160 + 16 * p <= len indata ->
             pe_layout cmd indata peheader <> Fault).
  { intros cmd p Hp Hm Hl. unfold pe_layout. rewrite Hm. cbn [mapped bind].
    assert (Hpp : (if (if p =? 1 then 0x20b else 0x10b) =? 0x20b then Ok 1
                   else if (if p =? 1 then 0x20b else 0x10b) =? 0x10b then Ok 0
                   else Exit (E_pe_magic (if p =? 1 then 0x20b else 0x10b)))
                  = @Ok Z p)
      by (destruct Hp as [-> | ->]; reflexivity).
    rewrite Hpp. cbn [bind].
    destruct (GET_UINT32_LE_Some indata (peheader + 116 + p * 16))
      as (nrvas & ->); [lia|lia|].
    cbn [mapped bind].
    destruct (5 <=? nrvas); cbn [check bind]; [|discriminate].
    destruct (GET_UINT32_LE_Some indata (peheader + 152 + p * 16))
      as (sigpos & ->); [lia|lia|].
    destruct (GET_UINT32_LE_Some indata (peheader + 152 + p * 16 + 4))
      as (siglen & ->); [lia|lia|].
    cbn [mapped bind].
    match goal with
    | |- context [check ?b _] => destruct b; cbn [check bind]; [|discriminate]
    end.
    match goal with
    | |- context [check ?b _] => destruct b; cbn [check bind]; discriminate
    end. }
  split; [exact Hlen|]. split.
  - intros Hm cmd. apply (Hlay cmd 0); [auto|exact Hm|lia].
  - intros Hm. split.
    + intros H176 cmd. apply (Hlay cmd 1); [auto|exact Hm|lia].
    + intros Hshort. split.
      * apply GET_UINT32_LE_Some; lia.
      * apply GET_UINT32_LE_outside. lia.
Qed.

Lemma pe32plus_header_past_the_end_witness :
  len Fixtures.pe32plus_short = 234 /\
  64 + 160 <= len Fixtures.pe32plus_short /\
  (exists nrvas,
     GET_UINT32_LE Fixtures.pe32plus_short (64 + 116 + 1 * 16) = Some nrvas) /\
  GET_UINT32_LE Fixtures.pe32plus_short (64 + 152 + 1 * 16 + 4) = None.
Proof.
  split; [reflexivity|].
  destruct (pe32plus_header_past_the_end Fixtures.pe32plus_short 64)
    as (Hlen & _ & Hplus);
    [vm_compute; reflexivity|vm_compute; reflexivity|].
  split; [exact Hlen|].
  apply Hplus; vm_compute; reflexivity.
Defined.

(** X23: an offset of the PE header near 2^32.  [peheader + 160] is
    computed in 32 bits: an offset of 2^32 - 160 or more passes the size check
    of any file of 160 octets or more, and every command then looks for the
    PE signature outside the input. *)
Theorem pe_header_offset_wraps `{OpenSSL} `{Curl} (cs : bool)
  (gsf : option Gsf) (fuel : nat) (cmd : cmd_type_t) (o : options)
  (indata : list byte) (peheader : Z) :
  file_type indata = Ok FILE_TYPE_PE ->
  GET_UINT32_LE indata 60 = Some peheader ->
  2 ^ 32 - 160 <= peheader ->
  160 <= len indata < 2 ^ 32 - 160 ->
  main cs gsf fuel cmd o indata = Fault.
Proof.
  intros Ht Hg Hph Hlen.
  pose proof (GET_UINT32_LE_range _ _ _ Hg) as Rph.
  unfold main.
  replace (4 <=? len indata) with true by (symmetry; apply Z.leb_le; lia).
  rewrite Ht. cbn [check bind type_eqb].
  rewrite orb_true_r. cbn [check bind].
  unfold main_pe, pe_header.
  replace (64 <=? len indata) with true by (symmetry; apply Z.leb_le; lia).
  cbn [check bind]. rewrite Hg. cbn [mapped bind].
  assert (Hu : uint32 (peheader + 160) = peheader + 160 - 2 ^ 32).
  { unfold uint32. symmetry. apply Z.mod_unique with (q := 1); lia. }
  rewrite Hu.
  replace (peheader + 160 - 2 ^ 32 <=? len indata) with true
    by (symmetry; apply Z.leb_le; lia).
  cbn [check bind].
  assert (Hs : slice indata peheader 4 = None).
  { unfold slice.
    replace (peheader + 4 <=? len indata) with false
      by (symmetry; apply Z.leb_gt; lia).
    rewrite andb_false_r. reflexivity. }
  rewrite Hs. reflexivity.
Qed.

Lemma pe_header_offset_wraps_witness :
  Sample.run 0 CMD_VERIFY (Sample.opts EVP_sha1) Fixtures.pe_far_header = Fault.
Proof.
  apply (@pe_header_offset_wraps Sample.openssl Sample.libcurl true None 0
           CMD_VERIFY (Sample.opts EVP_sha1) Fixtures.pe_far_header 0xfffffff0);
    first [ vm_compute; reflexivity | vm_compute; discriminate
          | vm_compute; split; [discriminate|reflexivity] ].
Defined.

(* ================================================================== *)
(** ** [remove-signature] after [sign] *)

(** X24: [remove-signature] after [sign].  On the file that [sign] wrote
    for a PE file, [remove-signature] returns 0 and gives the image back: the
    octets of the input before the checksum field, the checksum of the file
    written, the octets between the checksum field and the certificate-table
    entry, eight zeros for the entry, the rest of the image (up to the old
    signature when there was one) and the zeros that pad it to a multiple of
    eight. *)
Theorem remove_after_sign `{OpenSSL} `{Curl} (cs : bool) (gsf : option Gsf)
  (fuel fuel' : nat) (o o' : options) (indata : list byte)
  (peheader pe32plus sigpos siglen : Z) (f : finished) (Q : list byte) :
  let fileend := if 0 <? sigpos then sigpos else len indata in
  file_type indata = Ok FILE_TYPE_PE -> len indata < 2 ^ 31 ->
  pe_header indata = Ok peheader ->
  pe_layout CMD_SIGN indata peheader = Ok (pe32plus, sigpos, siglen) ->
  pe_tail_start peheader pe32plus <= fileend <= len indata ->
  main cs gsf fuel CMD_SIGN o indata = Ok f ->
  outfile f = Some Q -> len Q < 2 ^ 31 ->
  exists A B C,
    slice indata 0 (peheader + 88) = Some A /\
    slice indata (peheader + 92) (60 + 16 * pe32plus) = Some B /\
    slice indata (pe_tail_start peheader pe32plus)
          (fileend - pe_tail_start peheader pe32plus) = Some C /\
    let image := B ++ zeros 8 ++ C ++ zeros (padlen_of fileend) in
    main cs gsf fuel' CMD_REMOVE o' Q
    = Ok (mkFinished (Ret 0)
            (Some (A ++ PUT_UINT32_LE
                          (calc_pe_checksum (A ++ zeros 4 ++ image) peheader)
                     ++ image)) []).
Proof.
  intros fileend Ht H31 Eh El Hfe Hm Hq Hsz.
  destruct (main_sign_pe_Ok cs gsf fuel o indata peheader pe32plus sigpos siglen
              f Ht H31 Eh El Hfe Hm)
    as (A & B & C & sig & p & HA & HB & HC & Hs & ->).
  fold fileend in HC, Hs. cbn [outfile] in Hq.
  injection Hq as Hq. subst Q. fold fileend in Hsz |- *.
  pose proof (pe_header_Ok _ _ Eh) as (_ & _ & _ & _ & Rph).
  pose proof (pe_layout_Ok _ _ _ _ _ _ El) as (Hp & _).
  pose proof (slice_len _ _ _ _ HC) as LC.
  pose proof (slice_len _ _ _ _ HA) as LA.
  pose proof (slice_len _ _ _ _ HB) as LB.
  pose proof (padlen_of_range fileend) as Rpad.
  pose proof (padlen_of_range (len p)) as Rpad'.
  pose proof (len_nonneg p) as Lp.
  assert (Hph : 0 <= peheader) by lia.
  assert (Hfe0 : pe_tail_start peheader pe32plus <= fileend)
    by apply Hfe.
  unfold pe_tail_start in Hfe0.
  pose proof (len_win_certificate p) as Lw.
  assert (Hlen0 : len (signed_image peheader A B C fileend p)
                  = fileend + padlen_of fileend + len (win_certificate p)).
  { unfold signed_image. cbv zeta.
    rewrite !len_app, !len_PUT_UINT32_LE, LC, LA, LB, len_zeros by lia.
    unfold pe_tail_start. lia. }
  assert (Hsz' : fileend + padlen_of fileend + len (win_certificate p) < 2 ^ 31)
    by (rewrite <- Hlen0; exact Hsz).
  set (Q := signed_image peheader A B C fileend p) in *.
  assert (HtQ : file_type Q = Ok FILE_TYPE_PE)
    by (unfold Q; eapply (signed_file_type indata); eassumption).
  assert (EhQ : pe_header Q = Ok peheader)
    by (unfold Q; eapply (signed_pe_header indata);
        first [eassumption | lia | unfold pe_tail_start; lia]).
  assert (ElQ : pe_layout CMD_REMOVE Q peheader
                = Ok (pe32plus, fileend + padlen_of fileend,
                      len p + 8 + padlen_of (len p)))
    by (unfold Q; eapply (signed_pe_layout indata); eassumption).
  destruct (main_remove_run cs gsf fuel' o' Q peheader pe32plus
              (fileend + padlen_of fileend) (len p + 8 + padlen_of (len p))
              HtQ ltac:(lia) EhQ ElQ)
    as (A' & B' & C' & HA' & HB' & HC' & Hr).
  { unfold pe_tail_start. lia. }
  assert (EA : A' = A).
  { assert (E : slice Q 0 (peheader + 88) = Some A).
    { unfold Q, signed_image. cbv zeta. rewrite <- LA. apply slice_app_exact. }
    congruence. }
  assert (EB : B' = B).
  { assert (E : slice Q (peheader + 92) (60 + 16 * pe32plus) = Some B).
    { unfold Q, signed_image. cbv zeta. rewrite (app_assoc A).
      apply slice_mid; [|lia]. rewrite len_app, len_PUT_UINT32_LE. lia. }
    congruence. }
  assert (EC : C' = C ++ zeros (padlen_of fileend)).
  { assert (E : slice Q (pe_tail_start peheader pe32plus)
                      (fileend + padlen_of fileend - pe_tail_start peheader pe32plus)
                = Some (C ++ zeros (padlen_of fileend))).
    { unfold Q, signed_image. cbv zeta.
      do 4 rewrite app_assoc. rewrite (app_assoc C).
      apply slice_mid.
      - rewrite !len_app, !len_PUT_UINT32_LE. unfold pe_tail_start. lia.
      - rewrite len_app, len_zeros by lia. lia. }
    congruence. }
  subst A' B' C'.
  exists A, B, C. split; [exact HA|]. split; [exact HB|]. split; [exact HC|].
  cbv zeta. rewrite Hr. unfold stripped_image. cbv zeta.
  rewrite (padlen_of_zero (fileend + padlen_of fileend)) by apply padlen_of_aligned.
  change (zeros 0) with (@nil byte).
  rewrite ?app_nil_r, <- ?app_assoc. reflexivity.
Qed.

Lemma remove_after_sign_witness :
  exists f Q,
    Sample.run 1 CMD_SIGN (Sample.opts EVP_sha1) (Sample.pe32 234) = Ok f /\
    outfile f = Some Q /\
    exists A B C,
      slice (Sample.pe32 234) 0 (64 + 88) = Some A /\
      slice (Sample.pe32 234) (64 + 92) (60 + 16 * 0) = Some B /\
      slice (Sample.pe32 234) (pe_tail_start 64 0) (234 - pe_tail_start 64 0)
      = Some C /\
      let image := B ++ zeros 8 ++ C ++ zeros (padlen_of 234) in
      Sample.run 0 CMD_REMOVE (Sample.opts EVP_md5) Q
      = Ok (mkFinished (Ret 0)
              (Some (A ++ PUT_UINT32_LE
                            (calc_pe_checksum (A ++ zeros 4 ++ image) 64)
                       ++ image)) []).
Proof.
  do 2 eexists. split; [vm_compute; reflexivity|].
  split; [reflexivity|].
  eapply (@remove_after_sign Sample.openssl Sample.libcurl true None 1 0
            (Sample.opts EVP_sha1) (Sample.opts EVP_md5) (Sample.pe32 234)
            64 0 0 0);
    first [ vm_compute; reflexivity | vm_compute; split; discriminate ].
Defined.
